(** * XSpiPs: the Zynq PS SPI driver (xspips.c, driver version 1.04a)

    A shallow embedding of the driver's transfer engine: the instance
    record, the register accesses it performs, the polled and the
    interrupt-driven transfer, slave selection and abort, followed by the
    properties of the design document that were checked against it.

    The driver is written against a memory-mapped register block.  The
    embedding threads one [World] (driver instance, device, byte memory)
    through a small state-and-error monad: an assertion that fails or a
    busy-wait that never sees its status bit ends the computation. *)

From Stdlib Require Import ZArith List Bool Lia.
Import ListNotations.
Local Open Scope Z_scope.

(** ** Machine integers *)

Definition u32 (x : Z) : Z := x mod 2 ^ 32.
Definition u8 (x : Z) : Z := x mod 2 ^ 8.
Arguments u32 : simpl never.
Arguments u8 : simpl never.

Definition NULL : Z := 0.

(** ** Constants of the missing headers

    xspips_hw.h (register map, bit masks, FIFO depth) is not among the
    sources.  Its constants are parameters of the development: every
    definition below is generic in them, and each theorem says which facts
    about them it relies on. *)

Class XSpiPs_Hw : Type := {
  XSPIPS_FIFO_DEPTH : Z;
  XSPIPS_CR_SSCTRL_MASK : Z;
  XSPIPS_CR_SSCTRL_SHIFT : Z;
  XSPIPS_CR_SSCTRL_MAXIMUM : Z;
  XSPIPS_CR_MANSTRT_MASK : Z;
  XSPIPS_CR_MANSTRTEN_MASK : Z;
  XSPIPS_CR_SSFORCE_MASK : Z;
  XSPIPS_CR_MSTREN_MASK : Z;
  XSPIPS_CR_RESET_STATE : Z;
  XSPIPS_ER_ENABLE_MASK : Z;
  XSPIPS_IXR_TXUF_MASK : Z;
  XSPIPS_IXR_RXNEMPTY_MASK : Z;
  XSPIPS_IXR_TXOW_MASK : Z;
  XSPIPS_IXR_MODF_MASK : Z;
  XSPIPS_IXR_RXOVR_MASK : Z;
  XSPIPS_IXR_DFLT_MASK : Z;
  XSPIPS_IXR_WR_TO_CLR_MASK : Z
}.

(** The register offsets of the missing xspips_hw.h, by name: only their
    identity matters. *)
Inductive Reg : Type :=
| XSPIPS_CR_OFFSET
| XSPIPS_SR_OFFSET
| XSPIPS_IER_OFFSET
| XSPIPS_IDR_OFFSET
| XSPIPS_ER_OFFSET
| XSPIPS_TXD_OFFSET
| XSPIPS_RXD_OFFSET.

(** Modelled from the spec: the return codes of the missing xstatus.h that
    this file uses, as an enumeration (success, DeviceBusy, and the
    "already started" answer of initialization). *)
Inductive XStatus : Type :=
| XST_SUCCESS
| XST_DEVICE_BUSY
| XST_DEVICE_IS_STARTED.

(** Modelled from the spec: the event kinds handed to the status handler
    (also of xstatus.h): ModeFault, TransferComplete, TransmitUnderrun,
    ReceiveOverrun. *)
Inductive XEvent : Type :=
| XST_SPI_MODE_FAULT
| XST_SPI_TRANSFER_DONE
| XST_SPI_TRANSMIT_UNDERRUN
| XST_SPI_RECEIVE_OVERRUN.

(** The function stored in [StatusHandler]: the stub installed by
    XSpiPs_CfgInitialize, or a function of the upper layer, named by its
    address. *)
Inductive Handler : Type :=
| StubStatusHandler
| UserHandler (FuncPtr : Z).

(** ** The driver instance (struct XSpiPs) *)

Record XSpiPs : Type := mkXSpiPs {
  Config_BaseAddress : Z;
  IsReady : bool;
  IsBusy : bool;
  SendBufferPtr : Z;
  RecvBufferPtr : Z;
  RequestedBytes : Z;
  RemainingBytes : Z;
  SlaveSelect : Z;
  StatusHandler : Handler;
  StatusRef : Z
}.

Definition set_Config_BaseAddress (v : Z) (i : XSpiPs) : XSpiPs :=
  mkXSpiPs v (IsReady i) (IsBusy i) (SendBufferPtr i) (RecvBufferPtr i)
    (RequestedBytes i) (RemainingBytes i) (SlaveSelect i) (StatusHandler i)
    (StatusRef i).
Definition set_IsReady (v : bool) (i : XSpiPs) : XSpiPs :=
  mkXSpiPs (Config_BaseAddress i) v (IsBusy i) (SendBufferPtr i)
    (RecvBufferPtr i) (RequestedBytes i) (RemainingBytes i) (SlaveSelect i)
    (StatusHandler i) (StatusRef i).
Definition set_IsBusy (v : bool) (i : XSpiPs) : XSpiPs :=
  mkXSpiPs (Config_BaseAddress i) (IsReady i) v (SendBufferPtr i)
    (RecvBufferPtr i) (RequestedBytes i) (RemainingBytes i) (SlaveSelect i)
    (StatusHandler i) (StatusRef i).
Definition set_SendBufferPtr (v : Z) (i : XSpiPs) : XSpiPs :=
  mkXSpiPs (Config_BaseAddress i) (IsReady i) (IsBusy i) v (RecvBufferPtr i)
    (RequestedBytes i) (RemainingBytes i) (SlaveSelect i) (StatusHandler i)
    (StatusRef i).
Definition set_RecvBufferPtr (v : Z) (i : XSpiPs) : XSpiPs :=
  mkXSpiPs (Config_BaseAddress i) (IsReady i) (IsBusy i) (SendBufferPtr i) v
    (RequestedBytes i) (RemainingBytes i) (SlaveSelect i) (StatusHandler i)
    (StatusRef i).
Definition set_RequestedBytes (v : Z) (i : XSpiPs) : XSpiPs :=
  mkXSpiPs (Config_BaseAddress i) (IsReady i) (IsBusy i) (SendBufferPtr i)
    (RecvBufferPtr i) v (RemainingBytes i) (SlaveSelect i) (StatusHandler i)
    (StatusRef i).
Definition set_RemainingBytes (v : Z) (i : XSpiPs) : XSpiPs :=
  mkXSpiPs (Config_BaseAddress i) (IsReady i) (IsBusy i) (SendBufferPtr i)
    (RecvBufferPtr i) (RequestedBytes i) v (SlaveSelect i) (StatusHandler i)
    (StatusRef i).
Definition set_SlaveSelect (v : Z) (i : XSpiPs) : XSpiPs :=
  mkXSpiPs (Config_BaseAddress i) (IsReady i) (IsBusy i) (SendBufferPtr i)
    (RecvBufferPtr i) (RequestedBytes i) (RemainingBytes i) v
    (StatusHandler i) (StatusRef i).
Definition set_StatusHandler (v : Handler) (i : XSpiPs) : XSpiPs :=
  mkXSpiPs (Config_BaseAddress i) (IsReady i) (IsBusy i) (SendBufferPtr i)
    (RecvBufferPtr i) (RequestedBytes i) (RemainingBytes i) (SlaveSelect i)
    v (StatusRef i).
Definition set_StatusRef (v : Z) (i : XSpiPs) : XSpiPs :=
  mkXSpiPs (Config_BaseAddress i) (IsReady i) (IsBusy i) (SendBufferPtr i)
    (RecvBufferPtr i) (RequestedBytes i) (RemainingBytes i) (SlaveSelect i)
    (StatusHandler i) v.

(** ** The device behind the registers *)

(** Modelled from the spec: the register access layer (XSpiPs_In32,
    XSpiPs_Out32 of xspips_hw.h) and the controller behind it are external
    to xspips.c.  Section 6 of the design gives the contract followed here:
    a control register that holds what was written; a status register
    whose event flags are cleared by writing 1; interrupt enable and
    disable registers that unmask and mask events; byte-wide data
    registers backed by FIFOs (writing pushes, reading pops); and a bus on
    which every transmitted byte brings one received byte.

    [Mosi] records the bytes clocked out so far, [Miso] holds the bytes the
    selected slave will answer with (0 once exhausted).  [reg_SR] holds the
    latched event flags, [reg_IEN] the set of unmasked interrupts. *)
Record Device : Type := mkDevice {
  reg_CR : Z;
  reg_SR : Z;
  reg_IEN : Z;
  reg_ER : Z;
  TxFifo : list Z;
  RxFifo : list Z;
  Mosi : list Z;
  Miso : list Z
}.

Definition set_reg_CR (v : Z) (d : Device) : Device :=
  mkDevice v (reg_SR d) (reg_IEN d) (reg_ER d) (TxFifo d) (RxFifo d)
    (Mosi d) (Miso d).
Definition set_reg_SR (v : Z) (d : Device) : Device :=
  mkDevice (reg_CR d) v (reg_IEN d) (reg_ER d) (TxFifo d) (RxFifo d)
    (Mosi d) (Miso d).
Definition set_reg_IEN (v : Z) (d : Device) : Device :=
  mkDevice (reg_CR d) (reg_SR d) v (reg_ER d) (TxFifo d) (RxFifo d)
    (Mosi d) (Miso d).
Definition set_reg_ER (v : Z) (d : Device) : Device :=
  mkDevice (reg_CR d) (reg_SR d) (reg_IEN d) v (TxFifo d) (RxFifo d)
    (Mosi d) (Miso d).
Definition set_TxFifo (v : list Z) (d : Device) : Device :=
  mkDevice (reg_CR d) (reg_SR d) (reg_IEN d) (reg_ER d) v (RxFifo d)
    (Mosi d) (Miso d).
Definition set_RxFifo (v : list Z) (d : Device) : Device :=
  mkDevice (reg_CR d) (reg_SR d) (reg_IEN d) (reg_ER d) (TxFifo d) v
    (Mosi d) (Miso d).

Record World : Type := mkWorld {
  Inst : XSpiPs;
  Dev : Device;
  Mem : Z -> Z
}.

Definition set_Inst (i : XSpiPs) (w : World) : World :=
  mkWorld i (Dev w) (Mem w).
Definition set_Dev (d : Device) (w : World) : World :=
  mkWorld (Inst w) d (Mem w).
Definition set_Mem (m : Z -> Z) (w : World) : World :=
  mkWorld (Inst w) (Dev w) m.

Definition mem_store (a v : Z) (m : Z -> Z) : Z -> Z :=
  fun x => if x =? a then v else m x.

(** ** The monad of driver code *)

Inductive Result (A : Type) : Type :=
| Ok (a : A)
| AssertFailed
| OutOfFuel.
Arguments Ok {A} a.
Arguments AssertFailed {A}.
Arguments OutOfFuel {A}.

Definition M (A : Type) : Type := World -> Result (A * World).

Definition ret {A : Type} (a : A) : M A := fun w => Ok (a, w).

Definition bind {A B : Type} (c : M A) (k : A -> M B) : M B :=
  fun w =>
    match c w with
    | Ok (a, w') => k a w'
    | AssertFailed => AssertFailed
    | OutOfFuel => OutOfFuel
    end.

Declare Scope drv_scope.
Delimit Scope drv_scope with drv.
Notation "x <- c1 ;; c2" := (bind c1 (fun x => c2))
  (at level 100, c1 at next level, right associativity) : drv_scope.
Notation "c1 ;; c2" := (bind c1 (fun _ => c2))
  (at level 100, right associativity) : drv_scope.
Local Open Scope drv_scope.

Definition load {A : Type} (f : XSpiPs -> A) : M A :=
  fun w => Ok (f (Inst w), w).

Definition store (f : XSpiPs -> XSpiPs) : M unit :=
  fun w => Ok (tt, set_Inst (f (Inst w)) w).

Definition mem_read (a : Z) : M Z :=
  fun w => Ok (u8 (Mem w a), w).

Definition mem_write (a v : Z) : M unit :=
  fun w => Ok (tt, set_Mem (mem_store a (u8 v) (Mem w)) w).

Definition timeout {A : Type} : M A := fun _ => OutOfFuel.

(** Modelled from the spec: Xil_AssertNonvoid, Xil_AssertVoid and
    Xil_AssertVoidAlways are macros of the missing xil_assert.h; a violated
    precondition fails loudly and is not recoverable, so a violated
    assertion ends the computation. *)
Definition Xil_AssertNonvoid (b : bool) : M unit :=
  fun w => if b then Ok (tt, w) else AssertFailed.
Definition Xil_AssertVoid (b : bool) : M unit := Xil_AssertNonvoid b.
Definition Xil_AssertVoidAlways : M unit := fun _ => AssertFailed.

Section Driver.

Context {hw : XSpiPs_Hw}.

(** *** Device behaviour *)

(** Modelled from the spec: the device is enabled when the enable bit of
    its enable register is set. *)
Definition dev_enabled (d : Device) : bool :=
  negb (Z.land (reg_ER d) XSPIPS_ER_ENABLE_MASK =? 0).

(** Modelled from the spec: one byte time on the bus.  An enabled device
    shifts the head of the transmit FIFO out and the slave's answer into
    the receive FIFO: one received byte per transmitted byte. *)
Definition dev_clock (d : Device) : Device :=
  if dev_enabled d then
    match TxFifo d with
    | [] => d
    | b :: tx =>
        mkDevice (reg_CR d) (reg_SR d) (reg_IEN d) (reg_ER d) tx
          (RxFifo d ++ [hd 0 (Miso d)]) (Mosi d ++ [b]) (tl (Miso d))
    end
  else d.

(** Modelled from the spec: the word read from the status register, the
    current flag states.  These are the latched event flags, the
    transmit-FIFO-ready level (FIFO empty) and the receive-not-empty
    level. *)
Definition dev_status (d : Device) : Z :=
  Z.lor
    (Z.lor
       (Z.land (reg_SR d)
          (Z.lnot (Z.lor XSPIPS_IXR_TXOW_MASK XSPIPS_IXR_RXNEMPTY_MASK)))
       (match TxFifo d with [] => XSPIPS_IXR_TXOW_MASK | _ => 0 end))
    (match RxFifo d with [] => 0 | _ => XSPIPS_IXR_RXNEMPTY_MASK end).

(** Modelled from the spec: reading a register.  A status read takes one
    byte time; a read of the receive data register pops the receive
    FIFO. *)
Definition dev_read (r : Reg) (d : Device) : Z * Device :=
  match r with
  | XSPIPS_CR_OFFSET => (reg_CR d, d)
  | XSPIPS_SR_OFFSET => (dev_status d, dev_clock d)
  | XSPIPS_ER_OFFSET => (reg_ER d, d)
  | XSPIPS_RXD_OFFSET => (hd 0 (RxFifo d), set_RxFifo (tl (RxFifo d)) d)
  | XSPIPS_IER_OFFSET | XSPIPS_IDR_OFFSET | XSPIPS_TXD_OFFSET => (0, d)
  end.

(** Modelled from the spec: writing a register.  The status register
    clears the flags written as 1, the interrupt enable and disable
    registers unmask and mask events, the transmit data register pushes a
    byte. *)
Definition dev_write (r : Reg) (v : Z) (d : Device) : Device :=
  match r with
  | XSPIPS_CR_OFFSET => set_reg_CR v d
  | XSPIPS_SR_OFFSET => set_reg_SR (Z.land (reg_SR d) (Z.lnot v)) d
  | XSPIPS_IER_OFFSET => set_reg_IEN (Z.lor (reg_IEN d) v) d
  | XSPIPS_IDR_OFFSET => set_reg_IEN (Z.land (reg_IEN d) (Z.lnot v)) d
  | XSPIPS_ER_OFFSET => set_reg_ER v d
  | XSPIPS_TXD_OFFSET => set_TxFifo (TxFifo d ++ [u8 v]) d
  | XSPIPS_RXD_OFFSET => d
  end.

(** *** Register access (xspips_hw.h) *)

(** Modelled from the spec: XSpiPs_In32 and XSpiPs_Out32, the ordered
    32-bit accesses of the register access layer, on the one device of the
    world. *)
Definition XSpiPs_In32 (BaseAddress : Z) (RegOffset : Reg) : M Z :=
  fun w =>
    let (v, d) := dev_read RegOffset (Dev w) in Ok (v, set_Dev d w).

Definition XSpiPs_Out32 (BaseAddress : Z) (RegOffset : Reg) (Data : Z)
  : M unit :=
  fun w => Ok (tt, set_Dev (dev_write RegOffset (u32 Data) (Dev w)) w).

Definition XSpiPs_ReadReg := XSpiPs_In32.
Definition XSpiPs_WriteReg := XSpiPs_Out32.

(** Lines 102-103 and 119-120. *)
Definition XSpiPs_SendByte (BaseAddress Data : Z) : M unit :=
  XSpiPs_Out32 BaseAddress XSPIPS_TXD_OFFSET Data.

Definition XSpiPs_RecvByte (BaseAddress : Z) : M Z :=
  v <- XSpiPs_In32 BaseAddress XSPIPS_RXD_OFFSET ;;
  ret (u8 v).

(** Modelled from the spec: XSpiPs_Enable and XSpiPs_Disable are macros of
    the missing xspips.h; they enable and disable the device through its
    enable register. *)
Definition XSpiPs_Enable : M unit :=
  base <- load Config_BaseAddress ;;
  XSpiPs_Out32 base XSPIPS_ER_OFFSET XSPIPS_ER_ENABLE_MASK.

Definition XSpiPs_Disable : M unit :=
  base <- load Config_BaseAddress ;;
  XSpiPs_Out32 base XSPIPS_ER_OFFSET 0.

(** Modelled from the spec: XSpiPs_IsManualChipSelect, XSpiPs_IsManualStart
    and XSpiPs_IsMaster are macros of the missing xspips.h over
    XSpiPs_GetOptions (xspips_options.c); the control register holds the
    manual-chip-select-mode bit, the manual-start-enable bit and the
    master-mode bit they test. *)
Definition XSpiPs_IsManualChipSelect : M bool :=
  base <- load Config_BaseAddress ;;
  ConfigReg <- XSpiPs_ReadReg base XSPIPS_CR_OFFSET ;;
  ret (negb (Z.land ConfigReg XSPIPS_CR_SSFORCE_MASK =? 0)).

Definition XSpiPs_IsManualStart : M bool :=
  base <- load Config_BaseAddress ;;
  ConfigReg <- XSpiPs_ReadReg base XSPIPS_CR_OFFSET ;;
  ret (negb (Z.land ConfigReg XSPIPS_CR_MANSTRTEN_MASK =? 0)).

Definition XSpiPs_IsMaster : M bool :=
  base <- load Config_BaseAddress ;;
  ConfigReg <- XSpiPs_ReadReg base XSPIPS_CR_OFFSET ;;
  ret (negb (Z.land ConfigReg XSPIPS_CR_MSTREN_MASK =? 0)).

(** *** The status handler *)

(** The upper layer's handlers: what the function at address [FuncPtr]
    does when called with a reference, an event and a byte count. *)
Variable user_call : Z -> Z -> XEvent -> Z -> M unit.

(** Lines 779-787: the stub asserts. *)
Definition invoke (h : Handler) (CallBackRef : Z) (StatusEvent : XEvent)
  (ByteCount : Z) : M unit :=
  match h with
  | StubStatusHandler => Xil_AssertVoidAlways
  | UserHandler FuncPtr => user_call FuncPtr CallBackRef StatusEvent ByteCount
  end.

(** [SpiPtr->StatusHandler(SpiPtr->StatusRef, StatusEvent, ByteCount)]. *)
Definition call_StatusHandler (StatusEvent : XEvent) (ByteCount : Z)
  : M unit :=
  h <- load StatusHandler ;;
  ref <- load StatusRef ;;
  invoke h ref StatusEvent ByteCount.

(** *** The FIFO loops *)

(** The fill loop, written three times in the source (lines 376-383,
    526-533, 910-917):
    [while ((RemainingBytes > 0) && (TransCount < XSPIPS_FIFO_DEPTH))].
    [wrap] is the width of the local counter ([u8] in XSpiPs_Transfer,
    [u32] elsewhere).  Each iteration decrements RemainingBytes, so
    [Z.to_nat RemainingBytes] iterations are all the loop can make. *)
Fixpoint fill_TXFIFO (wrap : Z -> Z) (n : nat) (TransCount : Z) : M Z :=
  match n with
  | O => ret TransCount
  | S n' =>
      rem <- load RemainingBytes ;;
      if (0 <? rem) && (TransCount <? XSPIPS_FIFO_DEPTH) then
        base <- load Config_BaseAddress ;;
        p <- load SendBufferPtr ;;
        Data <- mem_read p ;;
        XSpiPs_SendByte base Data ;;
        store (set_SendBufferPtr (p + 1)) ;;
        store (set_RemainingBytes (u32 (rem - 1))) ;;
        fill_TXFIFO wrap n' (wrap (TransCount + 1))
      else ret TransCount
  end.

(** The fill loop as it is entered, with its counter at [TransCount]. *)
Definition TxFifo_fill (wrap : Z -> Z) (TransCount : Z) : M Z :=
  rem <- load RemainingBytes ;;
  fill_TXFIFO wrap (Z.to_nat rem) TransCount.

(** The drain loop (lines 568-577, 897-904): [while (TransCount)], run
    [TransCount] times. *)
Fixpoint drain_RXFIFO (n : nat) : M unit :=
  match n with
  | O => ret tt
  | S n' =>
      base <- load Config_BaseAddress ;;
      TempData <- XSpiPs_RecvByte base ;;
      q <- load RecvBufferPtr ;;
      (if negb (q =? NULL) then
         mem_write q TempData ;;
         store (set_RecvBufferPtr (q + 1))
       else ret tt) ;;
      req <- load RequestedBytes ;;
      store (set_RequestedBytes (u32 (req - 1))) ;;
      drain_RXFIFO n'
  end.

(** The drain loop as it is entered, with its counter at [TransCount]. *)
Definition RxFifo_drain (TransCount : Z) : M unit :=
  drain_RXFIFO (Z.to_nat TransCount).

(** Lines 552-556: [do { StatusReg = ... } while ((StatusReg & TXOW) == 0)]. *)
Fixpoint wait_TXOW (fuel : nat) : M unit :=
  match fuel with
  | O => timeout
  | S fuel' =>
      base <- load Config_BaseAddress ;;
      StatusReg <- XSpiPs_ReadReg base XSPIPS_SR_OFFSET ;;
      if Z.land StatusReg XSPIPS_IXR_TXOW_MASK =? 0 then wait_TXOW fuel'
      else ret tt
  end.

(** Lines 349-359 and 502-512. *)
Definition apply_SlaveSelect : M unit :=
  manual <- XSpiPs_IsManualChipSelect ;;
  if manual then
    base <- load Config_BaseAddress ;;
    ConfigReg <- XSpiPs_ReadReg base XSPIPS_CR_OFFSET ;;
    ss <- load SlaveSelect ;;
    XSpiPs_WriteReg base XSPIPS_CR_OFFSET
      (Z.lor (Z.land ConfigReg (Z.lnot XSPIPS_CR_SSCTRL_MASK)) ss)
  else ret tt.

(** Lines 396-403, 539-547, 970-979. *)
Definition issue_ManualStart : M unit :=
  manstart <- XSpiPs_IsManualStart ;;
  master <- (if manstart then XSpiPs_IsMaster else ret false) ;;
  if master then
    base <- load Config_BaseAddress ;;
    ConfigReg <- XSpiPs_ReadReg base XSPIPS_CR_OFFSET ;;
    XSpiPs_WriteReg base XSPIPS_CR_OFFSET
      (Z.lor ConfigReg XSPIPS_CR_MANSTRT_MASK)
  else ret tt.

(** Lines 583-589, 934-942, 994-1002, 1016-1024. *)
Definition clear_SlaveSelect : M unit :=
  manual <- XSpiPs_IsManualChipSelect ;;
  if manual then
    base <- load Config_BaseAddress ;;
    ConfigReg <- XSpiPs_ReadReg base XSPIPS_CR_OFFSET ;;
    XSpiPs_WriteReg base XSPIPS_CR_OFFSET
      (Z.lor ConfigReg XSPIPS_CR_SSCTRL_MASK)
  else ret tt.

(** *** XSpiPs_Abort (lines 1049-1073) *)

Fixpoint Abort_flush (fuel : nat) : M unit :=
  match fuel with
  | O => timeout
  | S fuel' =>
      base <- load Config_BaseAddress ;;
      StatusReg <- XSpiPs_ReadReg base XSPIPS_SR_OFFSET ;;
      if Z.land StatusReg XSPIPS_IXR_RXNEMPTY_MASK
         =? XSPIPS_IXR_RXNEMPTY_MASK
      then _ <- XSpiPs_RecvByte base ;; Abort_flush fuel'
      else ret tt
  end.

Definition XSpiPs_Abort (fuel : nat) : M unit :=
  XSpiPs_Disable ;;
  Abort_flush fuel ;;
  base <- load Config_BaseAddress ;;
  XSpiPs_WriteReg base XSPIPS_SR_OFFSET XSPIPS_IXR_MODF_MASK ;;
  store (set_RemainingBytes 0) ;;
  store (set_RequestedBytes 0) ;;
  store (set_IsBusy false).

(** *** XSpiPs_Reset (lines 223-240) *)

Definition XSpiPs_Reset (fuel : nat) : M unit :=
  ready <- load IsReady ;;
  Xil_AssertVoid ready ;;
  XSpiPs_Abort fuel ;;
  base <- load Config_BaseAddress ;;
  XSpiPs_WriteReg base XSPIPS_CR_OFFSET XSPIPS_CR_RESET_STATE.

(** *** XSpiPs_CfgInitialize (lines 164-202) *)

Definition XSpiPs_CfgInitialize (fuel : nat) (EffectiveAddr : Z)
  : M XStatus :=
  busy <- load IsBusy ;;
  if busy then ret XST_DEVICE_IS_STARTED
  else
    store (set_IsBusy false) ;;
    store (set_Config_BaseAddress EffectiveAddr) ;;
    store (set_StatusHandler StubStatusHandler) ;;
    store (set_SendBufferPtr NULL) ;;
    store (set_RecvBufferPtr NULL) ;;
    store (set_RequestedBytes 0) ;;
    store (set_RemainingBytes 0) ;;
    store (set_IsReady true) ;;
    XSpiPs_Reset fuel ;;
    ret XST_SUCCESS.

(** *** XSpiPs_Transfer (lines 310-406) *)

(** Lines 335-370: claim the instance, install the buffers and counters,
    apply the slave select, enable the device and clear the status. *)
Definition Transfer_setup (SendBufPtr RecvBufPtr ByteCount : Z) : M unit :=
  store (set_IsBusy true) ;;
  store (set_SendBufferPtr SendBufPtr) ;;
  store (set_RecvBufferPtr RecvBufPtr) ;;
  store (set_RequestedBytes ByteCount) ;;
  store (set_RemainingBytes ByteCount) ;;
  apply_SlaveSelect ;;
  XSpiPs_Enable ;;
  base <- load Config_BaseAddress ;;
  XSpiPs_WriteReg base XSPIPS_SR_OFFSET XSPIPS_IXR_WR_TO_CLR_MASK.

Definition XSpiPs_Transfer (SendBufPtr RecvBufPtr ByteCount : Z)
  : M XStatus :=
  Xil_AssertNonvoid (negb (SendBufPtr =? NULL)) ;;
  Xil_AssertNonvoid (0 <? ByteCount) ;;
  ready <- load IsReady ;;
  Xil_AssertNonvoid ready ;;
  busy <- load IsBusy ;;
  if busy then ret XST_DEVICE_BUSY
  else
    Transfer_setup SendBufPtr RecvBufPtr ByteCount ;;
    _ <- TxFifo_fill u8 0 ;;
    base <- load Config_BaseAddress ;;
    XSpiPs_WriteReg base XSPIPS_IER_OFFSET XSPIPS_IXR_DFLT_MASK ;;
    issue_ManualStart ;;
    ret XST_SUCCESS.

(** *** XSpiPs_PolledTransfer (lines 462-602) *)

(** One pass of the outer loop (lines 521-577). *)
Definition PolledTransfer_pass (fuel : nat) : M unit :=
  TransCount <- TxFifo_fill u32 0 ;;
  issue_ManualStart ;;
  wait_TXOW fuel ;;
  RxFifo_drain TransCount.

(** Lines 519-520:
    [while ((RemainingBytes > 0) || (RequestedBytes > 0))]. *)
Definition PolledTransfer_continue (i : XSpiPs) : bool :=
  (0 <? RemainingBytes i) || (0 <? RequestedBytes i).

Fixpoint PolledTransfer_loop (fuel : nat) (n : nat) {struct n} : M unit :=
  i <- load (fun i => i) ;;
  if PolledTransfer_continue i then
    match n with
    | O => timeout
    | S n' => PolledTransfer_pass fuel ;; PolledTransfer_loop fuel n'
    end
  else ret tt.

(** Lines 488-517: claim the instance, install the buffers and counters,
    apply the slave select and enable the device. *)
Definition PolledTransfer_setup (SendBufPtr RecvBufPtr ByteCount : Z)
  : M unit :=
  store (set_IsBusy true) ;;
  store (set_SendBufferPtr SendBufPtr) ;;
  store (set_RecvBufferPtr RecvBufPtr) ;;
  store (set_RequestedBytes ByteCount) ;;
  store (set_RemainingBytes ByteCount) ;;
  apply_SlaveSelect ;;
  XSpiPs_Enable.

(** Lines 583-599. *)
Definition PolledTransfer_finish : M unit :=
  clear_SlaveSelect ;;
  store (set_IsBusy false) ;;
  XSpiPs_Disable.

Definition XSpiPs_PolledTransfer (fuel : nat)
  (SendBufPtr RecvBufPtr ByteCount : Z) : M XStatus :=
  Xil_AssertNonvoid (negb (SendBufPtr =? NULL)) ;;
  Xil_AssertNonvoid (0 <? ByteCount) ;;
  ready <- load IsReady ;;
  Xil_AssertNonvoid ready ;;
  busy <- load IsBusy ;;
  if busy then ret XST_DEVICE_BUSY
  else
    PolledTransfer_setup SendBufPtr RecvBufPtr ByteCount ;;
    PolledTransfer_loop fuel fuel ;;
    PolledTransfer_finish ;;
    ret XST_SUCCESS.

(** [k] passes of the outer loop in a row, without the loop test. *)
Fixpoint PolledTransfer_passes (fuel : nat) (k : nat) : M unit :=
  match k with
  | O => ret tt
  | S k' => PolledTransfer_pass fuel ;; PolledTransfer_passes fuel k'
  end.

(** *** XSpiPs_SetSlaveSelect (lines 636-670) *)

Definition XSpiPs_SetSlaveSelect (SlaveSel : Z) : M XStatus :=
  ready <- load IsReady ;;
  Xil_AssertNonvoid ready ;;
  Xil_AssertNonvoid (SlaveSel <=? XSPIPS_CR_SSCTRL_MAXIMUM) ;;
  busy <- load IsBusy ;;
  if busy then ret XST_DEVICE_BUSY
  else
    store (set_SlaveSelect
             (u32 (Z.shiftl
                     (Z.land (Z.lnot (Z.shiftl 1 SlaveSel))
                        XSPIPS_CR_SSCTRL_MAXIMUM)
                     XSPIPS_CR_SSCTRL_SHIFT))) ;;
    base <- load Config_BaseAddress ;;
    ConfigReg <- XSpiPs_ReadReg base XSPIPS_CR_OFFSET ;;
    ss <- load SlaveSelect ;;
    XSpiPs_WriteReg base XSPIPS_CR_OFFSET (Z.lor ConfigReg ss) ;;
    ret XST_SUCCESS.

(** *** XSpiPs_GetSlaveSelect (lines 684-706) *)

Definition XSpiPs_GetSlaveSelect : M Z :=
  ready <- load IsReady ;;
  Xil_AssertNonvoid ready ;;
  ss <- load SlaveSelect ;;
  let ConfigReg := ss in
  let ConfigReg := Z.land ConfigReg XSPIPS_CR_SSCTRL_MASK in
  let ConfigReg := Z.shiftr ConfigReg XSPIPS_CR_SSCTRL_SHIFT in
  let ConfigReg := Z.land ConfigReg XSPIPS_CR_SSCTRL_MAXIMUM in
  if 0x4 <? u32 (Z.lnot ConfigReg) then ret 0xF
  else ret (u8 (u32 (Z.lnot ConfigReg) / 2)).

(** *** XSpiPs_SetStatusHandler (lines 752-761) *)

Definition XSpiPs_SetStatusHandler (CallBackRef FuncPtr : Z) : M unit :=
  Xil_AssertVoid (negb (FuncPtr =? NULL)) ;;
  ready <- load IsReady ;;
  Xil_AssertVoid ready ;;
  store (set_StatusHandler (UserHandler FuncPtr)) ;;
  store (set_StatusRef CallBackRef).

(** *** XSpiPs_InterruptHandler (lines 833-1030) *)

(** Lines 862-879, the body of the mode-fault test. *)
Definition Handler_MODF (fuel : nat) : M unit :=
  req <- load RequestedBytes ;;
  rem <- load RemainingBytes ;;
  let BytesDone := u32 (req - rem) in
  XSpiPs_Abort fuel ;;
  call_StatusHandler XST_SPI_MODE_FAULT BytesDone.

(** Lines 919-959, the transfer-done arm. *)
Definition Handler_done : M unit :=
  base <- load Config_BaseAddress ;;
  XSpiPs_WriteReg base XSPIPS_IDR_OFFSET XSPIPS_IXR_DFLT_MASK ;;
  clear_SlaveSelect ;;
  store (set_IsBusy false) ;;
  XSpiPs_Disable ;;
  req <- load RequestedBytes ;;
  call_StatusHandler XST_SPI_TRANSFER_DONE req.

(** Lines 882-981, the body of the transmit-ready test. *)
Definition Handler_TXOW : M unit :=
  req <- load RequestedBytes ;;
  rem <- load RemainingBytes ;;
  let TransCount := u32 (req - rem) in
  RxFifo_drain TransCount ;;
  _ <- TxFifo_fill u32 0 ;;
  rem <- load RemainingBytes ;;
  req <- load RequestedBytes ;;
  if (rem =? 0) && (req =? 0) then Handler_done
  else
    base <- load Config_BaseAddress ;;
    XSpiPs_WriteReg base XSPIPS_IER_OFFSET XSPIPS_IXR_TXOW_MASK ;;
    issue_ManualStart.

(** Lines 986-1006. *)
Definition Handler_RXOVR : M unit :=
  req <- load RequestedBytes ;;
  rem <- load RemainingBytes ;;
  let BytesDone := u32 (req - rem) in
  store (set_IsBusy false) ;;
  clear_SlaveSelect ;;
  call_StatusHandler XST_SPI_RECEIVE_OVERRUN BytesDone.

(** Lines 1008-1028. *)
Definition Handler_TXUF : M unit :=
  req <- load RequestedBytes ;;
  rem <- load RemainingBytes ;;
  let BytesDone := u32 (req - rem) in
  store (set_IsBusy false) ;;
  clear_SlaveSelect ;;
  call_StatusHandler XST_SPI_TRANSMIT_UNDERRUN BytesDone.

(** Lines 850-855: latch the status, clear what was latched, mask the
    transmit-ready interrupt. *)
Definition Handler_entry : M Z :=
  base <- load Config_BaseAddress ;;
  IntrStatus <- XSpiPs_ReadReg base XSPIPS_SR_OFFSET ;;
  XSpiPs_WriteReg base XSPIPS_SR_OFFSET
    (Z.land IntrStatus XSPIPS_IXR_WR_TO_CLR_MASK) ;;
  XSpiPs_WriteReg base XSPIPS_IDR_OFFSET XSPIPS_IXR_TXOW_MASK ;;
  ret IntrStatus.

(** Lines 983-1028: the overrun and underrun tests. *)
Definition Handler_faults (IntrStatus : Z) : M unit :=
  (if negb (Z.land IntrStatus XSPIPS_IXR_RXOVR_MASK =? 0)
   then Handler_RXOVR else ret tt) ;;
  (if negb (Z.land IntrStatus XSPIPS_IXR_TXUF_MASK =? 0)
   then Handler_TXUF else ret tt).

Definition XSpiPs_InterruptHandler (fuel : nat) : M unit :=
  ready <- load IsReady ;;
  Xil_AssertVoid ready ;;
  IntrStatus <- Handler_entry ;;
  if XSPIPS_IXR_MODF_MASK =? Z.land IntrStatus XSPIPS_IXR_MODF_MASK then
    Handler_MODF fuel
  else
    (if negb (Z.land IntrStatus XSPIPS_IXR_TXOW_MASK =? 0)
     then Handler_TXOW else ret tt) ;;
    Handler_faults IntrStatus.

End Driver.

(** ** Instances of the constants

    The register map of the Zynq-7000 SPI controller, with the FIFO depth
    left open; [XSpiPs_zynq] has the controller's 128-byte FIFOs. *)

Definition hw_with_depth (D : Z) : XSpiPs_Hw :=
  {| XSPIPS_FIFO_DEPTH := D;
     XSPIPS_CR_SSCTRL_MASK := 0x3C00;
     XSPIPS_CR_SSCTRL_SHIFT := 10;
     XSPIPS_CR_SSCTRL_MAXIMUM := 0xF;
     XSPIPS_CR_MANSTRT_MASK := 0x10000;
     XSPIPS_CR_MANSTRTEN_MASK := 0x8000;
     XSPIPS_CR_SSFORCE_MASK := 0x4000;
     XSPIPS_CR_MSTREN_MASK := 0x1;
     XSPIPS_CR_RESET_STATE := 0x20000;
     XSPIPS_ER_ENABLE_MASK := 0x1;
     XSPIPS_IXR_TXUF_MASK := 0x40;
     XSPIPS_IXR_RXNEMPTY_MASK := 0x10;
     XSPIPS_IXR_TXOW_MASK := 0x04;
     XSPIPS_IXR_MODF_MASK := 0x02;
     XSPIPS_IXR_RXOVR_MASK := 0x01;
     XSPIPS_IXR_DFLT_MASK := 0x27;
     XSPIPS_IXR_WR_TO_CLR_MASK := 0x43 |}.

Definition XSpiPs_zynq : XSpiPs_Hw := hw_with_depth 128.

(** ** What the theorems assume about the constants *)

(** The slave-select field: four bits at [XSPIPS_CR_SSCTRL_SHIFT]. *)
Definition ss_field_ok (hw : XSpiPs_Hw) : Prop :=
  XSPIPS_CR_SSCTRL_MAXIMUM = 0xF /\
  0 <= XSPIPS_CR_SSCTRL_SHIFT <= 28 /\
  XSPIPS_CR_SSCTRL_MASK = Z.shiftl 0xF XSPIPS_CR_SSCTRL_SHIFT.

(** The two level bits of the status register are distinct bits. *)
Definition levels_ok (hw : XSpiPs_Hw) : Prop :=
  XSPIPS_IXR_TXOW_MASK <> 0 /\
  XSPIPS_IXR_RXNEMPTY_MASK <> 0 /\
  Z.land XSPIPS_IXR_TXOW_MASK XSPIPS_IXR_RXNEMPTY_MASK = 0.

Definition enable_ok (hw : XSpiPs_Hw) : Prop :=
  0 < XSPIPS_ER_ENABLE_MASK < 2 ^ 32.

Definition depth_ok (hw : XSpiPs_Hw) : Prop :=
  0 < XSPIPS_FIFO_DEPTH < 2 ^ 32.

(** The cached encoding of line [k]: all lines high except line [k]. *)
Definition ss_encoding {hw : XSpiPs_Hw} (k : Z) : Z :=
  u32 (Z.shiftl (Z.land (Z.lnot (Z.shiftl 1 k)) XSPIPS_CR_SSCTRL_MAXIMUM)
         XSPIPS_CR_SSCTRL_SHIFT).

(** ** Worlds used to run the driver on concrete inputs *)

(** A status handler that logs into the three bytes its reference points
    to: the event, the byte count and the number of calls so far. *)
Definition event_code (ev : XEvent) : Z :=
  match ev with
  | XST_SPI_MODE_FAULT => 1
  | XST_SPI_TRANSFER_DONE => 2
  | XST_SPI_TRANSMIT_UNDERRUN => 3
  | XST_SPI_RECEIVE_OVERRUN => 4
  end.

Definition logging_call (FuncPtr CallBackRef : Z) (ev : XEvent) (n : Z)
  : M unit :=
  fun w =>
    Ok (tt,
        set_Mem
          (mem_store CallBackRef (event_code ev)
             (mem_store (CallBackRef + 1) n
                (mem_store (CallBackRef + 2) (Mem w (CallBackRef + 2) + 1)
                   (Mem w)))) w).

Definition demo_inst : XSpiPs :=
  mkXSpiPs 0xE0006000 true false NULL NULL 0 0 0x3800 (UserHandler 0x1234) 500.

Definition demo_dev : Device :=
  mkDevice 0x2FC01 0 0 0 [] [] [] [11; 12; 13; 14; 15; 16; 17; 18; 19; 20].

(** Bytes 1, 2, 3, ... at addresses 100 to 199, zero elsewhere. *)
Definition demo_mem : Z -> Z :=
  fun a => if (100 <=? a) && (a <? 200) then a - 99 else 0.

Definition demo_world : World := mkWorld demo_inst demo_dev demo_mem.

Definition busy_world : World :=
  mkWorld (set_IsBusy true demo_inst) demo_dev demo_mem.

(** ** Worlds the operations leave behind *)

(** The world XSpiPs_Abort leaves behind. *)
Definition aborted {hw : XSpiPs_Hw} (w : World) : World :=
  mkWorld
    (set_IsBusy false (set_RequestedBytes 0 (set_RemainingBytes 0 (Inst w))))
    (set_reg_SR
       (Z.land (reg_SR (Dev w)) (Z.lnot (u32 XSPIPS_IXR_MODF_MASK)))
       (set_RxFifo [] (set_reg_ER 0 (Dev w))))
    (Mem w).

(** The world after the handler's first three register accesses. *)
Definition entered {hw : XSpiPs_Hw} (w : World) : World :=
  set_Dev
    (set_reg_IEN
       (Z.land (reg_IEN (dev_clock (Dev w)))
          (Z.lnot (u32 XSPIPS_IXR_TXOW_MASK)))
       (set_reg_SR
          (Z.land (reg_SR (dev_clock (Dev w)))
             (Z.lnot
                (u32 (Z.land (dev_status (Dev w))
                        XSPIPS_IXR_WR_TO_CLR_MASK))))
          (dev_clock (Dev w))))
    w.

(** The world clear_SlaveSelect leaves behind: in manual chip-select
    mode all select bits of the control register are set. *)
Definition deselected {hw : XSpiPs_Hw} (w : World) : World :=
  set_Dev
    (if negb (Z.land (reg_CR (Dev w)) XSPIPS_CR_SSFORCE_MASK =? 0)
     then set_reg_CR (u32 (Z.lor (reg_CR (Dev w)) XSPIPS_CR_SSCTRL_MASK))
            (Dev w)
     else Dev w)
    w.

(** The idle state the design document promises to the status handler
    after a fault: not busy, chip select deasserted in manual chip-select
    mode, device disabled. *)
Definition clean_idle {hw : XSpiPs_Hw} (w : World) : Prop :=
  IsBusy (Inst w) = false /\
  (Z.land (reg_CR (Dev w)) XSPIPS_CR_SSFORCE_MASK <> 0 ->
   Z.land (reg_CR (Dev w)) XSPIPS_CR_SSCTRL_MASK = XSPIPS_CR_SSCTRL_MASK) /\
  dev_enabled (Dev w) = false.

(** A status handler that does nothing. *)
Definition silent_call (FuncPtr CallBackRef : Z) (ev : XEvent) (n : Z)
  : M unit := ret tt.

Definition world_of {A : Type} (r : Result (A * World)) (w0 : World)
  : World :=
  match r with
  | Ok (_, w) => w
  | _ => w0
  end.

(** ** The passes of the polled transfer *)

(** The world after [j] passes of the outer loop. *)
Definition after_passes {hw : XSpiPs_Hw} (fuel : nat) (j : nat) (w : World)
  : World :=
  world_of (PolledTransfer_passes fuel j w) w.

(** The state between two passes: both counters at [r], the device
    enabled, both FIFOs empty. *)
Definition between_passes {hw : XSpiPs_Hw} (r : Z) (w : World) : Prop :=
  RemainingBytes (Inst w) = r /\
  RequestedBytes (Inst w) = r /\
  dev_enabled (Dev w) = true /\
  TxFifo (Dev w) = [] /\
  RxFifo (Dev w) = [].

(** The pass from [w] to [w'] moves [k] bytes: its fill loop pushes [k]
    bytes to the transmit FIFO, the wait ends with [k] bytes in the
    receive FIFO, and its drain loop pops exactly these [k] bytes. *)
Definition pass_moves {hw : XSpiPs_Hw} (fuel : nat) (k : Z) (w w' : World)
  : Prop :=
  exists wf ws ww,
    TxFifo_fill u32 0 w = Ok (k, wf) /\
    Z.of_nat (length (TxFifo (Dev wf)))
      = Z.of_nat (length (TxFifo (Dev w))) + k /\
    RemainingBytes (Inst wf) = RemainingBytes (Inst w) - k /\
    issue_ManualStart wf = Ok (tt, ws) /\
    wait_TXOW fuel ws = Ok (tt, ww) /\
    Z.of_nat (length (RxFifo (Dev ww))) = k /\
    Z.of_nat (length (Mosi (Dev ww)))
      = Z.of_nat (length (Mosi (Dev w))) + k /\
    RxFifo_drain k ww = Ok (tt, w') /\
    RxFifo (Dev w') = [] /\
    RequestedBytes (Inst w') = RequestedBytes (Inst w) - k /\
    PolledTransfer_pass fuel w = Ok (tt, w').

(** ** States of the instance over time *)

(** RequestedBytes >= RemainingBytes, both 32-bit counters. *)
Definition counters_ordered (w : World) : Prop :=
  0 <= RemainingBytes (Inst w) <= RequestedBytes (Inst w) /\
  RequestedBytes (Inst w) < 2 ^ 32.

(** What holds between two operations: the counters are ordered, and
    while a transfer is in flight RequestedBytes is not zero. *)
Definition transfer_inv (w : World) : Prop :=
  counters_ordered w /\
  (IsBusy (Inst w) = true -> 0 < RequestedBytes (Inst w)).

Section Reachability.
Context {hw : XSpiPs_Hw}.
Variable user_call : Z -> Z -> XEvent -> Z -> M unit.

(** The worlds between two operations of the driver: after a successful
    initialization, any call of the interface or of the interrupt handler
    that returns leads from one to the next, and the device and the
    caller's memory may change at any time. *)
Inductive reachable : World -> Prop :=
| reach_CfgInitialize (fuel : nat) (EffectiveAddr : Z) (w w' : World) :
    IsBusy (Inst w) = false ->
    XSpiPs_CfgInitialize fuel EffectiveAddr w = Ok (XST_SUCCESS, w') ->
    reachable w'
| reach_Transfer (SendBufPtr RecvBufPtr ByteCount : Z) (st : XStatus)
    (w w' : World) :
    reachable w ->
    ByteCount < 2 ^ 32 ->
    XSpiPs_Transfer SendBufPtr RecvBufPtr ByteCount w = Ok (st, w') ->
    reachable w'
| reach_PolledTransfer (fuel : nat) (SendBufPtr RecvBufPtr ByteCount : Z)
    (st : XStatus) (w w' : World) :
    reachable w ->
    ByteCount < 2 ^ 32 ->
    XSpiPs_PolledTransfer fuel SendBufPtr RecvBufPtr ByteCount w
      = Ok (st, w') ->
    reachable w'
| reach_SetSlaveSelect (SlaveSel : Z) (st : XStatus) (w w' : World) :
    reachable w ->
    XSpiPs_SetSlaveSelect SlaveSel w = Ok (st, w') ->
    reachable w'
| reach_SetStatusHandler (CallBackRef FuncPtr : Z) (w w' : World) :
    reachable w ->
    XSpiPs_SetStatusHandler CallBackRef FuncPtr w = Ok (tt, w') ->
    reachable w'
| reach_Abort (fuel : nat) (w w' : World) :
    reachable w ->
    XSpiPs_Abort fuel w = Ok (tt, w') ->
    reachable w'
| reach_Reset (fuel : nat) (w w' : World) :
    reachable w ->
    XSpiPs_Reset fuel w = Ok (tt, w') ->
    reachable w'
| reach_InterruptHandler (fuel : nat) (w w' : World) :
    reachable w ->
    XSpiPs_InterruptHandler user_call fuel w = Ok (tt, w') ->
    reachable w'
| reach_environment (d : Device) (m : Z -> Z) (w : World) :
    reachable w ->
    reachable (mkWorld (Inst w) d m).

End Reachability.

(** ** The driver, statement by statement *)

(** The definitions above give each function as one computation, from
    call to return.  To see the instance between two statements of a
    function as well, each function is written a second time as the
    sequence of its statements, each with the line of xspips.c it starts
    on; [run] of the sequence is the function above (lemmas [run_...]).
    A statement that only computes on local variables changes no world
    and is folded into the next statement that reads or writes the
    instance, the device or memory. *)
Inductive Code : Type -> Type :=
| Done {A : Type} (a : A) : Code A
| Stmt {A : Type} (line : nat) (c : M A) : Code A
| Then {A B : Type} (p : Code A) (k : A -> Code B) : Code B.

Declare Scope code_scope.
Delimit Scope code_scope with code.
Bind Scope code_scope with Code.
Notation "x <- c1 ;;; c2" := (Then c1 (fun x => c2))
  (at level 100, c1 at next level, right associativity) : code_scope.
Notation "c1 ;;; c2" := (Then c1 (fun _ => c2))
  (at level 100, right associativity) : code_scope.
Arguments Stmt {A} line%_nat c%_drv.
Local Open Scope code_scope.

(** The computation a sequence of statements stands for. *)
Fixpoint run {A : Type} (p : Code A) : M A :=
  match p with
  | Done a => ret a
  | Stmt _ c => c
  | Then p k => bind (run p) (fun a => run (k a))
  end.

(** The observation points of a run from [w]: after each statement that
    is executed, its line and the world it leaves.  A statement that
    fails an assertion, or a loop that never ends, leaves no world. *)
Fixpoint points {A : Type} (p : Code A) (w : World) : list (nat * World) :=
  match p with
  | Done _ => []
  | Stmt line c =>
      match c w with
      | Ok (_, w') => [(line, w')]
      | _ => []
      end
  | Then p k =>
      points p w
      ++ match run p w with
         | Ok (a, w1) => points (k a) w1
         | _ => []
         end
  end.

Module ByLine.
Section Statements.
Context {hw : XSpiPs_Hw}.
Variable user_call : Z -> Z -> XEvent -> Z -> M unit.

(** The fill loop, with the lines of its test and of its three
    statements (lines 376-381, 526-531, 910-915). *)
Fixpoint fill_TXFIFO (lw ls lp lr : nat) (wrap : Z -> Z) (n : nat)
  (TransCount : Z) : Code Z :=
  match n with
  | O => Done TransCount
  | S n' =>
      (rem <- Stmt lw (load RemainingBytes) ;;;
       if (0 <? rem) && (TransCount <? XSPIPS_FIFO_DEPTH) then
         Stmt ls (base <- load Config_BaseAddress ;;
                  p <- load SendBufferPtr ;;
                  Data <- mem_read p ;;
                  XSpiPs_SendByte base Data) ;;;
         Stmt lp (p <- load SendBufferPtr ;;
                  store (set_SendBufferPtr (p + 1))) ;;;
         Stmt lr (rem <- load RemainingBytes ;;
                  store (set_RemainingBytes (u32 (rem - 1)))) ;;;
         fill_TXFIFO lw ls lp lr wrap n' (wrap (TransCount + 1))
       else Done TransCount)
  end.

(** The fill loop as it is entered: its test is evaluated, and at most
    RemainingBytes iterations follow. *)
Definition TxFifo_fill (lw ls lp lr : nat) (wrap : Z -> Z) (TransCount : Z)
  : Code Z :=
  (rem <- Stmt lw (load RemainingBytes) ;;;
   fill_TXFIFO lw ls lp lr wrap (Z.to_nat rem) TransCount).

(** The drain loop, with the lines of its four statements (lines 570-575,
    898-902). *)
Fixpoint drain_RXFIFO (lrecv lif lstore lreq : nat) (n : nat) : Code unit :=
  match n with
  | O => Done tt
  | S n' =>
      (TempData <- Stmt lrecv (base <- load Config_BaseAddress ;;
                               XSpiPs_RecvByte base) ;;;
       q <- Stmt lif (load RecvBufferPtr) ;;;
       (if negb (q =? NULL) then
          Stmt lstore (q <- load RecvBufferPtr ;;
                       mem_write q TempData ;;
                       store (set_RecvBufferPtr (q + 1)))
        else Done tt) ;;;
       Stmt lreq (req <- load RequestedBytes ;;
                  store (set_RequestedBytes (u32 (req - 1)))) ;;;
       drain_RXFIFO lrecv lif lstore lreq n')
  end.

Definition RxFifo_drain (lrecv lif lstore lreq : nat) (TransCount : Z)
  : Code unit :=
  drain_RXFIFO lrecv lif lstore lreq (Z.to_nat TransCount).

(** Lines 552-556. *)
Fixpoint wait_TXOW (fuel : nat) : Code unit :=
  match fuel with
  | O => Stmt 553 timeout
  | S fuel' =>
      (StatusReg <- Stmt 553 (base <- load Config_BaseAddress ;;
                              XSpiPs_ReadReg base XSPIPS_SR_OFFSET) ;;;
       if Z.land StatusReg XSPIPS_IXR_TXOW_MASK =? 0 then wait_TXOW fuel'
       else Done tt)
  end.

(** Lines 349-359 and 502-512. *)
Definition apply_SlaveSelect (lif lread lwrite : nat) : Code unit :=
  (manual <- Stmt lif XSpiPs_IsManualChipSelect ;;;
   if manual then
     ConfigReg <- Stmt lread (base <- load Config_BaseAddress ;;
                              XSpiPs_ReadReg base XSPIPS_CR_OFFSET) ;;;
     Stmt lwrite
       (base <- load Config_BaseAddress ;;
        ss <- load SlaveSelect ;;
        XSpiPs_WriteReg base XSPIPS_CR_OFFSET
          (Z.lor (Z.land ConfigReg (Z.lnot XSPIPS_CR_SSCTRL_MASK)) ss))
   else Done tt).

(** Lines 396-403, 539-547, 970-979. *)
Definition issue_ManualStart (lif lread lwrite : nat) : Code unit :=
  (master <- Stmt lif (manstart <- XSpiPs_IsManualStart ;;
                       if manstart then XSpiPs_IsMaster else ret false) ;;;
   if master then
     ConfigReg <- Stmt lread (base <- load Config_BaseAddress ;;
                              XSpiPs_ReadReg base XSPIPS_CR_OFFSET) ;;;
     Stmt lwrite
       (base <- load Config_BaseAddress ;;
        XSpiPs_WriteReg base XSPIPS_CR_OFFSET
          (Z.lor ConfigReg XSPIPS_CR_MANSTRT_MASK))
   else Done tt).

(** Lines 583-589, 934-942, 994-1002, 1016-1024. *)
Definition clear_SlaveSelect (lif lread lwrite : nat) : Code unit :=
  (manual <- Stmt lif XSpiPs_IsManualChipSelect ;;;
   if manual then
     ConfigReg <- Stmt lread (base <- load Config_BaseAddress ;;
                              XSpiPs_ReadReg base XSPIPS_CR_OFFSET) ;;;
     Stmt lwrite
       (base <- load Config_BaseAddress ;;
        XSpiPs_WriteReg base XSPIPS_CR_OFFSET
          (Z.lor ConfigReg XSPIPS_CR_SSCTRL_MASK))
   else Done tt).

(** XSpiPs_Abort (lines 1049-1073). *)
Fixpoint Abort_flush (fuel : nat) : Code unit :=
  match fuel with
  | O => Stmt 1057 timeout
  | S fuel' =>
      (StatusReg <- Stmt 1057 (base <- load Config_BaseAddress ;;
                               XSpiPs_ReadReg base XSPIPS_SR_OFFSET) ;;;
       if Z.land StatusReg XSPIPS_IXR_RXNEMPTY_MASK
          =? XSPIPS_IXR_RXNEMPTY_MASK
       then
         Stmt 1060 (base <- load Config_BaseAddress ;;
                    _ <- XSpiPs_RecvByte base ;;
                    ret tt) ;;;
         Abort_flush fuel'
       else Done tt)
  end.

Definition XSpiPs_Abort (fuel : nat) : Code unit :=
  (Stmt 1052 XSpiPs_Disable ;;;
   Abort_flush fuel ;;;
   Stmt 1066 (base <- load Config_BaseAddress ;;
              XSpiPs_WriteReg base XSPIPS_SR_OFFSET XSPIPS_IXR_MODF_MASK) ;;;
   Stmt 1070 (store (set_RemainingBytes 0)) ;;;
   Stmt 1071 (store (set_RequestedBytes 0)) ;;;
   Stmt 1072 (store (set_IsBusy false))).

(** XSpiPs_Reset (lines 223-240). *)
Definition XSpiPs_Reset (fuel : nat) : Code unit :=
  (Stmt 226 (ready <- load IsReady ;; Xil_AssertVoid ready) ;;;
   XSpiPs_Abort fuel ;;;
   Stmt 237 (base <- load Config_BaseAddress ;;
             XSpiPs_WriteReg base XSPIPS_CR_OFFSET XSPIPS_CR_RESET_STATE)).

(** XSpiPs_CfgInitialize (lines 164-202). *)
Definition XSpiPs_CfgInitialize (fuel : nat) (EffectiveAddr : Z)
  : Code XStatus :=
  (busy <- Stmt 176 (load IsBusy) ;;;
   if busy then Done XST_DEVICE_IS_STARTED
   else
     Stmt 183 (store (set_IsBusy false)) ;;;
     Stmt 185 (store (set_Config_BaseAddress EffectiveAddr)) ;;;
     Stmt 186 (store (set_StatusHandler StubStatusHandler)) ;;;
     Stmt 188 (store (set_SendBufferPtr NULL)) ;;;
     Stmt 189 (store (set_RecvBufferPtr NULL)) ;;;
     Stmt 190 (store (set_RequestedBytes 0)) ;;;
     Stmt 191 (store (set_RemainingBytes 0)) ;;;
     Stmt 192 (store (set_IsReady true)) ;;;
     XSpiPs_Reset fuel ;;;
     Done XST_SUCCESS).

(** XSpiPs_Transfer (lines 310-406). *)
Definition XSpiPs_Transfer (SendBufPtr RecvBufPtr ByteCount : Z)
  : Code XStatus :=
  (Stmt 320 (Xil_AssertNonvoid (negb (SendBufPtr =? NULL))) ;;;
   Stmt 321 (Xil_AssertNonvoid (0 <? ByteCount)) ;;;
   Stmt 322 (ready <- load IsReady ;; Xil_AssertNonvoid ready) ;;;
   busy <- Stmt 327 (load IsBusy) ;;;
   if busy then Done XST_DEVICE_BUSY
   else
     Stmt 335 (store (set_IsBusy true)) ;;;
     Stmt 340 (store (set_SendBufferPtr SendBufPtr)) ;;;
     Stmt 341 (store (set_RecvBufferPtr RecvBufPtr)) ;;;
     Stmt 343 (store (set_RequestedBytes ByteCount)) ;;;
     Stmt 344 (store (set_RemainingBytes ByteCount)) ;;;
     apply_SlaveSelect 349 350 357 ;;;
     Stmt 364 XSpiPs_Enable ;;;
     Stmt 369 (base <- load Config_BaseAddress ;;
               XSpiPs_WriteReg base XSPIPS_SR_OFFSET
                 XSPIPS_IXR_WR_TO_CLR_MASK) ;;;
     _ <- TxFifo_fill 376 378 380 381 u8 0 ;;;
     Stmt 389 (base <- load Config_BaseAddress ;;
               XSpiPs_WriteReg base XSPIPS_IER_OFFSET XSPIPS_IXR_DFLT_MASK) ;;;
     issue_ManualStart 396 398 401 ;;;
     Done XST_SUCCESS).

(** XSpiPs_PolledTransfer (lines 462-602). *)
Definition PolledTransfer_pass (fuel : nat) : Code unit :=
  (TransCount <- TxFifo_fill 526 528 530 531 u32 0 ;;;
   issue_ManualStart 539 541 545 ;;;
   wait_TXOW fuel ;;;
   RxFifo_drain 570 572 573 575 TransCount).

Fixpoint PolledTransfer_loop (fuel : nat) (n : nat) {struct n} : Code unit :=
  (i <- Stmt 519 (load (fun i => i)) ;;;
   if PolledTransfer_continue i then
     match n with
     | O => Stmt 519 timeout
     | S n' => PolledTransfer_pass fuel ;;; PolledTransfer_loop fuel n'
     end
   else Done tt).

Definition XSpiPs_PolledTransfer (fuel : nat)
  (SendBufPtr RecvBufPtr ByteCount : Z) : Code XStatus :=
  (Stmt 473 (Xil_AssertNonvoid (negb (SendBufPtr =? NULL))) ;;;
   Stmt 474 (Xil_AssertNonvoid (0 <? ByteCount)) ;;;
   Stmt 475 (ready <- load IsReady ;; Xil_AssertNonvoid ready) ;;;
   busy <- Stmt 480 (load IsBusy) ;;;
   if busy then Done XST_DEVICE_BUSY
   else
     Stmt 488 (store (set_IsBusy true)) ;;;
     Stmt 493 (store (set_SendBufferPtr SendBufPtr)) ;;;
     Stmt 494 (store (set_RecvBufferPtr RecvBufPtr)) ;;;
     Stmt 496 (store (set_RequestedBytes ByteCount)) ;;;
     Stmt 497 (store (set_RemainingBytes ByteCount)) ;;;
     apply_SlaveSelect 502 503 510 ;;;
     Stmt 517 XSpiPs_Enable ;;;
     PolledTransfer_loop fuel fuel ;;;
     clear_SlaveSelect 583 584 587 ;;;
     Stmt 594 (store (set_IsBusy false)) ;;;
     Stmt 599 XSpiPs_Disable ;;;
     Done XST_SUCCESS).

(** XSpiPs_SetSlaveSelect (lines 636-670). *)
Definition XSpiPs_SetSlaveSelect (SlaveSel : Z) : Code XStatus :=
  (Stmt 641 (ready <- load IsReady ;; Xil_AssertNonvoid ready) ;;;
   Stmt 642 (Xil_AssertNonvoid (SlaveSel <=? XSPIPS_CR_SSCTRL_MAXIMUM)) ;;;
   busy <- Stmt 648 (load IsBusy) ;;;
   if busy then Done XST_DEVICE_BUSY
   else
     Stmt 656 (store (set_SlaveSelect
                        (u32 (Z.shiftl
                                (Z.land (Z.lnot (Z.shiftl 1 SlaveSel))
                                   XSPIPS_CR_SSCTRL_MAXIMUM)
                                XSPIPS_CR_SSCTRL_SHIFT)))) ;;;
     ConfigReg <- Stmt 663 (base <- load Config_BaseAddress ;;
                            XSpiPs_ReadReg base XSPIPS_CR_OFFSET) ;;;
     Stmt 666 (base <- load Config_BaseAddress ;;
               ss <- load SlaveSelect ;;
               XSpiPs_WriteReg base XSPIPS_CR_OFFSET (Z.lor ConfigReg ss)) ;;;
     Done XST_SUCCESS).

(** XSpiPs_GetSlaveSelect (lines 684-706). *)
Definition XSpiPs_GetSlaveSelect : Code Z :=
  (Stmt 690 (ready <- load IsReady ;; Xil_AssertNonvoid ready) ;;;
   ss <- Stmt 692 (load SlaveSelect) ;;;
   let ConfigReg := ss in
   let ConfigReg := Z.land ConfigReg XSPIPS_CR_SSCTRL_MASK in
   let ConfigReg := Z.shiftr ConfigReg XSPIPS_CR_SSCTRL_SHIFT in
   let ConfigReg := Z.land ConfigReg XSPIPS_CR_SSCTRL_MAXIMUM in
   if 0x4 <? u32 (Z.lnot ConfigReg) then Done 0xF
   else Done (u8 (u32 (Z.lnot ConfigReg) / 2))).

(** XSpiPs_SetStatusHandler (lines 752-761). *)
Definition XSpiPs_SetStatusHandler (CallBackRef FuncPtr : Z) : Code unit :=
  (Stmt 756 (Xil_AssertVoid (negb (FuncPtr =? NULL))) ;;;
   Stmt 757 (ready <- load IsReady ;; Xil_AssertVoid ready) ;;;
   Stmt 759 (store (set_StatusHandler (UserHandler FuncPtr))) ;;;
   Stmt 760 (store (set_StatusRef CallBackRef))).

(** XSpiPs_InterruptHandler (lines 833-1030).  The statement of a call
    of the status handler leaves the world in which the handler
    returns. *)
Definition BytesDone : M Z :=
  req <- load RequestedBytes ;;
  rem <- load RemainingBytes ;;
  ret (u32 (req - rem)).

Definition Handler_MODF (fuel : nat) : Code unit :=
  (n <- Stmt 863 BytesDone ;;;
   XSpiPs_Abort fuel ;;;
   Stmt 875 (call_StatusHandler user_call XST_SPI_MODE_FAULT n)).

Definition Handler_done : Code unit :=
  (Stmt 927 (base <- load Config_BaseAddress ;;
             XSpiPs_WriteReg base XSPIPS_IDR_OFFSET XSPIPS_IXR_DFLT_MASK) ;;;
   clear_SlaveSelect 934 935 939 ;;;
   Stmt 947 (store (set_IsBusy false)) ;;;
   Stmt 952 XSpiPs_Disable ;;;
   Stmt 957 (req <- load RequestedBytes ;;
             call_StatusHandler user_call XST_SPI_TRANSFER_DONE req)).

Definition Handler_TXOW : Code unit :=
  (TransCount <- Stmt 895 BytesDone ;;;
   RxFifo_drain 898 899 900 902 TransCount ;;;
   _ <- TxFifo_fill 910 912 914 915 u32 0 ;;;
   done <- Stmt 919 (rem <- load RemainingBytes ;;
                     req <- load RequestedBytes ;;
                     ret ((rem =? 0) && (req =? 0))) ;;;
   if done then Handler_done
   else
     Stmt 964 (base <- load Config_BaseAddress ;;
               XSpiPs_WriteReg base XSPIPS_IER_OFFSET XSPIPS_IXR_TXOW_MASK) ;;;
     issue_ManualStart 970 972 976).

Definition Handler_RXOVR : Code unit :=
  (n <- Stmt 987 BytesDone ;;;
   Stmt 988 (store (set_IsBusy false)) ;;;
   clear_SlaveSelect 994 995 999 ;;;
   Stmt 1004 (call_StatusHandler user_call XST_SPI_RECEIVE_OVERRUN n)).

Definition Handler_TXUF : Code unit :=
  (n <- Stmt 1009 BytesDone ;;;
   Stmt 1011 (store (set_IsBusy false)) ;;;
   clear_SlaveSelect 1016 1017 1021 ;;;
   Stmt 1026 (call_StatusHandler user_call XST_SPI_TRANSMIT_UNDERRUN n)).

Definition Handler_faults (IntrStatus : Z) : Code unit :=
  ((if negb (Z.land IntrStatus XSPIPS_IXR_RXOVR_MASK =? 0)
    then Handler_RXOVR else Done tt) ;;;
   (if negb (Z.land IntrStatus XSPIPS_IXR_TXUF_MASK =? 0)
    then Handler_TXUF else Done tt)).

Definition XSpiPs_InterruptHandler (fuel : nat) : Code unit :=
  (Stmt 841 (ready <- load IsReady ;; Xil_AssertVoid ready) ;;;
   IntrStatus <- Stmt 850 (base <- load Config_BaseAddress ;;
                           XSpiPs_ReadReg base XSPIPS_SR_OFFSET) ;;;
   Stmt 852 (base <- load Config_BaseAddress ;;
             XSpiPs_WriteReg base XSPIPS_SR_OFFSET
               (Z.land IntrStatus XSPIPS_IXR_WR_TO_CLR_MASK)) ;;;
   Stmt 854 (base <- load Config_BaseAddress ;;
             XSpiPs_WriteReg base XSPIPS_IDR_OFFSET XSPIPS_IXR_TXOW_MASK) ;;;
   if XSPIPS_IXR_MODF_MASK =? Z.land IntrStatus XSPIPS_IXR_MODF_MASK then
     Handler_MODF fuel
   else
     (if negb (Z.land IntrStatus XSPIPS_IXR_TXOW_MASK =? 0)
      then Handler_TXOW else Done tt) ;;;
     Handler_faults IntrStatus).

End Statements.
End ByLine.

(** ** The operations of the driver and their observation points *)

Inductive Operation : Type :=
| Op_CfgInitialize (fuel : nat) (EffectiveAddr : Z)
| Op_Reset (fuel : nat)
| Op_Transfer (SendBufPtr RecvBufPtr ByteCount : Z)
| Op_PolledTransfer (fuel : nat) (SendBufPtr RecvBufPtr ByteCount : Z)
| Op_SetSlaveSelect (SlaveSel : Z)
| Op_GetSlaveSelect
| Op_SetStatusHandler (CallBackRef FuncPtr : Z)
| Op_InterruptHandler (fuel : nat)
| Op_Abort (fuel : nat).

(** The byte count of a transfer is an [unsigned]. *)
Definition in_range (o : Operation) : Prop :=
  match o with
  | Op_Transfer _ _ ByteCount | Op_PolledTransfer _ _ _ ByteCount =>
      ByteCount < 2 ^ 32
  | _ => True
  end.

(** What the operation stores in RequestedBytes when it sets up its
    counters. *)
Definition new_count (o : Operation) : Z :=
  match o with
  | Op_Transfer _ _ ByteCount | Op_PolledTransfer _ _ _ ByteCount => ByteCount
  | _ => 0
  end.

Section Observation.
Context {hw : XSpiPs_Hw}.
Variable user_call : Z -> Z -> XEvent -> Z -> M unit.

Definition points_of (o : Operation) (w : World) : list (nat * World) :=
  match o with
  | Op_CfgInitialize fuel a => points (ByLine.XSpiPs_CfgInitialize fuel a) w
  | Op_Reset fuel => points (ByLine.XSpiPs_Reset fuel) w
  | Op_Transfer s q n => points (ByLine.XSpiPs_Transfer s q n) w
  | Op_PolledTransfer fuel s q n =>
      points (ByLine.XSpiPs_PolledTransfer fuel s q n) w
  | Op_SetSlaveSelect k => points (ByLine.XSpiPs_SetSlaveSelect k) w
  | Op_GetSlaveSelect => points ByLine.XSpiPs_GetSlaveSelect w
  | Op_SetStatusHandler ref f => points (ByLine.XSpiPs_SetStatusHandler ref f) w
  | Op_InterruptHandler fuel =>
      points (ByLine.XSpiPs_InterruptHandler user_call fuel) w
  | Op_Abort fuel => points (ByLine.XSpiPs_Abort fuel) w
  end.

(** The worlds an observer can see inside an operation: the world after
    any statement, at line [L], of any operation that starts in a world
    between two operations and runs without another operation in
    between.  The world in which a status handler is called is the one
    after the statement before the call; the statement of the call leaves
    the world in which the handler returns. *)
Definition observable (L : nat) (w : World) : Prop :=
  exists (o : Operation) (w0 : World),
    reachable user_call w0 /\ in_range o /\ In (L, w) (points_of o w0).

End Observation.

(** The statements that store RequestedBytes one statement before
    RemainingBytes: in XSpiPs_CfgInitialize, XSpiPs_Transfer and
    XSpiPs_PolledTransfer. *)
Definition counters_half_stored : list nat := [190; 343; 496]%nat.

(** The statements after which a busy instance can have both counters
    zero: the set-up of a transfer before its counters are stored (lines
    335-341, 488-494), the completion of a transfer from the last drained
    byte to the statement that clears the busy flag (lines 575, 519,
    583-587 of the polled transfer, lines 902-939 of the interrupt
    handler), and the second last store of XSpiPs_Abort (line 1071). *)
Definition zero_while_busy : list nat :=
  [335; 340; 341; 488; 493; 494; 519; 575; 583; 584; 587;
   902; 910; 919; 927; 934; 935; 939; 1071]%nat.

(** ** What holds at an observation point *)

(** [P] holds at every observation point of the run of [p] from [w]. *)
Definition at_every_point {A : Type} (p : Code A) (w : World)
  (P : nat -> World -> Prop) : Prop :=
  forall (L : nat) (w' : World), In (L, w') (points p w) -> P L w'.

(** The busy flag and the two counters are the same in both worlds. *)
Definition same_counters (w w' : World) : Prop :=
  IsBusy (Inst w') = IsBusy (Inst w) /\
  RequestedBytes (Inst w') = RequestedBytes (Inst w) /\
  RemainingBytes (Inst w') = RemainingBytes (Inst w).

(** The counters after the statement at line [L]: ordered, unless the
    statement has stored RequestedBytes and not yet RemainingBytes; and
    RequestedBytes not zero while the instance is busy, unless the
    statement is one of [zero_while_busy]. *)
Definition counters_ok_at (L : nat) (w : World) : Prop :=
  (~ In L counters_half_stored -> counters_ordered w) /\
  (~ In L zero_while_busy ->
   IsBusy (Inst w) = true -> 0 < RequestedBytes (Inst w)).

(** After the statement at line [L] of operation [o], started in [w0]:
    the counters are as [counters_ok_at] says, and if the statement is
    one of [counters_half_stored], RequestedBytes is the operation's new
    count while RemainingBytes is still the one of [w0]. *)
Definition point_ok (o : Operation) (w0 : World) (L : nat) (w : World)
  : Prop :=
  counters_ok_at L w /\
  (In L counters_half_stored ->
   RequestedBytes (Inst w) = new_count o /\
   RemainingBytes (Inst w) = RemainingBytes (Inst w0)).

(** ** Scenarios *)

(** The bus runs for [n] byte times. *)
Definition clocked {hw : XSpiPs_Hw} (n : nat) (w : World) : World :=
  set_Dev (Nat.iter n dev_clock (Dev w)) w.

(** The device latches the event flags [m]. *)
Definition raise_flags (m : Z) (w : World) : World :=
  set_Dev (set_reg_SR (Z.lor (reg_SR (Dev w)) m) (Dev w)) w.

(** A 10-byte interrupt-driven transfer on a controller with a 3-byte
    FIFO, after two transmit-ready interrupts: 6 bytes have been received
    back, 3 more are queued, 1 is still to be queued. *)
Definition six_of_ten : World :=
  let hw := hw_with_depth 3 in
  let w1 := world_of (XSpiPs_Transfer 100 300 10 demo_world) demo_world in
  let w2 :=
    world_of (XSpiPs_InterruptHandler logging_call 20 (clocked 3 w1)) w1 in
  world_of (XSpiPs_InterruptHandler logging_call 20 (clocked 3 w2)) w2.

(** The same transfer when the device then latches a mode fault. *)
Definition six_of_ten_mode_fault : World :=
  raise_flags (@XSPIPS_IXR_MODF_MASK (hw_with_depth 3)) six_of_ten.

(** A 3-byte interrupt-driven transfer on the Zynq controller, all three
    bytes clocked out and their answers waiting in the receive FIFO. *)
Definition three_sent : World :=
  let hw := XSpiPs_zynq in
  clocked 3 (world_of (XSpiPs_Transfer 100 300 3 demo_world) demo_world).

(** The same 3-byte transfer when the device latches a receive overrun
    after the last byte went out. *)
Definition three_sent_overrun : World :=
  raise_flags (@XSPIPS_IXR_RXOVR_MASK XSpiPs_zynq) three_sent.

(** A 10-byte transfer on the Zynq controller, 4 bytes clocked out, when
    the device latches a receive overrun. *)
Definition overrun_world : World :=
  let hw := XSpiPs_zynq in
  raise_flags XSPIPS_IXR_RXOVR_MASK
    (clocked 4 (world_of (XSpiPs_Transfer 100 300 10 demo_world) demo_world)).

(** The same transfer when the device latches a transmit underrun. *)
Definition underrun_world : World :=
  let hw := XSpiPs_zynq in
  raise_flags XSPIPS_IXR_TXUF_MASK
    (clocked 4 (world_of (XSpiPs_Transfer 100 300 10 demo_world) demo_world)).

(** The same transfer when the device latches a mode fault instead. *)
Definition mode_fault_world : World :=
  let hw := XSpiPs_zynq in
  raise_flags XSPIPS_IXR_MODF_MASK
    (clocked 4 (world_of (XSpiPs_Transfer 100 300 10 demo_world) demo_world)).

(** The driver from initialization on: the instance initialized and a
    status handler installed, ... *)
Definition initialized_world : World :=
  let hw := XSpiPs_zynq in
  let w1 := world_of (XSpiPs_CfgInitialize 5 0xE0006000 demo_world)
              demo_world in
  world_of (XSpiPs_SetStatusHandler 500 0x1234 w1) w1.

(** ... and a 10-byte transfer started. *)
Definition started_world : World :=
  let hw := XSpiPs_zynq in
  world_of (XSpiPs_Transfer 100 300 10 initialized_world) initialized_world.

(** A 200-byte transfer on the Zynq controller: 128 bytes are queued, 72
    remain.  After 4 bytes the device latches a transmit underrun, and the
    interrupt handler leaves the instance idle with the counters at 200
    and 72. *)
Definition started_200_world : World :=
  let hw := XSpiPs_zynq in
  world_of (XSpiPs_Transfer 100 300 200 initialized_world) initialized_world.

Definition underrun_200_world : World :=
  mkWorld (Inst started_200_world)
    (Dev (raise_flags (@XSPIPS_IXR_TXUF_MASK XSpiPs_zynq)
            (clocked (hw := XSpiPs_zynq) 4 started_200_world)))
    (Mem started_200_world).

Definition after_underrun_world : World :=
  let hw := XSpiPs_zynq in
  world_of (XSpiPs_InterruptHandler logging_call 20 underrun_200_world)
    underrun_200_world.

(** The world after the [k]-th statement of operation [o] started in
    [w0], and the line of that statement. *)
Definition point_nr {hw : XSpiPs_Hw} (k : nat) (o : Operation) (w0 : World)
  : nat * World :=
  nth k (points_of logging_call o w0) (0%nat, w0).

(** A 10-byte transfer started on the instance the underrun left behind,
    after its statement at line 343 ... *)
Definition counters_half_stored_world : World :=
  snd (point_nr (hw := XSpiPs_zynq) 7 (Op_Transfer 100 300 10)
         after_underrun_world).

(** ... the same for a polled transfer and its statement at line 496, and
    for a new initialization and its statement at line 190, ... *)
Definition polled_half_stored_world : World :=
  snd (point_nr (hw := XSpiPs_zynq) 7 (Op_PolledTransfer 20 100 300 10)
         after_underrun_world).

Definition init_half_stored_world : World :=
  snd (point_nr (hw := XSpiPs_zynq) 6 (Op_CfgInitialize 5 0xE0006000)
         after_underrun_world).

(** ... a 10-byte transfer started on the initialized instance, after its
    statement at line 335 ... *)
Definition busy_set_world : World :=
  snd (point_nr (hw := XSpiPs_zynq) 4 (Op_Transfer 100 300 10)
         initialized_world).

(** ... and, with the 10 bytes sent, the interrupt handler after the
    statement at line 902 that drains the last of them. *)
Definition sent_world : World :=
  mkWorld (Inst started_world)
    (Dev (clocked (hw := XSpiPs_zynq) 10 started_world))
    (Mem started_world).

Definition last_drained_world : World :=
  snd (point_nr (hw := XSpiPs_zynq) 44 (Op_InterruptHandler 20) sent_world).

(** The first initialization, after the statement at line 191. *)
Definition first_init_world : World :=
  snd (point_nr (hw := XSpiPs_zynq) 7 (Op_CfgInitialize 5 0xE0006000)
         demo_world).

(** ** The data path *)

(** The [n] bytes of memory [m] from address [p] on. *)
Fixpoint buffer_bytes (m : Z -> Z) (p : Z) (n : nat) : list Z :=
  match n with
  | O => []
  | S n' => u8 (m p) :: buffer_bytes m (p + 1) n'
  end.

(** The slave's answers to the next [n] bytes: those of [miso] in order,
    0 once they are exhausted. *)
Fixpoint answers (miso : list Z) (n : nat) : list Z :=
  match n with
  | O => []
  | S n' => hd 0 miso :: answers (tl miso) n'
  end.

(** Memory [m] after the bytes [bytes] are stored from address [q] on. *)
Fixpoint store_bytes (q : Z) (bytes : list Z) (m : Z -> Z) : Z -> Z :=
  match bytes with
  | [] => m
  | b :: bytes' => store_bytes (q + 1) bytes' (mem_store q (u8 b) m)
  end.

(** What the drain loop does with the bytes it pops: with no receive
    buffer they are dropped and the pointer stays NULL. *)
Definition recv_store (q : Z) (bytes : list Z) (m : Z -> Z) : Z -> Z :=
  if q =? NULL then m else store_bytes q bytes m.

Definition recv_advance (q : Z) (n : Z) : Z :=
  if q =? NULL then q else q + n.

(** The state before a pass of the polled loop: both counters at [r],
    the device enabled and the transmit FIFO empty.  The receive FIFO may
    hold bytes of an earlier transfer. *)
Definition before_pass {hw : XSpiPs_Hw} (r : Z) (w : World) : Prop :=
  RemainingBytes (Inst w) = r /\
  RequestedBytes (Inst w) = r /\
  dev_enabled (Dev w) = true /\
  TxFifo (Dev w) = [].

(** The control register after apply_SlaveSelect and issue_ManualStart. *)
Definition selected_CR {hw : XSpiPs_Hw} (ss cr : Z) : Z :=
  if negb (Z.land cr XSPIPS_CR_SSFORCE_MASK =? 0)
  then u32 (Z.lor (Z.land cr (Z.lnot XSPIPS_CR_SSCTRL_MASK)) ss)
  else cr.

Definition started_CR {hw : XSpiPs_Hw} (cr : Z) : Z :=
  if negb (Z.land cr XSPIPS_CR_MANSTRTEN_MASK =? 0)
     && negb (Z.land cr XSPIPS_CR_MSTREN_MASK =? 0)
  then u32 (Z.lor cr XSPIPS_CR_MANSTRT_MASK)
  else cr.

(** The event flags are bits of their own, apart from the two level
    bits. *)
Definition faults_ok (hw : XSpiPs_Hw) : Prop :=
  XSPIPS_IXR_MODF_MASK <> 0 /\
  Z.land XSPIPS_IXR_TXOW_MASK XSPIPS_IXR_MODF_MASK = 0 /\
  Z.land XSPIPS_IXR_RXNEMPTY_MASK XSPIPS_IXR_MODF_MASK = 0 /\
  Z.land XSPIPS_IXR_TXOW_MASK XSPIPS_IXR_RXOVR_MASK = 0 /\
  Z.land XSPIPS_IXR_RXNEMPTY_MASK XSPIPS_IXR_RXOVR_MASK = 0 /\
  Z.land XSPIPS_IXR_TXOW_MASK XSPIPS_IXR_TXUF_MASK = 0 /\
  Z.land XSPIPS_IXR_RXNEMPTY_MASK XSPIPS_IXR_TXUF_MASK = 0.

(** The bits of the control register the driver writes do not overlap
    the slave-select field. *)
Definition cr_bits_ok (hw : XSpiPs_Hw) : Prop :=
  0 <= XSPIPS_CR_SSFORCE_MASK < 2 ^ 32 /\
  Z.land XSPIPS_CR_SSFORCE_MASK XSPIPS_CR_SSCTRL_MASK = 0 /\
  Z.land XSPIPS_CR_MANSTRT_MASK XSPIPS_CR_SSCTRL_MASK = 0.

(** ** The interrupt-driven transfer, interrupt by interrupt *)

(** The bus runs until the transmit FIFO is empty. *)
Definition bus_drained {hw : XSpiPs_Hw} (w : World) : World :=
  clocked (length (TxFifo (Dev w))) w.

(** The state between two transmit-ready interrupts with [r] bytes still
    to be received: the next [min r depth] of them are queued or on their
    way, the others are still to be queued, and no event is latched. *)
Definition in_flight {hw : XSpiPs_Hw} (r : Z) (w : World) : Prop :=
  IsReady (Inst w) = true /\
  RequestedBytes (Inst w) = r /\
  RemainingBytes (Inst w) = r - Z.min r XSPIPS_FIFO_DEPTH /\
  Z.of_nat (length (TxFifo (Dev w))) = Z.min r XSPIPS_FIFO_DEPTH /\
  RxFifo (Dev w) = [] /\
  reg_SR (Dev w) = 0 /\
  dev_enabled (Dev w) = true /\
  0 <= RecvBufferPtr (Inst w).

Section Interrupts.
Context {hw : XSpiPs_Hw}.
Variable user_call : Z -> Z -> XEvent -> Z -> M unit.

(** One transmit-ready interrupt: the queued bytes have gone out, the
    handler runs. *)
Definition irq_round (fuel : nat) : M unit :=
  fun w => XSpiPs_InterruptHandler user_call fuel (bus_drained w).

Fixpoint irq_rounds (fuel : nat) (k : nat) : M unit :=
  match k with
  | O => ret tt
  | S k' => irq_round fuel ;; irq_rounds fuel k'
  end.

End Interrupts.

(** * Properties *)

(** ** Bit-level facts *)

Lemma u32_range (x : Z) : 0 <= u32 x < 2 ^ 32.
Proof. unfold u32. apply Z.mod_pos_bound. lia. Qed.

Lemma u32_small (x : Z) : 0 <= x < 2 ^ 32 -> u32 x = x.
Proof. intros H. unfold u32. apply Z.mod_small. exact H. Qed.

Lemma land_0xF_range (a : Z) : 0 <= Z.land a 0xF <= 15.
Proof.
  change (Z.land a 0xF) with (Z.land a (Z.ones 4)).
  rewrite Z.land_ones by lia.
  change (2 ^ 4) with 16.
  pose proof (Z.mod_pos_bound a 16 eq_refl). lia.
Qed.

Lemma lnot_line_high (k : Z) :
  4 <= k <= 15 -> Z.land (Z.lnot (Z.shiftl 1 k)) 0xF = 0xF.
Proof.
  intros H.
  assert (Hk : k = 4 \/ k = 5 \/ k = 6 \/ k = 7 \/ k = 8 \/ k = 9 \/ k = 10 \/
               k = 11 \/ k = 12 \/ k = 13 \/ k = 14 \/ k = 15) by lia.
  repeat (destruct Hk as [Hk | Hk]; [subst k; reflexivity | ]).
  subst k; reflexivity.
Qed.

Section Facts.
Context {hw : XSpiPs_Hw}.

(** ** Busy instances refuse new work *)

(** C7. On a busy instance XSpiPs_Transfer, XSpiPs_PolledTransfer and
    XSpiPs_SetSlaveSelect, called with arguments that pass their
    assertions, return XST_DEVICE_BUSY and leave the whole world as it
    was: buffer pointers, RequestedBytes, RemainingBytes, the cached
    SlaveSelect and the control register included. *)
Theorem busy_calls_change_nothing :
  forall (w : World) (fuel : nat)
    (SendBufPtr RecvBufPtr ByteCount SlaveSel : Z),
    IsBusy (Inst w) = true ->
    IsReady (Inst w) = true ->
    SendBufPtr <> NULL ->
    0 < ByteCount ->
    SlaveSel <= XSPIPS_CR_SSCTRL_MAXIMUM ->
    XSpiPs_Transfer SendBufPtr RecvBufPtr ByteCount w
      = Ok (XST_DEVICE_BUSY, w) /\
    XSpiPs_PolledTransfer fuel SendBufPtr RecvBufPtr ByteCount w
      = Ok (XST_DEVICE_BUSY, w) /\
    XSpiPs_SetSlaveSelect SlaveSel w = Ok (XST_DEVICE_BUSY, w).
Proof.
  intros w fuel s r n k Hbusy Hready Hs Hn Hk.
  assert (Es : (s =? NULL) = false) by (apply Z.eqb_neq; exact Hs).
  assert (En : (0 <? n) = true) by (apply Z.ltb_lt; exact Hn).
  assert (Ek : (k <=? XSPIPS_CR_SSCTRL_MAXIMUM) = true)
    by (apply Z.leb_le; exact Hk).
  unfold XSpiPs_Transfer, XSpiPs_PolledTransfer, XSpiPs_SetSlaveSelect.
  repeat split;
    cbv beta iota delta [bind load Xil_AssertNonvoid];
    rewrite ?Es, ?En, ?Ek, ?Hready; cbv beta iota delta [negb];
    rewrite ?Hready; cbv beta iota; rewrite Hbusy; reflexivity.
Qed.

End Facts.

Lemma busy_calls_change_nothing_witness :
  XSpiPs_Transfer (hw := XSpiPs_zynq) 100 300 10 busy_world
    = Ok (XST_DEVICE_BUSY, busy_world) /\
  XSpiPs_PolledTransfer (hw := XSpiPs_zynq) 20 100 300 10 busy_world
    = Ok (XST_DEVICE_BUSY, busy_world) /\
  XSpiPs_SetSlaveSelect (hw := XSpiPs_zynq) 2 busy_world
    = Ok (XST_DEVICE_BUSY, busy_world).
Proof.
  apply (busy_calls_change_nothing (hw := XSpiPs_zynq) busy_world 20
           100 300 10 2).
  - reflexivity.
  - reflexivity.
  - unfold NULL; lia.
  - lia.
  - simpl; lia.
Defined.

(** ** Slave selection *)

Lemma testbit_u32 (x i : Z) :
  0 <= i -> Z.testbit (u32 x) i = Z.testbit x i && (i <? 32).
Proof.
  intros Hi. unfold u32. rewrite <- Z.land_ones by lia.
  rewrite Z.land_spec, Z.testbit_ones_nonneg by lia. reflexivity.
Qed.

Lemma testbit_0xF (j : Z) : Z.testbit 0xF j = (0 <=? j) && (j <? 4).
Proof. change 0xF with (Z.ones 4). apply Z.testbit_ones. lia. Qed.

Lemma u32_lnot_nibble (v : Z) : 0 <= v <= 15 -> u32 (Z.lnot v) = 2 ^ 32 - 1 - v.
Proof.
  intros Hv. unfold u32.
  replace (Z.lnot v) with (2 ^ 32 - 1 - v + (-1) * 2 ^ 32)
    by (unfold Z.lnot; lia).
  rewrite Z.mod_add by lia. apply Z.mod_small. lia.
Qed.

Section SlaveSelectFacts.
Context {hw : XSpiPs_Hw}.

(** What a successful XSpiPs_SetSlaveSelect does to the world. *)
Lemma SetSlaveSelect_success (w : World) (SlaveSel : Z) :
  IsReady (Inst w) = true ->
  IsBusy (Inst w) = false ->
  SlaveSel <= XSPIPS_CR_SSCTRL_MAXIMUM ->
  XSpiPs_SetSlaveSelect SlaveSel w
  = Ok (XST_SUCCESS,
        mkWorld (set_SlaveSelect (ss_encoding SlaveSel) (Inst w))
          (dev_write XSPIPS_CR_OFFSET
             (u32 (Z.lor (reg_CR (Dev w)) (ss_encoding SlaveSel))) (Dev w))
          (Mem w)).
Proof.
  intros Hready Hbusy Hk.
  assert (Ek : (SlaveSel <=? XSPIPS_CR_SSCTRL_MAXIMUM) = true)
    by (apply Z.leb_le; exact Hk).
  unfold XSpiPs_SetSlaveSelect.
  cbv beta iota delta [bind load Xil_AssertNonvoid].
  rewrite Hready, Ek. cbv beta iota. rewrite Hbusy. reflexivity.
Qed.

(** XSpiPs_GetSlaveSelect compares the 32-bit complement of a 4-bit value
    with 4, so its first arm is always taken. *)
Lemma GetSlaveSelect_value (w : World) :
  XSPIPS_CR_SSCTRL_MAXIMUM = 0xF ->
  IsReady (Inst w) = true ->
  XSpiPs_GetSlaveSelect w = Ok (0xF, w).
Proof.
  intros Hmax Hready. unfold XSpiPs_GetSlaveSelect.
  cbv beta iota zeta delta [bind load Xil_AssertNonvoid].
  rewrite Hready. cbv beta iota. rewrite Hmax.
  match goal with
  | |- context [Z.land ?a 0xF] =>
      pose proof (land_0xF_range a) as Hv;
      rewrite (u32_lnot_nibble (Z.land a 0xF)) by exact Hv
  end.
  match goal with
  | |- context [?a <? ?b] =>
      assert (E : (a <? b) = true) by (apply Z.ltb_lt; lia)
  end.
  rewrite E. reflexivity.
Qed.

(** C2. XSpiPs_SetSlaveSelect(k) followed by XSpiPs_GetSlaveSelect yields
    0xF for every argument the assertion admits, the line indices 0 to 3
    included: the decoder never returns the line that was selected. *)
Theorem GetSlaveSelect_after_SetSlaveSelect :
  forall (w : World) (k : Z),
    XSPIPS_CR_SSCTRL_MAXIMUM = 0xF ->
    IsReady (Inst w) = true ->
    IsBusy (Inst w) = false ->
    0 <= k <= 0xF ->
    exists w',
      XSpiPs_SetSlaveSelect k w = Ok (XST_SUCCESS, w') /\
      SlaveSelect (Inst w') = ss_encoding k /\
      XSpiPs_GetSlaveSelect w' = Ok (0xF, w').
Proof.
  intros w k Hmax Hready Hbusy Hk.
  eexists. split; [ | split ].
  - apply SetSlaveSelect_success; [assumption | assumption | lia].
  - reflexivity.
  - apply GetSlaveSelect_value; assumption.
Qed.

(** C10. Every argument from 4 to 0xF caches the same encoding as the
    deselect-all value 0xF, all four select bits high, and leaves the
    world exactly as XSpiPs_SetSlaveSelect(0xF) leaves it. *)
Theorem SetSlaveSelect_above_3_deselects :
  forall (w : World) (k : Z),
    XSPIPS_CR_SSCTRL_MAXIMUM = 0xF ->
    IsReady (Inst w) = true ->
    IsBusy (Inst w) = false ->
    4 <= k <= 0xF ->
    exists w',
      XSpiPs_SetSlaveSelect k w = Ok (XST_SUCCESS, w') /\
      XSpiPs_SetSlaveSelect 0xF w = Ok (XST_SUCCESS, w') /\
      SlaveSelect (Inst w') = u32 (Z.shiftl 0xF XSPIPS_CR_SSCTRL_SHIFT).
Proof.
  intros w k Hmax Hready Hbusy Hk.
  assert (Ek : ss_encoding k = u32 (Z.shiftl 0xF XSPIPS_CR_SSCTRL_SHIFT)).
  { unfold ss_encoding. rewrite Hmax, lnot_line_high by lia. reflexivity. }
  assert (EF : ss_encoding 0xF = u32 (Z.shiftl 0xF XSPIPS_CR_SSCTRL_SHIFT)).
  { unfold ss_encoding. rewrite Hmax, lnot_line_high by lia. reflexivity. }
  eexists. split; [ | split ].
  - rewrite SetSlaveSelect_success by (assumption || lia).
    rewrite Ek. reflexivity.
  - rewrite SetSlaveSelect_success by (assumption || lia).
    rewrite EF. reflexivity.
  - reflexivity.
Qed.

(** The select field of the control register after a successful call is
    the old field OR-ed with the new encoding. *)
Lemma ss_field_after_or (cr k : Z) :
  ss_field_ok hw ->
  Z.land (u32 (Z.lor cr (ss_encoding k))) XSPIPS_CR_SSCTRL_MASK
  = Z.lor (Z.land cr XSPIPS_CR_SSCTRL_MASK) (ss_encoding k).
Proof.
  intros (Hmax & Hshift & Hmask). unfold ss_encoding.
  rewrite Hmask, Hmax. apply Z.bits_inj'. intros i Hi.
  repeat first
    [ rewrite Z.land_spec | rewrite Z.lor_spec | rewrite testbit_u32 by lia
    | rewrite Z.shiftl_spec by lia | rewrite testbit_0xF ].
  destruct (Z.testbit cr i);
    destruct (Z.testbit (Z.lnot (Z.shiftl 1 k)) (i - XSPIPS_CR_SSCTRL_SHIFT));
    destruct (Z.leb_spec 0 (i - XSPIPS_CR_SSCTRL_SHIFT));
    destruct (Z.ltb_spec (i - XSPIPS_CR_SSCTRL_SHIFT) 4);
    destruct (Z.ltb_spec i 32); cbn; try reflexivity; lia.
Qed.

(** C8. A successful XSpiPs_SetSlaveSelect caches the encoding of the
    line and writes the control register back with that encoding OR-ed
    in: nothing is cleared first, so the select field of the register
    becomes the old field OR the new encoding. *)
Theorem SetSlaveSelect_ors_control_register :
  forall (w : World) (k : Z),
    ss_field_ok hw ->
    IsReady (Inst w) = true ->
    IsBusy (Inst w) = false ->
    0 <= k <= 0xF ->
    exists w',
      XSpiPs_SetSlaveSelect k w = Ok (XST_SUCCESS, w') /\
      SlaveSelect (Inst w') = ss_encoding k /\
      reg_CR (Dev w') = u32 (Z.lor (reg_CR (Dev w)) (ss_encoding k)) /\
      Z.land (reg_CR (Dev w')) XSPIPS_CR_SSCTRL_MASK
      = Z.lor (Z.land (reg_CR (Dev w)) XSPIPS_CR_SSCTRL_MASK)
          (ss_encoding k).
Proof.
  intros w k Hss Hready Hbusy Hk.
  pose proof Hss as (Hmax & _ & _).
  eexists. split; [ | split; [ | split ] ].
  - apply SetSlaveSelect_success; [assumption | assumption | lia].
  - reflexivity.
  - reflexivity.
  - apply (ss_field_after_or (reg_CR (Dev w)) k Hss).
Qed.

End SlaveSelectFacts.

Lemma zynq_ss_field_ok (D : Z) : ss_field_ok (hw_with_depth D).
Proof. unfold ss_field_ok; cbn. repeat split; try reflexivity; lia. Qed.

(** Selecting line 0 on the idle instance and reading the selection back
    gives 0xF, not 0. *)
Lemma GetSlaveSelect_after_SetSlaveSelect_witness :
  exists w',
    XSpiPs_SetSlaveSelect (hw := XSpiPs_zynq) 0 demo_world
      = Ok (XST_SUCCESS, w') /\
    SlaveSelect (Inst w') = 0x3800 /\
    XSpiPs_GetSlaveSelect (hw := XSpiPs_zynq) w' = Ok (0xF, w').
Proof.
  apply (GetSlaveSelect_after_SetSlaveSelect (hw := XSpiPs_zynq)
           demo_world 0).
  - reflexivity.
  - reflexivity.
  - reflexivity.
  - lia.
Defined.

Lemma SetSlaveSelect_above_3_deselects_witness :
  exists w',
    XSpiPs_SetSlaveSelect (hw := XSpiPs_zynq) 7 demo_world
      = Ok (XST_SUCCESS, w') /\
    XSpiPs_SetSlaveSelect (hw := XSpiPs_zynq) 0xF demo_world
      = Ok (XST_SUCCESS, w') /\
    SlaveSelect (Inst w') = 0x3C00.
Proof.
  apply (SetSlaveSelect_above_3_deselects (hw := XSpiPs_zynq) demo_world 7).
  - reflexivity.
  - reflexivity.
  - reflexivity.
  - lia.
Defined.

(** With no line asserted in the control register (select field 0xF),
    selecting line 0 caches 0xE in the field position and leaves the
    register field at 0xF. *)
Lemma SetSlaveSelect_ors_control_register_witness :
  exists w',
    XSpiPs_SetSlaveSelect (hw := XSpiPs_zynq) 0 demo_world
      = Ok (XST_SUCCESS, w') /\
    SlaveSelect (Inst w') = 0x3800 /\
    Z.land (reg_CR (Dev w')) 0x3C00 = 0x3C00.
Proof.
  destruct (SetSlaveSelect_ors_control_register (hw := XSpiPs_zynq)
              demo_world 0) as (w' & Hrun & Hcache & _ & Hfield).
  - apply zynq_ss_field_ok.
  - reflexivity.
  - reflexivity.
  - lia.
  - exists w'. split; [exact Hrun | split; [exact Hcache | exact Hfield]].
Defined.

(** ** The status word *)

Lemma land_lor_absorb (a r : Z) : Z.land (Z.lor a r) r = r.
Proof.
  apply Z.bits_inj'. intros i _. rewrite Z.land_spec, Z.lor_spec.
  destruct (Z.testbit a i), (Z.testbit r i); reflexivity.
Qed.

Lemma land_disjoint_bit (t r i : Z) :
  Z.land t r = 0 -> Z.testbit t i && Z.testbit r i = false.
Proof. intros H. rewrite <- Z.land_spec, H. apply Z.bits_0. Qed.

Section StatusFacts.
Context {hw : XSpiPs_Hw}.
Hypothesis Hlevels : levels_ok hw.

Lemma status_RXNEMPTY_set (d : Device) :
  RxFifo d <> [] ->
  Z.land (dev_status d) XSPIPS_IXR_RXNEMPTY_MASK = XSPIPS_IXR_RXNEMPTY_MASK.
Proof.
  intros Hrx. unfold dev_status. destruct (RxFifo d); [congruence | ].
  apply land_lor_absorb.
Qed.

Lemma status_RXNEMPTY_clear (d : Device) :
  RxFifo d = [] ->
  Z.land (dev_status d) XSPIPS_IXR_RXNEMPTY_MASK = 0.
Proof.
  destruct Hlevels as (_ & _ & Hdis).
  intros Hrx. unfold dev_status. rewrite Hrx.
  apply Z.bits_inj'. intros i Hi.
  repeat first [ rewrite Z.land_spec | rewrite Z.lor_spec
               | rewrite Z.lnot_spec by lia | rewrite Z.bits_0 ].
  pose proof (land_disjoint_bit _ _ i Hdis) as Hb.
  destruct (TxFifo d); rewrite ?Z.bits_0;
    destruct (Z.testbit (reg_SR d) i),
      (Z.testbit XSPIPS_IXR_TXOW_MASK i),
      (Z.testbit XSPIPS_IXR_RXNEMPTY_MASK i); cbn in *; congruence.
Qed.

Lemma status_TXOW_set (d : Device) :
  TxFifo d = [] ->
  Z.land (dev_status d) XSPIPS_IXR_TXOW_MASK = XSPIPS_IXR_TXOW_MASK.
Proof.
  intros Htx. unfold dev_status. rewrite Htx.
  apply Z.bits_inj'. intros i Hi.
  repeat first [ rewrite Z.land_spec | rewrite Z.lor_spec ].
  destruct (Z.testbit XSPIPS_IXR_TXOW_MASK i);
    rewrite ?orb_true_r, ?andb_false_r; reflexivity.
Qed.

Lemma status_TXOW_clear (d : Device) :
  TxFifo d <> [] ->
  Z.land (dev_status d) XSPIPS_IXR_TXOW_MASK = 0.
Proof.
  destruct Hlevels as (_ & _ & Hdis).
  intros Htx. unfold dev_status. destruct (TxFifo d); [congruence | ].
  apply Z.bits_inj'. intros i Hi.
  repeat first [ rewrite Z.land_spec | rewrite Z.lor_spec
               | rewrite Z.lnot_spec by lia | rewrite Z.bits_0 ].
  pose proof (land_disjoint_bit _ _ i Hdis) as Hb.
  destruct (RxFifo d); rewrite ?Z.bits_0;
    destruct (Z.testbit (reg_SR d) i),
      (Z.testbit XSPIPS_IXR_TXOW_MASK i),
      (Z.testbit XSPIPS_IXR_RXNEMPTY_MASK i); cbn in *; congruence.
Qed.

End StatusFacts.

(** ** XSpiPs_Abort *)

Lemma dev_clock_disabled {hw : XSpiPs_Hw} (d : Device) :
  dev_enabled d = false -> dev_clock d = d.
Proof. unfold dev_clock. intros ->. reflexivity. Qed.

Section AbortFacts.
Context {hw : XSpiPs_Hw}.
Hypothesis Hlevels : levels_ok hw.

Lemma Abort_flush_empties :
  forall (rx : list Z) (fuel : nat) (w : World),
    dev_enabled (Dev w) = false ->
    RxFifo (Dev w) = rx ->
    (length rx < fuel)%nat ->
    Abort_flush fuel w = Ok (tt, set_Dev (set_RxFifo [] (Dev w)) w).
Proof.
  pose proof Hlevels as (_ & Hne & _).
  induction rx as [ | b rx IH]; intros fuel w Hdis Hrx Hfuel;
    (destruct fuel as [ | fuel]; [cbn in Hfuel; lia | ]);
    cbn [Abort_flush];
    cbv beta iota delta [bind load XSpiPs_ReadReg XSpiPs_In32 dev_read];
    rewrite (dev_clock_disabled _ Hdis).
  - rewrite (status_RXNEMPTY_clear Hlevels _ Hrx).
    assert (E : (0 =? XSPIPS_IXR_RXNEMPTY_MASK) = false)
      by (apply Z.eqb_neq; congruence).
    rewrite E. destruct w as [i d m]. destruct d. cbn in *. subst.
    reflexivity.
  - rewrite status_RXNEMPTY_set by (rewrite Hrx; discriminate).
    rewrite Z.eqb_refl.
    cbv beta iota delta [bind XSpiPs_RecvByte XSpiPs_In32 dev_read ret].
    rewrite IH.
    + cbn. reflexivity.
    + cbn. exact Hdis.
    + cbn. rewrite Hrx. reflexivity.
    + cbn in Hfuel. lia.
Qed.

Lemma Abort_spec (fuel : nat) (w : World) :
  (length (RxFifo (Dev w)) < fuel)%nat ->
  XSpiPs_Abort fuel w = Ok (tt, aborted w).
Proof.
  intros Hfuel. unfold XSpiPs_Abort.
  cbv beta iota delta [bind load XSpiPs_Disable XSpiPs_Out32].
  rewrite (Abort_flush_empties (RxFifo (Dev w))).
  - reflexivity.
  - reflexivity.
  - reflexivity.
  - exact Hfuel.
Qed.

End AbortFacts.

(** ** The interrupt handler *)

(** Equality of two updated records, field by field. *)
Ltac drv_fields :=
  unfold set_Inst, set_Dev, set_Mem,
    set_Config_BaseAddress, set_IsReady, set_IsBusy, set_SendBufferPtr,
    set_RecvBufferPtr, set_RequestedBytes, set_RemainingBytes,
    set_SlaveSelect, set_StatusHandler, set_StatusRef,
    set_reg_CR, set_reg_SR, set_reg_IEN, set_reg_ER, set_TxFifo, set_RxFifo;
  cbn [Inst Dev Mem
       Config_BaseAddress IsReady IsBusy SendBufferPtr RecvBufferPtr
       RequestedBytes RemainingBytes SlaveSelect StatusHandler StatusRef
       reg_CR reg_SR reg_IEN reg_ER TxFifo RxFifo Mosi Miso].

(** Projections of updated records. *)
Ltac drv_simpl :=
  cbn [Inst Dev Mem set_Inst set_Dev set_Mem
       Config_BaseAddress IsReady IsBusy SendBufferPtr RecvBufferPtr
       RequestedBytes RemainingBytes SlaveSelect StatusHandler StatusRef
       set_Config_BaseAddress set_IsReady set_IsBusy set_SendBufferPtr
       set_RecvBufferPtr set_RequestedBytes set_RemainingBytes
       set_SlaveSelect set_StatusHandler set_StatusRef
       reg_CR reg_SR reg_IEN reg_ER TxFifo RxFifo Mosi Miso
       set_reg_CR set_reg_SR set_reg_IEN set_reg_ER set_TxFifo set_RxFifo
       fst snd] in *.

Lemma bind_ret_tt (c : M unit) (w : World) :
  bind c (fun _ => ret tt) w = c w.
Proof. unfold bind, ret. destruct (c w) as [[[] w'] | | ]; reflexivity. Qed.

Lemma bind_ret_l {A B : Type} (a : A) (k : A -> M B) (w : World) :
  bind (ret a) k w = k a w.
Proof. reflexivity. Qed.

Lemma skipn_tl {A : Type} (n : nat) (l : list A) :
  skipn n (tl l) = skipn (S n) l.
Proof. destruct l; [destruct n; reflexivity | reflexivity]. Qed.

Section DeviceFacts.
Context {hw : XSpiPs_Hw}.

Lemma dev_clock_reg_CR (d : Device) : reg_CR (dev_clock d) = reg_CR d.
Proof. unfold dev_clock. destruct (dev_enabled d), (TxFifo d); reflexivity. Qed.

Lemma dev_clock_reg_ER (d : Device) : reg_ER (dev_clock d) = reg_ER d.
Proof. unfold dev_clock. destruct (dev_enabled d), (TxFifo d); reflexivity. Qed.

Lemma dev_clock_RxFifo_length (d : Device) :
  (length (RxFifo (dev_clock d)) <= S (length (RxFifo d)))%nat.
Proof.
  unfold dev_clock. destruct (dev_enabled d), (TxFifo d); cbn;
    rewrite ?length_app; cbn; lia.
Qed.

Lemma ss_field_deasserted (cr : Z) :
  ss_field_ok hw ->
  Z.land (u32 (Z.lor cr XSPIPS_CR_SSCTRL_MASK)) XSPIPS_CR_SSCTRL_MASK
  = XSPIPS_CR_SSCTRL_MASK.
Proof.
  intros (_ & Hshift & Hmask). rewrite Hmask.
  apply Z.bits_inj'. intros i Hi.
  repeat first
    [ rewrite Z.land_spec | rewrite Z.lor_spec | rewrite testbit_u32 by lia
    | rewrite Z.shiftl_spec by lia | rewrite testbit_0xF ].
  destruct (Z.testbit cr i);
    destruct (Z.leb_spec 0 (i - XSPIPS_CR_SSCTRL_SHIFT));
    destruct (Z.ltb_spec (i - XSPIPS_CR_SSCTRL_SHIFT) 4);
    destruct (Z.ltb_spec i 32); cbn; try reflexivity; lia.
Qed.

Lemma land_lnot_same (a m : Z) : Z.land (Z.land a (Z.lnot m)) m = 0.
Proof.
  apply Z.bits_inj'. intros i Hi.
  rewrite !Z.land_spec, Z.lnot_spec, Z.bits_0 by lia.
  destruct (Z.testbit a i), (Z.testbit m i); reflexivity.
Qed.

Lemma clear_SlaveSelect_spec (w : World) :
  clear_SlaveSelect w = Ok (tt, deselected w).
Proof.
  unfold clear_SlaveSelect, deselected.
  cbv beta iota delta [bind load XSpiPs_IsManualChipSelect XSpiPs_ReadReg
                         XSpiPs_In32 dev_read ret].
  destruct (negb (Z.land (reg_CR (Dev w)) XSPIPS_CR_SSFORCE_MASK =? 0));
    reflexivity.
Qed.

Lemma deselected_field (w : World) :
  ss_field_ok hw ->
  Z.land (reg_CR (Dev w)) XSPIPS_CR_SSFORCE_MASK <> 0 ->
  Z.land (reg_CR (Dev (deselected w))) XSPIPS_CR_SSCTRL_MASK
  = XSPIPS_CR_SSCTRL_MASK.
Proof.
  intros Hss Hman. unfold deselected.
  apply Z.eqb_neq in Hman. rewrite Hman. cbn.
  apply ss_field_deasserted. exact Hss.
Qed.

(** The drain loop pops [n] bytes and retires [n] requested bytes. *)
Lemma drain_RXFIFO_spec :
  forall (n : nat) (w : World),
    Z.of_nat n <= RequestedBytes (Inst w) < 2 ^ 32 ->
    exists q m,
      drain_RXFIFO n w
      = Ok (tt,
            mkWorld
              (set_RequestedBytes (RequestedBytes (Inst w) - Z.of_nat n)
                 (set_RecvBufferPtr q (Inst w)))
              (set_RxFifo (skipn n (RxFifo (Dev w))) (Dev w))
              m).
Proof.
  induction n as [ | n IH]; intros w Hreq.
  - exists (RecvBufferPtr (Inst w)), (Mem w).
    destruct w as [i d m]. destruct i, d. cbn. rewrite Z.sub_0_r. reflexivity.
  - cbn [drain_RXFIFO].
    cbv beta iota delta [bind load store XSpiPs_RecvByte XSpiPs_In32
                           dev_read ret mem_write].
    assert (Hu : u32 (RequestedBytes (Inst w) - 1)
                 = RequestedBytes (Inst w) - 1) by (apply u32_small; lia).
    drv_simpl.
    destruct (negb (RecvBufferPtr (Inst w) =? NULL)); drv_simpl; rewrite Hu.
    + match goal with
      | |- context [drain_RXFIFO n ?w1] => destruct (IH w1) as (q & m & E)
      end.
      { drv_simpl. lia. }
      rewrite E. exists q, m. drv_simpl. rewrite skipn_tl.
      do 3 f_equal. drv_fields. f_equal. lia.
    + match goal with
      | |- context [drain_RXFIFO n ?w1] => destruct (IH w1) as (q & m & E)
      end.
      { drv_simpl. lia. }
      rewrite E. exists q, m. drv_simpl. rewrite skipn_tl.
      do 3 f_equal. drv_fields. f_equal. lia.
Qed.

End DeviceFacts.

Section HandlerFacts.
Context {hw : XSpiPs_Hw}.
Variable user_call : Z -> Z -> XEvent -> Z -> M unit.

Local Abbreviation handler := (XSpiPs_InterruptHandler user_call).
Local Abbreviation callback w := (invoke user_call (StatusHandler (Inst w))
                          (StatusRef (Inst w))).

(** The mode-fault path: abort, then the status handler, then return. *)
Lemma Handler_mode_fault (fuel : nat) (w : World) :
  levels_ok hw ->
  IsReady (Inst w) = true ->
  Z.land (dev_status (Dev w)) XSPIPS_IXR_MODF_MASK = XSPIPS_IXR_MODF_MASK ->
  (S (length (RxFifo (Dev w))) < fuel)%nat ->
  handler fuel w
  = callback w XST_SPI_MODE_FAULT
      (u32 (RequestedBytes (Inst w) - RemainingBytes (Inst w)))
      (aborted (entered w)).
Proof.
  intros Hlev Hready Hmodf Hfuel.
  unfold XSpiPs_InterruptHandler.
  cbv beta iota delta [bind load Xil_AssertVoid Xil_AssertNonvoid].
  rewrite Hready.
  change (Handler_entry w) with (Ok (dev_status (Dev w), entered w)).
  cbv beta iota. rewrite Hmodf, Z.eqb_refl.
  unfold Handler_MODF. cbv beta iota zeta delta [bind load].
  rewrite (Abort_spec Hlev).
  - reflexivity.
  - pose proof (dev_clock_RxFifo_length (Dev w)). cbn. lia.
Qed.

(** The handler when the mode-fault flag is not latched. *)
Lemma Handler_no_mode_fault (fuel : nat) (w : World) :
  IsReady (Inst w) = true ->
  Z.land (dev_status (Dev w)) XSPIPS_IXR_MODF_MASK <> XSPIPS_IXR_MODF_MASK ->
  handler fuel w
  = ((if negb (Z.land (dev_status (Dev w)) XSPIPS_IXR_TXOW_MASK =? 0)
      then Handler_TXOW user_call else ret tt) ;;
     Handler_faults user_call (dev_status (Dev w)))%drv (entered w).
Proof.
  intros Hready Hmodf.
  unfold XSpiPs_InterruptHandler.
  cbv beta iota delta [bind load Xil_AssertVoid Xil_AssertNonvoid].
  rewrite Hready.
  change (Handler_entry w) with (Ok (dev_status (Dev w), entered w)).
  cbv beta iota.
  assert (E : (XSPIPS_IXR_MODF_MASK
               =? Z.land (dev_status (Dev w)) XSPIPS_IXR_MODF_MASK) = false)
    by (apply Z.eqb_neq; congruence).
  rewrite E. reflexivity.
Qed.

Lemma Handler_RXOVR_spec (w : World) :
  Handler_RXOVR user_call w
  = callback w XST_SPI_RECEIVE_OVERRUN
      (u32 (RequestedBytes (Inst w) - RemainingBytes (Inst w)))
      (deselected (set_Inst (set_IsBusy false (Inst w)) w)).
Proof.
  unfold Handler_RXOVR. cbv beta iota zeta delta [bind load store].
  rewrite clear_SlaveSelect_spec. reflexivity.
Qed.

Lemma Handler_TXUF_spec (w : World) :
  Handler_TXUF user_call w
  = callback w XST_SPI_TRANSMIT_UNDERRUN
      (u32 (RequestedBytes (Inst w) - RemainingBytes (Inst w)))
      (deselected (set_Inst (set_IsBusy false (Inst w)) w)).
Proof.
  unfold Handler_TXUF. cbv beta iota zeta delta [bind load store].
  rewrite clear_SlaveSelect_spec. reflexivity.
Qed.

(** The transfer-done arm. *)
Lemma Handler_done_spec (w : World) :
  Handler_done user_call w
  = callback w XST_SPI_TRANSFER_DONE (RequestedBytes (Inst w))
      (set_Dev
         (set_reg_ER 0
            (Dev (deselected
                    (set_Dev
                       (set_reg_IEN
                          (Z.land (reg_IEN (Dev w))
                             (Z.lnot (u32 XSPIPS_IXR_DFLT_MASK)))
                          (Dev w)) w))))
         (set_Inst (set_IsBusy false (Inst w)) w)).
Proof.
  unfold Handler_done.
  cbv beta iota zeta delta [bind load store XSpiPs_WriteReg XSpiPs_Out32
                              dev_write].
  rewrite clear_SlaveSelect_spec. reflexivity.
Qed.


(** C5. A mode fault during a 10-byte transfer of which 6 bytes have been
    received back (RequestedBytes is 4): the handler aborts, calls the
    status handler once with the mode-fault event and returns, whatever
    other flags are pending; the instance is then idle, its counters zero
    and the receive FIFO empty.  The byte count it passes is
    RequestedBytes - RemainingBytes, the bytes still in flight: at most 4,
    never the 6 bytes transferred so far. *)
Theorem mode_fault_after_six_of_ten :
  forall (fuel : nat) (w : World),
    levels_ok hw ->
    IsReady (Inst w) = true ->
    Z.land (dev_status (Dev w)) XSPIPS_IXR_MODF_MASK = XSPIPS_IXR_MODF_MASK ->
    (S (length (RxFifo (Dev w))) < fuel)%nat ->
    RequestedBytes (Inst w) = 10 - 6 ->
    0 <= RemainingBytes (Inst w) <= RequestedBytes (Inst w) ->
    exists n w',
      handler fuel w = callback w XST_SPI_MODE_FAULT n w' /\
      n = 4 - RemainingBytes (Inst w) /\
      n <> 6 /\
      IsBusy (Inst w') = false /\
      RxFifo (Dev w') = [] /\
      RequestedBytes (Inst w') = 0 /\
      RemainingBytes (Inst w') = 0 /\
      reg_ER (Dev w') = 0.
Proof.
  intros fuel w Hlev Hready Hmodf Hfuel Hreq Hrem.
  exists (u32 (RequestedBytes (Inst w) - RemainingBytes (Inst w))).
  exists (aborted (entered w)).
  split; [apply Handler_mode_fault; assumption | ].
  rewrite Hreq in *. rewrite u32_small by lia.
  repeat split; try reflexivity; lia.
Qed.

(** C3, as the code has it.  The state the status handler is called in
    after a fault.  After a mode fault the instance is idle with zero
    counters and the device is disabled, the control register (and so the
    chip select) untouched.  A receive overrun is tested after the
    transmit-ready arm (lines 882-981) has run, a transmit underrun after
    the overrun branch as well.  In the world these earlier steps of the
    same interrupt leave ([w1], [w2]) the fault branch clears the busy
    flag and, in manual chip-select mode, deasserts the chip select; it
    writes neither the enable register nor the counters, so the status
    handler sees them as the earlier steps left them.  When the
    transmit-ready flag is not latched (and, for the underrun, no overrun
    either) these are the enable register and the counters of the
    handler's entry. *)
Theorem fault_state_at_callback :
  forall (fuel : nat) (w : World),
    levels_ok hw ->
    ss_field_ok hw ->
    IsReady (Inst w) = true ->
    (S (length (RxFifo (Dev w))) < fuel)%nat ->
    let st := dev_status (Dev w) in
    let ready_arm :=
      if negb (Z.land st XSPIPS_IXR_TXOW_MASK =? 0)
      then Handler_TXOW user_call else ret tt in
    let overrun_arm :=
      if negb (Z.land st XSPIPS_IXR_RXOVR_MASK =? 0)
      then Handler_RXOVR user_call else ret tt in
    let underrun_arm :=
      if negb (Z.land st XSPIPS_IXR_TXUF_MASK =? 0)
      then Handler_TXUF user_call else ret tt in
    (Z.land st XSPIPS_IXR_MODF_MASK = XSPIPS_IXR_MODF_MASK ->
     exists n w',
       handler fuel w = callback w XST_SPI_MODE_FAULT n w' /\
       IsBusy (Inst w') = false /\
       RequestedBytes (Inst w') = 0 /\
       RemainingBytes (Inst w') = 0 /\
       dev_enabled (Dev w') = false /\
       reg_CR (Dev w') = reg_CR (Dev w)) /\
    (Z.land st XSPIPS_IXR_MODF_MASK <> XSPIPS_IXR_MODF_MASK ->
     Z.land st XSPIPS_IXR_RXOVR_MASK <> 0 ->
     forall w1 : World,
       ready_arm (entered w) = Ok (tt, w1) ->
       exists w',
         handler fuel w
         = (callback w1 XST_SPI_RECEIVE_OVERRUN
              (u32 (RequestedBytes (Inst w1) - RemainingBytes (Inst w1))) ;;
            underrun_arm)%drv w' /\
         IsBusy (Inst w') = false /\
         (Z.land (reg_CR (Dev w1)) XSPIPS_CR_SSFORCE_MASK <> 0 ->
          Z.land (reg_CR (Dev w')) XSPIPS_CR_SSCTRL_MASK
          = XSPIPS_CR_SSCTRL_MASK) /\
         reg_ER (Dev w') = reg_ER (Dev w1) /\
         RequestedBytes (Inst w') = RequestedBytes (Inst w1) /\
         RemainingBytes (Inst w') = RemainingBytes (Inst w1) /\
         (Z.land st XSPIPS_IXR_TXOW_MASK = 0 ->
          reg_CR (Dev w1) = reg_CR (Dev w) /\
          reg_ER (Dev w') = reg_ER (Dev w) /\
          RequestedBytes (Inst w') = RequestedBytes (Inst w) /\
          RemainingBytes (Inst w') = RemainingBytes (Inst w))) /\
    (Z.land st XSPIPS_IXR_MODF_MASK <> XSPIPS_IXR_MODF_MASK ->
     Z.land st XSPIPS_IXR_TXUF_MASK <> 0 ->
     forall w1 w2 : World,
       ready_arm (entered w) = Ok (tt, w1) ->
       overrun_arm w1 = Ok (tt, w2) ->
       exists w',
         handler fuel w
         = callback w2 XST_SPI_TRANSMIT_UNDERRUN
             (u32 (RequestedBytes (Inst w2) - RemainingBytes (Inst w2))) w' /\
         IsBusy (Inst w') = false /\
         (Z.land (reg_CR (Dev w2)) XSPIPS_CR_SSFORCE_MASK <> 0 ->
          Z.land (reg_CR (Dev w')) XSPIPS_CR_SSCTRL_MASK
          = XSPIPS_CR_SSCTRL_MASK) /\
         reg_ER (Dev w') = reg_ER (Dev w2) /\
         RequestedBytes (Inst w') = RequestedBytes (Inst w2) /\
         RemainingBytes (Inst w') = RemainingBytes (Inst w2) /\
         (Z.land st XSPIPS_IXR_TXOW_MASK = 0 ->
          Z.land st XSPIPS_IXR_RXOVR_MASK = 0 ->
          reg_CR (Dev w2) = reg_CR (Dev w) /\
          reg_ER (Dev w') = reg_ER (Dev w) /\
          RequestedBytes (Inst w') = RequestedBytes (Inst w) /\
          RemainingBytes (Inst w') = RemainingBytes (Inst w))).
Proof.
  intros fuel w Hlev Hss Hready Hfuel st ready_arm overrun_arm underrun_arm.
  assert (Hbranch : forall v : World,
            IsBusy (Inst (deselected (set_Inst (set_IsBusy false (Inst v)) v)))
            = false /\
            (Z.land (reg_CR (Dev v)) XSPIPS_CR_SSFORCE_MASK <> 0 ->
             Z.land (reg_CR (Dev (deselected
                                    (set_Inst (set_IsBusy false (Inst v)) v))))
               XSPIPS_CR_SSCTRL_MASK
             = XSPIPS_CR_SSCTRL_MASK) /\
            reg_ER (Dev (deselected (set_Inst (set_IsBusy false (Inst v)) v)))
            = reg_ER (Dev v)).
  { intros v. split; [reflexivity | split].
    - intros Hman. apply deselected_field; [exact Hss | exact Hman].
    - unfold deselected. cbn.
      destruct (negb (Z.land (reg_CR (Dev v)) XSPIPS_CR_SSFORCE_MASK =? 0));
        reflexivity. }
  split; [ | split ].
  - intros Hmodf. eexists. exists (aborted (entered w)).
    split; [apply Handler_mode_fault; assumption | ].
    repeat split; try reflexivity.
    cbn. apply dev_clock_reg_CR.
  - intros Hmodf Hovr w1 H1.
    destruct (Hbranch w1) as (Hb & Hcs & Her).
    exists (deselected (set_Inst (set_IsBusy false (Inst w1)) w1)).
    split; [ | split; [exact Hb | split; [exact Hcs | ] ] ];
      [ | split; [exact Her | ] ].
    + rewrite Handler_no_mode_fault by assumption.
      fold st. fold ready_arm. unfold bind at 1. rewrite H1.
      unfold Handler_faults. fold st.
      apply Z.eqb_neq in Hovr. rewrite Hovr. cbn [negb].
      fold underrun_arm. unfold bind at 1.
      rewrite Handler_RXOVR_spec. reflexivity.
    + split; [reflexivity | split; [reflexivity | ] ].
      intros Htxow. subst ready_arm. rewrite Htxow in H1. cbn in H1.
      injection H1 as <-. rewrite Her. cbn.
      rewrite dev_clock_reg_CR, dev_clock_reg_ER.
      repeat split; reflexivity.
  - intros Hmodf Huf w1 w2 H1 H2.
    destruct (Hbranch w2) as (Hb & Hcs & Her).
    exists (deselected (set_Inst (set_IsBusy false (Inst w2)) w2)).
    split; [ | split; [exact Hb | split; [exact Hcs | ] ] ];
      [ | split; [exact Her | ] ].
    + rewrite Handler_no_mode_fault by assumption.
      fold st. fold ready_arm. unfold bind at 1. rewrite H1.
      unfold Handler_faults. fold st. fold overrun_arm.
      unfold bind at 1. rewrite H2.
      apply Z.eqb_neq in Huf. rewrite Huf. cbn [negb].
      apply Handler_TXUF_spec.
    + split; [reflexivity | split; [reflexivity | ] ].
      intros Htxow Hovr. subst ready_arm overrun_arm.
      rewrite Htxow in H1. rewrite Hovr in H2. cbn in H1, H2.
      injection H1 as <-. injection H2 as <-. rewrite Her. cbn.
      rewrite dev_clock_reg_CR, dev_clock_reg_ER.
      repeat split; reflexivity.
Qed.

(** C4. The transmit-ready path when nothing is left to queue: the
    handler drains what is in flight, masks the default interrupts,
    deasserts the chip select in manual chip-select mode, clears the busy
    flag, disables the device and calls the status handler once with the
    transfer-done event.  The byte count it passes is RequestedBytes,
    which the drain has just brought to zero: the handler reports 0 bytes,
    whatever the length of the transfer. *)
Theorem transfer_done_reports_zero_bytes :
  forall (fuel : nat) (w : World),
    ss_field_ok hw ->
    IsReady (Inst w) = true ->
    Z.land (dev_status (Dev w)) XSPIPS_IXR_MODF_MASK
      <> XSPIPS_IXR_MODF_MASK ->
    Z.land (dev_status (Dev w)) XSPIPS_IXR_TXOW_MASK <> 0 ->
    RemainingBytes (Inst w) = 0 ->
    0 <= RequestedBytes (Inst w) < 2 ^ 32 ->
    exists w',
      handler fuel w
      = (callback w XST_SPI_TRANSFER_DONE 0 ;;
         Handler_faults user_call (dev_status (Dev w)))%drv w' /\
      IsBusy (Inst w') = false /\
      RequestedBytes (Inst w') = 0 /\
      RemainingBytes (Inst w') = 0 /\
      reg_ER (Dev w') = 0 /\
      Z.land (reg_IEN (Dev w')) (u32 XSPIPS_IXR_DFLT_MASK) = 0 /\
      (Z.land (reg_CR (Dev w)) XSPIPS_CR_SSFORCE_MASK <> 0 ->
       Z.land (reg_CR (Dev w')) XSPIPS_CR_SSCTRL_MASK
       = XSPIPS_CR_SSCTRL_MASK).
Proof.
  intros fuel w Hss Hready Hmodf Htxow Hrem Hreq.
  rewrite Handler_no_mode_fault by assumption.
  apply Z.eqb_neq in Htxow. rewrite Htxow. cbn [negb].
  destruct (drain_RXFIFO_spec (Z.to_nat (RequestedBytes (Inst w)))
              (entered w)) as (q & m & Edrain).
  { change (Inst (entered w)) with (Inst w). rewrite Z2Nat.id by lia. lia. }
  change (Inst (entered w)) with (Inst w) in Edrain.
  rewrite Z2Nat.id in Edrain by lia.
  assert (ETX : exists w2,
             Handler_TXOW user_call (entered w)
             = callback w XST_SPI_TRANSFER_DONE 0 w2 /\
             IsBusy (Inst w2) = false /\
             RequestedBytes (Inst w2) = 0 /\
             RemainingBytes (Inst w2) = 0 /\
             reg_ER (Dev w2) = 0 /\
             Z.land (reg_IEN (Dev w2)) (u32 XSPIPS_IXR_DFLT_MASK) = 0 /\
             (Z.land (reg_CR (Dev w)) XSPIPS_CR_SSFORCE_MASK <> 0 ->
              Z.land (reg_CR (Dev w2)) XSPIPS_CR_SSCTRL_MASK
              = XSPIPS_CR_SSCTRL_MASK)).
  { unfold Handler_TXOW, RxFifo_drain, TxFifo_fill.
    cbv beta iota zeta delta [bind load].
    change (Inst (entered w)) with (Inst w).
    rewrite Hrem, Z.sub_0_r, u32_small by lia.
    rewrite Edrain. drv_simpl. rewrite Hrem. cbn [Z.to_nat fill_TXFIFO ret].
    drv_simpl. rewrite Z.sub_diag, Hrem. cbn [Z.eqb andb].
    rewrite Handler_done_spec.
    eexists. split; [reflexivity | ].
    repeat split; try reflexivity; try exact Hrem.
    - unfold deselected. drv_simpl.
      match goal with
      | |- context [if ?c then _ else _] => destruct c
      end; drv_simpl; apply land_lnot_same.
    - intros Hman.
      match goal with
      | |- context [deselected ?w0] =>
          pose proof (deselected_field w0 Hss) as Hd
      end.
      drv_simpl. apply Hd. unfold entered. drv_simpl.
      rewrite dev_clock_reg_CR. exact Hman. }
  destruct ETX as (w2 & E & H1 & H2 & H3 & H4 & H5 & H6).
  exists w2. split; [ | repeat split; assumption ].
  unfold bind. rewrite E. reflexivity.
Qed.

End HandlerFacts.




Lemma zynq_levels_ok (D : Z) : levels_ok (hw_with_depth D).
Proof. unfold levels_ok; cbn. repeat split; discriminate. Qed.

(** On a controller with a 3-byte FIFO the state with 6 of 10 bytes
    received back has RequestedBytes 4 and RemainingBytes 1: the status
    handler is told 3 bytes. *)
Lemma mode_fault_after_six_of_ten_witness :
  exists n w',
    XSpiPs_InterruptHandler (hw := hw_with_depth 3) logging_call 20
      six_of_ten_mode_fault
    = logging_call 0x1234 500 XST_SPI_MODE_FAULT n w' /\
    n = 3 /\
    IsBusy (Inst w') = false /\
    RxFifo (Dev w') = [].
Proof.
  destruct (mode_fault_after_six_of_ten (hw := hw_with_depth 3)
              logging_call 20 six_of_ten_mode_fault)
    as (n & w' & Hrun & Hn & _ & Hbusy & Hrx & _).
  - apply zynq_levels_ok.
  - reflexivity.
  - reflexivity.
  - vm_compute. lia.
  - reflexivity.
  - vm_compute. split; discriminate.
  - exists n, w'. split; [exact Hrun | ].
    split; [rewrite Hn; reflexivity | split; assumption].
Defined.

(** After the three bytes of a 3-byte transfer went out, the handler
    reports the transfer done with a byte count of 0. *)
Lemma transfer_done_reports_zero_bytes_witness :
  exists w',
    XSpiPs_InterruptHandler (hw := XSpiPs_zynq) logging_call 20 three_sent
    = bind (logging_call 0x1234 500 XST_SPI_TRANSFER_DONE 0)
        (fun _ => Handler_faults (hw := XSpiPs_zynq) logging_call
                    (dev_status (hw := XSpiPs_zynq) (Dev three_sent))) w' /\
    IsBusy (Inst w') = false /\
    reg_ER (Dev w') = 0.
Proof.
  destruct (transfer_done_reports_zero_bytes (hw := XSpiPs_zynq)
              logging_call 20 three_sent)
    as (w' & Hrun & Hbusy & _ & _ & Her & _).
  - apply zynq_ss_field_ok.
  - reflexivity.
  - vm_compute. discriminate.
  - vm_compute. discriminate.
  - reflexivity.
  - vm_compute. split; [discriminate | reflexivity].
  - exists w'. split; [exact Hrun | split; assumption].
Defined.

(** Ten bytes of a transfer queued, four of them sent, when a mode fault,
    a receive overrun or a transmit underrun is latched: the transmit FIFO
    is not empty, so the transmit-ready flag is down and the status
    handler finds the device enabled and the counters at 10 and 0.  When
    the overrun is latched after the last of three bytes went out, the
    transmit-ready arm completes the transfer first and the status
    handler, called a second time, finds the device disabled and both
    counters zero. *)
Lemma fault_state_at_callback_witness :
  (exists n w',
     XSpiPs_InterruptHandler (hw := XSpiPs_zynq) logging_call 20
       mode_fault_world
     = logging_call 0x1234 500 XST_SPI_MODE_FAULT n w' /\
     IsBusy (Inst w') = false /\
     dev_enabled (hw := XSpiPs_zynq) (Dev w') = false) /\
  (exists w',
     XSpiPs_InterruptHandler (hw := XSpiPs_zynq) logging_call 20
       overrun_world
     = bind (logging_call 0x1234 500 XST_SPI_RECEIVE_OVERRUN 10)
         (fun _ => ret tt) w' /\
     IsBusy (Inst w') = false /\
     Z.land (reg_CR (Dev w')) 0x3C00 = 0x3C00 /\
     reg_ER (Dev w') = 1 /\
     RequestedBytes (Inst w') = 10 /\
     RemainingBytes (Inst w') = 0) /\
  (exists w',
     XSpiPs_InterruptHandler (hw := XSpiPs_zynq) logging_call 20
       underrun_world
     = logging_call 0x1234 500 XST_SPI_TRANSMIT_UNDERRUN 10 w' /\
     IsBusy (Inst w') = false /\
     Z.land (reg_CR (Dev w')) 0x3C00 = 0x3C00 /\
     reg_ER (Dev w') = 1 /\
     RequestedBytes (Inst w') = 10 /\
     RemainingBytes (Inst w') = 0) /\
  (exists w',
     XSpiPs_InterruptHandler (hw := XSpiPs_zynq) logging_call 20
       three_sent_overrun
     = bind (logging_call 0x1234 500 XST_SPI_RECEIVE_OVERRUN 0)
         (fun _ => ret tt) w' /\
     IsBusy (Inst w') = false /\
     reg_ER (Dev w') = 0 /\
     RequestedBytes (Inst w') = 0 /\
     RemainingBytes (Inst w') = 0).
Proof.
  split; [ | split; [ | split ] ].
  - destruct (fault_state_at_callback (hw := XSpiPs_zynq) logging_call 20
                mode_fault_world) as (Hmodf & _ & _).
    + apply zynq_levels_ok.
    + apply zynq_ss_field_ok.
    + reflexivity.
    + vm_compute. lia.
    + destruct Hmodf as (n & w' & Hrun & Hbusy & _ & _ & Hdis & _).
      * reflexivity.
      * exists n, w'. split; [exact Hrun | split; assumption].
  - destruct (fault_state_at_callback (hw := XSpiPs_zynq) logging_call 20
                overrun_world) as (_ & Hovr & _).
    + apply zynq_levels_ok.
    + apply zynq_ss_field_ok.
    + reflexivity.
    + vm_compute. lia.
    + destruct (Hovr ltac:(vm_compute; discriminate)
                  ltac:(vm_compute; discriminate)
                  (entered (hw := XSpiPs_zynq) overrun_world) eq_refl)
        as (w' & Hrun & Hbusy & Hcs & Her & Hreq & Hrem & _).
      exists w'. split; [exact Hrun | split; [exact Hbusy | ] ].
      split; [apply Hcs; vm_compute; discriminate | ].
      split; [rewrite Her; reflexivity | ].
      split; [rewrite Hreq | rewrite Hrem]; reflexivity.
  - destruct (fault_state_at_callback (hw := XSpiPs_zynq) logging_call 20
                underrun_world) as (_ & _ & Huf).
    + apply zynq_levels_ok.
    + apply zynq_ss_field_ok.
    + reflexivity.
    + vm_compute. lia.
    + destruct (Huf ltac:(vm_compute; discriminate)
                  ltac:(vm_compute; discriminate)
                  (entered (hw := XSpiPs_zynq) underrun_world)
                  (entered (hw := XSpiPs_zynq) underrun_world)
                  eq_refl eq_refl)
        as (w' & Hrun & Hbusy & Hcs & Her & Hreq & Hrem & _).
      exists w'. split; [exact Hrun | split; [exact Hbusy | ] ].
      split; [apply Hcs; vm_compute; discriminate | ].
      split; [rewrite Her; reflexivity | ].
      split; [rewrite Hreq | rewrite Hrem]; reflexivity.
  - destruct (fault_state_at_callback (hw := XSpiPs_zynq) logging_call 20
                three_sent_overrun) as (_ & Hovr & _).
    + apply zynq_levels_ok.
    + apply zynq_ss_field_ok.
    + reflexivity.
    + vm_compute. lia.
    + destruct (Hovr ltac:(vm_compute; discriminate)
                  ltac:(vm_compute; discriminate)
                  (world_of
                     (Handler_TXOW (hw := XSpiPs_zynq) logging_call
                        (entered (hw := XSpiPs_zynq) three_sent_overrun))
                     three_sent_overrun))
        as (w' & Hrun & Hbusy & _ & Her & Hreq & Hrem & _).
      * vm_compute. reflexivity.
      * exists w'. split; [exact Hrun | split; [exact Hbusy | ] ].
        split; [rewrite Her; reflexivity | ].
        split; [rewrite Hreq | rewrite Hrem]; reflexivity.
Defined.

(** C3 as stated fails.  On a receive overrun the status handler is called
    while the device is still enabled; on a mode fault it is called, in
    manual chip-select mode, while the chip select is still asserted. *)
Lemma fault_callback_not_clean_idle :
  (exists w',
     (forall user_call,
        XSpiPs_InterruptHandler (hw := XSpiPs_zynq) user_call 20
          overrun_world
        = user_call 0x1234 500 XST_SPI_RECEIVE_OVERRUN 10 w') /\
     ~ clean_idle (hw := XSpiPs_zynq) w') /\
  (exists w',
     (forall user_call,
        XSpiPs_InterruptHandler (hw := XSpiPs_zynq) user_call 20
          mode_fault_world
        = user_call 0x1234 500 XST_SPI_MODE_FAULT 10 w') /\
     ~ clean_idle (hw := XSpiPs_zynq) w').
Proof.
  split.
  - exists (world_of
              (XSpiPs_InterruptHandler (hw := XSpiPs_zynq) silent_call 20
                 overrun_world) overrun_world).
    split.
    + intros user_call.
      rewrite <- (bind_ret_tt
                    (user_call 0x1234 500 XST_SPI_RECEIVE_OVERRUN 10)).
      vm_compute. reflexivity.
    + intros (_ & _ & Hen). vm_compute in Hen. discriminate.
  - exists (world_of
              (XSpiPs_InterruptHandler (hw := XSpiPs_zynq) silent_call 20
                 mode_fault_world) mode_fault_world).
    split.
    + intros user_call. vm_compute. reflexivity.
    + intros (_ & Hcs & _).
      assert (H := Hcs ltac:(vm_compute; discriminate)).
      vm_compute in H. discriminate.
Qed.

(** ** XSpiPs_Abort, as a whole *)

Lemma land_lnot_disjoint (a m : Z) : Z.land a m = 0 -> Z.land a (Z.lnot m) = a.
Proof.
  intros H. apply Z.bits_inj'. intros i Hi.
  rewrite Z.land_spec, Z.lnot_spec by lia.
  pose proof (land_disjoint_bit _ _ i H) as Hb.
  destruct (Z.testbit a i), (Z.testbit m i); cbn in *; congruence.
Qed.

Section AbortClaim.
Context {hw : XSpiPs_Hw}.

(** C9. With fuel for the bytes in the receive FIFO, XSpiPs_Abort returns;
    it leaves the device disabled, the receive FIFO empty (memory and the
    receive pointer untouched: the bytes are discarded), the mode-fault
    flag cleared, both counters zero and the busy flag false, and changes
    nothing else.  On an idle instance whose device is already in that
    state it changes nothing at all. *)
Theorem Abort_clears_transfer_state :
  forall (fuel : nat) (w : World),
    levels_ok hw ->
    (length (RxFifo (Dev w)) < fuel)%nat ->
    exists w',
      XSpiPs_Abort fuel w = Ok (tt, w') /\
      reg_ER (Dev w') = 0 /\
      dev_enabled (Dev w') = false /\
      RxFifo (Dev w') = [] /\
      Z.land (reg_SR (Dev w')) (u32 XSPIPS_IXR_MODF_MASK) = 0 /\
      RemainingBytes (Inst w') = 0 /\
      RequestedBytes (Inst w') = 0 /\
      IsBusy (Inst w') = false /\
      Mem w' = Mem w /\
      Inst w' = set_IsBusy false
                  (set_RequestedBytes 0 (set_RemainingBytes 0 (Inst w))) /\
      reg_CR (Dev w') = reg_CR (Dev w) /\
      reg_IEN (Dev w') = reg_IEN (Dev w) /\
      TxFifo (Dev w') = TxFifo (Dev w) /\
      (IsBusy (Inst w) = false ->
       RequestedBytes (Inst w) = 0 ->
       RemainingBytes (Inst w) = 0 ->
       reg_ER (Dev w) = 0 ->
       RxFifo (Dev w) = [] ->
       Z.land (reg_SR (Dev w)) (u32 XSPIPS_IXR_MODF_MASK) = 0 ->
       w' = w).
Proof.
  intros fuel w Hlev Hfuel. exists (aborted w).
  split; [apply Abort_spec; assumption | ].
  repeat split; try reflexivity.
  - cbn. apply land_lnot_same.
  - intros Hbusy Hreq Hrem Her Hrx Hsr.
    destruct w as [i d m]. destruct i, d. unfold aborted. cbn in *.
    subst. rewrite land_lnot_disjoint by assumption. reflexivity.
Qed.

End AbortClaim.

Lemma Abort_clears_transfer_state_witness :
  exists w',
    XSpiPs_Abort (hw := XSpiPs_zynq) 10 mode_fault_world = Ok (tt, w') /\
    reg_ER (Dev w') = 0 /\
    RxFifo (Dev w') = [] /\
    RemainingBytes (Inst w') = 0 /\
    RequestedBytes (Inst w') = 0 /\
    IsBusy (Inst w') = false.
Proof.
  destruct (Abort_clears_transfer_state (hw := XSpiPs_zynq) 10
              mode_fault_world)
    as (w' & Hrun & Her & _ & Hrx & _ & Hrem & Hreq & Hbusy & _).
  - apply zynq_levels_ok.
  - vm_compute. lia.
  - exists w'. repeat split; assumption.
Defined.

(** ** The polled transfer *)

(** Split a conjunction into its conjuncts, and nothing else. *)
Ltac conjuncts := repeat match goal with |- _ /\ _ => split end.

Section FifoLoops.
Context {hw : XSpiPs_Hw}.

(** The fill loop pushes [min RemainingBytes (depth - TransCount)] bytes,
    whatever the width of its counter as long as the counter does not wrap
    below the depth. *)
Lemma fill_TXFIFO_spec (wrap : Z -> Z) :
  (forall t, 0 <= t < XSPIPS_FIFO_DEPTH -> wrap (t + 1) = t + 1) ->
  forall (n : nat) (w : World) (tc : Z),
    0 <= tc <= XSPIPS_FIFO_DEPTH ->
    0 <= RemainingBytes (Inst w) < 2 ^ 32 ->
    RemainingBytes (Inst w) <= Z.of_nat n ->
    exists bytes,
      Z.of_nat (length bytes)
        = Z.min (RemainingBytes (Inst w)) (XSPIPS_FIFO_DEPTH - tc) /\
      fill_TXFIFO wrap n tc w
      = Ok (tc + Z.of_nat (length bytes),
            mkWorld
              (set_RemainingBytes
                 (RemainingBytes (Inst w) - Z.of_nat (length bytes))
                 (set_SendBufferPtr
                    (SendBufferPtr (Inst w) + Z.of_nat (length bytes))
                    (Inst w)))
              (set_TxFifo (TxFifo (Dev w) ++ bytes) (Dev w))
              (Mem w)).
Proof.
  intros Hwrap.
  assert (Hstop : forall (w : World) (tc : Z),
             0 <= tc <= XSPIPS_FIFO_DEPTH ->
             0 <= RemainingBytes (Inst w) ->
             (0 <? RemainingBytes (Inst w)) && (tc <? XSPIPS_FIFO_DEPTH)
               = false ->
             exists bytes : list Z,
               Z.of_nat (length bytes)
                 = Z.min (RemainingBytes (Inst w)) (XSPIPS_FIFO_DEPTH - tc) /\
               Ok (A := Z * World) (tc, w)
               = Ok (tc + Z.of_nat (length bytes),
                     mkWorld
                       (set_RemainingBytes
                          (RemainingBytes (Inst w) - Z.of_nat (length bytes))
                          (set_SendBufferPtr
                             (SendBufferPtr (Inst w)
                              + Z.of_nat (length bytes))
                             (Inst w)))
                       (set_TxFifo (TxFifo (Dev w) ++ bytes) (Dev w))
                       (Mem w))).
  { intros w tc Htc Hrem Hc. exists []. split.
    - apply andb_false_iff in Hc.
      destruct Hc as [Hc | Hc]; [apply Z.ltb_ge in Hc | apply Z.ltb_ge in Hc];
        cbn [length Z.of_nat]; lia.
    - destruct w as [i d m]. destruct i, d. cbn.
      rewrite Z.add_0_r, Z.sub_0_r, Z.add_0_r, app_nil_r. reflexivity. }
  induction n as [ | n IH]; intros w tc Htc Hrem Hn.
  - cbn [fill_TXFIFO]. apply Hstop; [assumption | lia | ].
    assert (E : (0 <? RemainingBytes (Inst w)) = false)
      by (apply Z.ltb_ge; cbn in Hn; lia).
    rewrite E. reflexivity.
  - cbn [fill_TXFIFO]. cbv beta iota delta [bind load].
    destruct ((0 <? RemainingBytes (Inst w)) && (tc <? XSPIPS_FIFO_DEPTH))
      eqn:Hc.
    + apply andb_true_iff in Hc. destruct Hc as [Hc1 Hc2].
      apply Z.ltb_lt in Hc1. apply Z.ltb_lt in Hc2.
      cbv beta iota delta [bind load store mem_read XSpiPs_SendByte
                             XSpiPs_Out32 dev_write].
      drv_simpl.
      rewrite Hwrap by lia. rewrite u32_small by lia.
      match goal with
      | |- context [fill_TXFIFO wrap n (tc + 1) ?w1] =>
          destruct (IH w1 (tc + 1)) as (bytes & Hlen & E)
      end.
      { lia. }
      { drv_simpl. lia. }
      { drv_simpl. lia. }
      drv_simpl.
      match type of E with
      | context [TxFifo (Dev w) ++ [?b]] => exists (b :: bytes)
      end.
      split.
      * cbn [length]. lia.
      * rewrite E. cbn [length]. rewrite Nat2Z.inj_succ.
        drv_fields. rewrite <- app_assoc. cbn [app].
        apply f_equal. apply f_equal2; [lia | ].
        apply f_equal3; [f_equal; lia | reflexivity | reflexivity].
    + apply Hstop; [assumption | lia | exact Hc].
Qed.


(** While the device is enabled the wait loop sees the transmit FIFO go
    empty: every byte queued goes out and one byte comes in for it. *)
Lemma wait_TXOW_spec :
  levels_ok hw ->
  forall (tx : list Z) (fuel : nat) (w : World),
    dev_enabled (Dev w) = true ->
    TxFifo (Dev w) = tx ->
    (length tx < fuel)%nat ->
    exists rx miso,
      length rx = length tx /\
      wait_TXOW fuel w
      = Ok (tt,
            set_Dev
              (mkDevice (reg_CR (Dev w)) (reg_SR (Dev w)) (reg_IEN (Dev w))
                 (reg_ER (Dev w)) [] (RxFifo (Dev w) ++ rx)
                 (Mosi (Dev w) ++ tx) miso)
              w).
Proof.
  intros Hlev. pose proof Hlev as (Hnz & _ & _).
  induction tx as [ | b tx IH]; intros fuel w Hen Htx Hfuel;
    (destruct fuel as [ | fuel]; [cbn in Hfuel; lia | ]);
    cbn [wait_TXOW];
    cbv beta iota delta [bind load XSpiPs_ReadReg XSpiPs_In32 dev_read].
  - rewrite (status_TXOW_set _ Htx).
    assert (E : (XSPIPS_IXR_TXOW_MASK =? 0) = false)
      by (apply Z.eqb_neq; exact Hnz).
    rewrite E. exists [], (Miso (Dev w)). split; [reflexivity | ].
    unfold dev_clock. rewrite Hen, Htx.
    destruct w as [i d m]. destruct d. cbn in *. subst.
    rewrite !app_nil_r. reflexivity.
  - rewrite (status_TXOW_clear Hlev) by (rewrite Htx; discriminate).
    rewrite Z.eqb_refl.
    unfold dev_clock. rewrite Hen, Htx.
    match goal with
    | |- context [wait_TXOW fuel ?w1] =>
        destruct (IH fuel w1) as (rx & miso & Hlen & E)
    end.
    + exact Hen.
    + reflexivity.
    + cbn in Hfuel. lia.
    + rewrite E. exists (hd 0 (Miso (Dev w)) :: rx), miso.
      split; [cbn; lia | ].
      drv_simpl. unfold set_Dev. drv_simpl.
      rewrite <- !app_assoc. reflexivity.
Qed.

(** The three blocks that only rewrite the control register. *)
Lemma set_reg_CR_same (d : Device) : set_reg_CR (reg_CR d) d = d.
Proof. destruct d. reflexivity. Qed.

Lemma apply_SlaveSelect_spec (w : World) :
  exists c, apply_SlaveSelect w = Ok (tt, set_Dev (set_reg_CR c (Dev w)) w).
Proof.
  unfold apply_SlaveSelect.
  cbv beta iota delta [bind load XSpiPs_IsManualChipSelect XSpiPs_ReadReg
                         XSpiPs_In32 dev_read ret].
  destruct (negb (Z.land (reg_CR (Dev w)) XSPIPS_CR_SSFORCE_MASK =? 0)).
  - eexists. reflexivity.
  - exists (reg_CR (Dev w)). rewrite set_reg_CR_same. reflexivity.
Qed.

Lemma issue_ManualStart_spec (w : World) :
  exists c, issue_ManualStart w = Ok (tt, set_Dev (set_reg_CR c (Dev w)) w).
Proof.
  unfold issue_ManualStart.
  cbv beta iota delta [bind load XSpiPs_IsManualStart XSpiPs_IsMaster
                         XSpiPs_ReadReg XSpiPs_In32 dev_read ret].
  destruct (negb (Z.land (reg_CR (Dev w)) XSPIPS_CR_MANSTRTEN_MASK =? 0)).
  - cbv beta iota delta [bind load XSpiPs_ReadReg XSpiPs_In32 dev_read ret].
    drv_simpl.
    destruct (negb (Z.land (reg_CR (Dev w)) XSPIPS_CR_MSTREN_MASK =? 0)).
    + eexists. reflexivity.
    + exists (reg_CR (Dev w)). rewrite set_reg_CR_same. reflexivity.
  - exists (reg_CR (Dev w)). rewrite set_reg_CR_same. reflexivity.
Qed.

Lemma length_skipn_all {A : Type} (l : list A) : skipn (length l) l = [].
Proof. induction l; [reflexivity | assumption]. Qed.

(** One pass of the polled loop. *)
Lemma PolledTransfer_pass_spec (fuel : nat) (r : Z) (w : World) :
  depth_ok hw ->
  levels_ok hw ->
  0 < r < 2 ^ 32 ->
  between_passes r w ->
  (Z.to_nat (Z.min r XSPIPS_FIFO_DEPTH) < fuel)%nat ->
  let k := Z.min r XSPIPS_FIFO_DEPTH in
  exists w',
    pass_moves fuel k w w' /\
    between_passes (r - k) w' /\
    Z.of_nat (length (Mosi (Dev w')))
      = Z.of_nat (length (Mosi (Dev w))) + k /\
    SendBufferPtr (Inst w') = SendBufferPtr (Inst w) + k /\
    IsBusy (Inst w') = IsBusy (Inst w) /\
    IsReady (Inst w') = IsReady (Inst w) /\
    StatusHandler (Inst w') = StatusHandler (Inst w).
Proof.
  intros Hdepth Hlev Hr (Hrem & Hreq & Hen & Htx & Hrx) Hfuel k.
  assert (Hk : 0 < k <= r) by (unfold depth_ok in Hdepth; subst k; lia).
  (* fill *)
  destruct (fill_TXFIFO_spec u32
              (fun t Ht => u32_small (t + 1)
                             ltac:(unfold depth_ok in Hdepth; lia))
              (Z.to_nat r) w 0) as (bytes & Hlen & Efill).
  { unfold depth_ok in Hdepth. lia. }
  { lia. }
  { rewrite Hrem, Z2Nat.id by lia. lia. }
  rewrite Hrem, Z.sub_0_r in Hlen. fold k in Hlen.
  rewrite Hlen, Hrem, Htx, Z.add_0_l in Efill. cbn [app] in Efill.
  set (wf := mkWorld
               (set_RemainingBytes (r - k)
                  (set_SendBufferPtr (SendBufferPtr (Inst w) + k) (Inst w)))
               (set_TxFifo bytes (Dev w)) (Mem w)) in *.
  (* manual start *)
  destruct (issue_ManualStart_spec wf) as (c & Estart).
  set (ws := set_Dev (set_reg_CR c (Dev wf)) wf) in *.
  (* wait *)
  destruct (wait_TXOW_spec Hlev bytes fuel ws) as (rx & miso & Hrxlen & Ewait).
  { exact Hen. }
  { reflexivity. }
  { apply Nat2Z.inj_lt. rewrite Hlen. lia. }
  match type of Ewait with
  | _ = Ok (tt, ?x) => set (ww := x) in *
  end.
  (* drain *)
  destruct (drain_RXFIFO_spec (Z.to_nat k) ww) as (q & m & Edrain).
  { subst ww ws wf. drv_simpl. rewrite Hreq, Z2Nat.id by lia. lia. }
  match type of Edrain with
  | _ = Ok (tt, ?x) => set (w' := x) in *
  end.
  assert (Hrx' : RxFifo (Dev w') = []).
  { subst w' ww ws wf. drv_simpl. rewrite Hrx. cbn [app].
    replace (Z.to_nat k) with (length rx)
      by (rewrite Hrxlen; apply Nat2Z.inj; rewrite Z2Nat.id by lia;
          exact Hlen).
    apply length_skipn_all. }
  exists w'. conjuncts.
  - exists wf, ws, ww. conjuncts.
    + unfold TxFifo_fill. cbv beta iota delta [bind load].
      rewrite Hrem. exact Efill.
    + subst wf. drv_simpl. rewrite Htx. cbn [length Z.of_nat]. lia.
    + subst wf. drv_simpl. rewrite Hrem. reflexivity.
    + exact Estart.
    + exact Ewait.
    + subst ww ws wf. drv_simpl. rewrite Hrx. cbn [app].
      rewrite Hrxlen. exact Hlen.
    + subst ww ws wf. drv_simpl. rewrite length_app, Nat2Z.inj_add. lia.
    + exact Edrain.
    + exact Hrx'.
    + subst w' ww ws wf. drv_simpl. rewrite Z2Nat.id by lia.
      rewrite Hreq. reflexivity.
    + unfold PolledTransfer_pass, TxFifo_fill.
      cbv beta iota delta [bind load]. rewrite Hrem, Efill.
      cbv beta iota. rewrite Estart, Ewait. exact Edrain.
  - unfold between_passes. conjuncts.
    + subst w' ww ws wf. reflexivity.
    + subst w' ww ws wf. drv_simpl. rewrite Z2Nat.id by lia.
      rewrite Hreq. reflexivity.
    + subst w' ww ws wf. exact Hen.
    + subst w' ww ws wf. reflexivity.
    + exact Hrx'.
  - subst w' ww ws wf. drv_simpl. rewrite length_app, Nat2Z.inj_add. lia.
  - reflexivity.
  - reflexivity.
  - reflexivity.
  - reflexivity.
Qed.


(** ceil(r / D) passes: one pass, then those of what is left. *)
Lemma passes_step (r : Z) :
  depth_ok hw ->
  0 < r ->
  Z.to_nat ((r + XSPIPS_FIFO_DEPTH - 1) / XSPIPS_FIFO_DEPTH)
  = S (Z.to_nat ((r - Z.min r XSPIPS_FIFO_DEPTH + XSPIPS_FIFO_DEPTH - 1)
                 / XSPIPS_FIFO_DEPTH)).
Proof.
  unfold depth_ok. set (D := XSPIPS_FIFO_DEPTH). intros HD Hr.
  destruct (Z.le_gt_cases r D) as [Hle | Hgt].
  - rewrite Z.min_l by lia.
    replace (r - r + D - 1) with (D - 1) by lia.
    rewrite (Z.div_small (D - 1) D) by lia.
    assert (E : (r + D - 1) / D = 1)
      by (symmetry; apply (Z.div_unique _ _ 1 (r - 1)); lia).
    rewrite E. reflexivity.
  - rewrite Z.min_r by lia.
    replace (r + D - 1) with (r - D + D - 1 + 1 * D) by lia.
    rewrite Z.div_add by lia.
    assert (0 <= (r - D + D - 1) / D) by (apply Z.div_pos; lia).
    rewrite Z2Nat.inj_add by lia. cbn. lia.
Qed.

Lemma passes_zero (r : Z) :
  depth_ok hw ->
  0 <= r ->
  Z.to_nat ((r + XSPIPS_FIFO_DEPTH - 1) / XSPIPS_FIFO_DEPTH) = 0%nat ->
  r = 0.
Proof.
  intros HD Hr H. destruct (Z.eq_dec r 0) as [E | E]; [exact E | ].
  rewrite passes_step in H by (assumption || lia). discriminate.
Qed.

Lemma after_passes_S (fuel : nat) (j : nat) (w w1 : World) :
  PolledTransfer_pass fuel w = Ok (tt, w1) ->
  PolledTransfer_passes fuel j w1 = Ok (tt, after_passes fuel j w1) ->
  PolledTransfer_passes fuel (S j) w = Ok (tt, after_passes fuel j w1) /\
  after_passes fuel (S j) w = after_passes fuel j w1.
Proof.
  intros Hpass Hrest.
  assert (E : PolledTransfer_passes fuel (S j) w
              = Ok (tt, after_passes fuel j w1)).
  { cbn [PolledTransfer_passes]. unfold bind. rewrite Hpass. exact Hrest. }
  split; [exact E | ]. unfold after_passes at 1. rewrite E. reflexivity.
Qed.

(** The loop of the polled transfer runs ceil(r / D) passes. *)
Lemma PolledTransfer_loop_spec (fuel : nat) :
  depth_ok hw ->
  levels_ok hw ->
  forall (k : nat) (r : Z) (w : World) (n : nat),
    0 <= r < 2 ^ 32 ->
    Z.to_nat ((r + XSPIPS_FIFO_DEPTH - 1) / XSPIPS_FIFO_DEPTH) = k ->
    between_passes r w ->
    (k <= n)%nat ->
    (Z.to_nat (Z.min r XSPIPS_FIFO_DEPTH) < fuel)%nat ->
    (forall j, (j < k)%nat ->
       PolledTransfer_passes fuel j w = Ok (tt, after_passes fuel j w) /\
       PolledTransfer_continue (Inst (after_passes fuel j w)) = true /\
       RemainingBytes (Inst (after_passes fuel j w))
         = r - Z.of_nat j * XSPIPS_FIFO_DEPTH /\
       RequestedBytes (Inst (after_passes fuel j w))
         = r - Z.of_nat j * XSPIPS_FIFO_DEPTH /\
       pass_moves fuel
         (Z.min (RemainingBytes (Inst (after_passes fuel j w)))
            XSPIPS_FIFO_DEPTH)
         (after_passes fuel j w) (after_passes fuel (S j) w)) /\
    PolledTransfer_passes fuel k w = Ok (tt, after_passes fuel k w) /\
    PolledTransfer_loop fuel n w = Ok (tt, after_passes fuel k w) /\
    between_passes 0 (after_passes fuel k w) /\
    Z.of_nat (length (Mosi (Dev (after_passes fuel k w))))
      = Z.of_nat (length (Mosi (Dev w))) + r /\
    SendBufferPtr (Inst (after_passes fuel k w))
      = SendBufferPtr (Inst w) + r /\
    IsBusy (Inst (after_passes fuel k w)) = IsBusy (Inst w) /\
    IsReady (Inst (after_passes fuel k w)) = IsReady (Inst w) /\
    StatusHandler (Inst (after_passes fuel k w)) = StatusHandler (Inst w).
Proof.
  intros Hdepth Hlev.
  induction k as [ | k IH]; intros r w n Hr Hk Hbetween Hn Hfuel.
  - assert (r = 0) by (apply passes_zero; assumption || lia). subst r.
    change (after_passes fuel 0 w) with w.
    pose proof Hbetween as (Hrem & Hreq & _).
    conjuncts; try reflexivity; try lia; try assumption.
    assert (E : PolledTransfer_continue (Inst w) = false)
        by (unfold PolledTransfer_continue; rewrite Hrem, Hreq; reflexivity).
    destruct n; cbn [PolledTransfer_loop]; cbv beta iota delta [bind load];
      rewrite E; reflexivity.
  - assert (Hpos : 0 < r).
    { destruct (Z.eq_dec r 0) as [E | E]; [ | lia ]. subst r.
      replace (0 + XSPIPS_FIFO_DEPTH - 1) with (XSPIPS_FIFO_DEPTH - 1) in Hk
        by lia.
      unfold depth_ok in Hdepth. rewrite Z.div_small in Hk by lia.
      discriminate. }
    rewrite passes_step in Hk by assumption. injection Hk as Hk.
    pose proof Hbetween as (Hrem & Hreq & _).
    destruct (PolledTransfer_pass_spec fuel r w Hdepth Hlev)
      as (w1 & Hmoves & Hbetween1 & Hmosi1 & Hsend1 & Hbusy1 & Hready1 & Hsh1);
      [lia | assumption | assumption | ].
    pose proof Hmoves as (_ & _ & _ & _ & _ & _ & _ & _ & _ & _ & _ & _ & _
                          & Hpass).
    set (k0 := Z.min r XSPIPS_FIFO_DEPTH) in *.
    assert (Hk0 : 0 < k0 <= r) by (unfold depth_ok in Hdepth; subst k0; lia).
    destruct n as [ | n]; [lia | ].
    destruct (IH (r - k0) w1 n)
      as (Hjs & Hpasses & Hloop & Hend & Hmosi & Hsend & Hbusy & Hready & Hsh);
      [lia | exact Hk | exact Hbetween1 | lia | | ].
    { unfold depth_ok in Hdepth. subst k0. lia. }
    destruct (after_passes_S fuel k w w1 Hpass Hpasses) as (EpS & EaS).
    rewrite EaS.
    conjuncts; try assumption; try lia.
    + intros j Hj. destruct j as [ | j].
      * change (after_passes fuel 0 w) with w.
        assert (Ea1 : after_passes fuel 1 w = w1).
        { unfold after_passes. cbn [PolledTransfer_passes]. unfold bind.
          rewrite Hpass. reflexivity. }
        rewrite Ea1, Hrem, Hreq. conjuncts; try reflexivity; try lia.
        -- unfold PolledTransfer_continue. rewrite Hrem.
           apply orb_true_iff. left. apply Z.ltb_lt. exact Hpos.
        -- exact Hmoves.
      * assert (Hj' : (j < k)%nat) by lia.
        destruct (Hjs j Hj') as (Epj & Hcont & Hremj & Hreqj & Hmovesj).
        destruct (after_passes_S fuel j w w1 Hpass Epj) as (EpSj & EaSj).
        assert (HSj : (S j < k)%nat \/ S j = k) by lia.
        assert (EaSSj : after_passes fuel (S (S j)) w
                        = after_passes fuel (S j) w1).
        { destruct HSj as [HSj | HSj].
          - destruct (Hjs (S j) HSj) as (EpSj1 & _).
            apply (after_passes_S fuel (S j) w w1 Hpass EpSj1).
          - rewrite HSj.
            apply (after_passes_S fuel k w w1 Hpass Hpasses). }
        rewrite EaSj, EaSSj.
        assert (Hfull : k0 = XSPIPS_FIFO_DEPTH).
        { pose proof Hcont as Hc. unfold PolledTransfer_continue in Hc.
          rewrite Hremj, Hreqj in Hc. apply orb_true_iff in Hc.
          assert (0 < r - k0 - Z.of_nat j * XSPIPS_FIFO_DEPTH)
            by (destruct Hc as [Hc | Hc]; apply Z.ltb_lt in Hc; exact Hc).
          unfold depth_ok in Hdepth. subst k0. nia. }
        conjuncts; try assumption.
        -- rewrite Hremj. nia.
        -- rewrite Hreqj. nia.
    + cbn [PolledTransfer_loop]. cbv beta iota delta [bind load].
      assert (E : PolledTransfer_continue (Inst w) = true).
      { unfold PolledTransfer_continue. rewrite Hrem.
        apply orb_true_iff. left. apply Z.ltb_lt. exact Hpos. }
      rewrite E. fold (bind (PolledTransfer_pass fuel)
                         (fun _ => PolledTransfer_loop fuel n) w).
      unfold bind. rewrite Hpass. exact Hloop.
    + congruence.
    + congruence.
    + congruence.
Qed.


Lemma PolledTransfer_setup_spec (SendBufPtr RecvBufPtr ByteCount : Z)
  (w : World) :
  exists c,
    PolledTransfer_setup SendBufPtr RecvBufPtr ByteCount w
    = Ok (tt,
          mkWorld
            (set_RemainingBytes ByteCount
               (set_RequestedBytes ByteCount
                  (set_RecvBufferPtr RecvBufPtr
                     (set_SendBufferPtr SendBufPtr
                        (set_IsBusy true (Inst w))))))
            (set_reg_ER (u32 XSPIPS_ER_ENABLE_MASK)
               (set_reg_CR c (Dev w)))
            (Mem w)).
Proof.
  unfold PolledTransfer_setup. cbv beta iota delta [bind store].
  match goal with
  | |- context [apply_SlaveSelect ?w1] =>
      destruct (apply_SlaveSelect_spec w1) as (c & E)
  end.
  rewrite E. exists c. reflexivity.
Qed.

Lemma enabled_after_Enable (d : Device) :
  enable_ok hw ->
  dev_enabled (set_reg_ER (u32 XSPIPS_ER_ENABLE_MASK) d) = true.
Proof.
  intros Hen. unfold dev_enabled, enable_ok in *. drv_simpl.
  rewrite u32_small, Z.land_diag by lia.
  apply negb_true_iff, Z.eqb_neq. lia.
Qed.

(** C1. XSpiPs_PolledTransfer of N bytes on a ready, idle instance whose
    device FIFOs are empty returns XST_SUCCESS once it has enough fuel for
    its loops.  Its outer loop makes exactly ceil(N / D) passes: before
    pass j both counters are at N - j * D and the loop test holds, after
    the last pass it fails; each pass pushes min(RemainingBytes, D) bytes
    to the transmit FIFO and then pops exactly that many from the receive
    FIFO.  In total N bytes go out on the bus and both counters reach
    zero. *)
Theorem PolledTransfer_passes_and_bytes :
  forall (fuel : nat) (w : World) (SendBufPtr RecvBufPtr N : Z),
    depth_ok hw ->
    levels_ok hw ->
    enable_ok hw ->
    IsReady (Inst w) = true ->
    IsBusy (Inst w) = false ->
    SendBufPtr <> NULL ->
    0 < N < 2 ^ 32 ->
    TxFifo (Dev w) = [] ->
    RxFifo (Dev w) = [] ->
    (Z.to_nat N < fuel)%nat ->
    let D := XSPIPS_FIFO_DEPTH in
    let passes := Z.to_nat ((N + D - 1) / D) in
    exists w1 w',
      PolledTransfer_setup SendBufPtr RecvBufPtr N w = Ok (tt, w1) /\
      (forall j, (j < passes)%nat ->
         PolledTransfer_passes fuel j w1 = Ok (tt, after_passes fuel j w1) /\
         PolledTransfer_continue (Inst (after_passes fuel j w1)) = true /\
         RemainingBytes (Inst (after_passes fuel j w1)) = N - Z.of_nat j * D /\
         RequestedBytes (Inst (after_passes fuel j w1)) = N - Z.of_nat j * D /\
         pass_moves fuel
           (Z.min (RemainingBytes (Inst (after_passes fuel j w1))) D)
           (after_passes fuel j w1) (after_passes fuel (S j) w1)) /\
      PolledTransfer_passes fuel passes w1
        = Ok (tt, after_passes fuel passes w1) /\
      PolledTransfer_continue (Inst (after_passes fuel passes w1)) = false /\
      PolledTransfer_loop fuel fuel w1
        = Ok (tt, after_passes fuel passes w1) /\
      XSpiPs_PolledTransfer fuel SendBufPtr RecvBufPtr N w
        = Ok (XST_SUCCESS, w') /\
      RemainingBytes (Inst w') = 0 /\
      RequestedBytes (Inst w') = 0 /\
      IsBusy (Inst w') = false /\
      SendBufferPtr (Inst w') = SendBufPtr + N /\
      Z.of_nat (length (Mosi (Dev w')))
        = Z.of_nat (length (Mosi (Dev w))) + N /\
      TxFifo (Dev w') = [] /\
      RxFifo (Dev w') = [] /\
      reg_ER (Dev w') = 0.
Proof.
  intros fuel w s r N Hdepth Hlev Hen Hready Hbusy Hs HN Htx Hrx Hfuel D passes.
  destruct (PolledTransfer_setup_spec s r N w) as (c & Esetup).
  match type of Esetup with
  | _ = Ok (tt, ?x) => set (w1 := x) in *
  end.
  assert (Hbetween : between_passes N w1).
  { unfold between_passes. subst w1. drv_simpl. conjuncts; try reflexivity.
    - apply enabled_after_Enable. exact Hen.
    - exact Htx.
    - exact Hrx. }
  assert (Hpasses_le : (passes <= fuel)%nat).
  { subst passes D. unfold depth_ok in Hdepth.
    assert ((N + XSPIPS_FIFO_DEPTH - 1) / XSPIPS_FIFO_DEPTH <= N).
    { apply Z.div_le_upper_bound; nia. }
    lia. }
  destruct (PolledTransfer_loop_spec fuel Hdepth Hlev passes N w1 fuel)
    as (Hjs & Hpasses & Hloop & Hend & Hmosi & Hsend & Hb & Hrd & Hsh);
    [lia | reflexivity | exact Hbetween | exact Hpasses_le | | ].
  { unfold depth_ok in Hdepth. lia. }
  set (w2 := after_passes fuel passes w1) in *.
  destruct Hend as (Hrem2 & Hreq2 & Hen2 & Htx2 & Hrx2).
  exists w1.
  exists (set_Dev (set_reg_ER (u32 0)
                     (Dev (deselected (set_Inst
                                         (set_IsBusy false (Inst w2)) w2))))
            (set_Inst (set_IsBusy false (Inst w2)) w2)).
  assert (Hds : forall (P : Device -> Prop) (w0 : World),
             P (Dev w0) ->
             (forall c0, P (set_reg_CR c0 (Dev w0))) ->
             P (Dev (deselected w0))).
  { intros P w0 H0 H1. unfold deselected. drv_simpl.
    destruct (negb (Z.land (reg_CR (Dev w0)) XSPIPS_CR_SSFORCE_MASK =? 0));
      [apply H1 | exact H0]. }
  subst w2. conjuncts.
  - exact Esetup.
  - exact Hjs.
  - exact Hpasses.
  - unfold PolledTransfer_continue. rewrite Hrem2, Hreq2. reflexivity.
  - exact Hloop.
  - assert (Es : (s =? NULL) = false) by (apply Z.eqb_neq; exact Hs).
    assert (En : (0 <? N) = true) by (apply Z.ltb_lt; lia).
    unfold XSpiPs_PolledTransfer.
    cbv beta iota delta [bind load Xil_AssertNonvoid].
    rewrite Es, En. cbv beta iota delta [negb]. rewrite Hready.
    cbv beta iota. rewrite Hbusy, Esetup. cbv beta iota.
    rewrite Hloop. cbv beta iota.
    unfold PolledTransfer_finish. cbv beta iota delta [bind store].
    rewrite clear_SlaveSelect_spec. reflexivity.
  - drv_simpl. exact Hrem2.
  - drv_simpl. exact Hreq2.
  - reflexivity.
  - drv_simpl. exact Hsend.
  - drv_simpl.
    apply (Hds (fun d => Z.of_nat (length (Mosi d))
                         = Z.of_nat (length (Mosi (Dev w))) + N)).
    + drv_simpl. exact Hmosi.
    + intros c0. drv_simpl. exact Hmosi.
  - drv_simpl. apply (Hds (fun d => TxFifo d = [])).
    + drv_simpl. exact Htx2.
    + intros c0. drv_simpl. exact Htx2.
  - drv_simpl. apply (Hds (fun d => RxFifo d = [])).
    + drv_simpl. exact Hrx2.
    + intros c0. drv_simpl. exact Hrx2.
  - reflexivity.
Qed.

End FifoLoops.

Lemma zynq_enable_ok (D : Z) : enable_ok (hw_with_depth D).
Proof. unfold enable_ok; cbn. lia. Qed.

(** Depth 4 and 10 bytes: three passes. *)
Lemma PolledTransfer_passes_and_bytes_witness :
  exists w1 w',
    PolledTransfer_setup (hw := hw_with_depth 4) 100 300 10 demo_world
      = Ok (tt, w1) /\
    PolledTransfer_loop (hw := hw_with_depth 4) 11 11 w1
      = Ok (tt, after_passes (hw := hw_with_depth 4) 11 3 w1) /\
    XSpiPs_PolledTransfer (hw := hw_with_depth 4) 11 100 300 10 demo_world
      = Ok (XST_SUCCESS, w') /\
    RemainingBytes (Inst w') = 0 /\
    RequestedBytes (Inst w') = 0 /\
    Z.of_nat (length (Mosi (Dev w'))) = 10.
Proof.
  destruct (PolledTransfer_passes_and_bytes (hw := hw_with_depth 4) 11
              demo_world 100 300 10)
    as (w1 & w' & Hsetup & _ & _ & _ & Hloop & Hrun & Hrem & Hreq & _ & _
        & Hmosi & _).
  - unfold depth_ok; cbn. lia.
  - apply zynq_levels_ok.
  - apply zynq_enable_ok.
  - reflexivity.
  - reflexivity.
  - unfold NULL. lia.
  - lia.
  - reflexivity.
  - reflexivity.
  - cbn. lia.
  - exists w1, w'. repeat split; assumption.
Defined.

(** ** The byte counters over time *)

Lemma bind_Ok_inv {A B : Type} (c : M A) (k : A -> M B) (w w' : World)
  (b : B) :
  bind c k w = Ok (b, w') ->
  exists a w1, c w = Ok (a, w1) /\ k a w1 = Ok (b, w').
Proof.
  unfold bind. destruct (c w) as [[a w1] | | ]; intros H;
    [exists a, w1; split; [reflexivity | exact H] | discriminate
    | discriminate].
Qed.

Lemma transfer_inv_Inst (w w' : World) :
  Inst w' = Inst w -> transfer_inv w -> transfer_inv w'.
Proof.
  unfold transfer_inv, counters_ordered. intros ->. exact (fun H => H).
Qed.

Section CounterFacts.
Context {hw : XSpiPs_Hw}.

(** The fill loop, whatever the depth and the width of its counter: it
    queues some [j] of the remaining bytes. *)
Lemma fill_TXFIFO_counts (wrap : Z -> Z) :
  forall (n : nat) (w : World) (tc : Z),
    0 <= RemainingBytes (Inst w) < 2 ^ 32 ->
    exists tc' j bytes,
      0 <= j <= RemainingBytes (Inst w) /\
      ((forall t, 0 <= t < 2 ^ 32 - 1 -> wrap (t + 1) = t + 1) ->
       0 <= tc ->
       tc + RemainingBytes (Inst w) < 2 ^ 32 ->
       tc' = tc + j) /\
      fill_TXFIFO wrap n tc w
      = Ok (tc',
            mkWorld
              (set_RemainingBytes (RemainingBytes (Inst w) - j)
                 (set_SendBufferPtr (SendBufferPtr (Inst w) + j) (Inst w)))
              (set_TxFifo (TxFifo (Dev w) ++ bytes) (Dev w))
              (Mem w)).
Proof.
  assert (Hstop : forall (w : World) (tc : Z),
             0 <= RemainingBytes (Inst w) < 2 ^ 32 ->
             exists tc' j bytes,
               0 <= j <= RemainingBytes (Inst w) /\
               ((forall t, 0 <= t < 2 ^ 32 - 1 -> wrap (t + 1) = t + 1) ->
                0 <= tc ->
                tc + RemainingBytes (Inst w) < 2 ^ 32 ->
                tc' = tc + j) /\
               Ok (A := Z * World) (tc, w)
               = Ok (tc',
                     mkWorld
                       (set_RemainingBytes (RemainingBytes (Inst w) - j)
                          (set_SendBufferPtr (SendBufferPtr (Inst w) + j)
                             (Inst w)))
                       (set_TxFifo (TxFifo (Dev w) ++ bytes) (Dev w))
                       (Mem w))).
  { intros w tc Hrem. exists tc, 0, []. conjuncts; try lia.
    destruct w as [i d m]. destruct i, d. cbn.
    rewrite Z.sub_0_r, Z.add_0_r, app_nil_r. reflexivity. }
  induction n as [ | n IH]; intros w tc Hrem.
  - cbn [fill_TXFIFO]. apply Hstop. exact Hrem.
  - cbn [fill_TXFIFO]. cbv beta iota delta [bind load].
    destruct ((0 <? RemainingBytes (Inst w)) && (tc <? XSPIPS_FIFO_DEPTH))
      eqn:Hc.
    + apply andb_true_iff in Hc. destruct Hc as [Hc1 _].
      apply Z.ltb_lt in Hc1.
      cbv beta iota delta [bind load store mem_read XSpiPs_SendByte
                             XSpiPs_Out32 dev_write].
      drv_simpl. rewrite u32_small by lia.
      match goal with
      | |- context [fill_TXFIFO wrap n ?t1 ?w1] =>
          destruct (IH w1 t1) as (tc' & j & bytes & Hj & Htc & E)
      end.
      { drv_simpl. lia. }
      drv_simpl. rewrite E.
      match goal with
      | |- context [TxFifo (Dev w) ++ [?b]] =>
          exists tc', (1 + j), (b :: bytes)
      end.
      conjuncts.
      * lia.
      * lia.
      * intros Hwrap Htc0 Hlt. rewrite Htc; [ | exact Hwrap | | ].
        -- rewrite Hwrap by lia. lia.
        -- rewrite Hwrap by lia. lia.
        -- rewrite Hwrap by lia. lia.
      * drv_fields. rewrite <- app_assoc. cbn [app].
        apply f_equal. apply f_equal2; [reflexivity | ].
        apply f_equal3; [f_equal; lia | reflexivity | reflexivity].
    + apply Hstop. exact Hrem.
Qed.

Lemma wait_TXOW_Inst :
  forall (fuel : nat) (w w' : World),
    wait_TXOW fuel w = Ok (tt, w') -> Inst w' = Inst w.
Proof.
  induction fuel as [ | fuel IH]; intros w w' H; [discriminate | ].
  cbn [wait_TXOW] in H.
  cbv beta iota delta [bind load XSpiPs_ReadReg XSpiPs_In32 dev_read] in H.
  destruct (Z.land (dev_status (Dev w)) XSPIPS_IXR_TXOW_MASK =? 0).
  - apply IH in H. exact H.
  - injection H as <-. reflexivity.
Qed.

Lemma Abort_flush_Inst :
  forall (fuel : nat) (w w' : World),
    Abort_flush fuel w = Ok (tt, w') -> Inst w' = Inst w.
Proof.
  induction fuel as [ | fuel IH]; intros w w' H; [discriminate | ].
  cbn [Abort_flush] in H.
  cbv beta iota delta [bind load XSpiPs_ReadReg XSpiPs_In32 dev_read] in H.
  destruct (Z.land (dev_status (Dev w)) XSPIPS_IXR_RXNEMPTY_MASK
            =? XSPIPS_IXR_RXNEMPTY_MASK).
  - cbv beta iota delta [bind XSpiPs_RecvByte XSpiPs_In32 dev_read ret] in H.
    apply IH in H. exact H.
  - injection H as <-. reflexivity.
Qed.

Lemma Abort_Inst (fuel : nat) (w w' : World) :
  XSpiPs_Abort fuel w = Ok (tt, w') ->
  Inst w'
  = set_IsBusy false (set_RequestedBytes 0 (set_RemainingBytes 0 (Inst w))).
Proof.
  unfold XSpiPs_Abort. intros H.
  cbv beta iota delta [bind load XSpiPs_Disable XSpiPs_Out32] in H.
  match type of H with
  | context [Abort_flush fuel ?w1] =>
      destruct (Abort_flush fuel w1) as [[[] w2] | | ] eqn:E;
        [apply Abort_flush_Inst in E | discriminate | discriminate]
  end.
  cbv beta iota delta [bind load store XSpiPs_WriteReg XSpiPs_Out32] in H.
  injection H as <-. drv_simpl. rewrite E. reflexivity.
Qed.

Lemma transfer_inv_idle (w : World) :
  IsBusy (Inst w) = false ->
  RequestedBytes (Inst w) = 0 ->
  RemainingBytes (Inst w) = 0 ->
  transfer_inv w.
Proof.
  intros Hb Hq Hr. unfold transfer_inv, counters_ordered.
  rewrite Hb, Hq, Hr. conjuncts; (lia || discriminate).
Qed.

Lemma Abort_inv (fuel : nat) (w w' : World) :
  XSpiPs_Abort fuel w = Ok (tt, w') -> transfer_inv w'.
Proof.
  intros H. apply Abort_Inst in H.
  apply transfer_inv_idle; rewrite H; reflexivity.
Qed.

End CounterFacts.

Section InvariantProofs.
Context {hw : XSpiPs_Hw}.
Variable user_call : Z -> Z -> XEvent -> Z -> M unit.

(** The status handlers of the upper layer keep the invariant: they leave
    the instance alone, or change it through the driver's interface. *)
Hypothesis user_call_inv :
  forall (f ref : Z) (ev : XEvent) (n : Z) (w w' : World),
    transfer_inv w ->
    user_call f ref ev n w = Ok (tt, w') ->
    transfer_inv w'.

Lemma invoke_inv (h : Handler) (ref : Z) (ev : XEvent) (n : Z)
  (w w' : World) :
  transfer_inv w ->
  invoke user_call h ref ev n w = Ok (tt, w') ->
  transfer_inv w'.
Proof.
  destruct h; cbn [invoke]; [discriminate | apply user_call_inv].
Qed.

Lemma transfer_inv_not_busy (w w' : World) :
  counters_ordered w ->
  RequestedBytes (Inst w') = RequestedBytes (Inst w) ->
  RemainingBytes (Inst w') = RemainingBytes (Inst w) ->
  IsBusy (Inst w') = false ->
  transfer_inv w'.
Proof.
  unfold transfer_inv, counters_ordered. intros H Hq Hr Hb.
  rewrite Hq, Hr, Hb. split; [exact H | discriminate].
Qed.

Lemma Handler_RXOVR_inv (w w' : World) :
  transfer_inv w ->
  Handler_RXOVR user_call w = Ok (tt, w') ->
  transfer_inv w'.
Proof.
  intros Hinv H. rewrite Handler_RXOVR_spec in H.
  apply invoke_inv in H; [exact H | ].
  apply (transfer_inv_not_busy w); [apply Hinv | reflexivity ..].
Qed.

Lemma Handler_TXUF_inv (w w' : World) :
  transfer_inv w ->
  Handler_TXUF user_call w = Ok (tt, w') ->
  transfer_inv w'.
Proof.
  intros Hinv H. rewrite Handler_TXUF_spec in H.
  apply invoke_inv in H; [exact H | ].
  apply (transfer_inv_not_busy w); [apply Hinv | reflexivity ..].
Qed.

Lemma Handler_faults_inv (IntrStatus : Z) (w w' : World) :
  transfer_inv w ->
  Handler_faults user_call IntrStatus w = Ok (tt, w') ->
  transfer_inv w'.
Proof.
  intros Hinv H. unfold Handler_faults in H.
  apply bind_Ok_inv in H. destruct H as ([] & w1 & H1 & H2).
  assert (Hinv1 : transfer_inv w1).
  { destruct (negb (Z.land IntrStatus XSPIPS_IXR_RXOVR_MASK =? 0)).
    - apply (Handler_RXOVR_inv w); assumption.
    - injection H1 as <-. exact Hinv. }
  destruct (negb (Z.land IntrStatus XSPIPS_IXR_TXUF_MASK =? 0)).
  - apply (Handler_TXUF_inv w1); assumption.
  - injection H2 as <-. exact Hinv1.
Qed.

Lemma Handler_TXOW_inv (w w' : World) :
  transfer_inv w ->
  Handler_TXOW user_call w = Ok (tt, w') ->
  transfer_inv w'.
Proof.
  intros ((Hord & Hlt) & Hbusy) H.
  unfold Handler_TXOW, RxFifo_drain, TxFifo_fill in H.
  cbv beta iota zeta delta [bind load] in H.
  rewrite u32_small in H by lia.
  destruct (drain_RXFIFO_spec
              (Z.to_nat (RequestedBytes (Inst w) - RemainingBytes (Inst w)))
              w) as (q & m & Edrain).
  { rewrite Z2Nat.id by lia. lia. }
  rewrite Z2Nat.id in Edrain by lia.
  rewrite Edrain in H. drv_simpl.
  match type of H with
  | context [fill_TXFIFO u32 ?n 0 ?wd] =>
      destruct (fill_TXFIFO_counts u32 n wd 0) as (tc & j & bytes & Hj & _ & E)
  end.
  { drv_simpl. lia. }
  drv_simpl. rewrite E in H. drv_simpl.
  replace (RequestedBytes (Inst w)
           - (RequestedBytes (Inst w) - RemainingBytes (Inst w)))
    with (RemainingBytes (Inst w)) in H by lia.
  destruct ((RemainingBytes (Inst w) - j =? 0)
            && (RemainingBytes (Inst w) =? 0)) eqn:Hc.
  - rewrite Handler_done_spec in H.
    apply invoke_inv in H; [exact H | ].
    apply andb_true_iff in Hc. destruct Hc as [Hc1 Hc2].
    apply Z.eqb_eq in Hc1. apply Z.eqb_eq in Hc2.
    apply transfer_inv_idle; drv_simpl; [reflexivity | lia | lia].
  - cbv beta iota delta [bind XSpiPs_WriteReg XSpiPs_Out32] in H.
    match type of H with
    | issue_ManualStart ?w2 = _ =>
        destruct (issue_ManualStart_spec w2) as (c & Es)
    end.
    rewrite Es in H. injection H as <-.
    unfold transfer_inv, counters_ordered. drv_simpl.
    apply andb_false_iff in Hc.
    assert (Hnz : RemainingBytes (Inst w) - j <> 0
                  \/ RemainingBytes (Inst w) <> 0)
      by (destruct Hc as [Hc | Hc]; apply Z.eqb_neq in Hc; auto).
    conjuncts; lia.
Qed.

Lemma InterruptHandler_inv (fuel : nat) (w w' : World) :
  transfer_inv w ->
  XSpiPs_InterruptHandler user_call fuel w = Ok (tt, w') ->
  transfer_inv w'.
Proof.
  intros Hinv H. unfold XSpiPs_InterruptHandler in H.
  cbv beta iota delta [bind load Xil_AssertVoid Xil_AssertNonvoid] in H.
  destruct (IsReady (Inst w)); [ | discriminate].
  change (Handler_entry w) with (Ok (dev_status (Dev w), entered w)) in H.
  cbv beta iota in H.
  assert (Hinv0 : transfer_inv (entered w))
    by (apply (transfer_inv_Inst w); [reflexivity | exact Hinv]).
  destruct (XSPIPS_IXR_MODF_MASK
            =? Z.land (dev_status (Dev w)) XSPIPS_IXR_MODF_MASK).
  - unfold Handler_MODF in H. cbv beta iota zeta delta [load] in H.
    apply bind_Ok_inv in H. destruct H as (r0 & w0 & _ & H).
    apply bind_Ok_inv in H. destruct H as (r1 & w1 & E1 & H).
    injection E1 as <- <-.
    apply bind_Ok_inv in H. destruct H as ([] & w2 & Ea & H).
    apply Abort_inv in Ea.
    unfold call_StatusHandler in H. cbv beta iota delta [bind load] in H.
    apply (invoke_inv _ _ _ _ _ _ Ea H).
  - fold (bind (if negb (Z.land (dev_status (Dev w)) XSPIPS_IXR_TXOW_MASK
                         =? 0)
                then Handler_TXOW user_call else ret tt)
            (fun _ => Handler_faults user_call (dev_status (Dev w)))
            (entered w)) in H.
    apply bind_Ok_inv in H. destruct H as ([] & w1 & H1 & H2).
    apply (Handler_faults_inv (dev_status (Dev w)) w1 w'); [ | exact H2].
    destruct (negb (Z.land (dev_status (Dev w)) XSPIPS_IXR_TXOW_MASK =? 0)).
    + apply (Handler_TXOW_inv (entered w)); assumption.
    + injection H1 as <-. exact Hinv0.
Qed.

End InvariantProofs.

Section OperationInvariants.
Context {hw : XSpiPs_Hw}.

Lemma Transfer_setup_spec (SendBufPtr RecvBufPtr ByteCount : Z)
  (w : World) :
  exists d,
    Transfer_setup SendBufPtr RecvBufPtr ByteCount w
    = Ok (tt,
          mkWorld
            (set_RemainingBytes ByteCount
               (set_RequestedBytes ByteCount
                  (set_RecvBufferPtr RecvBufPtr
                     (set_SendBufferPtr SendBufPtr
                        (set_IsBusy true (Inst w))))))
            d (Mem w)).
Proof.
  unfold Transfer_setup. cbv beta iota delta [bind store].
  match goal with
  | |- context [apply_SlaveSelect ?w1] =>
      destruct (apply_SlaveSelect_spec w1) as (c & E)
  end.
  rewrite E. eexists. reflexivity.
Qed.

Lemma Transfer_inv (SendBufPtr RecvBufPtr ByteCount : Z) (st : XStatus)
  (w w' : World) :
  transfer_inv w ->
  ByteCount < 2 ^ 32 ->
  XSpiPs_Transfer SendBufPtr RecvBufPtr ByteCount w = Ok (st, w') ->
  transfer_inv w'.
Proof.
  intros Hinv Hlt H. unfold XSpiPs_Transfer in H.
  cbv beta iota delta [bind load Xil_AssertNonvoid] in H.
  destruct (negb (SendBufPtr =? NULL)); [ | discriminate].
  destruct (0 <? ByteCount) eqn:Hpos; [ | discriminate].
  apply Z.ltb_lt in Hpos.
  destruct (IsReady (Inst w)); [ | discriminate].
  destruct (IsBusy (Inst w)).
  - injection H as _ <-. exact Hinv.
  - destruct (Transfer_setup_spec SendBufPtr RecvBufPtr ByteCount w)
      as (d & Es).
    rewrite Es in H. unfold TxFifo_fill in H.
    cbv beta iota delta [bind load] in H. drv_simpl.
    match type of H with
    | context [fill_TXFIFO u8 ?n 0 ?ws] =>
        destruct (fill_TXFIFO_counts u8 n ws 0)
          as (tc & j & bytes & Hj & _ & E)
    end.
    { drv_simpl. lia. }
    drv_simpl. rewrite E in H.
    cbv beta iota delta [bind load XSpiPs_WriteReg XSpiPs_Out32] in H.
    match type of H with
    | context [issue_ManualStart ?w2] =>
        destruct (issue_ManualStart_spec w2) as (c & Em)
    end.
    rewrite Em in H. injection H as _ <-.
    unfold transfer_inv, counters_ordered. drv_simpl. conjuncts; lia.
Qed.

Lemma PolledTransfer_pass_counts (fuel : nat) (w w' : World) :
  RequestedBytes (Inst w) = RemainingBytes (Inst w) ->
  0 <= RemainingBytes (Inst w) < 2 ^ 32 ->
  PolledTransfer_pass fuel w = Ok (tt, w') ->
  RequestedBytes (Inst w') = RemainingBytes (Inst w') /\
  0 <= RemainingBytes (Inst w') < 2 ^ 32.
Proof.
  intros Heq Hrem H. unfold PolledTransfer_pass, TxFifo_fill in H.
  cbv beta iota delta [bind load] in H.
  destruct (fill_TXFIFO_counts u32 (Z.to_nat (RemainingBytes (Inst w))) w 0)
    as (tc & j & bytes & Hj & Htc & E); [exact Hrem | ].
  assert (tc = j).
  { rewrite Htc; [lia | | lia | lia].
    intros t Ht. apply u32_small. lia. }
  subst tc. rewrite E in H.
  match type of H with
  | context [issue_ManualStart ?wf] =>
      destruct (issue_ManualStart_spec wf) as (c & Em)
  end.
  rewrite Em in H.
  match type of H with
  | context [wait_TXOW fuel ?ws] =>
      destruct (wait_TXOW fuel ws) as [[[] ww] | | ] eqn:Ew;
        [apply wait_TXOW_Inst in Ew | discriminate | discriminate]
  end.
  drv_simpl. unfold RxFifo_drain in H.
  destruct (drain_RXFIFO_spec (Z.to_nat j) ww) as (q & m & Ed).
  { rewrite Ew. drv_simpl. rewrite Z2Nat.id by lia. lia. }
  rewrite Ed in H. injection H as <-.
  rewrite Ew. drv_simpl. rewrite Z2Nat.id by lia. lia.
Qed.

Lemma PolledTransfer_loop_counts (fuel : nat) :
  forall (n : nat) (w w' : World),
    RequestedBytes (Inst w) = RemainingBytes (Inst w) ->
    0 <= RemainingBytes (Inst w) < 2 ^ 32 ->
    PolledTransfer_loop fuel n w = Ok (tt, w') ->
    RequestedBytes (Inst w') = 0 /\ RemainingBytes (Inst w') = 0.
Proof.
  assert (Hexit : forall w : World,
             RequestedBytes (Inst w) = RemainingBytes (Inst w) ->
             0 <= RemainingBytes (Inst w) ->
             PolledTransfer_continue (Inst w) = false ->
             RequestedBytes (Inst w) = 0 /\ RemainingBytes (Inst w) = 0).
  { intros w Heq Hrem Hc. unfold PolledTransfer_continue in Hc.
    apply orb_false_iff in Hc. destruct Hc as [Hc _].
    apply Z.ltb_ge in Hc. lia. }
  induction n as [ | n IH]; intros w w' Heq Hrem H;
    cbn [PolledTransfer_loop] in H; cbv beta iota delta [bind load] in H;
    destruct (PolledTransfer_continue (Inst w)) eqn:Hc.
  - discriminate.
  - injection H as <-. apply Hexit; [assumption | lia | assumption].
  - destruct (PolledTransfer_pass fuel w) as [[[] w1] | | ] eqn:Ep;
      [ | discriminate | discriminate].
    apply PolledTransfer_pass_counts in Ep; [ | assumption | assumption].
    destruct Ep as (Heq1 & Hrem1). apply (IH w1 w'); assumption.
  - injection H as <-. apply Hexit; [assumption | lia | assumption].
Qed.

Lemma PolledTransfer_inv (fuel : nat) (SendBufPtr RecvBufPtr ByteCount : Z)
  (st : XStatus) (w w' : World) :
  transfer_inv w ->
  ByteCount < 2 ^ 32 ->
  XSpiPs_PolledTransfer fuel SendBufPtr RecvBufPtr ByteCount w
    = Ok (st, w') ->
  transfer_inv w'.
Proof.
  intros Hinv Hlt H. unfold XSpiPs_PolledTransfer in H.
  cbv beta iota delta [bind load Xil_AssertNonvoid] in H.
  destruct (negb (SendBufPtr =? NULL)); [ | discriminate].
  destruct (0 <? ByteCount) eqn:Hpos; [ | discriminate].
  apply Z.ltb_lt in Hpos.
  destruct (IsReady (Inst w)); [ | discriminate].
  destruct (IsBusy (Inst w)).
  - injection H as _ <-. exact Hinv.
  - destruct (PolledTransfer_setup_spec SendBufPtr RecvBufPtr ByteCount w)
      as (c & Es).
    rewrite Es in H.
    match type of H with
    | context [PolledTransfer_loop fuel fuel ?w1] =>
        destruct (PolledTransfer_loop fuel fuel w1) as [[[] w2] | | ] eqn:El;
          [apply PolledTransfer_loop_counts in El | discriminate
          | discriminate]
    end.
    + unfold PolledTransfer_finish in H.
      cbv beta iota delta [bind store] in H.
      rewrite clear_SlaveSelect_spec in H.
      cbv beta iota delta [bind load XSpiPs_Disable XSpiPs_Out32] in H.
      injection H as _ <-. destruct El as (Hq & Hr).
      apply transfer_inv_idle; drv_simpl; [reflexivity | exact Hq | exact Hr].
    + reflexivity.
    + drv_simpl. lia.
Qed.

Lemma CfgInitialize_inv (fuel : nat) (EffectiveAddr : Z) (st : XStatus)
  (w w' : World) :
  IsBusy (Inst w) = false ->
  XSpiPs_CfgInitialize fuel EffectiveAddr w = Ok (st, w') ->
  transfer_inv w'.
Proof.
  intros Hbusy H. unfold XSpiPs_CfgInitialize, XSpiPs_Reset in H.
  cbv beta iota delta [bind load store Xil_AssertVoid Xil_AssertNonvoid] in H.
  rewrite Hbusy in H. drv_simpl.
  match type of H with
  | context [XSpiPs_Abort fuel ?w1] =>
      destruct (XSpiPs_Abort fuel w1) as [[[] w2] | | ] eqn:Ea;
        [apply Abort_Inst in Ea | discriminate | discriminate]
  end.
  cbv beta iota delta [bind load XSpiPs_WriteReg XSpiPs_Out32 ret] in H.
  injection H as _ <-.
  apply transfer_inv_idle; drv_simpl; rewrite Ea; reflexivity.
Qed.

Lemma Reset_inv (fuel : nat) (w w' : World) :
  XSpiPs_Reset fuel w = Ok (tt, w') -> transfer_inv w'.
Proof.
  intros H. unfold XSpiPs_Reset in H.
  cbv beta iota delta [bind load Xil_AssertVoid Xil_AssertNonvoid] in H.
  destruct (IsReady (Inst w)); [ | discriminate].
  destruct (XSpiPs_Abort fuel w) as [[[] w2] | | ] eqn:Ea;
    [apply Abort_Inst in Ea | discriminate | discriminate].
  cbv beta iota delta [bind load XSpiPs_WriteReg XSpiPs_Out32 ret] in H.
  injection H as <-.
  apply transfer_inv_idle; drv_simpl; rewrite Ea; reflexivity.
Qed.

Lemma SetSlaveSelect_inv (SlaveSel : Z) (st : XStatus) (w w' : World) :
  transfer_inv w ->
  XSpiPs_SetSlaveSelect SlaveSel w = Ok (st, w') ->
  transfer_inv w'.
Proof.
  intros Hinv H. unfold XSpiPs_SetSlaveSelect in H.
  cbv beta iota delta [bind load store Xil_AssertNonvoid] in H.
  destruct (IsReady (Inst w)); [ | discriminate].
  destruct (SlaveSel <=? XSPIPS_CR_SSCTRL_MAXIMUM); [ | discriminate].
  destruct (IsBusy (Inst w)) eqn:Hb.
  - injection H as _ <-. exact Hinv.
  - cbv beta iota delta [bind load XSpiPs_ReadReg XSpiPs_In32 dev_read
                           XSpiPs_WriteReg XSpiPs_Out32 ret] in H.
    injection H as _ <-.
    unfold transfer_inv, counters_ordered in *. drv_simpl. exact Hinv.
Qed.

Lemma SetStatusHandler_inv (CallBackRef FuncPtr : Z) (w w' : World) :
  transfer_inv w ->
  XSpiPs_SetStatusHandler CallBackRef FuncPtr w = Ok (tt, w') ->
  transfer_inv w'.
Proof.
  intros Hinv H. unfold XSpiPs_SetStatusHandler in H.
  cbv beta iota delta [bind load store Xil_AssertVoid Xil_AssertNonvoid] in H.
  destruct (negb (FuncPtr =? NULL)); [ | discriminate].
  destruct (IsReady (Inst w)); [ | discriminate].
  injection H as <-.
  unfold transfer_inv, counters_ordered in *. drv_simpl. exact Hinv.
Qed.

End OperationInvariants.

Section ReachableFacts.
Context {hw : XSpiPs_Hw}.
Variable user_call : Z -> Z -> XEvent -> Z -> M unit.

Hypothesis user_call_inv :
  forall (f ref : Z) (ev : XEvent) (n : Z) (w w' : World),
    transfer_inv w ->
    user_call f ref ev n w = Ok (tt, w') ->
    transfer_inv w'.

Lemma reachable_inv (w : World) : reachable user_call w -> transfer_inv w.
Proof.
  induction 1 as [fuel addr w w' Hb H
                 | s r n st w w' _ IH Hn H
                 | fuel s r n st w w' _ IH Hn H
                 | k st w w' _ IH H
                 | ref f w w' _ IH H
                 | fuel w w' _ IH H
                 | fuel w w' _ IH H
                 | fuel w w' _ IH H
                 | d m w _ IH].
  - apply (CfgInitialize_inv fuel addr XST_SUCCESS w); assumption.
  - apply (Transfer_inv s r n st w); assumption.
  - apply (PolledTransfer_inv fuel s r n st w); assumption.
  - apply (SetSlaveSelect_inv k st w); assumption.
  - apply (SetStatusHandler_inv ref f w); assumption.
  - apply (Abort_inv fuel w). exact H.
  - apply (Reset_inv fuel w). exact H.
  - apply (InterruptHandler_inv user_call user_call_inv fuel w); assumption.
  - apply (transfer_inv_Inst w); [reflexivity | exact IH].
Qed.

End ReachableFacts.

(** ** The byte counters, statement by statement *)

(** *** The statements make up the functions *)

Section RunFacts.
Context {hw : XSpiPs_Hw}.
Variable user_call : Z -> Z -> XEvent -> Z -> M unit.

Ltac run_simpl :=
  unfold ByLine.TxFifo_fill, ByLine.RxFifo_drain, ByLine.BytesDone;
  cbn [run];
  cbv beta iota zeta
    delta [bind ret load store mem_read mem_write
           ByLine.BytesDone ByLine.TxFifo_fill ByLine.RxFifo_drain
           TxFifo_fill RxFifo_drain
           XSpiPs_SendByte XSpiPs_RecvByte XSpiPs_ReadReg XSpiPs_WriteReg
           XSpiPs_In32 XSpiPs_Out32 XSpiPs_Enable XSpiPs_Disable
           XSpiPs_IsManualChipSelect XSpiPs_IsManualStart XSpiPs_IsMaster
           Xil_AssertNonvoid Xil_AssertVoid call_StatusHandler
           dev_read set_Inst set_Dev set_Mem];
  cbn [Inst Dev Mem].

Lemma run_fill_TXFIFO (lw ls lp lr : nat) (wrap : Z -> Z) :
  forall (n : nat) (tc : Z) (w : World),
    run (ByLine.fill_TXFIFO lw ls lp lr wrap n tc) w
    = fill_TXFIFO wrap n tc w.
Proof.
  induction n as [ | n IH]; intros tc w; [reflexivity | ].
  cbn [ByLine.fill_TXFIFO fill_TXFIFO run].
  run_simpl.
  destruct ((0 <? RemainingBytes (Inst w)) && (tc <? XSPIPS_FIFO_DEPTH));
    [ | reflexivity].
  cbn [run]. run_simpl. destruct w as [i d m]. cbv beta iota.
  apply IH.
Qed.

Lemma run_TxFifo_fill (lw ls lp lr : nat) (wrap : Z -> Z) (tc : Z)
  (w : World) :
  run (ByLine.TxFifo_fill lw ls lp lr wrap tc) w = TxFifo_fill wrap tc w.
Proof.
  unfold ByLine.TxFifo_fill, TxFifo_fill. cbn [run].
  unfold bind, load. apply run_fill_TXFIFO.
Qed.

Lemma run_drain_RXFIFO (lrecv lif lstore lreq : nat) :
  forall (n : nat) (w : World),
    run (ByLine.drain_RXFIFO lrecv lif lstore lreq n) w = drain_RXFIFO n w.
Proof.
  induction n as [ | n IH]; intros w; [reflexivity | ].
  cbn [ByLine.drain_RXFIFO drain_RXFIFO run].
  run_simpl. destruct w as [i d m]. cbv beta iota.
  match goal with
  | |- context [if ?c then _ else _] => destruct c
  end; run_simpl; apply IH.
Qed.

Ltac split_if :=
  match goal with
  | |- context [if ?c then _ else _] => destruct c
  end.

Ltac split_result :=
  match goal with
  | |- context [match ?r with Ok _ => _ | AssertFailed => _ | OutOfFuel => _
                end] =>
      lazymatch r with
      | Ok _ => fail
      | _ => destruct r as [[? ?] | | ]
      end
  end.

Lemma run_wait_TXOW :
  forall (fuel : nat) (w : World),
    run (ByLine.wait_TXOW fuel) w = wait_TXOW fuel w.
Proof.
  induction fuel as [ | fuel IH]; intros w; [reflexivity | ].
  cbn [ByLine.wait_TXOW wait_TXOW]. run_simpl.
  split_if; [apply IH | reflexivity].
Qed.

Lemma run_apply_SlaveSelect (lif lread lwrite : nat) (w : World) :
  run (ByLine.apply_SlaveSelect lif lread lwrite) w = apply_SlaveSelect w.
Proof.
  unfold ByLine.apply_SlaveSelect, apply_SlaveSelect. run_simpl.
  split_if; reflexivity.
Qed.

Lemma run_issue_ManualStart (lif lread lwrite : nat) (w : World) :
  run (ByLine.issue_ManualStart lif lread lwrite) w = issue_ManualStart w.
Proof.
  unfold ByLine.issue_ManualStart, issue_ManualStart. run_simpl.
  split_if; run_simpl; [split_if | ]; reflexivity.
Qed.

Lemma run_clear_SlaveSelect (lif lread lwrite : nat) (w : World) :
  run (ByLine.clear_SlaveSelect lif lread lwrite) w = clear_SlaveSelect w.
Proof.
  unfold ByLine.clear_SlaveSelect, clear_SlaveSelect. run_simpl.
  split_if; reflexivity.
Qed.

Lemma run_Abort_flush :
  forall (fuel : nat) (w : World),
    run (ByLine.Abort_flush fuel) w = Abort_flush fuel w.
Proof.
  induction fuel as [ | fuel IH]; intros w; [reflexivity | ].
  cbn [ByLine.Abort_flush Abort_flush]. run_simpl.
  split_if; [run_simpl; apply IH | reflexivity].
Qed.

Lemma run_Abort (fuel : nat) (w : World) :
  run (ByLine.XSpiPs_Abort fuel) w = XSpiPs_Abort fuel w.
Proof.
  unfold ByLine.XSpiPs_Abort, XSpiPs_Abort. run_simpl.
  rewrite run_Abort_flush. split_result; reflexivity.
Qed.

Lemma run_Reset (fuel : nat) (w : World) :
  run (ByLine.XSpiPs_Reset fuel) w = XSpiPs_Reset fuel w.
Proof.
  unfold ByLine.XSpiPs_Reset, XSpiPs_Reset. run_simpl.
  split_if; [ | reflexivity].
  rewrite run_Abort. split_result; reflexivity.
Qed.

Lemma run_CfgInitialize (fuel : nat) (EffectiveAddr : Z) (w : World) :
  run (ByLine.XSpiPs_CfgInitialize fuel EffectiveAddr) w
  = XSpiPs_CfgInitialize fuel EffectiveAddr w.
Proof.
  unfold ByLine.XSpiPs_CfgInitialize, XSpiPs_CfgInitialize. run_simpl.
  split_if; [reflexivity | ]. run_simpl.
  rewrite run_Reset. split_result; reflexivity.
Qed.

Lemma run_Transfer (SendBufPtr RecvBufPtr ByteCount : Z) (w : World) :
  run (ByLine.XSpiPs_Transfer SendBufPtr RecvBufPtr ByteCount) w
  = XSpiPs_Transfer SendBufPtr RecvBufPtr ByteCount w.
Proof.
  unfold ByLine.XSpiPs_Transfer, XSpiPs_Transfer, Transfer_setup.
  run_simpl.
  destruct (negb (SendBufPtr =? NULL)); [ | reflexivity].
  destruct (0 <? ByteCount); [ | reflexivity].
  destruct (IsReady (Inst w)); [ | reflexivity].
  destruct (IsBusy (Inst w)); [reflexivity | ]. run_simpl.
  rewrite run_apply_SlaveSelect.
  split_result; [ | reflexivity | reflexivity]. run_simpl.
  rewrite run_fill_TXFIFO.
  split_result; [ | reflexivity | reflexivity]. run_simpl.
  rewrite run_issue_ManualStart.
  split_result; reflexivity.
Qed.

Lemma run_PolledTransfer_pass (fuel : nat) (w : World) :
  run (ByLine.PolledTransfer_pass fuel) w = PolledTransfer_pass fuel w.
Proof.
  unfold ByLine.PolledTransfer_pass, PolledTransfer_pass. run_simpl.
  rewrite run_fill_TXFIFO.
  split_result; [ | reflexivity | reflexivity]. run_simpl.
  rewrite run_issue_ManualStart.
  split_result; [ | reflexivity | reflexivity]. run_simpl.
  rewrite run_wait_TXOW.
  split_result; [ | reflexivity | reflexivity]. run_simpl.
  apply run_drain_RXFIFO.
Qed.

Lemma run_PolledTransfer_loop (fuel : nat) :
  forall (n : nat) (w : World),
    run (ByLine.PolledTransfer_loop fuel n) w = PolledTransfer_loop fuel n w.
Proof.
  induction n as [ | n IH]; intros w;
    cbn [ByLine.PolledTransfer_loop PolledTransfer_loop]; run_simpl;
    split_if; try reflexivity.
  cbn [run]. unfold bind. rewrite run_PolledTransfer_pass.
  split_result; [apply IH | reflexivity | reflexivity].
Qed.

Lemma run_PolledTransfer (fuel : nat) (SendBufPtr RecvBufPtr ByteCount : Z)
  (w : World) :
  run (ByLine.XSpiPs_PolledTransfer fuel SendBufPtr RecvBufPtr ByteCount) w
  = XSpiPs_PolledTransfer fuel SendBufPtr RecvBufPtr ByteCount w.
Proof.
  unfold ByLine.XSpiPs_PolledTransfer, XSpiPs_PolledTransfer,
    PolledTransfer_setup, PolledTransfer_finish.
  run_simpl.
  destruct (negb (SendBufPtr =? NULL)); [ | reflexivity].
  destruct (0 <? ByteCount); [ | reflexivity].
  destruct (IsReady (Inst w)); [ | reflexivity].
  destruct (IsBusy (Inst w)); [reflexivity | ]. run_simpl.
  rewrite run_apply_SlaveSelect.
  split_result; [ | reflexivity | reflexivity]. run_simpl.
  rewrite run_PolledTransfer_loop.
  split_result; [ | reflexivity | reflexivity]. run_simpl.
  rewrite run_clear_SlaveSelect.
  split_result; reflexivity.
Qed.

Lemma run_SetSlaveSelect (SlaveSel : Z) (w : World) :
  run (ByLine.XSpiPs_SetSlaveSelect SlaveSel) w
  = XSpiPs_SetSlaveSelect SlaveSel w.
Proof.
  unfold ByLine.XSpiPs_SetSlaveSelect, XSpiPs_SetSlaveSelect. run_simpl.
  destruct (IsReady (Inst w)); [ | reflexivity].
  destruct (SlaveSel <=? XSPIPS_CR_SSCTRL_MAXIMUM); [ | reflexivity].
  destruct (IsBusy (Inst w)); reflexivity.
Qed.

Lemma run_GetSlaveSelect (w : World) :
  run ByLine.XSpiPs_GetSlaveSelect w = XSpiPs_GetSlaveSelect w.
Proof.
  unfold ByLine.XSpiPs_GetSlaveSelect, XSpiPs_GetSlaveSelect. run_simpl.
  destruct (IsReady (Inst w)); [ | reflexivity].
  split_if; reflexivity.
Qed.

Lemma run_SetStatusHandler (CallBackRef FuncPtr : Z) (w : World) :
  run (ByLine.XSpiPs_SetStatusHandler CallBackRef FuncPtr) w
  = XSpiPs_SetStatusHandler CallBackRef FuncPtr w.
Proof.
  unfold ByLine.XSpiPs_SetStatusHandler, XSpiPs_SetStatusHandler. run_simpl.
  destruct (negb (FuncPtr =? NULL)); [ | reflexivity].
  destruct (IsReady (Inst w)); reflexivity.
Qed.

Lemma run_Handler_MODF (fuel : nat) (w : World) :
  run (ByLine.Handler_MODF user_call fuel) w = Handler_MODF user_call fuel w.
Proof.
  unfold ByLine.Handler_MODF, Handler_MODF. run_simpl.
  rewrite run_Abort. split_result; reflexivity.
Qed.

Lemma run_Handler_done (w : World) :
  run (ByLine.Handler_done user_call) w = Handler_done user_call w.
Proof.
  unfold ByLine.Handler_done, Handler_done. run_simpl.
  rewrite run_clear_SlaveSelect. split_result; reflexivity.
Qed.

Lemma run_Handler_TXOW (w : World) :
  run (ByLine.Handler_TXOW user_call) w = Handler_TXOW user_call w.
Proof.
  unfold ByLine.Handler_TXOW, Handler_TXOW. run_simpl.
  rewrite run_drain_RXFIFO.
  split_result; [ | reflexivity | reflexivity]. run_simpl.
  rewrite run_fill_TXFIFO.
  split_result; [ | reflexivity | reflexivity]. run_simpl.
  split_if; [apply run_Handler_done | ]. run_simpl.
  apply run_issue_ManualStart.
Qed.

Lemma run_Handler_RXOVR (w : World) :
  run (ByLine.Handler_RXOVR user_call) w = Handler_RXOVR user_call w.
Proof.
  unfold ByLine.Handler_RXOVR, Handler_RXOVR. run_simpl.
  rewrite run_clear_SlaveSelect. split_result; reflexivity.
Qed.

Lemma run_Handler_TXUF (w : World) :
  run (ByLine.Handler_TXUF user_call) w = Handler_TXUF user_call w.
Proof.
  unfold ByLine.Handler_TXUF, Handler_TXUF. run_simpl.
  rewrite run_clear_SlaveSelect. split_result; reflexivity.
Qed.

Lemma run_Handler_faults (IntrStatus : Z) (w : World) :
  run (ByLine.Handler_faults user_call IntrStatus) w
  = Handler_faults user_call IntrStatus w.
Proof.
  unfold ByLine.Handler_faults, Handler_faults. cbn [run]. unfold bind.
  destruct (negb (Z.land IntrStatus XSPIPS_IXR_RXOVR_MASK =? 0));
    [rewrite run_Handler_RXOVR | cbn [run] ].
  - split_result; [ | reflexivity | reflexivity].
    destruct (negb (Z.land IntrStatus XSPIPS_IXR_TXUF_MASK =? 0));
      [apply run_Handler_TXUF | reflexivity].
  - unfold ret.
    destruct (negb (Z.land IntrStatus XSPIPS_IXR_TXUF_MASK =? 0));
      [apply run_Handler_TXUF | reflexivity].
Qed.

Lemma run_InterruptHandler (fuel : nat) (w : World) :
  run (ByLine.XSpiPs_InterruptHandler user_call fuel) w
  = XSpiPs_InterruptHandler user_call fuel w.
Proof.
  unfold ByLine.XSpiPs_InterruptHandler, XSpiPs_InterruptHandler,
    Handler_entry.
  run_simpl.
  destruct (IsReady (Inst w)); [ | reflexivity]. run_simpl.
  split_if; [apply run_Handler_MODF | ].
  cbn [run]. unfold bind.
  destruct (negb (Z.land (dev_status (Dev w)) XSPIPS_IXR_TXOW_MASK =? 0));
    [rewrite run_Handler_TXOW | cbn [run]; unfold ret ].
  - split_result; [apply run_Handler_faults | reflexivity | reflexivity].
  - apply run_Handler_faults.
Qed.

End RunFacts.

(** *** Rules for observation points *)

Lemma at_Done {A : Type} (a : A) (w : World) (P : nat -> World -> Prop) :
  at_every_point (Done a) w P.
Proof. intros L w' []. Qed.

Lemma at_Stmt {A : Type} (L : nat) (c : M A) (w : World)
  (P : nat -> World -> Prop) :
  (forall a w', c w = Ok (a, w') -> P L w') ->
  at_every_point (Stmt L c) w P.
Proof.
  intros H L' w' Hin. cbn [points] in Hin.
  destruct (c w) as [[a w1] | | ]; [ | destruct Hin | destruct Hin].
  destruct Hin as [E | []]. injection E as <- <-. apply (H a). reflexivity.
Qed.

Lemma at_Then {A B : Type} (p : Code A) (k : A -> Code B) (w : World)
  (P : nat -> World -> Prop) :
  at_every_point p w P ->
  (forall a w1, run p w = Ok (a, w1) -> at_every_point (k a) w1 P) ->
  at_every_point (Then p k) w P.
Proof.
  intros Hp Hk L w' Hin. cbn [points] in Hin.
  apply in_app_or in Hin. destruct Hin as [Hin | Hin].
  - apply Hp. exact Hin.
  - destruct (run p w) as [[a w1] | | ]; [ | destruct Hin | destruct Hin].
    apply (Hk a w1 eq_refl). exact Hin.
Qed.

Lemma at_Stmt_Then {A B : Type} (L : nat) (c : M A) (k : A -> Code B)
  (w : World) (P : nat -> World -> Prop) :
  (forall a w1, c w = Ok (a, w1) -> P L w1 /\ at_every_point (k a) w1 P) ->
  at_every_point (Then (Stmt L c) k) w P.
Proof.
  intros H. apply at_Then.
  - apply at_Stmt. intros a w' E. exact (proj1 (H a w' E)).
  - intros a w1 E. exact (proj2 (H a w1 E)).
Qed.

Lemma at_weaken {A : Type} (p : Code A) (w : World)
  (P Q : nat -> World -> Prop) :
  at_every_point p w Q ->
  (forall L w', Q L w' -> P L w') ->
  at_every_point p w P.
Proof. intros H HPQ L w' Hin. apply HPQ, H, Hin. Qed.

Lemma same_counters_refl (w : World) : same_counters w w.
Proof. repeat split. Qed.

Lemma same_counters_Inst (w w' : World) :
  Inst w' = Inst w -> same_counters w w'.
Proof. intros E. unfold same_counters. rewrite E. repeat split. Qed.

Lemma same_counters_trans (w1 w2 w3 : World) :
  same_counters w1 w2 -> same_counters w2 w3 -> same_counters w1 w3.
Proof.
  intros (A1 & A2 & A3) (B1 & B2 & B3). unfold same_counters.
  rewrite B1, B2, B3. repeat split; assumption.
Qed.

(** *** The loops and the register sequences *)

Section FragmentPoints.
Context {hw : XSpiPs_Hw}.

Ltac run_simpl_in H :=
  unfold ByLine.TxFifo_fill, ByLine.RxFifo_drain, ByLine.BytesDone in H;
  cbn [run] in H;
  cbv beta iota zeta
    delta [bind ret load store mem_read mem_write
           TxFifo_fill RxFifo_drain
           XSpiPs_SendByte XSpiPs_RecvByte XSpiPs_ReadReg XSpiPs_WriteReg
           XSpiPs_In32 XSpiPs_Out32 XSpiPs_Enable XSpiPs_Disable
           XSpiPs_IsManualChipSelect XSpiPs_IsManualStart XSpiPs_IsMaster
           Xil_AssertNonvoid Xil_AssertVoid
           dev_read set_Inst set_Dev set_Mem] in H;
  cbn [Inst Dev Mem] in H.

(** A statement that computes its result leaves an explicit world. *)
Ltac stmt_result H :=
  run_simpl_in H;
  repeat match type of H with
         | context [if ?c then _ else _] => destruct c
         end;
  try discriminate H;
  injection H as <- <-.

Lemma at_fill_TXFIFO (lw ls lp lr : nat) (wrap : Z -> Z) :
  forall (n : nat) (tc : Z) (w : World),
    0 <= RemainingBytes (Inst w) < 2 ^ 32 ->
    at_every_point (ByLine.fill_TXFIFO lw ls lp lr wrap n tc) w
      (fun L w' =>
         In L [lw; ls; lp; lr] /\
         IsBusy (Inst w') = IsBusy (Inst w) /\
         RequestedBytes (Inst w') = RequestedBytes (Inst w) /\
         0 <= RemainingBytes (Inst w') <= RemainingBytes (Inst w) /\
         (L = lw \/ 0 < RemainingBytes (Inst w))).
Proof.
  induction n as [ | n IH]; intros tc w Hrem; [apply at_Done | ].
  cbn [ByLine.fill_TXFIFO].
  apply at_Stmt_Then. intros rem w1 H. stmt_result H.
  split; [cbn; repeat split; auto; lia | ].
  destruct ((0 <? RemainingBytes (Inst w)) && (tc <? XSPIPS_FIFO_DEPTH))
    eqn:Hc; [ | apply at_Done].
  apply andb_true_iff in Hc. destruct Hc as [Hpos _].
  apply Z.ltb_lt in Hpos.
  apply at_Stmt_Then. intros a1 w1 H. stmt_result H.
  split; [cbn; repeat split; auto; lia | ].
  apply at_Stmt_Then. intros a2 w2 H. stmt_result H.
  split; [cbn; repeat split; auto; lia | ].
  apply at_Stmt_Then. intros a3 w3 H. stmt_result H.
  assert (Hu : u32 (RemainingBytes (Inst w) - 1) = RemainingBytes (Inst w) - 1)
    by (apply u32_small; lia).
  split; [cbn; rewrite Hu; repeat split; auto; lia | ].
  eapply at_weaken.
  - apply IH. cbn. rewrite Hu. lia.
  - cbn. rewrite Hu. intros L w' (Hin & Hb & Hq & Hr & _).
    repeat split; auto; lia.
Qed.

Lemma at_drain_RXFIFO (lrecv lif lstore lreq : nat) :
  forall (n : nat) (w : World),
    Z.of_nat n <= RequestedBytes (Inst w) < 2 ^ 32 ->
    at_every_point (ByLine.drain_RXFIFO lrecv lif lstore lreq n) w
      (fun L w' =>
         In L [lrecv; lif; lstore; lreq] /\
         IsBusy (Inst w') = IsBusy (Inst w) /\
         RemainingBytes (Inst w') = RemainingBytes (Inst w) /\
         RequestedBytes (Inst w) - Z.of_nat n <= RequestedBytes (Inst w')
           <= RequestedBytes (Inst w) /\
         (L = lreq
          \/ RequestedBytes (Inst w) - Z.of_nat n < RequestedBytes (Inst w'))).
Proof.
  induction n as [ | n IH]; intros w Hreq; [apply at_Done | ].
  cbn [ByLine.drain_RXFIFO].
  apply at_Stmt_Then. intros a1 w1 H. stmt_result H.
  split; [cbn; repeat split; auto; lia | ].
  apply at_Stmt_Then. intros a2 w2 H. stmt_result H.
  split; [cbn; repeat split; auto; lia | ].
  assert (Hu : u32 (RequestedBytes (Inst w) - 1) = RequestedBytes (Inst w) - 1)
    by (apply u32_small; lia).
  assert (Htail : forall w3 : World,
            IsBusy (Inst w3) = IsBusy (Inst w) ->
            RemainingBytes (Inst w3) = RemainingBytes (Inst w) ->
            RequestedBytes (Inst w3) = RequestedBytes (Inst w) ->
            at_every_point
              (Stmt lreq (req <- load RequestedBytes ;;
                          store (set_RequestedBytes (u32 (req - 1)))) ;;;
               ByLine.drain_RXFIFO lrecv lif lstore lreq n)%code w3
              (fun L w' =>
                 In L [lrecv; lif; lstore; lreq] /\
                 IsBusy (Inst w') = IsBusy (Inst w) /\
                 RemainingBytes (Inst w') = RemainingBytes (Inst w) /\
                 RequestedBytes (Inst w) - Z.of_nat (S n)
                 <= RequestedBytes (Inst w') <= RequestedBytes (Inst w) /\
                 (L = lreq
                  \/ RequestedBytes (Inst w) - Z.of_nat (S n)
                     < RequestedBytes (Inst w')))).
  { intros w3 Hb3 Hr3 Hq3.
    apply at_Stmt_Then. intros a4 w4 H4. stmt_result H4.
    split; [cbn; rewrite Hq3, Hu; repeat split; auto; lia | ].
    eapply at_weaken.
    + apply IH. cbn. rewrite Hq3, Hu. lia.
    + cbn. rewrite Hq3, Hu.
      intros L w' (Hin & Hb & Hr & Hq & Hl).
      split; [exact Hin | ].
      split; [congruence | ]. split; [congruence | ]. split; [lia | ].
      destruct Hl as [Hl | Hl]; [left; exact Hl | right; lia]. }
  destruct (negb (RecvBufferPtr (Inst w) =? NULL)).
  - apply at_Then.
    + apply at_Stmt. intros a3 w3 H. stmt_result H.
      cbn; repeat split; auto; lia.
    + intros a3 w3 H. cbn [run] in H. stmt_result H.
      apply Htail; reflexivity.
  - apply at_Then; [apply at_Done | ].
    intros a3 w3 H. cbn [run] in H. stmt_result H.
    apply Htail; reflexivity.
Qed.

Lemma at_wait_TXOW :
  forall (fuel : nat) (w : World),
    at_every_point (ByLine.wait_TXOW fuel) w
      (fun L w' => L = 553%nat /\ Inst w' = Inst w).
Proof.
  induction fuel as [ | fuel IH]; intros w; cbn [ByLine.wait_TXOW].
  - apply at_Stmt. intros a w' H. discriminate H.
  - apply at_Stmt_Then. intros a1 w1 H. stmt_result H.
    split; [split; reflexivity | ].
    destruct (Z.land (dev_status (Dev w)) XSPIPS_IXR_TXOW_MASK =? 0);
      [ | apply at_Done].
    eapply at_weaken; [apply IH | ].
    intros L w' (HL & Hi). split; [exact HL | exact Hi].
Qed.

Lemma at_Abort_flush :
  forall (fuel : nat) (w : World),
    at_every_point (ByLine.Abort_flush fuel) w
      (fun L w' => In L [1057; 1060]%nat /\ Inst w' = Inst w).
Proof.
  induction fuel as [ | fuel IH]; intros w; cbn [ByLine.Abort_flush].
  - apply at_Stmt. intros a w' H. discriminate H.
  - apply at_Stmt_Then. intros a1 w1 H. stmt_result H.
    split; [split; [cbn; auto | reflexivity] | ].
    destruct (Z.land (dev_status (Dev w)) XSPIPS_IXR_RXNEMPTY_MASK
              =? XSPIPS_IXR_RXNEMPTY_MASK); [ | apply at_Done].
    apply at_Stmt_Then. intros a2 w2 H. stmt_result H.
    split; [split; [cbn; auto | reflexivity] | ].
    eapply at_weaken; [apply IH | ].
    intros L w' (HL & Hi). split; [exact HL | exact Hi].
Qed.

Lemma at_apply_SlaveSelect (lif lread lwrite : nat) (w : World) :
  at_every_point (ByLine.apply_SlaveSelect lif lread lwrite) w
    (fun L w' => In L [lif; lread; lwrite] /\ Inst w' = Inst w).
Proof.
  unfold ByLine.apply_SlaveSelect.
  apply at_Stmt_Then. intros a1 w1 H. stmt_result H.
  split; [split; [cbn; auto | reflexivity] | ].
  destruct (negb (Z.land (reg_CR (Dev w)) XSPIPS_CR_SSFORCE_MASK =? 0));
    [ | apply at_Done].
  apply at_Stmt_Then. intros a2 w2 H. stmt_result H.
  split; [split; [cbn; auto | reflexivity] | ].
  apply at_Stmt. intros a3 w3 H. stmt_result H.
  split; [cbn; auto | reflexivity].
Qed.

Lemma at_issue_ManualStart (lif lread lwrite : nat) (w : World) :
  at_every_point (ByLine.issue_ManualStart lif lread lwrite) w
    (fun L w' => In L [lif; lread; lwrite] /\ Inst w' = Inst w).
Proof.
  unfold ByLine.issue_ManualStart.
  apply at_Stmt_Then. intros a1 w1 H.
  assert (E : w1 = w).
  { run_simpl_in H.
    destruct (negb (Z.land (reg_CR (Dev w)) XSPIPS_CR_MANSTRTEN_MASK =? 0));
      run_simpl_in H; injection H as _ <-; destruct w; reflexivity. }
  subst w1. clear H.
  split; [split; [cbn; auto | reflexivity] | ].
  destruct a1; [ | apply at_Done].
  apply at_Stmt_Then. intros a2 w2 H. stmt_result H.
  split; [split; [cbn; auto | reflexivity] | ].
  apply at_Stmt. intros a3 w3 H. stmt_result H.
  split; [cbn; auto | reflexivity].
Qed.

Lemma at_clear_SlaveSelect (lif lread lwrite : nat) (w : World) :
  at_every_point (ByLine.clear_SlaveSelect lif lread lwrite) w
    (fun L w' => In L [lif; lread; lwrite] /\ Inst w' = Inst w).
Proof.
  unfold ByLine.clear_SlaveSelect.
  apply at_Stmt_Then. intros a1 w1 H. stmt_result H.
  split; [split; [cbn; auto | reflexivity] | ].
  destruct (negb (Z.land (reg_CR (Dev w)) XSPIPS_CR_SSFORCE_MASK =? 0));
    [ | apply at_Done].
  apply at_Stmt_Then. intros a2 w2 H. stmt_result H.
  split; [split; [cbn; auto | reflexivity] | ].
  apply at_Stmt. intros a3 w3 H. stmt_result H.
  split; [cbn; auto | reflexivity].
Qed.

(** What the register sequences and the waits return. *)
Lemma run_apply_SlaveSelect_Inst (lif lread lwrite : nat) (a : unit)
  (w w' : World) :
  run (ByLine.apply_SlaveSelect lif lread lwrite) w = Ok (a, w') ->
  Inst w' = Inst w.
Proof.
  rewrite run_apply_SlaveSelect.
  destruct (apply_SlaveSelect_spec w) as (c & E). rewrite E.
  intros H. injection H as _ <-. reflexivity.
Qed.

Lemma run_issue_ManualStart_Inst (lif lread lwrite : nat) (a : unit)
  (w w' : World) :
  run (ByLine.issue_ManualStart lif lread lwrite) w = Ok (a, w') ->
  Inst w' = Inst w.
Proof.
  rewrite run_issue_ManualStart.
  destruct (issue_ManualStart_spec w) as (c & E). rewrite E.
  intros H. injection H as _ <-. reflexivity.
Qed.

Lemma run_clear_SlaveSelect_Inst (lif lread lwrite : nat) (a : unit)
  (w w' : World) :
  run (ByLine.clear_SlaveSelect lif lread lwrite) w = Ok (a, w') ->
  Inst w' = Inst w.
Proof.
  rewrite run_clear_SlaveSelect, clear_SlaveSelect_spec.
  intros H. injection H as _ <-. reflexivity.
Qed.

Lemma run_wait_TXOW_Inst (fuel : nat) (a : unit) (w w' : World) :
  run (ByLine.wait_TXOW fuel) w = Ok (a, w') -> Inst w' = Inst w.
Proof.
  rewrite run_wait_TXOW. destruct a. apply wait_TXOW_Inst.
Qed.

Lemma run_Abort_flush_Inst (fuel : nat) (a : unit) (w w' : World) :
  run (ByLine.Abort_flush fuel) w = Ok (a, w') -> Inst w' = Inst w.
Proof.
  rewrite run_Abort_flush. destruct a. apply Abort_flush_Inst.
Qed.

(** XSpiPs_Abort: the counters are as they were up to line 1066; line
    1070 zeroes RemainingBytes, line 1071 RequestedBytes, line 1072 clears
    the busy flag. *)
Lemma at_Abort (fuel : nat) (w : World) :
  at_every_point (ByLine.XSpiPs_Abort fuel) w
    (fun L w' =>
       (In L [1052; 1057; 1060; 1066]%nat /\ same_counters w w') \/
       (L = 1070%nat /\
        IsBusy (Inst w') = IsBusy (Inst w) /\
        RequestedBytes (Inst w') = RequestedBytes (Inst w) /\
        RemainingBytes (Inst w') = 0) \/
       (L = 1071%nat /\
        IsBusy (Inst w') = IsBusy (Inst w) /\
        RequestedBytes (Inst w') = 0 /\
        RemainingBytes (Inst w') = 0) \/
       (L = 1072%nat /\
        IsBusy (Inst w') = false /\
        RequestedBytes (Inst w') = 0 /\
        RemainingBytes (Inst w') = 0)).
Proof.
  unfold ByLine.XSpiPs_Abort.
  apply at_Stmt_Then. intros a1 w1 H. stmt_result H.
  split; [left; split; [cbn; auto | apply same_counters_Inst; reflexivity] | ].
  apply at_Then.
  - eapply at_weaken; [apply at_Abort_flush | ].
    intros L w' (HL & Hi). left. split.
    + cbn in HL |- *. tauto.
    + apply same_counters_Inst. rewrite Hi. reflexivity.
  - intros a2 w2 H2. apply run_Abort_flush_Inst in H2. cbn in H2.
    apply at_Stmt_Then. intros a3 w3 H. stmt_result H.
    split; [left; split; [cbn; auto | apply same_counters_Inst; exact H2] | ].
    apply at_Stmt_Then. intros a4 w4 H. stmt_result H.
    split; [right; left; cbn; rewrite H2; repeat split | ].
    apply at_Stmt_Then. intros a5 w5 H. stmt_result H.
    split; [right; right; left; cbn; rewrite H2; repeat split | ].
    apply at_Stmt. intros a6 w6 H. stmt_result H.
    right; right; right; cbn; repeat split.
Qed.

End FragmentPoints.

(** *** The operations, point by point *)

Lemma In_nat_mem (L : nat) (l : list nat) :
  In L l <-> existsb (Nat.eqb L) l = true.
Proof.
  rewrite existsb_exists. split.
  - intros H. exists L. split; [exact H | apply Nat.eqb_refl].
  - intros (x & Hx & E). apply Nat.eqb_eq in E. subst x. exact Hx.
Qed.

Ltac run_simpl_in H :=
  unfold ByLine.TxFifo_fill, ByLine.RxFifo_drain, ByLine.BytesDone in H;
  cbn [run] in H;
  cbv beta iota zeta
    delta [bind ret load store mem_read mem_write
           TxFifo_fill RxFifo_drain
           XSpiPs_SendByte XSpiPs_RecvByte XSpiPs_ReadReg XSpiPs_WriteReg
           XSpiPs_In32 XSpiPs_Out32 XSpiPs_Enable XSpiPs_Disable
           XSpiPs_IsManualChipSelect XSpiPs_IsManualStart XSpiPs_IsMaster
           Xil_AssertNonvoid Xil_AssertVoid
           dev_read set_Inst set_Dev set_Mem] in H;
  cbn [Inst Dev Mem] in H.

Ltac stmt_result H :=
  run_simpl_in H;
  repeat match type of H with
         | context [if ?c then _ else _] => destruct c eqn:?
         end;
  try discriminate H;
  injection H as <- <-.

(** The line is in the list: by evaluation. *)
Ltac line_in := apply In_nat_mem; reflexivity.
(** The line is not in the list: by evaluation. *)
Ltac line_out H := apply In_nat_mem in H; discriminate H.

(** One case per line of the list [HL] says [L] is in. *)
Ltac each_line HL :=
  cbn [In] in HL;
  repeat (destruct HL as [HL | HL]; [subst | ]);
  [ .. | destruct HL].

Section OperationPoints.
Context {hw : XSpiPs_Hw}.
Variable user_call : Z -> Z -> XEvent -> Z -> M unit.

Hypothesis user_call_inv :
  forall (f ref : Z) (ev : XEvent) (n : Z) (w w' : World),
    transfer_inv w ->
    user_call f ref ev n w = Ok (tt, w') ->
    transfer_inv w'.

Lemma ok_at_inv (o : Operation) (w0 w : World) (L : nat) :
  transfer_inv w ->
  ~ In L counters_half_stored ->
  point_ok o w0 L w.
Proof.
  intros (Hord & Hbusy) HL. split; [split | ].
  - intros _. exact Hord.
  - intros _. exact Hbusy.
  - intros H. contradiction.
Qed.

Lemma transfer_inv_same (w w' : World) :
  same_counters w w' -> transfer_inv w -> transfer_inv w'.
Proof.
  intros (Hb & Hq & Hr). unfold transfer_inv, counters_ordered.
  rewrite Hb, Hq, Hr. exact (fun H => H).
Qed.

(** A point at which the counters are ordered and the line is one of
    [zero_while_busy]. *)
Lemma ok_at_zero_line (o : Operation) (w0 w : World) (L : nat) :
  counters_ordered w ->
  In L zero_while_busy ->
  ~ In L counters_half_stored ->
  point_ok o w0 L w.
Proof.
  intros Hord HZ HL. split; [split | ].
  - intros _. exact Hord.
  - intros H. contradiction.
  - intros H. contradiction.
Qed.

(** A point at which the counters are ordered and RequestedBytes is not
    zero, or the instance is idle. *)
Lemma ok_at_ordered (o : Operation) (w0 w : World) (L : nat) :
  counters_ordered w ->
  (IsBusy (Inst w) = true -> 0 < RequestedBytes (Inst w)) ->
  ~ In L counters_half_stored ->
  point_ok o w0 L w.
Proof.
  intros Hord Hb HL. apply ok_at_inv; [split; assumption | exact HL].
Qed.

(** A statement that leaves the counters alone, after a point at which
    the invariant holds. *)
Ltac quiet_point Hinv :=
  apply ok_at_inv; [exact Hinv | intros Hh; line_out Hh].

Lemma at_Abort_ok (o : Operation) (w0 : World) (fuel : nat) (w : World) :
  transfer_inv w ->
  at_every_point (ByLine.XSpiPs_Abort fuel) w (point_ok o w0).
Proof.
  intros Hinv. pose proof Hinv as ((Hord & Hlt) & Hbusy).
  eapply at_weaken; [apply at_Abort | ].
  intros L w' [(HL & Hs) | [(-> & Hb & Hq & Hr) | [(-> & Hb & Hq & Hr)
                                                 | (-> & Hb & Hq & Hr)]]].
  - apply ok_at_inv; [apply (transfer_inv_same w); assumption | ].
    each_line HL; intros Hh; line_out Hh.
  - apply ok_at_ordered; [ | | intros Hh; line_out Hh].
    + unfold counters_ordered. rewrite Hq, Hr. lia.
    + rewrite Hb, Hq. exact Hbusy.
  - apply ok_at_zero_line; [ | line_in | intros Hh; line_out Hh].
    unfold counters_ordered. rewrite Hq, Hr. lia.
  - apply ok_at_ordered; [ | | intros Hh; line_out Hh].
    + unfold counters_ordered. rewrite Hq, Hr. lia.
    + rewrite Hb. discriminate.
Qed.

Lemma run_Abort_inv (fuel : nat) (a : unit) (w w' : World) :
  run (ByLine.XSpiPs_Abort fuel) w = Ok (a, w') -> transfer_inv w'.
Proof. rewrite run_Abort. destruct a. apply Abort_inv. Qed.

Lemma at_Reset (o : Operation) (w0 : World) (fuel : nat) (w : World) :
  transfer_inv w ->
  at_every_point (ByLine.XSpiPs_Reset fuel) w (point_ok o w0).
Proof.
  intros Hinv. unfold ByLine.XSpiPs_Reset.
  apply at_Stmt_Then. intros a1 w1 H. stmt_result H.
  split; [quiet_point Hinv | ].
  apply at_Then; [apply at_Abort_ok; exact Hinv | ].
  intros a2 w2 H2. apply run_Abort_inv in H2.
  apply at_Stmt. intros a3 w3 H. stmt_result H.
  quiet_point H2.
Qed.

Lemma at_CfgInitialize (fuel : nat) (addr : Z) (w0 : World) :
  transfer_inv w0 ->
  at_every_point (ByLine.XSpiPs_CfgInitialize fuel addr) w0
    (point_ok (Op_CfgInitialize fuel addr) w0).
Proof.
  intros Hinv. pose proof Hinv as ((Hord & Hlt) & Hbusy).
  unfold ByLine.XSpiPs_CfgInitialize.
  apply at_Stmt_Then. intros a1 w1 H. stmt_result H.
  split; [quiet_point Hinv | ].
  destruct (IsBusy (Inst w0)) eqn:Hb0; [apply at_Done | ].
  assert (Hidle : forall w : World,
            IsBusy (Inst w) = false ->
            RequestedBytes (Inst w) = RequestedBytes (Inst w0) ->
            RemainingBytes (Inst w) = RemainingBytes (Inst w0) ->
            transfer_inv w).
  { intros w Hb Hq Hr. apply (transfer_inv_not_busy w0); assumption
                       || exact (conj Hord Hlt). }
  apply at_Stmt_Then. intros a2 w2 H. stmt_result H.
  split; [apply ok_at_inv; [apply Hidle; reflexivity
                           | intros Hh; line_out Hh] | ].
  apply at_Stmt_Then. intros a3 w3 H. stmt_result H.
  split; [apply ok_at_inv; [apply Hidle; reflexivity
                           | intros Hh; line_out Hh] | ].
  apply at_Stmt_Then. intros a4 w4 H. stmt_result H.
  split; [apply ok_at_inv; [apply Hidle; reflexivity
                           | intros Hh; line_out Hh] | ].
  apply at_Stmt_Then. intros a5 w5 H. stmt_result H.
  split; [apply ok_at_inv; [apply Hidle; reflexivity
                           | intros Hh; line_out Hh] | ].
  apply at_Stmt_Then. intros a6 w6 H. stmt_result H.
  split; [apply ok_at_inv; [apply Hidle; reflexivity
                           | intros Hh; line_out Hh] | ].
  apply at_Stmt_Then. intros a7 w7 H. stmt_result H.
  split.
  { split; [split | ].
    - intros Hh. exfalso. apply Hh. line_in.
    - intros _ Hb. discriminate Hb.
    - intros _. split; reflexivity. }
  assert (Hzero : forall w : World,
            IsBusy (Inst w) = false ->
            RequestedBytes (Inst w) = 0 ->
            RemainingBytes (Inst w) = 0 ->
            transfer_inv w)
    by (intros w; apply transfer_inv_idle).
  apply at_Stmt_Then. intros a8 w8 H. stmt_result H.
  split; [apply ok_at_inv; [apply Hzero; reflexivity
                           | intros Hh; line_out Hh] | ].
  apply at_Stmt_Then. intros a9 w9 H. stmt_result H.
  split; [apply ok_at_inv; [apply Hzero; reflexivity
                           | intros Hh; line_out Hh] | ].
  apply at_Then; [ | intros; apply at_Done].
  apply at_Reset. apply Hzero; reflexivity.
Qed.

(** The first initialization starts from an instance that holds anything
    at all; from line 191 on its counters are zero and it is idle. *)
Lemma at_first_CfgInitialize (fuel : nat) (addr : Z) (w0 : World) :
  at_every_point (ByLine.XSpiPs_CfgInitialize fuel addr) w0
    (fun L w =>
       (191 <= L)%nat ->
       IsBusy (Inst w) = false /\
       RequestedBytes (Inst w) = 0 /\
       RemainingBytes (Inst w) = 0).
Proof.
  unfold ByLine.XSpiPs_CfgInitialize.
  apply at_Stmt_Then. intros a1 w1 H. stmt_result H.
  split; [intros Hle; exfalso; revert Hle; apply Nat.lt_nge, Nat.ltb_lt;
          reflexivity | ].
  destruct (IsBusy (Inst w0)) eqn:Hb0; [apply at_Done | ].
  do 6 (apply at_Stmt_Then; intros ? ? H; stmt_result H;
        split; [intros Hle; exfalso; revert Hle;
                apply Nat.lt_nge, Nat.ltb_lt; reflexivity | ]).
  apply at_Stmt_Then. intros a8 w8 H. stmt_result H.
  split; [intros _; repeat split | ].
  apply at_Stmt_Then. intros a9 w9 H. stmt_result H.
  split; [intros _; repeat split | ].
  apply at_Then; [ | intros; apply at_Done].
  unfold ByLine.XSpiPs_Reset.
  apply at_Stmt_Then. intros a10 w10 H. stmt_result H.
  split; [intros _; repeat split | ].
  apply at_Then.
  - eapply at_weaken; [apply at_Abort | ].
    intros L w' [(HL & Hb & Hq & Hr) | [(-> & Hb & Hq & Hr)
                 | [(-> & Hb & Hq & Hr) | (-> & Hb & Hq & Hr)]]] _;
      rewrite ?Hb, ?Hq, ?Hr; repeat split.
  - intros a11 w11 H11. rewrite run_Abort in H11. destruct a11.
    apply Abort_Inst in H11.
    apply at_Stmt. intros a12 w12 H. stmt_result H.
    intros _. cbn. rewrite H11. repeat split.
Qed.

Lemma at_Transfer (s q N : Z) (w0 : World) :
  transfer_inv w0 ->
  N < 2 ^ 32 ->
  at_every_point (ByLine.XSpiPs_Transfer s q N) w0
    (point_ok (Op_Transfer s q N) w0).
Proof.
  intros Hinv HN. pose proof Hinv as ((Hord & Hlt) & Hbusy).
  unfold ByLine.XSpiPs_Transfer.
  apply at_Stmt_Then. intros a1 w1 H. stmt_result H.
  split; [apply ok_at_inv; [exact Hinv | intros Hh; line_out Hh] | ].
  apply at_Stmt_Then. intros a2 w2 H. stmt_result H.
  split; [apply ok_at_inv; [exact Hinv | intros Hh; line_out Hh] | ].
  apply at_Stmt_Then. intros a3 w3 H. stmt_result H.
  split; [apply ok_at_inv; [exact Hinv | intros Hh; line_out Hh] | ].
  apply at_Stmt_Then. intros a4 w4 H. stmt_result H.
  split; [apply ok_at_inv; [exact Hinv | intros Hh; line_out Hh] | ].
  destruct (IsBusy (Inst w0)) eqn:Hb0; [apply at_Done | ].
  match goal with
  | H : (0 <? N) = true |- _ => apply Z.ltb_lt in H; rename H into Hpos
  end.
  apply at_Stmt_Then. intros a5 w5 H. stmt_result H.
  split; [apply ok_at_zero_line;
            [exact (conj Hord Hlt) | line_in | intros Hh; line_out Hh] | ].
  apply at_Stmt_Then. intros a6 w6 H. stmt_result H.
  split; [apply ok_at_zero_line;
            [exact (conj Hord Hlt) | line_in | intros Hh; line_out Hh] | ].
  apply at_Stmt_Then. intros a7 w7 H. stmt_result H.
  split; [apply ok_at_zero_line;
            [exact (conj Hord Hlt) | line_in | intros Hh; line_out Hh] | ].
  apply at_Stmt_Then. intros a8 w8 H. stmt_result H.
  split.
  { split; [split | ].
    - intros Hh. exfalso. apply Hh. line_in.
    - intros _ _. cbn. exact Hpos.
    - intros _. split; reflexivity. }
  apply at_Stmt_Then. intros a9 w9 H. stmt_result H.
  assert (Hord9 : forall w : World,
            RequestedBytes (Inst w) = N ->
            0 <= RemainingBytes (Inst w) <= N ->
            forall L, ~ In L counters_half_stored ->
            point_ok (Op_Transfer s q N) w0 L w).
  { intros w Hq Hr L HL. apply ok_at_ordered; [ | | exact HL].
    - unfold counters_ordered. rewrite Hq. lia.
    - intros _. rewrite Hq. exact Hpos. }
  split; [apply Hord9; [reflexivity | cbn; lia | intros Hh; line_out Hh] | ].
  apply at_Then.
  { eapply at_weaken; [apply at_apply_SlaveSelect | ].
    intros L w' (HL & Hi).
    apply Hord9; [rewrite Hi; reflexivity | rewrite Hi; cbn; lia | ].
    each_line HL; intros Hh; line_out Hh. }
  intros a10 w10 H10. apply run_apply_SlaveSelect_Inst in H10.
  apply at_Stmt_Then. intros a11 w11 H. stmt_result H.
  split; [apply Hord9; [rewrite H10; reflexivity | rewrite H10; cbn; lia
                       | intros Hh; line_out Hh] | ].
  apply at_Stmt_Then. intros a12 w12 H. stmt_result H.
  split; [apply Hord9; [rewrite H10; reflexivity | rewrite H10; cbn; lia
                       | intros Hh; line_out Hh] | ].
  apply at_Then.
  { unfold ByLine.TxFifo_fill.
    apply at_Stmt_Then. intros a13 w13 H. stmt_result H.
    split; [apply Hord9; [rewrite H10; reflexivity | rewrite H10; cbn; lia
                         | intros Hh; line_out Hh] | ].
    eapply at_weaken; [apply at_fill_TXFIFO; cbn; rewrite H10; cbn; lia | ].
    cbn. rewrite H10. cbn.
    intros L w' (HL & _ & Hq & Hr & _).
    apply Hord9; [exact Hq | lia | ].
    each_line HL; intros Hh; line_out Hh. }
  intros a13 w13 H13. rewrite run_TxFifo_fill in H13.
  unfold TxFifo_fill, bind, load in H13.
  match type of H13 with
  | fill_TXFIFO u8 ?n 0 ?ws = _ =>
      destruct (fill_TXFIFO_counts u8 n ws 0)
        as (tc & j & bytes & Hj & _ & E)
  end.
  { cbn. rewrite H10. cbn. lia. }
  rewrite E in H13. injection H13 as _ <-.
  cbn in Hj. rewrite H10 in Hj. cbn in Hj.
  apply at_Stmt_Then. intros a14 w14 H. stmt_result H.
  split; [apply Hord9; [cbn; rewrite H10; reflexivity
                       | cbn; rewrite H10; cbn; lia
                       | intros Hh; line_out Hh] | ].
  apply at_Then; [ | intros; apply at_Done].
  eapply at_weaken; [apply at_issue_ManualStart | ].
  intros L w' (HL & Hi).
  apply Hord9; [rewrite Hi; cbn; rewrite H10; reflexivity
               | rewrite Hi; cbn; rewrite H10; cbn; lia | ].
  each_line HL; intros Hh; line_out Hh.
Qed.

(** One pass of the polled loop, from counters that are equal and not
    zero. *)
Lemma at_PolledTransfer_pass (o : Operation) (w0 : World) (fuel : nat)
  (w : World) :
  RequestedBytes (Inst w) = RemainingBytes (Inst w) ->
  0 < RemainingBytes (Inst w) < 2 ^ 32 ->
  at_every_point (ByLine.PolledTransfer_pass fuel) w (point_ok o w0).
Proof.
  intros Heq Hrem.
  assert (Hpt : forall v : World,
            0 <= RemainingBytes (Inst v) <= RequestedBytes (Inst v) ->
            RequestedBytes (Inst v) <= RemainingBytes (Inst w) ->
            forall L,
              In L zero_while_busy \/ 0 < RequestedBytes (Inst v) ->
              ~ In L counters_half_stored ->
              point_ok o w0 L v).
  { intros v Hord Hq L [HZ | Hpos] HL.
    - apply ok_at_zero_line; [ | exact HZ | exact HL].
      unfold counters_ordered. lia.
    - apply ok_at_ordered; [ | | exact HL].
      + unfold counters_ordered. lia.
      + intros _. exact Hpos. }
  unfold ByLine.PolledTransfer_pass.
  apply at_Then.
  { unfold ByLine.TxFifo_fill.
    apply at_Stmt_Then. intros a1 w1 H. stmt_result H.
    split; [apply Hpt; [lia | lia | right; lia | intros Hh; line_out Hh] | ].
    eapply at_weaken; [apply at_fill_TXFIFO; lia | ].
    cbn. intros L w' (HL & _ & Hq & Hr & _).
    apply Hpt; [lia | lia | right; lia | ].
    each_line HL; intros Hh; line_out Hh. }
  intros tc w1 H1. rewrite run_TxFifo_fill in H1.
  unfold TxFifo_fill, bind, load in H1.
  destruct (fill_TXFIFO_counts u32 (Z.to_nat (RemainingBytes (Inst w))) w 0)
    as (tc' & j & bytes & Hj & Htc & E); [lia | ].
  rewrite E in H1. injection H1 as <- <-.
  assert (tc' = j).
  { rewrite Htc; [lia | | lia | lia].
    intros t Ht. apply u32_small. lia. }
  subst tc'. clear Htc E.
  apply at_Then.
  { eapply at_weaken; [apply at_issue_ManualStart | ].
    intros L w' (HL & Hi).
    apply Hpt; [rewrite Hi; cbn; lia | rewrite Hi; cbn; lia
               | right; rewrite Hi; cbn; lia | ].
    each_line HL; intros Hh; line_out Hh. }
  intros a2 w2 H2. apply run_issue_ManualStart_Inst in H2. cbn in H2.
  apply at_Then.
  { eapply at_weaken; [apply at_wait_TXOW | ].
    intros L w' (-> & Hi).
    apply Hpt; [rewrite Hi, H2; cbn; lia | rewrite Hi, H2; cbn; lia
               | right; rewrite Hi, H2; cbn; lia | intros Hh; line_out Hh]. }
  intros a3 w3 H3. apply run_wait_TXOW_Inst in H3. rewrite H2 in H3.
  unfold ByLine.RxFifo_drain.
  eapply at_weaken.
  { apply at_drain_RXFIFO. rewrite H3. cbn. rewrite Z2Nat.id by lia. lia. }
  cbn. rewrite H3. cbn. rewrite Z2Nat.id by lia.
  intros L w' (HL & _ & Hr & Hq & Hl).
  apply Hpt; [lia | lia | | ].
  - destruct Hl as [-> | Hl]; [left; line_in | right; lia].
  - each_line HL; intros Hh; line_out Hh.
Qed.

Lemma run_PolledTransfer_pass_counts (fuel : nat) (a : unit) (w w' : World) :
  RequestedBytes (Inst w) = RemainingBytes (Inst w) ->
  0 <= RemainingBytes (Inst w) < 2 ^ 32 ->
  run (ByLine.PolledTransfer_pass fuel) w = Ok (a, w') ->
  RequestedBytes (Inst w') = RemainingBytes (Inst w') /\
  0 <= RemainingBytes (Inst w') < 2 ^ 32.
Proof.
  rewrite run_PolledTransfer_pass. destruct a.
  apply PolledTransfer_pass_counts.
Qed.

Lemma at_PolledTransfer_loop (o : Operation) (w0 : World) (fuel : nat) :
  forall (n : nat) (w : World),
    RequestedBytes (Inst w) = RemainingBytes (Inst w) ->
    0 <= RemainingBytes (Inst w) < 2 ^ 32 ->
    at_every_point (ByLine.PolledTransfer_loop fuel n) w (point_ok o w0).
Proof.
  induction n as [ | n IH]; intros w Heq Hrem;
    cbn [ByLine.PolledTransfer_loop];
    apply at_Stmt_Then; intros a1 w1 H; stmt_result H;
    (split; [apply ok_at_zero_line;
               [unfold counters_ordered; lia | line_in
               | intros Hh; line_out Hh] | ]);
    destruct (PolledTransfer_continue (Inst w)) eqn:Hc;
    try apply at_Done.
  - apply at_Stmt. intros a w' H. discriminate H.
  - assert (Hpos : 0 < RemainingBytes (Inst w)).
    { unfold PolledTransfer_continue in Hc. rewrite Heq in Hc.
      apply orb_true_iff in Hc. destruct Hc as [Hc | Hc];
        apply Z.ltb_lt in Hc; exact Hc. }
    apply at_Then.
    + apply at_PolledTransfer_pass; [exact Heq | lia].
    + intros a2 w2 H2.
      apply run_PolledTransfer_pass_counts in H2; [ | exact Heq | exact Hrem].
      destruct H2 as (Heq2 & Hrem2). apply IH; assumption.
Qed.

Lemma at_PolledTransfer (fuel : nat) (s q N : Z) (w0 : World) :
  transfer_inv w0 ->
  N < 2 ^ 32 ->
  at_every_point (ByLine.XSpiPs_PolledTransfer fuel s q N) w0
    (point_ok (Op_PolledTransfer fuel s q N) w0).
Proof.
  intros Hinv HN. pose proof Hinv as ((Hord & Hlt) & Hbusy).
  unfold ByLine.XSpiPs_PolledTransfer.
  apply at_Stmt_Then. intros a1 w1 H. stmt_result H.
  split; [quiet_point Hinv | ].
  apply at_Stmt_Then. intros a2 w2 H. stmt_result H.
  split; [quiet_point Hinv | ].
  apply at_Stmt_Then. intros a3 w3 H. stmt_result H.
  split; [quiet_point Hinv | ].
  apply at_Stmt_Then. intros a4 w4 H. stmt_result H.
  split; [quiet_point Hinv | ].
  destruct (IsBusy (Inst w0)) eqn:Hb0; [apply at_Done | ].
  match goal with
  | H : (0 <? N) = true |- _ => apply Z.ltb_lt in H; rename H into Hpos
  end.
  apply at_Stmt_Then. intros a5 w5 H. stmt_result H.
  split; [apply ok_at_zero_line;
            [exact (conj Hord Hlt) | line_in | intros Hh; line_out Hh] | ].
  apply at_Stmt_Then. intros a6 w6 H. stmt_result H.
  split; [apply ok_at_zero_line;
            [exact (conj Hord Hlt) | line_in | intros Hh; line_out Hh] | ].
  apply at_Stmt_Then. intros a7 w7 H. stmt_result H.
  split; [apply ok_at_zero_line;
            [exact (conj Hord Hlt) | line_in | intros Hh; line_out Hh] | ].
  apply at_Stmt_Then. intros a8 w8 H. stmt_result H.
  split.
  { split; [split | ].
    - intros Hh. exfalso. apply Hh. line_in.
    - intros _ _. cbn. exact Hpos.
    - intros _. split; reflexivity. }
  apply at_Stmt_Then. intros a9 w9 H. stmt_result H.
  assert (Hset : forall w : World,
            RequestedBytes (Inst w) = N ->
            RemainingBytes (Inst w) = N ->
            forall L, ~ In L counters_half_stored ->
            point_ok (Op_PolledTransfer fuel s q N) w0 L w).
  { intros w Hq Hr L HL. apply ok_at_ordered; [ | | exact HL].
    - unfold counters_ordered. rewrite Hq, Hr. lia.
    - intros _. rewrite Hq. exact Hpos. }
  split; [apply Hset; [reflexivity | reflexivity | intros Hh; line_out Hh] | ].
  apply at_Then.
  { eapply at_weaken; [apply at_apply_SlaveSelect | ].
    intros L w' (HL & Hi).
    apply Hset; [rewrite Hi; reflexivity | rewrite Hi; reflexivity | ].
    each_line HL; intros Hh; line_out Hh. }
  intros a10 w10 H10. apply run_apply_SlaveSelect_Inst in H10.
  apply at_Stmt_Then. intros a11 w11 H. stmt_result H.
  split; [apply Hset; [rewrite H10; reflexivity | rewrite H10; reflexivity
                      | intros Hh; line_out Hh] | ].
  apply at_Then.
  { apply at_PolledTransfer_loop; cbn; rewrite H10; cbn; [reflexivity | lia]. }
  intros a12 w12 H12. rewrite run_PolledTransfer_loop in H12. destruct a12.
  apply PolledTransfer_loop_counts in H12;
    [ | cbn; rewrite H10; reflexivity | cbn; rewrite H10; cbn; lia].
  destruct H12 as (Hq12 & Hr12).
  assert (Hdone : forall w : World,
            RequestedBytes (Inst w) = 0 ->
            RemainingBytes (Inst w) = 0 ->
            counters_ordered w).
  { intros w Hq Hr. unfold counters_ordered. rewrite Hq, Hr. lia. }
  apply at_Then.
  { eapply at_weaken; [apply at_clear_SlaveSelect | ].
    intros L w' (HL & Hi).
    each_line HL;
      (apply ok_at_zero_line;
       [apply Hdone; rewrite Hi; assumption | line_in
       | intros Hh; line_out Hh]). }
  intros a13 w13 H13. apply run_clear_SlaveSelect_Inst in H13.
  apply at_Stmt_Then. intros a14 w14 H. stmt_result H.
  split; [apply ok_at_inv;
            [apply transfer_inv_idle; cbn; rewrite ?H13; auto
            | intros Hh; line_out Hh] | ].
  apply at_Then; [ | intros; apply at_Done].
  apply at_Stmt. intros a15 w15 H. stmt_result H.
  apply ok_at_inv; [apply transfer_inv_idle; cbn; rewrite ?H13; auto
                   | intros Hh; line_out Hh].
Qed.

Lemma at_SetSlaveSelect (k : Z) (w0 : World) :
  transfer_inv w0 ->
  at_every_point (ByLine.XSpiPs_SetSlaveSelect k) w0
    (point_ok (Op_SetSlaveSelect k) w0).
Proof.
  intros Hinv. unfold ByLine.XSpiPs_SetSlaveSelect.
  apply at_Stmt_Then. intros a1 w1 H. stmt_result H.
  split; [quiet_point Hinv | ].
  apply at_Stmt_Then. intros a2 w2 H. stmt_result H.
  split; [quiet_point Hinv | ].
  apply at_Stmt_Then. intros a3 w3 H. stmt_result H.
  split; [quiet_point Hinv | ].
  destruct (IsBusy (Inst w0)); [apply at_Done | ].
  apply at_Stmt_Then. intros a4 w4 H. stmt_result H.
  split; [quiet_point Hinv | ].
  apply at_Stmt_Then. intros a5 w5 H. stmt_result H.
  split; [quiet_point Hinv | ].
  apply at_Then; [ | intros; apply at_Done].
  apply at_Stmt. intros a6 w6 H. stmt_result H.
  quiet_point Hinv.
Qed.

Lemma at_GetSlaveSelect (w0 : World) :
  transfer_inv w0 ->
  at_every_point ByLine.XSpiPs_GetSlaveSelect w0
    (point_ok Op_GetSlaveSelect w0).
Proof.
  intros Hinv. unfold ByLine.XSpiPs_GetSlaveSelect.
  apply at_Stmt_Then. intros a1 w1 H. stmt_result H.
  split; [quiet_point Hinv | ].
  apply at_Stmt_Then. intros a2 w2 H. stmt_result H.
  split; [quiet_point Hinv | ].
  cbv zeta. match goal with
            | |- context [if ?c then _ else _] => destruct c
            end; apply at_Done.
Qed.

Lemma at_SetStatusHandler (ref f : Z) (w0 : World) :
  transfer_inv w0 ->
  at_every_point (ByLine.XSpiPs_SetStatusHandler ref f) w0
    (point_ok (Op_SetStatusHandler ref f) w0).
Proof.
  intros Hinv. unfold ByLine.XSpiPs_SetStatusHandler.
  apply at_Stmt_Then. intros a1 w1 H. stmt_result H.
  split; [quiet_point Hinv | ].
  apply at_Stmt_Then. intros a2 w2 H. stmt_result H.
  split; [quiet_point Hinv | ].
  apply at_Stmt_Then. intros a3 w3 H. stmt_result H.
  split; [quiet_point Hinv | ].
  apply at_Stmt. intros a4 w4 H. stmt_result H.
  quiet_point Hinv.
Qed.

Lemma ok_at_either (o : Operation) (w0 v : World) (L : nat) :
  counters_ordered v ->
  In L zero_while_busy \/ 0 < RequestedBytes (Inst v)
  \/ IsBusy (Inst v) = false ->
  ~ In L counters_half_stored ->
  point_ok o w0 L v.
Proof.
  intros Hord [HZ | [Hpos | Hidle]] HL.
  - apply ok_at_zero_line; assumption.
  - apply ok_at_ordered; [exact Hord | intros _; exact Hpos | exact HL].
  - apply ok_at_ordered; [exact Hord | | exact HL].
    rewrite Hidle. discriminate.
Qed.

(** The return of a call of the status handler. *)
Lemma callback_inv (ev : XEvent) (n : Z) (a : unit) (w w' : World) :
  transfer_inv w ->
  call_StatusHandler user_call ev n w = Ok (a, w') ->
  transfer_inv w'.
Proof.
  intros Hinv H. unfold call_StatusHandler, bind, load in H. destruct a.
  apply (invoke_inv user_call user_call_inv _ _ _ _ _ _ Hinv H).
Qed.

Lemma at_Handler_done (o : Operation) (w0 w : World) :
  RequestedBytes (Inst w) = 0 ->
  RemainingBytes (Inst w) = 0 ->
  at_every_point (ByLine.Handler_done user_call) w (point_ok o w0).
Proof.
  intros Hq Hr.
  assert (Hord : forall v : World, Inst v = Inst w -> counters_ordered v).
  { intros v E. unfold counters_ordered. rewrite E, Hq, Hr. lia. }
  unfold ByLine.Handler_done.
  apply at_Stmt_Then. intros a1 w1 H. stmt_result H.
  split; [apply ok_at_zero_line; [apply Hord; reflexivity | line_in
                                 | intros Hh; line_out Hh] | ].
  apply at_Then.
  { eapply at_weaken; [apply at_clear_SlaveSelect | ].
    intros L w' (HL & Hi).
    each_line HL;
      (apply ok_at_zero_line;
       [apply Hord; exact Hi | line_in | intros Hh; line_out Hh]). }
  intros a2 w2 H2. apply run_clear_SlaveSelect_Inst in H2. cbn in H2.
  apply at_Stmt_Then. intros a3 w3 H. stmt_result H.
  assert (Hidle : forall v : World,
            Inst v = set_IsBusy false (Inst w) -> transfer_inv v).
  { intros v E. apply transfer_inv_idle; rewrite E; cbn; assumption
                || reflexivity. }
  split; [apply ok_at_inv; [apply Hidle; cbn; rewrite H2; reflexivity
                           | intros Hh; line_out Hh] | ].
  apply at_Stmt_Then. intros a4 w4 H. stmt_result H.
  split; [apply ok_at_inv; [apply Hidle; cbn; rewrite H2; reflexivity
                           | intros Hh; line_out Hh] | ].
  apply at_Stmt. intros a5 w5 H.
  unfold bind, load in H. apply callback_inv in H.
  - apply ok_at_inv; [exact H | intros Hh; line_out Hh].
  - apply Hidle. cbn. rewrite H2. reflexivity.
Qed.

Lemma at_Handler_TXOW (o : Operation) (w0 w : World) :
  transfer_inv w ->
  at_every_point (ByLine.Handler_TXOW user_call) w (point_ok o w0).
Proof.
  intros Hinv. pose proof Hinv as ((Hord & Hlt) & Hbusy).
  unfold ByLine.Handler_TXOW.
  apply at_Stmt_Then. intros tc w1 H. stmt_result H.
  split; [quiet_point Hinv | ].
  rewrite u32_small by lia.
  set (r := RemainingBytes (Inst w)) in *.
  set (n := RequestedBytes (Inst w) - r) in *.
  apply at_Then.
  { unfold ByLine.RxFifo_drain. eapply at_weaken.
    - apply at_drain_RXFIFO. rewrite Z2Nat.id by lia. lia.
    - cbn beta. rewrite Z2Nat.id by lia.
      intros L w' (HL & _ & Hr & Hq & Hl).
      apply ok_at_either.
      + unfold counters_ordered. fold r in Hr. lia.
      + destruct Hl as [-> | Hl]; [left; line_in | right; left; lia].
      + each_line HL; intros Hh; line_out Hh. }
  intros a2 w2 H2. unfold ByLine.RxFifo_drain in H2.
  rewrite run_drain_RXFIFO in H2.
  destruct (drain_RXFIFO_spec (Z.to_nat n) w) as (q & m & Ed).
  { rewrite Z2Nat.id by lia. lia. }
  rewrite Ed in H2. injection H2 as _ <-. clear Ed.
  rewrite Z2Nat.id by lia.
  replace (RequestedBytes (Inst w) - n) with r by lia.
  apply at_Then.
  { unfold ByLine.TxFifo_fill.
    apply at_Stmt_Then. intros a3 w3 H. stmt_result H.
    split.
    { apply ok_at_zero_line; [ | line_in | intros Hh; line_out Hh].
      unfold counters_ordered. cbn. fold r. lia. }
    eapply at_weaken; [apply at_fill_TXFIFO; cbn; fold r; lia | ].
    cbn. fold r. intros L w' (HL & _ & Hq & Hr & Hl).
    apply ok_at_either.
    - unfold counters_ordered. lia.
    - destruct Hl as [-> | Hl]; [left; line_in | right; left; lia].
    - each_line HL; intros Hh; line_out Hh. }
  intros a3 w3 H3. rewrite run_TxFifo_fill in H3.
  unfold TxFifo_fill, bind, load in H3.
  match type of H3 with
  | fill_TXFIFO u32 ?k 0 ?ws = _ =>
      destruct (fill_TXFIFO_counts u32 k ws 0)
        as (tc' & j & bytes & Hj & _ & E)
  end.
  { cbn. fold r. lia. }
  rewrite E in H3. injection H3 as _ <-. clear E.
  cbn in Hj. fold r in Hj.
  apply at_Stmt_Then. intros done w4 H. stmt_result H.
  cbn. fold r.
  split.
  { apply ok_at_zero_line; [ | line_in | intros Hh; line_out Hh].
    unfold counters_ordered. cbn. fold r. lia. }
  destruct ((r - j =? 0) && (r =? 0)) eqn:Hc.
  - apply andb_true_iff in Hc. destruct Hc as [Hc1 Hc2].
    apply Z.eqb_eq in Hc1. apply Z.eqb_eq in Hc2.
    apply at_Handler_done; cbn; fold r; assumption.
  - assert (Hpos : 0 < r).
    { apply andb_false_iff in Hc.
      destruct Hc as [Hc | Hc]; apply Z.eqb_neq in Hc; lia. }
    apply at_Stmt_Then. intros a5 w5 H. stmt_result H.
    split.
    { apply ok_at_either; [ | right; left; cbn; fold r; exact Hpos
                            | intros Hh; line_out Hh].
      unfold counters_ordered. cbn. fold r. lia. }
    eapply at_weaken; [apply at_issue_ManualStart | ].
    intros L w' (HL & Hi).
    apply ok_at_either.
    + unfold counters_ordered. rewrite Hi. cbn. fold r. lia.
    + right; left. rewrite Hi. cbn. fold r. exact Hpos.
    + each_line HL; intros Hh; line_out Hh.
Qed.

Lemma at_Handler_RXOVR (o : Operation) (w0 w : World) :
  transfer_inv w ->
  at_every_point (ByLine.Handler_RXOVR user_call) w (point_ok o w0).
Proof.
  intros Hinv. pose proof Hinv as (Hord & Hbusy).
  assert (Hidle : forall v : World,
            Inst v = set_IsBusy false (Inst w) -> transfer_inv v).
  { intros v E. apply (transfer_inv_not_busy w); [exact Hord | | | ];
      rewrite E; reflexivity. }
  unfold ByLine.Handler_RXOVR.
  apply at_Stmt_Then. intros n w1 H. stmt_result H.
  split; [quiet_point Hinv | ].
  apply at_Stmt_Then. intros a2 w2 H. stmt_result H.
  split; [apply ok_at_inv; [apply Hidle; reflexivity
                           | intros Hh; line_out Hh] | ].
  apply at_Then.
  { eapply at_weaken; [apply at_clear_SlaveSelect | ].
    intros L w' (HL & Hi).
    apply ok_at_inv; [apply Hidle; exact Hi | ].
    each_line HL; intros Hh; line_out Hh. }
  intros a3 w3 H3. apply run_clear_SlaveSelect_Inst in H3. cbn in H3.
  apply at_Stmt. intros a4 w4 H. apply callback_inv in H.
  - apply ok_at_inv; [exact H | intros Hh; line_out Hh].
  - apply Hidle. exact H3.
Qed.

Lemma at_Handler_TXUF (o : Operation) (w0 w : World) :
  transfer_inv w ->
  at_every_point (ByLine.Handler_TXUF user_call) w (point_ok o w0).
Proof.
  intros Hinv. pose proof Hinv as (Hord & Hbusy).
  assert (Hidle : forall v : World,
            Inst v = set_IsBusy false (Inst w) -> transfer_inv v).
  { intros v E. apply (transfer_inv_not_busy w); [exact Hord | | | ];
      rewrite E; reflexivity. }
  unfold ByLine.Handler_TXUF.
  apply at_Stmt_Then. intros n w1 H. stmt_result H.
  split; [quiet_point Hinv | ].
  apply at_Stmt_Then. intros a2 w2 H. stmt_result H.
  split; [apply ok_at_inv; [apply Hidle; reflexivity
                           | intros Hh; line_out Hh] | ].
  apply at_Then.
  { eapply at_weaken; [apply at_clear_SlaveSelect | ].
    intros L w' (HL & Hi).
    apply ok_at_inv; [apply Hidle; exact Hi | ].
    each_line HL; intros Hh; line_out Hh. }
  intros a3 w3 H3. apply run_clear_SlaveSelect_Inst in H3. cbn in H3.
  apply at_Stmt. intros a4 w4 H. apply callback_inv in H.
  - apply ok_at_inv; [exact H | intros Hh; line_out Hh].
  - apply Hidle. exact H3.
Qed.

Lemma at_Handler_faults (o : Operation) (w0 : World) (IntrStatus : Z)
  (w : World) :
  transfer_inv w ->
  at_every_point (ByLine.Handler_faults user_call IntrStatus) w
    (point_ok o w0).
Proof.
  intros Hinv. unfold ByLine.Handler_faults.
  apply at_Then.
  - destruct (negb (Z.land IntrStatus XSPIPS_IXR_RXOVR_MASK =? 0));
      [apply at_Handler_RXOVR; exact Hinv | apply at_Done].
  - intros a1 w1 H1.
    assert (Hinv1 : transfer_inv w1).
    { destruct (negb (Z.land IntrStatus XSPIPS_IXR_RXOVR_MASK =? 0)).
      - rewrite run_Handler_RXOVR in H1. destruct a1.
        apply (Handler_RXOVR_inv user_call user_call_inv w); assumption.
      - cbn in H1. injection H1 as _ <-. exact Hinv. }
    destruct (negb (Z.land IntrStatus XSPIPS_IXR_TXUF_MASK =? 0));
      [apply at_Handler_TXUF; exact Hinv1 | apply at_Done].
Qed.

Lemma at_Handler_MODF (o : Operation) (w0 : World) (fuel : nat) (w : World) :
  transfer_inv w ->
  at_every_point (ByLine.Handler_MODF user_call fuel) w (point_ok o w0).
Proof.
  intros Hinv. unfold ByLine.Handler_MODF.
  apply at_Stmt_Then. intros n w1 H. stmt_result H.
  split; [quiet_point Hinv | ].
  apply at_Then; [apply at_Abort_ok; exact Hinv | ].
  intros a2 w2 H2. apply run_Abort_inv in H2.
  apply at_Stmt. intros a3 w3 H. apply callback_inv in H; [ | exact H2].
  apply ok_at_inv; [exact H | intros Hh; line_out Hh].
Qed.

Lemma at_InterruptHandler (fuel : nat) (w0 : World) :
  transfer_inv w0 ->
  at_every_point (ByLine.XSpiPs_InterruptHandler user_call fuel) w0
    (point_ok (Op_InterruptHandler fuel) w0).
Proof.
  intros Hinv. unfold ByLine.XSpiPs_InterruptHandler.
  apply at_Stmt_Then. intros a1 w1 H. stmt_result H.
  split; [quiet_point Hinv | ].
  apply at_Stmt_Then. intros st w2 H. stmt_result H.
  split; [quiet_point Hinv | ].
  apply at_Stmt_Then. intros a3 w3 H. stmt_result H.
  split; [quiet_point Hinv | ].
  apply at_Stmt_Then. intros a4 w4 H. stmt_result H.
  split; [quiet_point Hinv | ].
  match goal with
  | |- at_every_point _ ?w _ =>
      assert (Hinv4 : transfer_inv w) by exact Hinv
  end.
  destruct (XSPIPS_IXR_MODF_MASK
            =? Z.land (dev_status (Dev w0)) XSPIPS_IXR_MODF_MASK).
  - apply at_Handler_MODF. exact Hinv4.
  - apply at_Then.
    + destruct (negb (Z.land (dev_status (Dev w0)) XSPIPS_IXR_TXOW_MASK
                      =? 0));
        [apply at_Handler_TXOW; exact Hinv4 | apply at_Done].
    + intros a5 w5 H5. apply at_Handler_faults.
      destruct (negb (Z.land (dev_status (Dev w0)) XSPIPS_IXR_TXOW_MASK
                      =? 0)).
      * rewrite run_Handler_TXOW in H5. destruct a5.
        apply (Handler_TXOW_inv user_call user_call_inv _ _ Hinv4 H5).
      * cbn in H5. injection H5 as _ <-. exact Hinv4.
Qed.

Lemma at_Abort_op (fuel : nat) (w0 : World) :
  transfer_inv w0 ->
  at_every_point (ByLine.XSpiPs_Abort fuel) w0 (point_ok (Op_Abort fuel) w0).
Proof. apply at_Abort_ok. Qed.

(** Every operation, from a world between two operations. *)
Lemma at_operation (o : Operation) (w0 : World) :
  transfer_inv w0 ->
  in_range o ->
  forall (L : nat) (w : World),
    In (L, w) (points_of user_call o w0) -> point_ok o w0 L w.
Proof.
  intros Hinv Hr. destruct o; cbn [points_of in_range] in *.
  - apply at_CfgInitialize. exact Hinv.
  - apply at_Reset. exact Hinv.
  - apply at_Transfer; assumption.
  - apply at_PolledTransfer; assumption.
  - apply at_SetSlaveSelect. exact Hinv.
  - apply at_GetSlaveSelect. exact Hinv.
  - apply at_SetStatusHandler. exact Hinv.
  - apply at_InterruptHandler. exact Hinv.
  - apply at_Abort_op. exact Hinv.
Qed.

End OperationPoints.

Section CounterClaim.
Context {hw : XSpiPs_Hw}.
Variable user_call : Z -> Z -> XEvent -> Z -> M unit.

Hypothesis user_call_inv :
  forall (f ref : Z) (ev : XEvent) (n : Z) (w w' : World),
    transfer_inv w ->
    user_call f ref ev n w = Ok (tt, w') ->
    transfer_inv w'.


End CounterClaim.

Lemma logging_call_inv :
  forall (f ref : Z) (ev : XEvent) (n : Z) (w w' : World),
    transfer_inv w ->
    logging_call f ref ev n w = Ok (tt, w') ->
    transfer_inv w'.
Proof.
  intros f ref ev n w w' Hinv H. unfold logging_call in H.
  injection H as <-. exact Hinv.
Qed.

Lemma initialized_reachable :
  reachable (hw := XSpiPs_zynq) logging_call initialized_world.
Proof.
  apply (reach_SetStatusHandler logging_call 500 0x1234
           (world_of (XSpiPs_CfgInitialize (hw := XSpiPs_zynq) 5 0xE0006000
                        demo_world) demo_world)).
  - apply (reach_CfgInitialize logging_call 5 0xE0006000 demo_world).
    + reflexivity.
    + vm_compute. reflexivity.
  - vm_compute. reflexivity.
Qed.

Lemma started_reachable :
  reachable (hw := XSpiPs_zynq) logging_call started_world.
Proof.
  apply (reach_Transfer logging_call 100 300 10 XST_SUCCESS
           initialized_world).
  - exact initialized_reachable.
  - lia.
  - vm_compute. reflexivity.
Qed.

Lemma started_200_reachable :
  reachable (hw := XSpiPs_zynq) logging_call started_200_world.
Proof.
  apply (reach_Transfer logging_call 100 300 200 XST_SUCCESS
           initialized_world).
  - exact initialized_reachable.
  - lia.
  - vm_compute. reflexivity.
Qed.

Lemma after_underrun_reachable :
  reachable (hw := XSpiPs_zynq) logging_call after_underrun_world.
Proof.
  apply (reach_InterruptHandler logging_call 20 underrun_200_world).
  - unfold underrun_200_world. apply reach_environment.
    exact started_200_reachable.
  - vm_compute. reflexivity.
Qed.

Lemma sent_reachable :
  reachable (hw := XSpiPs_zynq) logging_call sent_world.
Proof.
  unfold sent_world. apply reach_environment. exact started_reachable.
Qed.

(** The statement [k] of the operation leaves the world [point_nr] names. *)
Lemma point_nr_In {hw : XSpiPs_Hw} (k : nat) (o : Operation) (w0 : World)
  (L : nat) (w : World) :
  nth_error (points_of logging_call o w0) k = Some (L, w) ->
  In (L, w) (points_of logging_call o w0).
Proof. apply nth_error_In. Qed.

Lemma last_drained_observable :
  observable (hw := XSpiPs_zynq) logging_call 902 last_drained_world.
Proof.
  exists (Op_InterruptHandler 20), sent_world.
  split; [exact sent_reachable | ]. split; [exact I | ].
  apply (point_nr_In 44). vm_compute. reflexivity.
Qed.



(** * Further properties of the driver *)

Lemma zynq_faults_ok (D : Z) : faults_ok (hw_with_depth D).
Proof. unfold faults_ok; cbn. conjuncts; (discriminate || reflexivity). Qed.

Lemma zynq_cr_bits_ok (D : Z) : cr_bits_ok (hw_with_depth D).
Proof. unfold cr_bits_ok; cbn. conjuncts; (lia || reflexivity). Qed.

(** ** Initialization and reset *)

Section InitFacts.
Context {hw : XSpiPs_Hw}.

Lemma Reset_spec (fuel : nat) (w : World) :
  levels_ok hw ->
  IsReady (Inst w) = true ->
  (length (RxFifo (Dev w)) < fuel)%nat ->
  XSpiPs_Reset fuel w
  = Ok (tt,
        set_Dev (set_reg_CR (u32 XSPIPS_CR_RESET_STATE) (Dev (aborted w)))
          (aborted w)).
Proof.
  intros Hlev Hready Hfuel. unfold XSpiPs_Reset.
  cbv beta iota delta [bind load Xil_AssertVoid Xil_AssertNonvoid].
  rewrite Hready. cbv beta iota.
  rewrite (Abort_spec Hlev) by exact Hfuel.
  reflexivity.
Qed.

(** X1. XSpiPs_CfgInitialize refuses an instance whose busy flag is set:
    it returns XST_DEVICE_IS_STARTED and changes nothing.  On any other
    instance it succeeds (given fuel for the flush of the receive FIFO):
    the instance is ready and idle with the stub as its status handler,
    NULL buffers, zero counters and the new base address; the control
    register holds its reset value, the device is disabled and its receive
    FIFO is empty.  The cached slave select and the callback reference are
    not initialized, and neither the interrupt mask nor the transmit FIFO
    nor the memory is touched. *)
Theorem CfgInitialize_outcome :
  forall (fuel : nat) (EffectiveAddr : Z) (w : World),
    levels_ok hw ->
    (length (RxFifo (Dev w)) < fuel)%nat ->
    (IsBusy (Inst w) = true ->
     XSpiPs_CfgInitialize fuel EffectiveAddr w
     = Ok (XST_DEVICE_IS_STARTED, w)) /\
    (IsBusy (Inst w) = false ->
     exists w',
       XSpiPs_CfgInitialize fuel EffectiveAddr w = Ok (XST_SUCCESS, w') /\
       Inst w'
       = mkXSpiPs EffectiveAddr true false NULL NULL 0 0
           (SlaveSelect (Inst w)) StubStatusHandler (StatusRef (Inst w)) /\
       reg_CR (Dev w') = u32 XSPIPS_CR_RESET_STATE /\
       reg_ER (Dev w') = 0 /\
       RxFifo (Dev w') = [] /\
       TxFifo (Dev w') = TxFifo (Dev w) /\
       reg_IEN (Dev w') = reg_IEN (Dev w) /\
       Mem w' = Mem w).
Proof.
  intros fuel addr w Hlev Hfuel. split; intros Hbusy.
  - unfold XSpiPs_CfgInitialize. cbv beta iota delta [bind load].
    rewrite Hbusy. reflexivity.
  - unfold XSpiPs_CfgInitialize. cbv beta iota delta [bind load store].
    rewrite Hbusy. cbv beta iota.
    rewrite (Reset_spec _ _ Hlev) by (drv_simpl; reflexivity || exact Hfuel).
    eexists. split; [reflexivity | ].
    conjuncts; reflexivity.
Qed.

(** X2. XSpiPs_Reset asserts on an instance that is not ready.  On a
    ready one it aborts whatever is in flight and writes the reset value to
    the control register: the instance is idle with zero counters and the
    device disabled with an empty receive FIFO, while the status handler,
    its reference, the cached slave select, the buffer pointers and the
    base address are kept. *)
Theorem Reset_outcome :
  forall (fuel : nat) (w : World),
    levels_ok hw ->
    (length (RxFifo (Dev w)) < fuel)%nat ->
    (IsReady (Inst w) = false -> XSpiPs_Reset fuel w = AssertFailed) /\
    (IsReady (Inst w) = true ->
     exists w',
       XSpiPs_Reset fuel w = Ok (tt, w') /\
       Inst w'
       = set_IsBusy false
           (set_RequestedBytes 0 (set_RemainingBytes 0 (Inst w))) /\
       reg_CR (Dev w') = u32 XSPIPS_CR_RESET_STATE /\
       reg_ER (Dev w') = 0 /\
       RxFifo (Dev w') = [] /\
       Mem w' = Mem w).
Proof.
  intros fuel w Hlev Hfuel. split; intros Hready.
  - unfold XSpiPs_Reset.
    cbv beta iota delta [bind load Xil_AssertVoid Xil_AssertNonvoid].
    rewrite Hready. reflexivity.
  - rewrite (Reset_spec _ _ Hlev Hready Hfuel).
    eexists. split; [reflexivity | ]. conjuncts; reflexivity.
Qed.

(** X3. XSpiPs_Abort twice is XSpiPs_Abort once: on the world an abort
    leaves behind, a second abort changes nothing. *)
Theorem Abort_idempotent :
  forall (fuel fuel' : nat) (w : World),
    levels_ok hw ->
    (length (RxFifo (Dev w)) < fuel)%nat ->
    (0 < fuel')%nat ->
    (XSpiPs_Abort fuel ;; XSpiPs_Abort fuel') w = XSpiPs_Abort fuel w.
Proof.
  intros fuel fuel' w Hlev Hfuel Hfuel'.
  unfold bind at 1. rewrite (Abort_spec Hlev) by exact Hfuel.
  rewrite (Abort_spec Hlev) by (cbn; lia).
  unfold aborted. drv_simpl. do 2 f_equal. f_equal.
  unfold set_reg_SR, set_RxFifo, set_reg_ER. cbn. f_equal.
  apply Z.bits_inj'. intros i Hi.
  rewrite !Z.land_spec. rewrite <- andb_assoc, andb_diag. reflexivity.
Qed.

End InitFacts.

(** Initialization of a busy and of an idle instance. *)
Lemma CfgInitialize_outcome_witness :
  XSpiPs_CfgInitialize (hw := XSpiPs_zynq) 5 0xE0006000 busy_world
  = Ok (XST_DEVICE_IS_STARTED, busy_world) /\
  exists w',
    XSpiPs_CfgInitialize (hw := XSpiPs_zynq) 5 0xE0006000 demo_world
    = Ok (XST_SUCCESS, w') /\
    StatusHandler (Inst w') = StubStatusHandler /\
    reg_CR (Dev w') = 0x20000.
Proof.
  split.
  - apply (CfgInitialize_outcome (hw := XSpiPs_zynq) 5 0xE0006000 busy_world);
      [apply zynq_levels_ok | simpl; lia | reflexivity].
  - destruct (CfgInitialize_outcome (hw := XSpiPs_zynq) 5 0xE0006000
                demo_world) as (_ & H); [apply zynq_levels_ok | simpl; lia | ].
    destruct (H eq_refl) as (w' & E & Hinst & Hcr & _).
    exists w'. split; [exact E | ]. split.
    + rewrite Hinst. reflexivity.
    + rewrite Hcr. reflexivity.
Defined.

(** Reset of a ready instance with its busy flag set. *)
Lemma Reset_outcome_witness :
  exists w',
    XSpiPs_Reset (hw := XSpiPs_zynq) 5 busy_world = Ok (tt, w') /\
    IsBusy (Inst w') = false /\
    StatusHandler (Inst w') = UserHandler 0x1234 /\
    reg_CR (Dev w') = 0x20000.
Proof.
  destruct (Reset_outcome (hw := XSpiPs_zynq) 5 busy_world) as (_ & H);
    [apply zynq_levels_ok | simpl; lia | ].
  destruct (H eq_refl) as (w' & E & Hinst & Hcr & _).
  exists w'. split; [exact E | ]. rewrite Hinst, Hcr.
  split; [reflexivity | split; reflexivity].
Defined.

(** Two aborts after a 3-byte transfer. *)
Lemma Abort_idempotent_witness :
  (XSpiPs_Abort (hw := XSpiPs_zynq) 5 ;;
   XSpiPs_Abort (hw := XSpiPs_zynq) 1) three_sent
  = XSpiPs_Abort (hw := XSpiPs_zynq) 5 three_sent.
Proof.
  apply (Abort_idempotent (hw := XSpiPs_zynq) 5 1 three_sent);
    [apply zynq_levels_ok | vm_compute; lia | lia].
Defined.

(** ** The data path *)

(** Updated records, evaluated innermost update first. *)
Ltac drv_eval :=
  cbv beta iota delta
    [Inst Dev Mem set_Inst set_Dev set_Mem
     Config_BaseAddress IsReady IsBusy SendBufferPtr RecvBufferPtr
     RequestedBytes RemainingBytes SlaveSelect StatusHandler StatusRef
     set_Config_BaseAddress set_IsReady set_IsBusy set_SendBufferPtr
     set_RecvBufferPtr set_RequestedBytes set_RemainingBytes
     set_SlaveSelect set_StatusHandler set_StatusRef
     reg_CR reg_SR reg_IEN reg_ER TxFifo RxFifo Mosi Miso
     set_reg_CR set_reg_SR set_reg_IEN set_reg_ER set_TxFifo set_RxFifo].

Lemma u8_range (x : Z) : 0 <= u8 x < 2 ^ 8.
Proof. unfold u8. apply Z.mod_pos_bound. reflexivity. Qed.

Lemma u8_u8 (x : Z) : u8 (u8 x) = u8 x.
Proof. unfold u8. apply Z.mod_mod. discriminate. Qed.

Lemma u8_u32_u8 (x : Z) : u8 (u32 (u8 x)) = u8 x.
Proof.
  rewrite (u32_small (u8 x)) by (pose proof (u8_range x); lia).
  apply u8_u8.
Qed.

Lemma buffer_bytes_length (m : Z -> Z) (n : nat) :
  forall p, length (buffer_bytes m p n) = n.
Proof.
  induction n as [ | n IH]; intros p; cbn; [ | rewrite IH]; reflexivity.
Qed.

Lemma buffer_bytes_app (m : Z -> Z) (a b : nat) :
  forall p,
    buffer_bytes m p (a + b)
    = buffer_bytes m p a ++ buffer_bytes m (p + Z.of_nat a) b.
Proof.
  induction a as [ | a IH]; intros p.
  - cbn. rewrite Z.add_0_r. reflexivity.
  - cbn [Nat.add buffer_bytes app]. rewrite IH. do 3 f_equal. lia.
Qed.

Lemma buffer_bytes_ext (m m' : Z -> Z) (n : nat) :
  forall p,
    (forall i, 0 <= i < Z.of_nat n -> m' (p + i) = m (p + i)) ->
    buffer_bytes m' p n = buffer_bytes m p n.
Proof.
  induction n as [ | n IH]; intros p H; [reflexivity | ].
  cbn [buffer_bytes]. f_equal.
  - f_equal. rewrite <- (Z.add_0_r p). apply H. lia.
  - apply IH. intros i Hi. replace (p + 1 + i) with (p + (1 + i)) by lia.
    apply H. lia.
Qed.

Lemma answers_length (n : nat) :
  forall miso, length (answers miso n) = n.
Proof.
  induction n as [ | n IH]; intros l; cbn; [ | rewrite IH]; reflexivity.
Qed.

Lemma answers_app (a b : nat) :
  forall miso,
    answers miso (a + b) = answers miso a ++ answers (skipn a miso) b.
Proof.
  induction a as [ | a IH]; intros l; [reflexivity | ].
  cbn [Nat.add answers app]. rewrite IH, skipn_tl. reflexivity.
Qed.

Lemma answers_nth (n : nat) :
  forall miso i, (i < n)%nat -> nth i (answers miso n) 0 = nth i miso 0.
Proof.
  induction n as [ | n IH]; intros l i Hi; [lia | ].
  destruct i as [ | i].
  - destruct l; reflexivity.
  - cbn [answers nth]. rewrite IH by lia. destruct l; [ | reflexivity].
    destruct i; reflexivity.
Qed.

(** Popping [n] bytes off the [n] answers gives them back. *)
Lemma answers_answers (n : nat) :
  forall miso, answers (answers miso n) n = answers miso n.
Proof.
  induction n as [ | n IH]; intros l; [reflexivity | ].
  cbn [answers hd tl]. rewrite IH. reflexivity.
Qed.

Lemma skipn_answers (n : nat) :
  forall miso, skipn n (answers miso n) = [].
Proof.
  intros l. rewrite <- (answers_length n l) at 1. apply length_skipn_all.
Qed.

Lemma answers_app_prefix (n : nat) :
  forall (a b : list Z),
    (n <= length a)%nat -> answers (a ++ b) n = answers a n.
Proof.
  induction n as [ | n IH]; intros a b Hn; [reflexivity | ].
  destruct a as [ | x a]; [cbn in Hn; lia | ].
  cbn [app answers hd tl]. rewrite IH by (cbn in Hn; lia). reflexivity.
Qed.

Lemma skipn_app_prefix {A : Type} (n : nat) (a b : list A) :
  (n <= length a)%nat -> skipn n (a ++ b) = skipn n a ++ b.
Proof.
  intros Hn. rewrite skipn_app.
  replace (n - length a)%nat with 0%nat by lia. reflexivity.
Qed.

Lemma nth_app_answers (rx miso : list Z) (n i : nat) :
  (i < n)%nat ->
  nth i (rx ++ answers miso n) 0 = nth i (rx ++ miso) 0.
Proof.
  intros Hi. destruct (Nat.lt_ge_cases i (length rx)) as [H | H].
  - rewrite !app_nth1 by exact H. reflexivity.
  - rewrite !app_nth2 by exact H. apply answers_nth. lia.
Qed.

Lemma store_bytes_spec (bytes : list Z) :
  forall (q : Z) (m : Z -> Z) (a : Z),
    store_bytes q bytes m a
    = if (q <=? a) && (a <? q + Z.of_nat (length bytes))
      then u8 (nth (Z.to_nat (a - q)) bytes 0)
      else m a.
Proof.
  induction bytes as [ | b bytes IH]; intros q m a.
  - cbn [store_bytes length Z.of_nat].
    destruct (Z.leb_spec q a), (Z.ltb_spec a (q + 0)); cbn; reflexivity || lia.
  - cbn [store_bytes length]. rewrite IH. unfold mem_store.
    rewrite Nat2Z.inj_succ.
    destruct (Z.eqb_spec a q) as [-> | Hne].
    + replace (q + 1 <=? q) with false by (symmetry; apply Z.leb_gt; lia).
      replace (q <=? q) with true by (symmetry; apply Z.leb_le; lia).
      replace (q <? q + Z.succ (Z.of_nat (length bytes))) with true
        by (symmetry; apply Z.ltb_lt; lia).
      cbn [andb]. rewrite Z.sub_diag. reflexivity.
    + destruct (Z.leb_spec (q + 1) a),
        (Z.ltb_spec a (q + 1 + Z.of_nat (length bytes))),
        (Z.leb_spec q a),
        (Z.ltb_spec a (q + Z.succ (Z.of_nat (length bytes))));
        cbn [andb]; try lia; try reflexivity.
      replace (Z.to_nat (a - q)) with (S (Z.to_nat (a - (q + 1)))) by lia.
      reflexivity.
Qed.

Lemma store_bytes_app (a : list Z) :
  forall (b : list Z) (q : Z) (m : Z -> Z),
    store_bytes q (a ++ b) m
    = store_bytes (q + Z.of_nat (length a)) b (store_bytes q a m).
Proof.
  induction a as [ | x a IH]; intros b q m.
  - cbn. rewrite Z.add_0_r. reflexivity.
  - cbn [app store_bytes length]. rewrite IH. f_equal. lia.
Qed.

Lemma recv_store_app (q : Z) (a b : list Z) (m : Z -> Z) :
  0 <= q ->
  recv_store q (a ++ b) m
  = recv_store (recv_advance q (Z.of_nat (length a))) b (recv_store q a m).
Proof.
  intros Hq. unfold recv_store, recv_advance, NULL.
  destruct (Z.eqb_spec q 0) as [E | E].
  - rewrite E. reflexivity.
  - assert (E' : (q + Z.of_nat (length a) =? 0) = false)
      by (apply Z.eqb_neq; lia).
    rewrite E'. apply store_bytes_app.
Qed.

Lemma recv_advance_add (q a b : Z) :
  0 <= q -> 0 <= a ->
  recv_advance (recv_advance q a) b = recv_advance q (a + b).
Proof.
  intros Hq Ha. unfold recv_advance, NULL.
  destruct (Z.eqb_spec q 0) as [E | E].
  - rewrite E. reflexivity.
  - assert (E' : (q + a =? 0) = false) by (apply Z.eqb_neq; lia).
    rewrite E'. lia.
Qed.

Lemma recv_advance_nonneg (q a : Z) :
  0 <= q -> 0 <= a -> 0 <= recv_advance q a.
Proof. unfold recv_advance. destruct (q =? NULL); lia. Qed.

Section DataPath.
Context {hw : XSpiPs_Hw}.

(** The fill loop queues the next bytes of the send buffer, in order. *)
Lemma fill_TXFIFO_bytes (wrap : Z -> Z) :
  (forall t, 0 <= t < XSPIPS_FIFO_DEPTH -> wrap (t + 1) = t + 1) ->
  forall (n : nat) (w : World) (tc : Z),
    0 <= tc <= XSPIPS_FIFO_DEPTH ->
    0 <= RemainingBytes (Inst w) < 2 ^ 32 ->
    RemainingBytes (Inst w) <= Z.of_nat n ->
    fill_TXFIFO wrap n tc w
    = Ok (tc + Z.min (RemainingBytes (Inst w)) (XSPIPS_FIFO_DEPTH - tc),
          mkWorld
            (set_RemainingBytes
               (RemainingBytes (Inst w)
                - Z.min (RemainingBytes (Inst w)) (XSPIPS_FIFO_DEPTH - tc))
               (set_SendBufferPtr
                  (SendBufferPtr (Inst w)
                   + Z.min (RemainingBytes (Inst w))
                       (XSPIPS_FIFO_DEPTH - tc))
                  (Inst w)))
            (set_TxFifo
               (TxFifo (Dev w)
                ++ buffer_bytes (Mem w) (SendBufferPtr (Inst w))
                     (Z.to_nat (Z.min (RemainingBytes (Inst w))
                                  (XSPIPS_FIFO_DEPTH - tc))))
               (Dev w))
            (Mem w)).
Proof.
  intros Hwrap.
  assert (Hstop : forall (w : World) (tc : Z),
             Z.min (RemainingBytes (Inst w)) (XSPIPS_FIFO_DEPTH - tc) = 0 ->
             Ok (A := Z * World) (tc, w)
             = Ok (tc + Z.min (RemainingBytes (Inst w))
                          (XSPIPS_FIFO_DEPTH - tc),
                   mkWorld
                     (set_RemainingBytes
                        (RemainingBytes (Inst w)
                         - Z.min (RemainingBytes (Inst w))
                             (XSPIPS_FIFO_DEPTH - tc))
                        (set_SendBufferPtr
                           (SendBufferPtr (Inst w)
                            + Z.min (RemainingBytes (Inst w))
                                (XSPIPS_FIFO_DEPTH - tc))
                           (Inst w)))
                     (set_TxFifo
                        (TxFifo (Dev w)
                         ++ buffer_bytes (Mem w) (SendBufferPtr (Inst w))
                              (Z.to_nat
                                 (Z.min (RemainingBytes (Inst w))
                                    (XSPIPS_FIFO_DEPTH - tc))))
                        (Dev w))
                     (Mem w))).
  { intros w tc ->. destruct w as [i d m]. destruct i, d. cbn.
    rewrite Z.add_0_r, Z.sub_0_r, Z.add_0_r, app_nil_r. reflexivity. }
  induction n as [ | n IH]; intros w tc Htc Hrem Hn.
  - cbn [fill_TXFIFO]. apply Hstop. cbn in Hn. lia.
  - cbn [fill_TXFIFO]. cbv beta iota delta [bind load].
    destruct ((0 <? RemainingBytes (Inst w)) && (tc <? XSPIPS_FIFO_DEPTH))
      eqn:Hc.
    + apply andb_true_iff in Hc. destruct Hc as [Hc1 Hc2].
      apply Z.ltb_lt in Hc1. apply Z.ltb_lt in Hc2.
      cbv beta iota delta [bind load store mem_read XSpiPs_SendByte
                             XSpiPs_Out32 dev_write].
      drv_simpl.
      rewrite Hwrap by lia. rewrite u32_small by lia.
      rewrite IH by (drv_simpl; lia).
      drv_simpl. rewrite u8_u32_u8.
      set (r := RemainingBytes (Inst w)) in *.
      set (D := XSPIPS_FIFO_DEPTH) in *.
      assert (Ek : Z.min r (D - tc) = 1 + Z.min (r - 1) (D - (tc + 1)))
        by lia.
      rewrite Ek.
      replace (Z.to_nat (1 + Z.min (r - 1) (D - (tc + 1))))
        with (S (Z.to_nat (Z.min (r - 1) (D - (tc + 1))))) by lia.
      cbn [buffer_bytes]. drv_fields. rewrite <- app_assoc. cbn [app].
      apply f_equal. apply f_equal2; [lia | ].
      apply f_equal3; [f_equal; lia | reflexivity | reflexivity].
    + apply Hstop. apply andb_false_iff in Hc.
      destruct Hc as [Hc | Hc]; apply Z.ltb_ge in Hc; lia.
Qed.

(** While the device is enabled the wait loop sees the transmit FIFO go
    empty: its bytes go out in order, and the slave's answers to them are
    queued in the receive FIFO. *)
Lemma wait_TXOW_bytes :
  levels_ok hw ->
  forall (tx : list Z) (fuel : nat) (w : World),
    dev_enabled (Dev w) = true ->
    TxFifo (Dev w) = tx ->
    (length tx < fuel)%nat ->
    wait_TXOW fuel w
    = Ok (tt,
          set_Dev
            (mkDevice (reg_CR (Dev w)) (reg_SR (Dev w)) (reg_IEN (Dev w))
               (reg_ER (Dev w)) []
               (RxFifo (Dev w) ++ answers (Miso (Dev w)) (length tx))
               (Mosi (Dev w) ++ tx)
               (skipn (length tx) (Miso (Dev w))))
            w).
Proof.
  intros Hlev. pose proof Hlev as (Hnz & _ & _).
  induction tx as [ | b tx IH]; intros fuel w Hen Htx Hfuel;
    (destruct fuel as [ | fuel]; [cbn in Hfuel; lia | ]);
    cbn [wait_TXOW];
    cbv beta iota delta [bind load XSpiPs_ReadReg XSpiPs_In32 dev_read].
  - rewrite (status_TXOW_set _ Htx).
    assert (E : (XSPIPS_IXR_TXOW_MASK =? 0) = false)
      by (apply Z.eqb_neq; exact Hnz).
    rewrite E.
    unfold dev_clock. rewrite Hen, Htx.
    destruct w as [i d m]. destruct d. cbn in *. subst.
    rewrite !app_nil_r. reflexivity.
  - rewrite (status_TXOW_clear Hlev) by (rewrite Htx; discriminate).
    rewrite Z.eqb_refl.
    unfold dev_clock. rewrite Hen, Htx.
    rewrite (IH fuel) by (drv_simpl; (exact Hen || reflexivity
                                      || (cbn in Hfuel; lia))).
    drv_simpl. unfold set_Dev. drv_simpl.
    cbn [length answers]. rewrite <- !app_assoc, skipn_tl. reflexivity.
Qed.

(** The drain loop pops [n] bytes and stores them from the receive
    pointer on, or drops them when there is no receive buffer. *)
Lemma drain_RXFIFO_bytes :
  forall (n : nat) (w : World),
    Z.of_nat n <= RequestedBytes (Inst w) < 2 ^ 32 ->
    0 <= RecvBufferPtr (Inst w) ->
    drain_RXFIFO n w
    = Ok (tt,
          mkWorld
            (set_RequestedBytes (RequestedBytes (Inst w) - Z.of_nat n)
               (set_RecvBufferPtr
                  (recv_advance (RecvBufferPtr (Inst w)) (Z.of_nat n))
                  (Inst w)))
            (set_RxFifo (skipn n (RxFifo (Dev w))) (Dev w))
            (recv_store (RecvBufferPtr (Inst w))
               (answers (RxFifo (Dev w)) n) (Mem w))).
Proof.
  induction n as [ | n IH]; intros w Hreq Hq.
  - unfold recv_advance, recv_store.
    destruct w as [i d m]. destruct i as [a b1 b2 p q r1 r2 ss h ref], d.
    cbn. rewrite Z.sub_0_r, Z.add_0_r.
    destruct (q =? NULL); reflexivity.
  - cbn [drain_RXFIFO].
    cbv beta iota delta [bind load store XSpiPs_RecvByte XSpiPs_In32
                           dev_read ret mem_write].
    assert (Hu : u32 (RequestedBytes (Inst w) - 1)
                 = RequestedBytes (Inst w) - 1) by (apply u32_small; lia).
    drv_simpl.
    destruct (RecvBufferPtr (Inst w) =? NULL) eqn:Hnull; cbn [negb];
      drv_simpl; rewrite Hu.
    + rewrite IH by (drv_simpl; lia).
      drv_simpl. rewrite skipn_tl.
      unfold recv_advance, recv_store. rewrite Hnull.
      apply f_equal. apply f_equal2; [reflexivity | ].
      apply f_equal3; [ | reflexivity | reflexivity].
      drv_fields. f_equal. lia.
    + apply Z.eqb_neq in Hnull. unfold NULL in *.
      rewrite IH by (drv_simpl; lia).
      drv_simpl. rewrite skipn_tl.
      unfold recv_advance, recv_store. unfold NULL.
      assert (E1 : (RecvBufferPtr (Inst w) + 1 =? 0) = false)
        by (apply Z.eqb_neq; lia).
      assert (E0 : (RecvBufferPtr (Inst w) =? 0) = false)
        by (apply Z.eqb_neq; lia).
      rewrite E1, E0. cbn [answers store_bytes]. rewrite u8_u8.
      apply f_equal. apply f_equal2; [reflexivity | ].
      apply f_equal3; [ | reflexivity | reflexivity].
      drv_fields. f_equal; lia.
Qed.

Lemma apply_SlaveSelect_eq (w : World) :
  apply_SlaveSelect w
  = Ok (tt,
        set_Dev
          (set_reg_CR (selected_CR (SlaveSelect (Inst w)) (reg_CR (Dev w)))
             (Dev w)) w).
Proof.
  unfold apply_SlaveSelect, selected_CR.
  cbv beta iota delta [bind load XSpiPs_IsManualChipSelect XSpiPs_ReadReg
                         XSpiPs_In32 dev_read ret].
  destruct (negb (Z.land (reg_CR (Dev w)) XSPIPS_CR_SSFORCE_MASK =? 0)).
  - reflexivity.
  - rewrite set_reg_CR_same. destruct w. reflexivity.
Qed.

Lemma issue_ManualStart_eq (w : World) :
  issue_ManualStart w
  = Ok (tt, set_Dev (set_reg_CR (started_CR (reg_CR (Dev w))) (Dev w)) w).
Proof.
  unfold issue_ManualStart, started_CR.
  cbv beta iota delta [bind load XSpiPs_IsManualStart XSpiPs_IsMaster
                         XSpiPs_ReadReg XSpiPs_In32 dev_read ret].
  destruct (negb (Z.land (reg_CR (Dev w)) XSPIPS_CR_MANSTRTEN_MASK =? 0)).
  - cbv beta iota delta [bind load XSpiPs_ReadReg XSpiPs_In32 dev_read ret].
    drv_simpl.
    destruct (negb (Z.land (reg_CR (Dev w)) XSPIPS_CR_MSTREN_MASK =? 0)).
    + reflexivity.
    + cbn [andb]. rewrite set_reg_CR_same. destruct w. reflexivity.
  - cbn [andb]. rewrite set_reg_CR_same. destruct w. reflexivity.
Qed.

End DataPath.

Section PolledData.
Context {hw : XSpiPs_Hw}.

(** One pass of the polled loop, byte by byte: the next
    [min RemainingBytes depth] bytes of the send buffer go out, the
    answers to them are queued behind what the receive FIFO holds, and as
    many bytes are popped and stored from the receive pointer on. *)
Lemma PolledTransfer_pass_bytes (fuel : nat) (r : Z) (w : World) :
  depth_ok hw ->
  levels_ok hw ->
  0 < r < 2 ^ 32 ->
  before_pass r w ->
  0 <= RecvBufferPtr (Inst w) ->
  (Z.to_nat (Z.min r XSPIPS_FIFO_DEPTH) < fuel)%nat ->
  let k := Z.min r XSPIPS_FIFO_DEPTH in
  let rx := RxFifo (Dev w) ++ answers (Miso (Dev w)) (Z.to_nat k) in
  PolledTransfer_pass fuel w
  = Ok (tt,
        mkWorld
          (set_RequestedBytes (r - k)
             (set_RecvBufferPtr (recv_advance (RecvBufferPtr (Inst w)) k)
                (set_RemainingBytes (r - k)
                   (set_SendBufferPtr (SendBufferPtr (Inst w) + k)
                      (Inst w)))))
          (mkDevice (started_CR (reg_CR (Dev w))) (reg_SR (Dev w))
             (reg_IEN (Dev w)) (reg_ER (Dev w)) []
             (skipn (Z.to_nat k) rx)
             (Mosi (Dev w)
              ++ buffer_bytes (Mem w) (SendBufferPtr (Inst w)) (Z.to_nat k))
             (skipn (Z.to_nat k) (Miso (Dev w))))
          (recv_store (RecvBufferPtr (Inst w))
             (answers rx (Z.to_nat k)) (Mem w))).
Proof.
  intros Hdepth Hlev Hr (Hrem & Hreq & Hen & Htx) Hq Hfuel k rx.
  assert (Hk : 0 < k <= r) by (unfold depth_ok in Hdepth; subst k; lia).
  unfold PolledTransfer_pass, TxFifo_fill.
  cbv beta iota delta [bind load].
  rewrite (fill_TXFIFO_bytes u32)
    by (try (intros t Ht; apply u32_small);
        unfold depth_ok in Hdepth; rewrite ?Hrem, ?Z2Nat.id; lia).
  rewrite Hrem, Htx, Z.sub_0_r, Z.add_0_l. fold k. cbn [app].
  rewrite issue_ManualStart_eq. cbv beta iota.
  rewrite (wait_TXOW_bytes Hlev
             (buffer_bytes (Mem w) (SendBufferPtr (Inst w)) (Z.to_nat k)))
    by (try reflexivity; rewrite ?buffer_bytes_length; try exact Hfuel;
        exact Hen).
  cbv beta iota. unfold RxFifo_drain.
  rewrite drain_RXFIFO_bytes
    by (drv_simpl; rewrite ?Hreq, ?Z2Nat.id; lia).
  drv_simpl. rewrite buffer_bytes_length. fold rx.
  rewrite Hreq, Z2Nat.id by lia.
  reflexivity.
Qed.

(** The whole loop, byte by byte.  The receive buffer may overlap the send
    buffer as long as no byte is overwritten before it is sent. *)
Lemma PolledTransfer_loop_bytes (fuel : nat) :
  depth_ok hw ->
  levels_ok hw ->
  forall (k : nat) (r : Z) (w : World) (n : nat),
    0 <= r < 2 ^ 32 ->
    Z.to_nat ((r + XSPIPS_FIFO_DEPTH - 1) / XSPIPS_FIFO_DEPTH) = k ->
    before_pass r w ->
    (k <= n)%nat ->
    (Z.to_nat (Z.min r XSPIPS_FIFO_DEPTH) < fuel)%nat ->
    0 <= RecvBufferPtr (Inst w) ->
    exists w',
      PolledTransfer_loop fuel n w = Ok (tt, w') /\
      before_pass 0 w' /\
      Inst w'
      = set_RequestedBytes 0
          (set_RecvBufferPtr (recv_advance (RecvBufferPtr (Inst w)) r)
             (set_RemainingBytes 0
                (set_SendBufferPtr (SendBufferPtr (Inst w) + r) (Inst w)))) /\
      ((RecvBufferPtr (Inst w) <> NULL ->
        forall i j, 0 <= i < j -> j < r ->
          RecvBufferPtr (Inst w) + i <> SendBufferPtr (Inst w) + j) ->
       Mosi (Dev w')
       = Mosi (Dev w)
         ++ buffer_bytes (Mem w) (SendBufferPtr (Inst w)) (Z.to_nat r)) /\
      Miso (Dev w') = skipn (Z.to_nat r) (Miso (Dev w)) /\
      RxFifo (Dev w')
      = skipn (Z.to_nat r)
          (RxFifo (Dev w) ++ answers (Miso (Dev w)) (Z.to_nat r)) /\
      Mem w'
      = recv_store (RecvBufferPtr (Inst w))
          (answers (RxFifo (Dev w) ++ answers (Miso (Dev w)) (Z.to_nat r))
             (Z.to_nat r))
          (Mem w) /\
      reg_SR (Dev w') = reg_SR (Dev w) /\
      reg_IEN (Dev w') = reg_IEN (Dev w) /\
      reg_ER (Dev w') = reg_ER (Dev w) /\
      (forall P : Z -> Prop,
         (forall c, P c -> P (started_CR c)) ->
         P (reg_CR (Dev w)) -> P (reg_CR (Dev w'))).
Proof.
  intros Hdepth Hlev.
  induction k as [ | k IH]; intros r w n Hr Hk Hbefore Hn Hfuel Hq.
  - assert (r = 0) by (apply passes_zero; assumption || lia). subst r.
    pose proof Hbefore as (Hrem & Hreq & _).
    exists w. conjuncts; try reflexivity; try assumption.
    + assert (E : PolledTransfer_continue (Inst w) = false)
        by (unfold PolledTransfer_continue; rewrite Hrem, Hreq; reflexivity).
      destruct n; cbn [PolledTransfer_loop]; cbv beta iota delta [bind load];
        rewrite E; reflexivity.
    + unfold recv_advance. rewrite !Z.add_0_r.
      destruct w as [i d m]. destruct i as [a b1 b2 p q r1 r2 ss h ref].
      cbn in *. subst. destruct (q =? NULL); reflexivity.
    + intros _. cbn. rewrite app_nil_r. reflexivity.
    + cbn. rewrite app_nil_r. reflexivity.
    + unfold recv_store. cbn. destruct (_ =? _); reflexivity.
    + intros P _ H. exact H.
  - assert (Hpos : 0 < r).
    { destruct (Z.eq_dec r 0) as [E | E]; [ | lia ]. subst r.
      replace (0 + XSPIPS_FIFO_DEPTH - 1) with (XSPIPS_FIFO_DEPTH - 1) in Hk
        by lia.
      unfold depth_ok in Hdepth. rewrite Z.div_small in Hk by lia.
      discriminate. }
    rewrite passes_step in Hk by assumption. injection Hk as Hk.
    pose proof Hbefore as (Hrem & Hreq & Hen & Htx).
    pose proof (PolledTransfer_pass_bytes fuel r w Hdepth Hlev
                  ltac:(lia) Hbefore Hq Hfuel) as Hpass.
    cbv zeta in Hpass.
    set (k0 := Z.min r XSPIPS_FIFO_DEPTH) in *.
    assert (Hk0 : 0 < k0 <= r) by (unfold depth_ok in Hdepth; subst k0; lia).
    set (X := RxFifo (Dev w) ++ answers (Miso (Dev w)) (Z.to_nat k0)) in *.
    assert (HX : (Z.to_nat k0 <= length X)%nat)
      by (subst X; rewrite length_app, answers_length; lia).
    match type of Hpass with
    | _ = Ok (tt, ?x) => set (w1 := x) in *
    end.
    destruct n as [ | n]; [lia | ].
    destruct (IH (r - k0) w1 n) as
      (w' & Hloop & Hend & Hinst & Hmosi & Hmiso & Hrx & Hmem & Hsr & Hien
       & Her & Hcr).
    { lia. }
    { exact Hk. }
    { subst w1. unfold before_pass. drv_simpl.
      conjuncts; try reflexivity. exact Hen. }
    { lia. }
    { unfold depth_ok in Hdepth. subst k0. lia. }
    { subst w1. drv_simpl. apply recv_advance_nonneg; lia. }
    exists w'.
    assert (Ekr : Z.to_nat r = (Z.to_nat k0 + Z.to_nat (r - k0))%nat) by lia.
    assert (EX : RxFifo (Dev w) ++ answers (Miso (Dev w)) (Z.to_nat r)
                 = X ++ answers (skipn (Z.to_nat k0) (Miso (Dev w)))
                          (Z.to_nat (r - k0)))
      by (subst X; rewrite Ekr, answers_app, app_assoc; reflexivity).
    conjuncts.
    + cbn [PolledTransfer_loop]. cbv beta iota delta [bind load].
      assert (E : PolledTransfer_continue (Inst w) = true).
      { unfold PolledTransfer_continue. rewrite Hrem.
        apply orb_true_iff. left. apply Z.ltb_lt. exact Hpos. }
      rewrite E. fold (bind (PolledTransfer_pass fuel)
                         (fun _ => PolledTransfer_loop fuel n) w).
      unfold bind. rewrite Hpass. exact Hloop.
    + exact Hend.
    + rewrite Hinst. subst w1. drv_simpl.
      rewrite recv_advance_add by lia.
      drv_eval. f_equal; try lia; f_equal; lia.
    + intros Hsafe. rewrite Hmosi.
      2:{ subst w1. drv_simpl. unfold recv_advance, NULL.
          destruct (Z.eqb_spec (RecvBufferPtr (Inst w)) 0) as [E | E].
          - intros Hne. congruence.
          - intros _ i j Hij Hj.
            specialize (Hsafe E (k0 + i) (k0 + j) ltac:(lia) ltac:(lia)).
            lia. }
      subst w1. drv_simpl.
      rewrite Ekr, buffer_bytes_app, <- app_assoc, Z2Nat.id by lia.
      do 2 f_equal.
      apply buffer_bytes_ext. intros i Hi.
      unfold recv_store, NULL.
      destruct (Z.eqb_spec (RecvBufferPtr (Inst w)) 0) as [E | E];
        [reflexivity | ].
      rewrite store_bytes_spec, answers_length.
      destruct (Z.leb_spec (RecvBufferPtr (Inst w))
                  (SendBufferPtr (Inst w) + k0 + i));
        destruct (Z.ltb_spec (SendBufferPtr (Inst w) + k0 + i)
                    (RecvBufferPtr (Inst w) + Z.of_nat (Z.to_nat k0)));
        cbn [andb]; try reflexivity.
      exfalso.
      apply (Hsafe E
               (SendBufferPtr (Inst w) + k0 + i - RecvBufferPtr (Inst w))
               (k0 + i)); lia.
    + rewrite Hmiso. subst w1. drv_simpl.
      rewrite Ekr, skipn_skipn. f_equal. lia.
    + rewrite Hrx, EX. subst w1. drv_simpl.
      rewrite Ekr, (Nat.add_comm (Z.to_nat k0)), <- skipn_skipn.
      rewrite (skipn_app_prefix (Z.to_nat k0) X) by exact HX.
      reflexivity.
    + rewrite Hmem, EX. subst w1. drv_simpl.
      rewrite Ekr, answers_app.
      rewrite (answers_app_prefix (Z.to_nat k0) X) by exact HX.
      rewrite (skipn_app_prefix (Z.to_nat k0) X) by exact HX.
      rewrite recv_store_app, answers_length, Z2Nat.id by lia.
      reflexivity.
    + rewrite Hsr. reflexivity.
    + rewrite Hien. reflexivity.
    + rewrite Her. reflexivity.
    + intros P HP H0. apply (Hcr P HP). subst w1. drv_simpl.
      apply HP. exact H0.
Qed.

End PolledData.

(** ** The control register during a transfer *)

Lemma testbit_above_u32 (m i : Z) :
  0 <= m < 2 ^ 32 -> 32 <= i -> Z.testbit m i = false.
Proof.
  intros Hm Hi. rewrite <- (u32_small m Hm), testbit_u32 by lia.
  destruct (Z.ltb_spec i 32); [lia | apply andb_false_r].
Qed.

Lemma land_u32_mask (x m : Z) :
  0 <= m < 2 ^ 32 -> Z.land (u32 x) m = Z.land x m.
Proof.
  intros Hm. apply Z.bits_inj'. intros i Hi.
  rewrite !Z.land_spec, testbit_u32 by lia.
  destruct (Z.ltb_spec i 32).
  - rewrite andb_true_r. reflexivity.
  - rewrite (testbit_above_u32 m i Hm) by lia. rewrite !andb_false_r.
    reflexivity.
Qed.

Section ControlRegister.
Context {hw : XSpiPs_Hw}.

Lemma ss_mask_range :
  ss_field_ok hw -> 0 <= XSPIPS_CR_SSCTRL_MASK < 2 ^ 32.
Proof.
  intros (_ & Hshift & ->). rewrite Z.shiftl_mul_pow2 by lia.
  assert (0 < 2 ^ XSPIPS_CR_SSCTRL_SHIFT <= 2 ^ 28)
    by (split; [apply Z.pow_pos_nonneg; lia | apply Z.pow_le_mono_r; lia]).
  lia.
Qed.

(** In manual chip-select mode apply_SlaveSelect replaces the select
    field by the cached value and stays in manual mode. *)
Lemma selected_CR_field (ss cr : Z) :
  ss_field_ok hw ->
  cr_bits_ok hw ->
  Z.land cr XSPIPS_CR_SSFORCE_MASK <> 0 ->
  Z.land ss XSPIPS_CR_SSCTRL_MASK = ss ->
  Z.land (selected_CR ss cr) XSPIPS_CR_SSFORCE_MASK <> 0 /\
  Z.land (selected_CR ss cr) XSPIPS_CR_SSCTRL_MASK = ss.
Proof.
  intros Hss (Hf & Hfm & _) Hman Hfield. unfold selected_CR.
  assert (E : negb (Z.land cr XSPIPS_CR_SSFORCE_MASK =? 0) = true)
    by (apply negb_true_iff, Z.eqb_neq; exact Hman).
  rewrite E. split.
  - rewrite land_u32_mask by exact Hf.
    rewrite Z.land_lor_distr_l. intros H0.
    apply Z.lor_eq_0_iff in H0. destruct H0 as (H0 & _).
    rewrite <- Z.land_assoc in H0.
    rewrite (Z.land_comm (Z.lnot _)) in H0.
    rewrite land_lnot_disjoint in H0 by exact Hfm.
    contradiction.
  - rewrite land_u32_mask by (apply ss_mask_range; exact Hss).
    rewrite Z.land_lor_distr_l, land_lnot_same, Hfield. reflexivity.
Qed.

(** issue_ManualStart touches neither the select field nor the mode. *)
Lemma started_CR_field (ss c : Z) :
  ss_field_ok hw ->
  cr_bits_ok hw ->
  Z.land c XSPIPS_CR_SSFORCE_MASK <> 0 /\
  Z.land c XSPIPS_CR_SSCTRL_MASK = ss ->
  Z.land (started_CR c) XSPIPS_CR_SSFORCE_MASK <> 0 /\
  Z.land (started_CR c) XSPIPS_CR_SSCTRL_MASK = ss.
Proof.
  intros Hss (Hf & _ & Hsm) (Hman & Hfield). unfold started_CR.
  destruct (negb (Z.land c XSPIPS_CR_MANSTRTEN_MASK =? 0)
            && negb (Z.land c XSPIPS_CR_MSTREN_MASK =? 0));
    [ | split; assumption].
  split.
  - rewrite land_u32_mask by exact Hf.
    rewrite Z.land_lor_distr_l. intros H0.
    apply Z.lor_eq_0_iff in H0. destruct H0 as (H0 & _). contradiction.
  - rewrite land_u32_mask by (apply ss_mask_range; exact Hss).
    rewrite Z.land_lor_distr_l, Hsm, Z.lor_0_r. exact Hfield.
Qed.

Lemma deselected_Dev (P : Device -> Prop) (w : World) :
  P (Dev w) ->
  (forall c, P (set_reg_CR c (Dev w))) ->
  P (Dev (deselected w)).
Proof.
  intros H0 H1. unfold deselected. drv_simpl.
  destruct (negb (Z.land (reg_CR (Dev w)) XSPIPS_CR_SSFORCE_MASK =? 0));
    [apply H1 | exact H0].
Qed.

End ControlRegister.

(** ** The polled transfer, byte by byte *)

Section PolledRun.
Context {hw : XSpiPs_Hw}.

Lemma PolledTransfer_setup_eq (SendBufPtr RecvBufPtr ByteCount : Z)
  (w : World) :
  PolledTransfer_setup SendBufPtr RecvBufPtr ByteCount w
  = Ok (tt,
        mkWorld
          (set_RemainingBytes ByteCount
             (set_RequestedBytes ByteCount
                (set_RecvBufferPtr RecvBufPtr
                   (set_SendBufferPtr SendBufPtr
                      (set_IsBusy true (Inst w))))))
          (set_reg_ER (u32 XSPIPS_ER_ENABLE_MASK)
             (set_reg_CR
                (selected_CR (SlaveSelect (Inst w)) (reg_CR (Dev w)))
                (Dev w)))
          (Mem w)).
Proof.
  unfold PolledTransfer_setup. cbv beta iota delta [bind store].
  rewrite apply_SlaveSelect_eq. reflexivity.
Qed.

(** The polled transfer from its setup to its return. *)
Lemma PolledTransfer_run (fuel : nat) (w : World) (s q N : Z) :
  depth_ok hw ->
  levels_ok hw ->
  enable_ok hw ->
  IsReady (Inst w) = true ->
  IsBusy (Inst w) = false ->
  s <> NULL ->
  0 <= q ->
  0 < N < 2 ^ 32 ->
  TxFifo (Dev w) = [] ->
  (Z.to_nat N < fuel)%nat ->
  let rx := RxFifo (Dev w) ++ answers (Miso (Dev w)) (Z.to_nat N) in
  exists w1 w2,
    PolledTransfer_setup s q N w = Ok (tt, w1) /\
    reg_CR (Dev w1) = selected_CR (SlaveSelect (Inst w)) (reg_CR (Dev w)) /\
    PolledTransfer_loop fuel fuel w1 = Ok (tt, w2) /\
    XSpiPs_PolledTransfer fuel s q N w
    = Ok (XST_SUCCESS,
          set_Dev
            (set_reg_ER (u32 0)
               (Dev (deselected (set_Inst (set_IsBusy false (Inst w2)) w2))))
            (set_Inst (set_IsBusy false (Inst w2)) w2)) /\
    SendBufferPtr (Inst w2) = s + N /\
    RecvBufferPtr (Inst w2) = recv_advance q N /\
    ((q <> NULL ->
      forall i j, 0 <= i < j -> j < N -> q + i <> s + j) ->
     Mosi (Dev w2) = Mosi (Dev w) ++ buffer_bytes (Mem w) s (Z.to_nat N)) /\
    Miso (Dev w2) = skipn (Z.to_nat N) (Miso (Dev w)) /\
    RxFifo (Dev w2) = skipn (Z.to_nat N) rx /\
    Mem w2 = recv_store q (answers rx (Z.to_nat N)) (Mem w) /\
    (forall P : Z -> Prop,
       (forall c, P c -> P (started_CR c)) ->
       P (selected_CR (SlaveSelect (Inst w)) (reg_CR (Dev w))) ->
       P (reg_CR (Dev w2))) /\
    before_pass 0 w2 /\
    reg_IEN (Dev w2) = reg_IEN (Dev w).
Proof.
  intros Hdepth Hlev Hen Hready Hbusy Hs Hq HN Htx Hfuel rx.
  pose proof (PolledTransfer_setup_eq s q N w) as Esetup.
  match type of Esetup with
  | _ = Ok (tt, ?x) => set (w1 := x) in *
  end.
  assert (Hbefore : before_pass N w1).
  { unfold before_pass. subst w1. drv_simpl. conjuncts; try reflexivity.
    - apply enabled_after_Enable. exact Hen.
    - exact Htx. }
  assert (Hpasses_le :
            (Z.to_nat ((N + XSPIPS_FIFO_DEPTH - 1) / XSPIPS_FIFO_DEPTH)
             <= fuel)%nat).
  { unfold depth_ok in Hdepth.
    assert ((N + XSPIPS_FIFO_DEPTH - 1) / XSPIPS_FIFO_DEPTH <= N).
    { apply Z.div_le_upper_bound; nia. }
    lia. }
  destruct (PolledTransfer_loop_bytes fuel Hdepth Hlev
              (Z.to_nat ((N + XSPIPS_FIFO_DEPTH - 1) / XSPIPS_FIFO_DEPTH))
              N w1 fuel)
    as (w2 & Hloop & Hend & Hinst & Hmosi & Hmiso & Hrx & Hmem & _ & Hien
        & _ & Hcr);
    [lia | reflexivity | exact Hbefore | exact Hpasses_le | | | ].
  { unfold depth_ok in Hdepth. lia. }
  { subst w1. drv_simpl. exact Hq. }
  exists w1, w2. conjuncts.
  - exact Esetup.
  - reflexivity.
  - exact Hloop.
  - assert (Es : (s =? NULL) = false) by (apply Z.eqb_neq; exact Hs).
    assert (En : (0 <? N) = true) by (apply Z.ltb_lt; lia).
    unfold XSpiPs_PolledTransfer.
    cbv beta iota delta [bind load Xil_AssertNonvoid].
    rewrite Es, En. cbv beta iota delta [negb]. rewrite Hready.
    cbv beta iota. rewrite Hbusy, Esetup. cbv beta iota.
    rewrite Hloop. cbv beta iota.
    unfold PolledTransfer_finish. cbv beta iota delta [bind store].
    rewrite clear_SlaveSelect_spec. reflexivity.
  - rewrite Hinst. reflexivity.
  - rewrite Hinst. reflexivity.
  - exact Hmosi.
  - exact Hmiso.
  - exact Hrx.
  - exact Hmem.
  - exact Hcr.
  - exact Hend.
  - rewrite Hien. reflexivity.
Qed.

(** X4. The data path of XSpiPs_PolledTransfer.  On a ready, idle
    instance with an empty transmit FIFO, given fuel for its loops, the
    call returns XST_SUCCESS and the N bytes of the send buffer have gone
    out on the bus in order.  The receive FIFO is not flushed first: the N
    bytes stored in the receive buffer are the first N of what the receive
    FIFO held followed by the slave's answers, and as many bytes as it
    held stay behind in it.  On an empty receive FIFO these are exactly
    the N answers, in order, and the FIFO is empty again.  Every other
    byte of memory is left alone; with a NULL receive buffer the bytes are
    dropped and memory is unchanged.  The receive buffer may be the send
    buffer itself: all that is needed is that no byte is overwritten
    before it has been sent. *)
Theorem PolledTransfer_data :
  forall (fuel : nat) (w : World) (s q N : Z),
    depth_ok hw ->
    levels_ok hw ->
    enable_ok hw ->
    IsReady (Inst w) = true ->
    IsBusy (Inst w) = false ->
    s <> NULL ->
    0 <= q ->
    0 < N < 2 ^ 32 ->
    TxFifo (Dev w) = [] ->
    (Z.to_nat N < fuel)%nat ->
    (q <> NULL -> forall i j, 0 <= i < j -> j < N -> q + i <> s + j) ->
    exists w',
      XSpiPs_PolledTransfer fuel s q N w = Ok (XST_SUCCESS, w') /\
      Mosi (Dev w') = Mosi (Dev w) ++ buffer_bytes (Mem w) s (Z.to_nat N) /\
      Miso (Dev w') = skipn (Z.to_nat N) (Miso (Dev w)) /\
      RxFifo (Dev w')
      = skipn (Z.to_nat N)
          (RxFifo (Dev w) ++ answers (Miso (Dev w)) (Z.to_nat N)) /\
      length (RxFifo (Dev w')) = length (RxFifo (Dev w)) /\
      (q = NULL -> Mem w' = Mem w /\ RecvBufferPtr (Inst w') = NULL) /\
      (q <> NULL ->
       RecvBufferPtr (Inst w') = q + N /\
       forall a,
         Mem w' a
         = if (q <=? a) && (a <? q + N)
           then u8 (nth (Z.to_nat (a - q))
                      (RxFifo (Dev w) ++ Miso (Dev w)) 0)
           else Mem w a).
Proof.
  intros fuel w s q N Hdepth Hlev Hen Hready Hbusy Hs Hq HN Htx Hfuel Hsafe.
  destruct (PolledTransfer_run fuel w s q N)
    as (w1 & w2 & _ & _ & _ & Erun & _ & Hrecv & Hmosi & Hmiso & Hrx & Hmem
        & _);
    try assumption.
  cbv zeta in Hrx, Hmem.
  set (rx := RxFifo (Dev w) ++ answers (Miso (Dev w)) (Z.to_nat N)) in *.
  assert (Hlen : length rx = (length (RxFifo (Dev w)) + Z.to_nat N)%nat)
    by (subst rx; rewrite length_app, answers_length; reflexivity).
  eexists. split; [exact Erun | ]. drv_simpl. conjuncts.
  - apply (deselected_Dev
             (fun d => Mosi d
                       = Mosi (Dev w) ++ buffer_bytes (Mem w) s (Z.to_nat N)));
      drv_simpl; intros; apply Hmosi; exact Hsafe.
  - apply (deselected_Dev
             (fun d => Miso d = skipn (Z.to_nat N) (Miso (Dev w))));
      drv_simpl; intros; exact Hmiso.
  - apply (deselected_Dev (fun d => RxFifo d = skipn (Z.to_nat N) rx));
      drv_simpl; intros; exact Hrx.
  - apply (deselected_Dev
             (fun d => length (RxFifo d) = length (RxFifo (Dev w))));
      drv_simpl; intros; rewrite Hrx, length_skipn, Hlen; lia.
  - intros ->. rewrite Hmem, Hrecv. split; reflexivity.
  - intros Hne. rewrite Hmem, Hrecv. unfold recv_advance, recv_store.
    assert (E : (q =? NULL) = false) by (apply Z.eqb_neq; exact Hne).
    rewrite E. split; [reflexivity | ]. intros a.
    rewrite store_bytes_spec, answers_length, Z2Nat.id by lia.
    destruct ((q <=? a) && (a <? q + N)) eqn:Hin; [ | reflexivity].
    apply andb_true_iff in Hin. destruct Hin as (H1 & H2).
    apply Z.leb_le in H1. apply Z.ltb_lt in H2.
    rewrite answers_nth by lia. subst rx.
    rewrite nth_app_answers by lia. reflexivity.
Qed.

(** X5. The chip select of XSpiPs_PolledTransfer in manual chip-select
    mode: the setup replaces the select field of the control register by
    the cached slave select, whatever the field held before; the field
    still holds that value when the loop ends; on return every select
    line is deasserted. *)
Theorem PolledTransfer_chip_select :
  forall (fuel : nat) (w : World) (s q N : Z),
    depth_ok hw ->
    levels_ok hw ->
    enable_ok hw ->
    ss_field_ok hw ->
    cr_bits_ok hw ->
    IsReady (Inst w) = true ->
    IsBusy (Inst w) = false ->
    s <> NULL ->
    0 <= q ->
    0 < N < 2 ^ 32 ->
    TxFifo (Dev w) = [] ->
    (Z.to_nat N < fuel)%nat ->
    Z.land (reg_CR (Dev w)) XSPIPS_CR_SSFORCE_MASK <> 0 ->
    Z.land (SlaveSelect (Inst w)) XSPIPS_CR_SSCTRL_MASK
      = SlaveSelect (Inst w) ->
    exists w1 w2 w',
      PolledTransfer_setup s q N w = Ok (tt, w1) /\
      PolledTransfer_loop fuel fuel w1 = Ok (tt, w2) /\
      XSpiPs_PolledTransfer fuel s q N w = Ok (XST_SUCCESS, w') /\
      Z.land (reg_CR (Dev w1)) XSPIPS_CR_SSCTRL_MASK
        = SlaveSelect (Inst w) /\
      Z.land (reg_CR (Dev w2)) XSPIPS_CR_SSCTRL_MASK
        = SlaveSelect (Inst w) /\
      Z.land (reg_CR (Dev w')) XSPIPS_CR_SSCTRL_MASK
        = XSPIPS_CR_SSCTRL_MASK.
Proof.
  intros fuel w s q N Hdepth Hlev Hen Hss Hbits Hready Hbusy Hs Hq HN Htx
    Hfuel Hman Hfield.
  destruct (PolledTransfer_run fuel w s q N)
    as (w1 & w2 & Esetup & Hcr1 & Eloop & Erun & _ & _ & _ & _ & _ & _ & Hcr
        & _);
    try assumption.
  pose proof (selected_CR_field _ _ Hss Hbits Hman Hfield) as Hsel.
  pose proof (Hcr _ (fun c => started_CR_field (SlaveSelect (Inst w)) c
                                Hss Hbits) Hsel) as (Hman2 & Hfield2).
  exists w1, w2. eexists. conjuncts.
  - exact Esetup.
  - exact Eloop.
  - exact Erun.
  - rewrite Hcr1. apply Hsel.
  - exact Hfield2.
  - drv_simpl. apply deselected_field; [exact Hss | ]. drv_simpl.
    exact Hman2.
Qed.

End PolledRun.

(** Ten bytes in place on a 4-byte FIFO, one stale byte in the receive
    FIFO: the stale byte comes first, one answer stays behind. *)
Lemma PolledTransfer_data_witness :
  let w := set_Dev (set_RxFifo [99] demo_dev) demo_world in
  exists w',
    XSpiPs_PolledTransfer (hw := hw_with_depth 4) 11 100 100 10 w
    = Ok (XST_SUCCESS, w') /\
    Mosi (Dev w') = buffer_bytes demo_mem 100 10 /\
    length (RxFifo (Dev w')) = 1%nat /\
    Mem w' 100 = 99 /\
    Mem w' 101 = 11.
Proof.
  intros w.
  destruct (PolledTransfer_data (hw := hw_with_depth 4) 11 w 100 100 10)
    as (w' & E & Hmosi & _ & _ & Hlen & _ & Hmem).
  - unfold depth_ok; simpl; lia.
  - apply zynq_levels_ok.
  - apply zynq_enable_ok.
  - reflexivity.
  - reflexivity.
  - unfold NULL; lia.
  - lia.
  - lia.
  - reflexivity.
  - simpl; lia.
  - intros _ i j Hij Hj. lia.
  - destruct (Hmem ltac:(unfold NULL; lia)) as (_ & Hbytes).
    exists w'. split; [exact E | ]. split; [exact Hmosi | ].
    split; [exact Hlen | ].
    split; rewrite Hbytes; reflexivity.
Defined.

(** Line 0 cached, ten bytes on a 4-byte FIFO. *)
Lemma PolledTransfer_chip_select_witness :
  exists w1 w2 w',
    PolledTransfer_setup (hw := hw_with_depth 4) 100 300 10 demo_world
      = Ok (tt, w1) /\
    PolledTransfer_loop (hw := hw_with_depth 4) 11 11 w1 = Ok (tt, w2) /\
    XSpiPs_PolledTransfer (hw := hw_with_depth 4) 11 100 300 10 demo_world
      = Ok (XST_SUCCESS, w') /\
    Z.land (reg_CR (Dev w1)) 0x3C00 = 0x3800 /\
    Z.land (reg_CR (Dev w2)) 0x3C00 = 0x3800 /\
    Z.land (reg_CR (Dev w')) 0x3C00 = 0x3C00.
Proof.
  apply (PolledTransfer_chip_select (hw := hw_with_depth 4) 11 demo_world
           100 300 10).
  - unfold depth_ok; simpl; lia.
  - apply zynq_levels_ok.
  - apply zynq_enable_ok.
  - apply zynq_ss_field_ok.
  - apply zynq_cr_bits_ok.
  - reflexivity.
  - reflexivity.
  - unfold NULL; lia.
  - lia.
  - lia.
  - reflexivity.
  - simpl; lia.
  - vm_compute. discriminate.
  - reflexivity.
Defined.

(** ** The interrupt-driven transfer *)

Section TransferStart.
Context {hw : XSpiPs_Hw}.

Lemma Transfer_setup_eq (SendBufPtr RecvBufPtr ByteCount : Z) (w : World) :
  Transfer_setup SendBufPtr RecvBufPtr ByteCount w
  = Ok (tt,
        mkWorld
          (set_RemainingBytes ByteCount
             (set_RequestedBytes ByteCount
                (set_RecvBufferPtr RecvBufPtr
                   (set_SendBufferPtr SendBufPtr
                      (set_IsBusy true (Inst w))))))
          (set_reg_SR
             (Z.land (reg_SR (Dev w))
                (Z.lnot (u32 XSPIPS_IXR_WR_TO_CLR_MASK)))
             (set_reg_ER (u32 XSPIPS_ER_ENABLE_MASK)
                (set_reg_CR
                   (selected_CR (SlaveSelect (Inst w)) (reg_CR (Dev w)))
                   (Dev w))))
          (Mem w)).
Proof.
  unfold Transfer_setup.
  cbv beta iota delta [bind store load XSpiPs_Enable XSpiPs_WriteReg
                         XSpiPs_Out32 dev_write].
  rewrite apply_SlaveSelect_eq. reflexivity.
Qed.

(** XSpiPs_Transfer from its fill loop on. *)
Lemma Transfer_after_fill (s q N : Z) (w : World) (wf : World) (tc : Z) :
  IsReady (Inst w) = true ->
  IsBusy (Inst w) = false ->
  s <> NULL ->
  0 < N ->
  fill_TXFIFO u8 (Z.to_nat N) 0
    (mkWorld
       (set_RemainingBytes N
          (set_RequestedBytes N
             (set_RecvBufferPtr q
                (set_SendBufferPtr s (set_IsBusy true (Inst w))))))
       (set_reg_SR
          (Z.land (reg_SR (Dev w)) (Z.lnot (u32 XSPIPS_IXR_WR_TO_CLR_MASK)))
          (set_reg_ER (u32 XSPIPS_ER_ENABLE_MASK)
             (set_reg_CR
                (selected_CR (SlaveSelect (Inst w)) (reg_CR (Dev w)))
                (Dev w))))
       (Mem w))
  = Ok (tc, wf) ->
  XSpiPs_Transfer s q N w
  = Ok (XST_SUCCESS,
        set_Dev
          (set_reg_CR
             (started_CR (reg_CR (Dev wf)))
             (set_reg_IEN
                (Z.lor (reg_IEN (Dev wf)) (u32 XSPIPS_IXR_DFLT_MASK))
                (Dev wf)))
          wf).
Proof.
  intros Hready Hbusy Hs HN Hfill.
  assert (Es : (s =? NULL) = false) by (apply Z.eqb_neq; exact Hs).
  assert (En : (0 <? N) = true) by (apply Z.ltb_lt; lia).
  unfold XSpiPs_Transfer.
  cbv beta iota delta [bind load Xil_AssertNonvoid].
  rewrite Es, En. cbv beta iota delta [negb]. rewrite Hready.
  cbv beta iota. rewrite Hbusy, Transfer_setup_eq. cbv beta iota.
  unfold TxFifo_fill. cbv beta iota delta [bind load]. drv_simpl.
  rewrite Hfill.
  cbv beta iota delta [XSpiPs_WriteReg XSpiPs_Out32 dev_write].
  rewrite issue_ManualStart_eq. reflexivity.
Qed.

(** XSpiPs_Transfer on a FIFO its 8-bit fill counter can count. *)
Lemma Transfer_world (w : World) (s q N : Z) :
  0 < XSPIPS_FIFO_DEPTH < 2 ^ 8 ->
  IsReady (Inst w) = true ->
  IsBusy (Inst w) = false ->
  s <> NULL ->
  0 < N < 2 ^ 32 ->
  let k := Z.min N XSPIPS_FIFO_DEPTH in
  XSpiPs_Transfer s q N w
  = Ok (XST_SUCCESS,
        mkWorld
          (set_RemainingBytes (N - k)
             (set_SendBufferPtr (s + k)
                (set_RemainingBytes N
                   (set_RequestedBytes N
                      (set_RecvBufferPtr q
                         (set_SendBufferPtr s
                            (set_IsBusy true (Inst w))))))))
          (mkDevice
             (started_CR
                (selected_CR (SlaveSelect (Inst w)) (reg_CR (Dev w))))
             (Z.land (reg_SR (Dev w))
                (Z.lnot (u32 XSPIPS_IXR_WR_TO_CLR_MASK)))
             (Z.lor (reg_IEN (Dev w)) (u32 XSPIPS_IXR_DFLT_MASK))
             (u32 XSPIPS_ER_ENABLE_MASK)
             (TxFifo (Dev w) ++ buffer_bytes (Mem w) s (Z.to_nat k))
             (RxFifo (Dev w)) (Mosi (Dev w)) (Miso (Dev w)))
          (Mem w)).
Proof.
  intros HD Hready Hbusy Hs HN k.
  erewrite (Transfer_after_fill s q N w); try assumption; try lia.
  2:{ rewrite (fill_TXFIFO_bytes u8);
        [reflexivity | | lia | drv_simpl; lia | drv_simpl; lia].
      intros t Ht. unfold u8. apply Z.mod_small. lia. }
  drv_simpl. rewrite Z.sub_0_r. fold k. reflexivity.
Qed.

(** X6. XSpiPs_Transfer on a ready, idle instance (the FIFO at most 255
    bytes deep, as its 8-bit fill counter requires) returns XST_SUCCESS at
    once with the transfer in flight: the busy flag set, RequestedBytes at
    N, the first min(N, depth) bytes of the send buffer queued in order
    behind what the transmit FIFO held, RemainingBytes and the send
    pointer moved by that many, the device enabled, the default interrupts
    unmasked and the write-to-clear flags cleared.  Nothing has been
    received: the receive FIFO, the bus and the memory are untouched. *)
Theorem Transfer_starts :
  forall (w : World) (s q N : Z),
    0 < XSPIPS_FIFO_DEPTH < 2 ^ 8 ->
    IsReady (Inst w) = true ->
    IsBusy (Inst w) = false ->
    s <> NULL ->
    0 < N < 2 ^ 32 ->
    let k := Z.min N XSPIPS_FIFO_DEPTH in
    exists w',
      XSpiPs_Transfer s q N w = Ok (XST_SUCCESS, w') /\
      Inst w'
      = set_RemainingBytes (N - k)
          (set_RequestedBytes N
             (set_RecvBufferPtr q
                (set_SendBufferPtr (s + k) (set_IsBusy true (Inst w))))) /\
      TxFifo (Dev w')
      = TxFifo (Dev w) ++ buffer_bytes (Mem w) s (Z.to_nat k) /\
      reg_ER (Dev w') = u32 XSPIPS_ER_ENABLE_MASK /\
      reg_IEN (Dev w')
      = Z.lor (reg_IEN (Dev w)) (u32 XSPIPS_IXR_DFLT_MASK) /\
      reg_SR (Dev w')
      = Z.land (reg_SR (Dev w)) (Z.lnot (u32 XSPIPS_IXR_WR_TO_CLR_MASK)) /\
      reg_CR (Dev w')
      = started_CR (selected_CR (SlaveSelect (Inst w)) (reg_CR (Dev w))) /\
      RxFifo (Dev w') = RxFifo (Dev w) /\
      Mosi (Dev w') = Mosi (Dev w) /\
      Miso (Dev w') = Miso (Dev w) /\
      Mem w' = Mem w.
Proof.
  intros w s q N HD Hready Hbusy Hs HN k.
  eexists. split.
  - apply Transfer_world; assumption.
  - conjuncts; reflexivity.
Qed.

(** The fill loop with an 8-bit counter on a FIFO of 256 bytes or more:
    the counter wraps before it reaches the depth, so the loop only ends
    when nothing is left to queue. *)
Lemma fill_TXFIFO_u8_deep :
  2 ^ 8 <= XSPIPS_FIFO_DEPTH ->
  forall (n : nat) (w : World) (tc : Z),
    0 <= tc < 2 ^ 8 ->
    0 <= RemainingBytes (Inst w) < 2 ^ 32 ->
    RemainingBytes (Inst w) <= Z.of_nat n ->
    exists tc',
      fill_TXFIFO u8 n tc w
      = Ok (tc',
            mkWorld
              (set_RemainingBytes 0
                 (set_SendBufferPtr
                    (SendBufferPtr (Inst w) + RemainingBytes (Inst w))
                    (Inst w)))
              (set_TxFifo
                 (TxFifo (Dev w)
                  ++ buffer_bytes (Mem w) (SendBufferPtr (Inst w))
                       (Z.to_nat (RemainingBytes (Inst w))))
                 (Dev w))
              (Mem w)).
Proof.
  intros HD.
  assert (Hstop : forall (w : World) (tc : Z),
             RemainingBytes (Inst w) = 0 ->
             Ok (A := Z * World) (tc, w)
             = Ok (tc,
                   mkWorld
                     (set_RemainingBytes 0
                        (set_SendBufferPtr
                           (SendBufferPtr (Inst w) + RemainingBytes (Inst w))
                           (Inst w)))
                     (set_TxFifo
                        (TxFifo (Dev w)
                         ++ buffer_bytes (Mem w) (SendBufferPtr (Inst w))
                              (Z.to_nat (RemainingBytes (Inst w))))
                        (Dev w))
                     (Mem w))).
  { intros w tc H0. rewrite H0. destruct w as [i d m]. destruct i, d.
    cbn in *. subst. rewrite Z.add_0_r, app_nil_r. reflexivity. }
  induction n as [ | n IH]; intros w tc Htc Hrem Hn.
  - exists tc. cbn [fill_TXFIFO]. apply Hstop. cbn in Hn. lia.
  - cbn [fill_TXFIFO]. cbv beta iota delta [bind load].
    destruct ((0 <? RemainingBytes (Inst w)) && (tc <? XSPIPS_FIFO_DEPTH))
      eqn:Hc.
    + apply andb_true_iff in Hc. destruct Hc as [Hc1 Hc2].
      apply Z.ltb_lt in Hc1.
      cbv beta iota delta [bind load store mem_read XSpiPs_SendByte
                             XSpiPs_Out32 dev_write].
      drv_simpl. rewrite u32_small by lia.
      match goal with
      | |- context [fill_TXFIFO u8 n ?t1 ?w1] =>
          destruct (IH w1 t1) as (tc' & E)
      end.
      { apply u8_range. }
      { drv_simpl. lia. }
      { drv_simpl. lia. }
      exists tc'. rewrite E. drv_simpl. rewrite u8_u32_u8.
      set (r := RemainingBytes (Inst w)) in *.
      replace (Z.to_nat r) with (S (Z.to_nat (r - 1))) by lia.
      cbn [buffer_bytes]. drv_fields. rewrite <- app_assoc. cbn [app].
      apply f_equal. apply f_equal2; [reflexivity | ].
      apply f_equal3; [f_equal; lia | reflexivity | reflexivity].
    + exists tc. apply Hstop. apply andb_false_iff in Hc.
      destruct Hc as [Hc | Hc]; apply Z.ltb_ge in Hc; lia.
Qed.

(** X7. The fill counter of XSpiPs_Transfer is 8 bits wide.  If the FIFO
    depth were 256 or more the counter could never reach it: the call
    would queue all N bytes of the send buffer at once, whatever the
    depth, and leave RemainingBytes at zero. *)
Theorem Transfer_u8_counter_ignores_deep_fifo :
  forall (w : World) (s q N : Z),
    2 ^ 8 <= XSPIPS_FIFO_DEPTH ->
    IsReady (Inst w) = true ->
    IsBusy (Inst w) = false ->
    s <> NULL ->
    0 < N < 2 ^ 32 ->
    exists w',
      XSpiPs_Transfer s q N w = Ok (XST_SUCCESS, w') /\
      RemainingBytes (Inst w') = 0 /\
      RequestedBytes (Inst w') = N /\
      SendBufferPtr (Inst w') = s + N /\
      TxFifo (Dev w')
      = TxFifo (Dev w) ++ buffer_bytes (Mem w) s (Z.to_nat N).
Proof.
  intros w s q N HD Hready Hbusy Hs HN.
  destruct (fill_TXFIFO_u8_deep HD (Z.to_nat N)
              (mkWorld
                 (set_RemainingBytes N
                    (set_RequestedBytes N
                       (set_RecvBufferPtr q
                          (set_SendBufferPtr s
                             (set_IsBusy true (Inst w))))))
                 (set_reg_SR
                    (Z.land (reg_SR (Dev w))
                       (Z.lnot (u32 XSPIPS_IXR_WR_TO_CLR_MASK)))
                    (set_reg_ER (u32 XSPIPS_ER_ENABLE_MASK)
                       (set_reg_CR
                          (selected_CR (SlaveSelect (Inst w))
                             (reg_CR (Dev w)))
                          (Dev w))))
                 (Mem w)) 0) as (tc & E);
    [lia | drv_simpl; lia | drv_simpl; lia | ].
  eexists. split.
  - eapply (Transfer_after_fill s q N w); try assumption; try lia.
    exact E.
  - drv_simpl. conjuncts; reflexivity.
Qed.

End TransferStart.

(** Ten bytes on a 4-byte FIFO: four are queued. *)
Lemma Transfer_starts_witness :
  exists w',
    XSpiPs_Transfer (hw := hw_with_depth 4) 100 300 10 demo_world
    = Ok (XST_SUCCESS, w') /\
    IsBusy (Inst w') = true /\
    RemainingBytes (Inst w') = 6 /\
    TxFifo (Dev w') = [1; 2; 3; 4].
Proof.
  destruct (Transfer_starts (hw := hw_with_depth 4) demo_world 100 300 10)
    as (w' & E & Hinst & Htx & _).
  - simpl; lia.
  - reflexivity.
  - reflexivity.
  - unfold NULL; lia.
  - lia.
  - exists w'. split; [exact E | ]. rewrite Hinst, Htx.
    split; [reflexivity | split; reflexivity].
Defined.

(** 300 bytes on a 256-byte FIFO: all 300 are queued. *)
Lemma Transfer_u8_counter_ignores_deep_fifo_witness :
  exists w',
    XSpiPs_Transfer (hw := hw_with_depth 256) 100 300 300 demo_world
    = Ok (XST_SUCCESS, w') /\
    RemainingBytes (Inst w') = 0 /\
    length (TxFifo (Dev w')) = 300%nat.
Proof.
  destruct (Transfer_u8_counter_ignores_deep_fifo (hw := hw_with_depth 256)
              demo_world 100 300 300)
    as (w' & E & Hrem & _ & _ & Htx).
  - simpl; lia.
  - reflexivity.
  - reflexivity.
  - unfold NULL; lia.
  - lia.
  - exists w'. split; [exact E | ]. split; [exact Hrem | ].
    rewrite Htx, length_app, buffer_bytes_length. reflexivity.
Defined.

Section InterruptRounds.
Context {hw : XSpiPs_Hw}.
Variable user_call : Z -> Z -> XEvent -> Z -> M unit.

Local Abbreviation handler := (XSpiPs_InterruptHandler user_call).
Local Abbreviation callback w := (invoke user_call (StatusHandler (Inst w))
                          (StatusRef (Inst w))).

(** An enabled device left alone shifts its whole transmit FIFO out. *)
Lemma iter_clock_drains :
  forall (tx : list Z) (d : Device),
    dev_enabled d = true ->
    TxFifo d = tx ->
    Nat.iter (length tx) dev_clock d
    = mkDevice (reg_CR d) (reg_SR d) (reg_IEN d) (reg_ER d) []
        (RxFifo d ++ answers (Miso d) (length tx)) (Mosi d ++ tx)
        (skipn (length tx) (Miso d)).
Proof.
  induction tx as [ | b tx IH]; intros d Hen Htx.
  - destruct d. cbn in *. subst. rewrite !app_nil_r. reflexivity.
  - cbn [length]. rewrite Nat.iter_succ_r.
    assert (E : dev_clock d
                = mkDevice (reg_CR d) (reg_SR d) (reg_IEN d) (reg_ER d) tx
                    (RxFifo d ++ [hd 0 (Miso d)]) (Mosi d ++ [b])
                    (tl (Miso d)))
      by (unfold dev_clock; rewrite Hen, Htx; reflexivity).
    rewrite E, IH by (reflexivity || exact Hen).
    drv_simpl. cbn [answers]. rewrite <- !app_assoc, skipn_tl. reflexivity.
Qed.

Lemma dev_clock_empty (d : Device) : TxFifo d = [] -> dev_clock d = d.
Proof.
  intros H. unfold dev_clock. rewrite H. destruct (dev_enabled d); reflexivity.
Qed.

(** With nothing latched the status word only holds the two levels. *)
Lemma dev_status_quiet (d : Device) (m : Z) :
  reg_SR d = 0 ->
  Z.land XSPIPS_IXR_TXOW_MASK m = 0 ->
  Z.land XSPIPS_IXR_RXNEMPTY_MASK m = 0 ->
  Z.land (dev_status d) m = 0.
Proof.
  intros H0 H1 H2. unfold dev_status.
  rewrite H0, Z.land_0_l, Z.lor_0_l, Z.land_lor_distr_l.
  destruct (TxFifo d), (RxFifo d); rewrite ?H1, ?H2, ?Z.land_0_l; reflexivity.
Qed.

(** The handler when the transmit FIFO is empty and no event is latched:
    it masks the transmit-ready interrupt and runs the transmit-ready
    arm. *)
Lemma Handler_quiet (fuel : nat) (w : World) :
  levels_ok hw ->
  faults_ok hw ->
  IsReady (Inst w) = true ->
  reg_SR (Dev w) = 0 ->
  TxFifo (Dev w) = [] ->
  handler fuel w
  = Handler_TXOW user_call
      (set_Dev
         (set_reg_IEN
            (Z.land (reg_IEN (Dev w)) (Z.lnot (u32 XSPIPS_IXR_TXOW_MASK)))
            (Dev w))
         w).
Proof.
  intros Hlev (Hm & Htm & Hrm & Hto & Hro & Htu & Hru) Hready Hsr Htx.
  pose proof Hlev as (Hnz & _ & _).
  rewrite Handler_no_mode_fault;
    [ | exact Hready
      | rewrite (dev_status_quiet _ _ Hsr Htm Hrm); congruence ].
  rewrite (status_TXOW_set _ Htx).
  assert (E : (XSPIPS_IXR_TXOW_MASK =? 0) = false)
    by (apply Z.eqb_neq; exact Hnz).
  rewrite E. cbn [negb]. unfold Handler_faults.
  rewrite (dev_status_quiet _ _ Hsr Hto Hro).
  rewrite (dev_status_quiet _ _ Hsr Htu Hru).
  cbn [Z.eqb negb].
  change (bind (ret tt) (fun _ : unit => ret tt)) with (ret tt).
  rewrite bind_ret_tt.
  f_equal. unfold entered. rewrite (dev_clock_empty _ Htx), Hsr, Z.land_0_l.
  destruct w as [i d m]. destruct d. cbn in *. subst. reflexivity.
Qed.

(** The transmit-ready arm up to its test: it drains what was in flight
    and queues what the FIFO takes. *)
Lemma Handler_TXOW_eq (w : World) (r m : Z) :
  depth_ok hw ->
  RequestedBytes (Inst w) = r ->
  RemainingBytes (Inst w) = m ->
  0 <= m <= r ->
  r < 2 ^ 32 ->
  0 <= RecvBufferPtr (Inst w) ->
  let n := Z.to_nat (r - m) in
  let k := Z.min m XSPIPS_FIFO_DEPTH in
  let mem1 := recv_store (RecvBufferPtr (Inst w))
                (answers (RxFifo (Dev w)) n) (Mem w) in
  Handler_TXOW user_call w
  = (if (m - k =? 0) && (m =? 0) then Handler_done user_call
     else
       base <- load Config_BaseAddress ;;
       XSpiPs_WriteReg base XSPIPS_IER_OFFSET XSPIPS_IXR_TXOW_MASK ;;
       issue_ManualStart)
      (mkWorld
         (set_RemainingBytes (m - k)
            (set_SendBufferPtr (SendBufferPtr (Inst w) + k)
               (set_RequestedBytes m
                  (set_RecvBufferPtr
                     (recv_advance (RecvBufferPtr (Inst w)) (r - m))
                     (Inst w)))))
         (set_TxFifo
            (TxFifo (Dev w)
             ++ buffer_bytes mem1 (SendBufferPtr (Inst w)) (Z.to_nat k))
            (set_RxFifo (skipn n (RxFifo (Dev w))) (Dev w)))
         mem1).
Proof.
  intros Hdepth Hreq Hrem Hm Hr Hq n k mem1.
  unfold depth_ok in Hdepth.
  unfold Handler_TXOW, RxFifo_drain, TxFifo_fill.
  cbv beta iota zeta delta [bind load].
  rewrite Hreq, Hrem, (u32_small (r - m)) by lia. fold n.
  rewrite drain_RXFIFO_bytes by (rewrite ?Hreq; subst n; lia).
  drv_simpl. rewrite Hrem.
  rewrite (fill_TXFIFO_bytes u32)
    by (try (intros t Ht; apply u32_small); drv_simpl;
        rewrite ?Hrem, ?Z2Nat.id; lia).
  drv_simpl. rewrite Hrem, Hreq, Z.sub_0_r. fold k. fold mem1.
  replace (Z.of_nat n) with (r - m) by (subst n; lia).
  replace (r - (r - m)) with m by lia.
  reflexivity.
Qed.

(** A transmit-ready interrupt with more than a FIFO of bytes still to be
    received: the handler stores the answers to the bytes that went out,
    queues the next bytes and returns without calling the status
    handler. *)
Lemma irq_round_next (fuel : nat) (r : Z) (w : World) :
  depth_ok hw ->
  levels_ok hw ->
  faults_ok hw ->
  in_flight r w ->
  XSPIPS_FIFO_DEPTH < r < 2 ^ 32 ->
  let D := XSPIPS_FIFO_DEPTH in
  let k := Z.min (r - D) D in
  exists w',
    irq_round user_call fuel w = Ok (tt, w') /\
    in_flight (r - D) w' /\
    SendBufferPtr (Inst w') = SendBufferPtr (Inst w) + k /\
    RecvBufferPtr (Inst w') = recv_advance (RecvBufferPtr (Inst w)) D /\
    StatusHandler (Inst w') = StatusHandler (Inst w) /\
    StatusRef (Inst w') = StatusRef (Inst w) /\
    IsBusy (Inst w') = IsBusy (Inst w) /\
    TxFifo (Dev w')
    = buffer_bytes (Mem w') (SendBufferPtr (Inst w)) (Z.to_nat k) /\
    Mosi (Dev w') = Mosi (Dev w) ++ TxFifo (Dev w) /\
    Miso (Dev w') = skipn (Z.to_nat D) (Miso (Dev w)) /\
    Mem w'
    = recv_store (RecvBufferPtr (Inst w))
        (answers (Miso (Dev w)) (Z.to_nat D)) (Mem w).
Proof.
  intros Hdepth Hlev Hfaults (Hready & Hreq & Hrem & Hlen & Hrx & Hsr & Hen
                              & Hq) Hr D k.
  pose proof Hdepth as HD. unfold depth_ok in HD. fold D in HD.
  assert (Hmin : Z.min r D = D) by lia.
  fold D in Hrem, Hlen. rewrite Hmin in Hrem, Hlen.
  assert (Hn : length (TxFifo (Dev w)) = Z.to_nat D) by lia.
  unfold irq_round, bus_drained, clocked.
  rewrite (iter_clock_drains (TxFifo (Dev w)) (Dev w) Hen eq_refl).
  rewrite Hrx, Hn. cbn [app].
  rewrite Handler_quiet by (assumption || reflexivity).
  rewrite (Handler_TXOW_eq _ r (r - D))
    by (assumption || (drv_simpl; lia)).
  cbv zeta. drv_simpl. fold D. fold k.
  replace (r - D =? 0) with false by (symmetry; apply Z.eqb_neq; lia).
  rewrite andb_false_r.
  cbv beta iota delta [bind load XSpiPs_WriteReg XSpiPs_Out32 dev_write].
  rewrite issue_ManualStart_eq.
  replace (r - (r - D)) with D by lia.
  eexists. split; [reflexivity | ].
  drv_simpl. rewrite skipn_answers, answers_answers. cbn [app].
  conjuncts; try reflexivity.
  unfold in_flight. drv_simpl. rewrite buffer_bytes_length.
  conjuncts; try reflexivity; try assumption.
  - fold D. subst k. lia.
  - apply recv_advance_nonneg; lia.
Qed.

(** The last transmit-ready interrupt of a transfer: the handler stores
    the answers to the bytes that went out, finds nothing left to queue,
    shuts the transfer down and calls the status handler. *)
Lemma irq_round_last (fuel : nat) (r : Z) (w : World) :
  depth_ok hw ->
  levels_ok hw ->
  faults_ok hw ->
  in_flight r w ->
  0 < r <= XSPIPS_FIFO_DEPTH ->
  exists w',
    irq_round user_call fuel w = callback w XST_SPI_TRANSFER_DONE 0 w' /\
    IsBusy (Inst w') = false /\
    RequestedBytes (Inst w') = 0 /\
    RemainingBytes (Inst w') = 0 /\
    reg_ER (Dev w') = 0 /\
    Z.land (reg_IEN (Dev w')) (u32 XSPIPS_IXR_DFLT_MASK) = 0 /\
    TxFifo (Dev w') = [] /\
    RxFifo (Dev w') = [] /\
    Mosi (Dev w') = Mosi (Dev w) ++ TxFifo (Dev w) /\
    Miso (Dev w') = skipn (Z.to_nat r) (Miso (Dev w)) /\
    Mem w'
    = recv_store (RecvBufferPtr (Inst w))
        (answers (Miso (Dev w)) (Z.to_nat r)) (Mem w).
Proof.
  intros Hdepth Hlev Hfaults (Hready & Hreq & Hrem & Hlen & Hrx & Hsr & Hen
                              & Hq) Hr.
  pose proof Hdepth as HD. unfold depth_ok in HD.
  assert (Hmin : Z.min r XSPIPS_FIFO_DEPTH = r) by lia.
  rewrite Hmin in Hrem, Hlen. rewrite Z.sub_diag in Hrem.
  assert (Hn : length (TxFifo (Dev w)) = Z.to_nat r) by lia.
  unfold irq_round, bus_drained, clocked.
  rewrite (iter_clock_drains (TxFifo (Dev w)) (Dev w) Hen eq_refl).
  rewrite Hrx, Hn. cbn [app].
  rewrite Handler_quiet by (assumption || reflexivity).
  rewrite (Handler_TXOW_eq _ r 0)
    by (assumption || (drv_simpl; lia)).
  cbv zeta. drv_simpl.
  rewrite Z.min_l, !Z.sub_0_r by lia. cbn [Z.sub Z.eqb andb Z.to_nat].
  cbn [buffer_bytes]. rewrite Z.add_0_r, app_nil_r.
  rewrite Handler_done_spec. drv_simpl.
  eexists. split; [reflexivity | ].
  drv_simpl. rewrite skipn_answers, answers_answers.
  conjuncts; try reflexivity.
  - apply (deselected_Dev
             (fun d => Z.land (reg_IEN d) (u32 XSPIPS_IXR_DFLT_MASK) = 0));
      drv_simpl; intros; apply land_lnot_same.
  - apply (deselected_Dev (fun d => TxFifo d = []));
      drv_simpl; intros; reflexivity.
  - apply (deselected_Dev (fun d => RxFifo d = []));
      drv_simpl; intros; reflexivity.
  - apply (deselected_Dev
             (fun d => Mosi d = Mosi (Dev w) ++ TxFifo (Dev w)));
      drv_simpl; intros; reflexivity.
  - apply (deselected_Dev
             (fun d => Miso d = skipn (Z.to_nat r) (Miso (Dev w))));
      drv_simpl; intros; reflexivity.
Qed.

End InterruptRounds.

Section InterruptTransfer.
Context {hw : XSpiPs_Hw}.
Variable user_call : Z -> Z -> XEvent -> Z -> M unit.

Local Abbreviation callback w := (invoke user_call (StatusHandler (Inst w))
                          (StatusRef (Inst w))).

(** From any state between two interrupts to the end of the transfer. *)
Lemma irq_rounds_spec (fuel : nat) :
  depth_ok hw ->
  levels_ok hw ->
  faults_ok hw ->
  forall (k : nat) (r : Z) (w : World),
    0 < r < 2 ^ 32 ->
    Z.to_nat ((r + XSPIPS_FIFO_DEPTH - 1) / XSPIPS_FIFO_DEPTH) = S k ->
    in_flight r w ->
    exists w2 w3,
      irq_rounds user_call fuel k w = Ok (tt, w2) /\
      irq_round user_call fuel w2 = callback w XST_SPI_TRANSFER_DONE 0 w3 /\
      IsBusy (Inst w3) = false /\
      RequestedBytes (Inst w3) = 0 /\
      RemainingBytes (Inst w3) = 0 /\
      reg_ER (Dev w3) = 0 /\
      Z.land (reg_IEN (Dev w3)) (u32 XSPIPS_IXR_DFLT_MASK) = 0 /\
      TxFifo (Dev w3) = [] /\
      RxFifo (Dev w3) = [] /\
      ((RecvBufferPtr (Inst w) <> NULL ->
        forall i j,
          0 <= i -> 0 <= j < RemainingBytes (Inst w) ->
          i < Z.min r XSPIPS_FIFO_DEPTH + j ->
          RecvBufferPtr (Inst w) + i <> SendBufferPtr (Inst w) + j) ->
       Mosi (Dev w3)
       = Mosi (Dev w) ++ TxFifo (Dev w)
         ++ buffer_bytes (Mem w) (SendBufferPtr (Inst w))
              (Z.to_nat (RemainingBytes (Inst w)))) /\
      Miso (Dev w3) = skipn (Z.to_nat r) (Miso (Dev w)) /\
      Mem w3
      = recv_store (RecvBufferPtr (Inst w))
          (answers (Miso (Dev w)) (Z.to_nat r)) (Mem w).
Proof.
  intros Hdepth Hlev Hfaults.
  pose proof Hdepth as HD. unfold depth_ok in HD.
  induction k as [ | k IH]; intros r w Hr Hk Hin.
  - rewrite passes_step in Hk by (assumption || lia). injection Hk as Hk.
    apply passes_zero in Hk; [ | assumption | lia].
    destruct (irq_round_last user_call fuel r w Hdepth Hlev Hfaults Hin)
      as (w3 & Eround & Hb & Hq & Hm & Her & Hien & Htx & Hrx & Hmosi & Hmiso
          & Hmem); [lia | ].
    destruct Hin as (_ & _ & Hrem & _).
    exists w, w3. conjuncts; try assumption; try reflexivity.
    intros _. rewrite Hmosi, Hrem.
    replace (r - Z.min r XSPIPS_FIFO_DEPTH) with 0 by lia.
    cbn [Z.to_nat buffer_bytes]. rewrite app_nil_r. reflexivity.
  - rewrite passes_step in Hk by (assumption || lia). injection Hk as Hk.
    assert (Hbig : XSPIPS_FIFO_DEPTH < r).
    { destruct (Z.le_gt_cases r XSPIPS_FIFO_DEPTH) as [Hle | Hgt]; [ | lia].
      rewrite Z.min_l in Hk by lia.
      replace (r - r + XSPIPS_FIFO_DEPTH - 1) with (XSPIPS_FIFO_DEPTH - 1)
        in Hk by lia.
      rewrite Z.div_small in Hk by lia. discriminate. }
    rewrite Z.min_r in Hk by lia.
    destruct (irq_round_next user_call fuel r w Hdepth Hlev Hfaults Hin)
      as (w1 & Eround & Hin1 & Hsend1 & Hrecv1 & Hsh1 & Hsr1 & _ & Htx1
          & Hmosi1 & Hmiso1 & Hmem1); [lia | ].
    cbv zeta in Hsend1, Htx1.
    set (D := XSPIPS_FIFO_DEPTH) in *.
    set (k1 := Z.min (r - D) D) in *.
    destruct (IH (r - D) w1 ltac:(lia) Hk Hin1)
      as (w2 & w3 & Erounds & Elast & Hb & Hq & Hm & Her & Hien & Htx & Hrx
          & Hmosi & Hmiso & Hmem).
    pose proof Hin as (_ & _ & Hrem & _ & _ & _ & _ & Hq0).
    pose proof Hin1 as (_ & _ & Hrem1 & _).
    fold D in Hrem, Hrem1. fold k1 in Hrem1.
    rewrite Z.min_r in Hrem by lia.
    exists w2, w3. conjuncts; try assumption.
    + cbn [irq_rounds]. unfold bind. rewrite Eround. exact Erounds.
    + rewrite Elast, Hsh1, Hsr1. reflexivity.
    + intros Hsafe. rewrite Z.min_r in Hsafe by lia.
      rewrite Hmosi.
      2:{ rewrite Hrecv1, Hsend1, Hrem1. fold k1. unfold recv_advance, NULL.
          destruct (Z.eqb_spec (RecvBufferPtr (Inst w)) 0) as [E | E].
          - intros Hne. congruence.
          - intros _ i j Hi Hj Hij.
            specialize (Hsafe E (D + i) (k1 + j) ltac:(lia) ltac:(lia)
                          ltac:(lia)).
            lia. }
      assert (Hext : forall j, 0 <= j < r - D ->
                Mem w1 (SendBufferPtr (Inst w) + j)
                = Mem w (SendBufferPtr (Inst w) + j)).
      { intros j Hj. rewrite Hmem1. unfold recv_store, NULL.
        destruct (Z.eqb_spec (RecvBufferPtr (Inst w)) 0) as [E | E];
          [reflexivity | ].
        rewrite store_bytes_spec, answers_length.
        destruct (Z.leb_spec (RecvBufferPtr (Inst w))
                    (SendBufferPtr (Inst w) + j));
          destruct (Z.ltb_spec (SendBufferPtr (Inst w) + j)
                      (RecvBufferPtr (Inst w) + Z.of_nat (Z.to_nat D)));
          cbn [andb]; try reflexivity.
        exfalso.
        apply (Hsafe E
                 (SendBufferPtr (Inst w) + j - RecvBufferPtr (Inst w)) j);
          lia. }
      rewrite Hmosi1, Htx1, Hsend1, Hrem1, Hrem.
      rewrite <- !app_assoc. do 2 f_equal.
      replace (Z.to_nat (r - D))
        with (Z.to_nat k1 + Z.to_nat (r - D - k1))%nat by lia.
      rewrite buffer_bytes_app, Z2Nat.id by lia.
      f_equal; apply buffer_bytes_ext; intros j Hj.
      * apply Hext. lia.
      * rewrite <- Z.add_assoc. apply Hext. lia.
    + rewrite Hmiso, Hmiso1, skipn_skipn. f_equal. lia.
    + rewrite Hmem, Hmem1, Hmiso1, Hrecv1.
      replace (Z.to_nat r) with (Z.to_nat D + Z.to_nat (r - D))%nat by lia.
      rewrite answers_app, recv_store_app, answers_length, Z2Nat.id by lia.
      reflexivity.
Qed.

(** The interrupt-driven transfer from XSpiPs_Transfer to the call of
    the status handler. *)
Lemma Transfer_irq_run (fuel : nat) (w : World) (s q N : Z) :
  0 < XSPIPS_FIFO_DEPTH < 2 ^ 8 ->
  levels_ok hw ->
  faults_ok hw ->
  enable_ok hw ->
  IsReady (Inst w) = true ->
  IsBusy (Inst w) = false ->
  s <> NULL ->
  0 <= q ->
  0 < N < 2 ^ 32 ->
  TxFifo (Dev w) = [] ->
  RxFifo (Dev w) = [] ->
  reg_SR (Dev w) = 0 ->
  (q <> NULL -> forall i j, 0 <= i < j -> j < N -> q + i <> s + j) ->
  let D := XSPIPS_FIFO_DEPTH in
  let rounds := Z.to_nat ((N + D - 1) / D) in
  exists w1 w2 w3,
    XSpiPs_Transfer s q N w = Ok (XST_SUCCESS, w1) /\
    IsBusy (Inst w1) = true /\
    irq_rounds user_call fuel (rounds - 1) w1 = Ok (tt, w2) /\
    irq_round user_call fuel w2 = callback w XST_SPI_TRANSFER_DONE 0 w3 /\
    IsBusy (Inst w3) = false /\
    RequestedBytes (Inst w3) = 0 /\
    RemainingBytes (Inst w3) = 0 /\
    reg_ER (Dev w3) = 0 /\
    Z.land (reg_IEN (Dev w3)) (u32 XSPIPS_IXR_DFLT_MASK) = 0 /\
    TxFifo (Dev w3) = [] /\
    RxFifo (Dev w3) = [] /\
    Mosi (Dev w3) = Mosi (Dev w) ++ buffer_bytes (Mem w) s (Z.to_nat N) /\
    Miso (Dev w3) = skipn (Z.to_nat N) (Miso (Dev w)) /\
    Mem w3 = recv_store q (answers (Miso (Dev w)) (Z.to_nat N)) (Mem w).
Proof.
  intros HD Hlev Hfaults Hen Hready Hbusy Hs Hq HN Htx Hrx Hsr Hsafe D rounds.
  assert (Hdepth : depth_ok hw) by (unfold depth_ok; lia).
  pose proof (Transfer_world w s q N HD Hready Hbusy Hs HN) as Estart.
  cbv zeta in Estart. fold D in Estart, HD.
  set (k0 := Z.min N D) in *.
  match type of Estart with
  | _ = Ok (_, ?x) => set (w1 := x) in *
  end.
  assert (Hin : in_flight N w1).
  { unfold in_flight. subst w1. drv_simpl. fold D. fold k0.
    rewrite Htx, Hsr. cbn [app]. rewrite buffer_bytes_length.
    conjuncts; try reflexivity; try assumption.
    - lia.
    - apply (enabled_after_Enable (Dev w)). exact Hen. }
  assert (Hk : rounds = S (Z.to_nat ((N - k0 + D - 1) / D)))
    by (apply passes_step; [exact Hdepth | lia]).
  destruct (irq_rounds_spec fuel Hdepth Hlev Hfaults _ N w1 HN Hk Hin)
    as (w2 & w3 & Erounds & Elast & Hb & Hrq & Hrm & Her & Hien & Htx3 & Hrx3
        & Hmosi & Hmiso & Hmem).
  exists w1, w2, w3. conjuncts; try assumption.
  - reflexivity.
  - rewrite Hk. cbn [Nat.sub]. rewrite Nat.sub_0_r. exact Erounds.
  - rewrite Hmosi.
    + subst w1. drv_simpl. rewrite Htx. cbn [app]. f_equal.
      replace (Z.to_nat N) with (Z.to_nat k0 + Z.to_nat (N - k0))%nat by lia.
      rewrite buffer_bytes_app, Z2Nat.id by lia. reflexivity.
    + subst w1. drv_simpl. fold D. fold k0. intros Hne i j Hi Hj Hij.
      specialize (Hsafe Hne i (k0 + j) ltac:(lia) ltac:(lia)). lia.
Qed.

(** X8. An interrupt-driven transfer from XSpiPs_Transfer to the call of
    the status handler, on a ready, idle instance with empty FIFOs and
    nothing latched, each transmit-ready interrupt coming when the queued
    bytes have gone out.  XSpiPs_Transfer returns XST_SUCCESS with the
    instance busy; the first ceil(N / depth) - 1 interrupts return without
    calling the status handler; the next one calls it once, with the
    transfer-done event, a byte count of 0 and the instance idle, both
    counters zero, the device disabled, the default interrupts masked and
    the FIFOs empty.  By then the N bytes of the send buffer have gone out
    in order and the slave's N answers are stored in order in the receive
    buffer (or dropped if it is NULL), which may be the send buffer. *)
Theorem Transfer_interrupt_driven :
  forall (fuel : nat) (w : World) (s q N : Z),
    0 < XSPIPS_FIFO_DEPTH < 2 ^ 8 ->
    levels_ok hw ->
    faults_ok hw ->
    enable_ok hw ->
    IsReady (Inst w) = true ->
    IsBusy (Inst w) = false ->
    s <> NULL ->
    0 <= q ->
    0 < N < 2 ^ 32 ->
    TxFifo (Dev w) = [] ->
    RxFifo (Dev w) = [] ->
    reg_SR (Dev w) = 0 ->
    (q <> NULL -> forall i j, 0 <= i < j -> j < N -> q + i <> s + j) ->
    let D := XSPIPS_FIFO_DEPTH in
    let rounds := Z.to_nat ((N + D - 1) / D) in
    exists w1 w2 w3,
      XSpiPs_Transfer s q N w = Ok (XST_SUCCESS, w1) /\
      IsBusy (Inst w1) = true /\
      irq_rounds user_call fuel (rounds - 1) w1 = Ok (tt, w2) /\
      irq_round user_call fuel w2 = callback w XST_SPI_TRANSFER_DONE 0 w3 /\
      IsBusy (Inst w3) = false /\
      RequestedBytes (Inst w3) = 0 /\
      RemainingBytes (Inst w3) = 0 /\
      reg_ER (Dev w3) = 0 /\
      Z.land (reg_IEN (Dev w3)) (u32 XSPIPS_IXR_DFLT_MASK) = 0 /\
      TxFifo (Dev w3) = [] /\
      RxFifo (Dev w3) = [] /\
      Mosi (Dev w3) = Mosi (Dev w) ++ buffer_bytes (Mem w) s (Z.to_nat N) /\
      Miso (Dev w3) = skipn (Z.to_nat N) (Miso (Dev w)) /\
      (q = NULL -> Mem w3 = Mem w) /\
      (q <> NULL ->
       forall a,
         Mem w3 a
         = if (q <=? a) && (a <? q + N)
           then u8 (nth (Z.to_nat (a - q)) (Miso (Dev w)) 0)
           else Mem w a).
Proof.
  intros fuel w s q N HD Hlev Hfaults Hen Hready Hbusy Hs Hq HN Htx Hrx Hsr
    Hsafe D rounds.
  destruct (Transfer_irq_run fuel w s q N)
    as (w1 & w2 & w3 & E1 & Hb1 & E2 & E3 & Hb & Hrq & Hrm & Her & Hien & Htx3
        & Hrx3 & Hmosi & Hmiso & Hmem);
    try assumption.
  exists w1, w2, w3. conjuncts; try assumption.
  - intros ->. rewrite Hmem. reflexivity.
  - intros Hne. rewrite Hmem. unfold recv_store.
    assert (E : (q =? NULL) = false) by (apply Z.eqb_neq; exact Hne).
    rewrite E. intros a.
    rewrite store_bytes_spec, answers_length, Z2Nat.id by lia.
    destruct ((q <=? a) && (a <? q + N)) eqn:Hin'; [ | reflexivity].
    apply andb_true_iff in Hin'. destruct Hin' as (H1 & H2).
    apply Z.leb_le in H1. apply Z.ltb_lt in H2.
    rewrite answers_nth by lia. reflexivity.
Qed.

(** X9. The two transfer engines agree.  From the same ready, idle
    instance with empty FIFOs and nothing latched, XSpiPs_PolledTransfer
    on return and the interrupt-driven transfer at the call of the status
    handler have put the same bytes on the bus, consumed the same answers
    and left the same memory, and they agree on the busy flag, both byte
    counters, the enable register and both FIFOs.  They differ in the
    interrupt mask: the polled transfer leaves it as it was, the
    interrupt-driven one leaves the default interrupts masked. *)
Theorem polled_and_interrupt_driven_agree :
  forall (fuel : nat) (w : World) (s q N : Z),
    0 < XSPIPS_FIFO_DEPTH < 2 ^ 8 ->
    levels_ok hw ->
    faults_ok hw ->
    enable_ok hw ->
    IsReady (Inst w) = true ->
    IsBusy (Inst w) = false ->
    s <> NULL ->
    0 <= q ->
    0 < N < 2 ^ 32 ->
    TxFifo (Dev w) = [] ->
    RxFifo (Dev w) = [] ->
    reg_SR (Dev w) = 0 ->
    (Z.to_nat N < fuel)%nat ->
    (q <> NULL -> forall i j, 0 <= i < j -> j < N -> q + i <> s + j) ->
    let D := XSPIPS_FIFO_DEPTH in
    let rounds := Z.to_nat ((N + D - 1) / D) in
    exists wp w1 w2 wi,
      XSpiPs_PolledTransfer fuel s q N w = Ok (XST_SUCCESS, wp) /\
      XSpiPs_Transfer s q N w = Ok (XST_SUCCESS, w1) /\
      irq_rounds user_call fuel (rounds - 1) w1 = Ok (tt, w2) /\
      irq_round user_call fuel w2 = callback w XST_SPI_TRANSFER_DONE 0 wi /\
      Mosi (Dev wi) = Mosi (Dev wp) /\
      Miso (Dev wi) = Miso (Dev wp) /\
      Mem wi = Mem wp /\
      TxFifo (Dev wi) = TxFifo (Dev wp) /\
      RxFifo (Dev wi) = RxFifo (Dev wp) /\
      reg_ER (Dev wi) = reg_ER (Dev wp) /\
      IsBusy (Inst wi) = IsBusy (Inst wp) /\
      RequestedBytes (Inst wi) = RequestedBytes (Inst wp) /\
      RemainingBytes (Inst wi) = RemainingBytes (Inst wp) /\
      reg_IEN (Dev wp) = reg_IEN (Dev w) /\
      Z.land (reg_IEN (Dev wi)) (u32 XSPIPS_IXR_DFLT_MASK) = 0.
Proof.
  intros fuel w s q N HD Hlev Hfaults Hen Hready Hbusy Hs Hq HN Htx Hrx Hsr
    Hfuel Hsafe D rounds.
  assert (Hdepth : depth_ok hw) by (unfold depth_ok; lia).
  destruct (Transfer_irq_run fuel w s q N)
    as (w1 & w2 & wi & E1 & _ & E2 & E3 & Hb & Hrq & Hrm & Her & Hien & Htxi
        & Hrxi & Hmosi & Hmiso & Hmem);
    try assumption.
  destruct (PolledTransfer_run fuel w s q N)
    as (v1 & v2 & Esetup & _ & Eloop & Erun & _ & _ & Hmosip & Hmisop & Hrxp
        & Hmemp & _ & Hbefore & Hien2);
    try assumption.
  cbv zeta in Hrxp, Hmemp. rewrite Hrx in Hrxp, Hmemp.
  cbn [app] in Hrxp, Hmemp.
  rewrite skipn_answers in Hrxp. rewrite answers_answers in Hmemp.
  destruct Hbefore as (Hrm2 & Hrq2 & _ & Htx2).
  eexists. exists w1, w2, wi.
  split; [exact Erun | ]. split; [exact E1 | ]. split; [exact E2 | ].
  split; [exact E3 | ].
  drv_simpl. conjuncts.
  - rewrite Hmosi. symmetry.
    apply (deselected_Dev
             (fun d => Mosi d
                       = Mosi (Dev w) ++ buffer_bytes (Mem w) s (Z.to_nat N)));
      drv_simpl; intros; apply Hmosip; exact Hsafe.
  - rewrite Hmiso. symmetry.
    apply (deselected_Dev
             (fun d => Miso d = skipn (Z.to_nat N) (Miso (Dev w))));
      drv_simpl; intros; exact Hmisop.
  - rewrite Hmem, Hmemp. reflexivity.
  - rewrite Htxi. symmetry.
    apply (deselected_Dev (fun d => TxFifo d = []));
      drv_simpl; intros; exact Htx2.
  - rewrite Hrxi. symmetry.
    apply (deselected_Dev (fun d => RxFifo d = []));
      drv_simpl; intros; exact Hrxp.
  - rewrite Her. reflexivity.
  - exact Hb.
  - rewrite Hrq, Hrq2. reflexivity.
  - rewrite Hrm, Hrm2. reflexivity.
  - apply (deselected_Dev (fun d => reg_IEN d = reg_IEN (Dev w)));
      drv_simpl; intros; exact Hien2.
  - exact Hien.
Qed.

End InterruptTransfer.

(** Ten bytes in place on a 4-byte FIFO: three interrupts. *)
Lemma Transfer_interrupt_driven_witness :
  exists w1 w2 w3,
    XSpiPs_Transfer (hw := hw_with_depth 4) 100 100 10 demo_world
      = Ok (XST_SUCCESS, w1) /\
    irq_rounds (hw := hw_with_depth 4) logging_call 20 2 w1 = Ok (tt, w2) /\
    irq_round (hw := hw_with_depth 4) logging_call 20 w2
      = logging_call 0x1234 500 XST_SPI_TRANSFER_DONE 0 w3 /\
    IsBusy (Inst w3) = false /\
    Mosi (Dev w3) = buffer_bytes demo_mem 100 10 /\
    Mem w3 100 = 11 /\
    Mem w3 109 = 20.
Proof.
  destruct (Transfer_interrupt_driven (hw := hw_with_depth 4) logging_call 20
              demo_world 100 100 10)
    as (w1 & w2 & w3 & E1 & _ & E2 & E3 & Hb & _ & _ & _ & _ & _ & _ & Hmosi
        & _ & _ & Hmem).
  - simpl; lia.
  - apply zynq_levels_ok.
  - apply zynq_faults_ok.
  - apply zynq_enable_ok.
  - reflexivity.
  - reflexivity.
  - unfold NULL; lia.
  - lia.
  - lia.
  - reflexivity.
  - reflexivity.
  - reflexivity.
  - intros _ i j Hij Hj. lia.
  - exists w1, w2, w3. split; [exact E1 | ]. split; [exact E2 | ].
    split; [exact E3 | ]. split; [exact Hb | ]. split; [exact Hmosi | ].
    split; rewrite (Hmem ltac:(unfold NULL; lia)); reflexivity.
Defined.

(** Ten bytes on a 4-byte FIFO, polled and by interrupts. *)
Lemma polled_and_interrupt_driven_agree_witness :
  exists wp w1 w2 wi,
    XSpiPs_PolledTransfer (hw := hw_with_depth 4) 11 100 300 10 demo_world
      = Ok (XST_SUCCESS, wp) /\
    XSpiPs_Transfer (hw := hw_with_depth 4) 100 300 10 demo_world
      = Ok (XST_SUCCESS, w1) /\
    irq_rounds (hw := hw_with_depth 4) silent_call 11 2 w1 = Ok (tt, w2) /\
    irq_round (hw := hw_with_depth 4) silent_call 11 w2 = Ok (tt, wi) /\
    Mosi (Dev wi) = Mosi (Dev wp) /\
    Mem wi = Mem wp.
Proof.
  destruct (polled_and_interrupt_driven_agree (hw := hw_with_depth 4)
              silent_call 11 demo_world 100 300 10)
    as (wp & w1 & w2 & wi & Ep & E1 & E2 & E3 & Hmosi & _ & Hmem & _).
  - simpl; lia.
  - apply zynq_levels_ok.
  - apply zynq_faults_ok.
  - apply zynq_enable_ok.
  - reflexivity.
  - reflexivity.
  - unfold NULL; lia.
  - lia.
  - lia.
  - reflexivity.
  - reflexivity.
  - reflexivity.
  - simpl; lia.
  - intros _ i j Hij Hj. lia.
  - exists wp, w1, w2, wi. split; [exact Ep | ]. split; [exact E1 | ].
    split; [exact E2 | ]. split; [exact E3 | ].
    split; [exact Hmosi | exact Hmem].
Defined.

(** ** Slave selection and the transfer *)

Section SelectAndTransfer.
Context {hw : XSpiPs_Hw}.

(** The cached encoding lies within the select field. *)
Lemma ss_encoding_in_field (k : Z) :
  ss_field_ok hw ->
  Z.land (ss_encoding k) XSPIPS_CR_SSCTRL_MASK = ss_encoding k.
Proof.
  intros (Hmax & Hshift & Hmask). unfold ss_encoding.
  rewrite Hmask, Hmax. apply Z.bits_inj'. intros i Hi.
  repeat first
    [ rewrite Z.land_spec | rewrite Z.lor_spec | rewrite testbit_u32 by lia
    | rewrite Z.shiftl_spec by lia | rewrite testbit_0xF ].
  destruct (Z.testbit (Z.lnot (Z.shiftl 1 k)) (i - XSPIPS_CR_SSCTRL_SHIFT));
    destruct (Z.leb_spec 0 (i - XSPIPS_CR_SSCTRL_SHIFT));
    destruct (Z.ltb_spec (i - XSPIPS_CR_SSCTRL_SHIFT) 4);
    destruct (Z.ltb_spec i 32); cbn; try reflexivity; lia.
Qed.

(** XSpiPs_Transfer returns whatever the depth of the FIFO, and its
    control register is the one of the setup and the manual start. *)
Lemma Transfer_reg_CR (w : World) (s q N : Z) :
  IsReady (Inst w) = true ->
  IsBusy (Inst w) = false ->
  s <> NULL ->
  0 < N < 2 ^ 32 ->
  exists w',
    XSpiPs_Transfer s q N w = Ok (XST_SUCCESS, w') /\
    reg_CR (Dev w')
    = started_CR (selected_CR (SlaveSelect (Inst w)) (reg_CR (Dev w))).
Proof.
  intros Hready Hbusy Hs HN.
  match goal with
  | |- exists w', _ /\ _ = started_CR (selected_CR ?ss ?cr) =>
      destruct (fill_TXFIFO_counts u8 (Z.to_nat N)
                  (mkWorld
                     (set_RemainingBytes N
                        (set_RequestedBytes N
                           (set_RecvBufferPtr q
                              (set_SendBufferPtr s
                                 (set_IsBusy true (Inst w))))))
                     (set_reg_SR
                        (Z.land (reg_SR (Dev w))
                           (Z.lnot (u32 XSPIPS_IXR_WR_TO_CLR_MASK)))
                        (set_reg_ER (u32 XSPIPS_ER_ENABLE_MASK)
                           (set_reg_CR (selected_CR ss cr) (Dev w))))
                     (Mem w)) 0) as (tc & j & bytes & _ & _ & E)
  end.
  { drv_simpl. lia. }
  eexists. split.
  - eapply (Transfer_after_fill s q N w); try assumption; try lia.
    exact E.
  - reflexivity.
Qed.

Lemma land_lor_nonzero (a b m : Z) :
  Z.land a m <> 0 -> Z.land (Z.lor a b) m <> 0.
Proof.
  intros H H0. rewrite Z.land_lor_distr_l in H0.
  apply Z.lor_eq_0_iff in H0. destruct H0 as (H0 & _). contradiction.
Qed.

(** X10. XSpiPs_SetSlaveSelect followed by XSpiPs_Transfer.  In manual
    chip-select mode the transfer rewrites the select field of the control
    register from the cache: during the transfer the field is exactly the
    encoding of the line selected, whatever it held before.  In automatic
    mode the transfer leaves the field as XSpiPs_SetSlaveSelect wrote it:
    the old field OR-ed with the new encoding. *)
Theorem SetSlaveSelect_then_Transfer :
  forall (w : World) (k s q N : Z),
    ss_field_ok hw ->
    cr_bits_ok hw ->
    IsReady (Inst w) = true ->
    IsBusy (Inst w) = false ->
    0 <= k <= 0xF ->
    s <> NULL ->
    0 < N < 2 ^ 32 ->
    exists w1 w2,
      XSpiPs_SetSlaveSelect k w = Ok (XST_SUCCESS, w1) /\
      XSpiPs_Transfer s q N w1 = Ok (XST_SUCCESS, w2) /\
      (Z.land (reg_CR (Dev w)) XSPIPS_CR_SSFORCE_MASK <> 0 ->
       Z.land (reg_CR (Dev w2)) XSPIPS_CR_SSCTRL_MASK = ss_encoding k) /\
      (Z.land (reg_CR (Dev w)) XSPIPS_CR_SSFORCE_MASK = 0 ->
       Z.land (reg_CR (Dev w2)) XSPIPS_CR_SSCTRL_MASK
       = Z.lor (Z.land (reg_CR (Dev w)) XSPIPS_CR_SSCTRL_MASK)
           (ss_encoding k)).
Proof.
  intros w k s q N Hss Hbits Hready Hbusy Hk Hs HN.
  pose proof Hss as (Hmax & _ & _).
  pose proof Hbits as (Hf & Hfm & Hsm).
  assert (Hk' : k <= XSPIPS_CR_SSCTRL_MAXIMUM) by (rewrite Hmax; lia).
  pose proof (SetSlaveSelect_success w k Hready Hbusy Hk') as E1.
  match type of E1 with
  | _ = Ok (_, ?x) => set (w1 := x) in *
  end.
  destruct (Transfer_reg_CR w1 s q N) as (w2 & E2 & Hcr);
    try assumption.
  exists w1, w2. split; [exact E1 | ]. split; [exact E2 | ].
  rewrite Hcr. subst w1. drv_simpl. cbn [dev_write]. drv_simpl.
  split.
  - intros Hman.
    apply (started_CR_field (ss_encoding k) _ Hss Hbits).
    apply (selected_CR_field _ _ Hss Hbits).
    + rewrite land_u32_mask by exact Hf.
      apply land_lor_nonzero. exact Hman.
    + apply ss_encoding_in_field. exact Hss.
  - intros Hauto.
    assert (Hauto1 : Z.land (u32 (Z.lor (reg_CR (Dev w)) (ss_encoding k)))
                       XSPIPS_CR_SSFORCE_MASK = 0).
    { rewrite !land_u32_mask by exact Hf.
      rewrite Z.land_lor_distr_l, Hauto, Z.lor_0_l.
      rewrite <- (ss_encoding_in_field k Hss), <- Z.land_assoc.
      rewrite (Z.land_comm XSPIPS_CR_SSCTRL_MASK), Hfm.
      apply Z.land_0_r. }
    unfold selected_CR.
    apply Z.eqb_eq in Hauto1. rewrite Hauto1. cbn [negb].
    unfold started_CR.
    match goal with
    | |- context [if ?c then _ else _] => destruct c
    end.
    + rewrite land_u32_mask by (apply ss_mask_range; exact Hss).
      rewrite Z.land_lor_distr_l, Hsm, Z.lor_0_r.
      apply ss_field_after_or. exact Hss.
    + apply ss_field_after_or. exact Hss.
Qed.

(** The encodings of two different lines have all four select bits
    between them. *)
Lemma ss_encoding_lor (a b : Z) :
  ss_field_ok hw ->
  0 <= a <= 3 ->
  0 <= b <= 3 ->
  a <> b ->
  Z.lor (ss_encoding a) (ss_encoding b) = XSPIPS_CR_SSCTRL_MASK.
Proof.
  intros (Hmax & Hshift & Hmask) Ha Hb Hab. unfold ss_encoding.
  rewrite Hmask, Hmax.
  assert (Hsmall : forall c, 0 <= c <= 15 ->
            u32 (Z.shiftl c XSPIPS_CR_SSCTRL_SHIFT)
            = Z.shiftl c XSPIPS_CR_SSCTRL_SHIFT).
  { intros c Hc. apply u32_small. rewrite Z.shiftl_mul_pow2 by lia.
    assert (0 < 2 ^ XSPIPS_CR_SSCTRL_SHIFT <= 2 ^ 28)
      by (split; [apply Z.pow_pos_nonneg; lia
                 | apply Z.pow_le_mono_r; lia]).
    nia. }
  rewrite !Hsmall by (apply land_0xF_range).
  rewrite <- Z.shiftl_lor. f_equal.
  assert (Ea : a = 0 \/ a = 1 \/ a = 2 \/ a = 3) by lia.
  assert (Eb : b = 0 \/ b = 1 \/ b = 2 \/ b = 3) by lia.
  destruct Ea as [-> | [-> | [-> | ->]]];
    destruct Eb as [-> | [-> | [-> | ->]]];
    try reflexivity; contradiction.
Qed.

(** X11. Selecting one line and then another through
    XSpiPs_SetSlaveSelect alone leaves no line selected in the control
    register: each call ORs its encoding in, and two different encodings
    have all four select bits between them.  The cache holds the encoding
    of the second line. *)
Theorem SetSlaveSelect_twice_deselects :
  forall (w : World) (a b : Z),
    ss_field_ok hw ->
    IsReady (Inst w) = true ->
    IsBusy (Inst w) = false ->
    0 <= a <= 3 ->
    0 <= b <= 3 ->
    a <> b ->
    exists w1 w2,
      XSpiPs_SetSlaveSelect a w = Ok (XST_SUCCESS, w1) /\
      XSpiPs_SetSlaveSelect b w1 = Ok (XST_SUCCESS, w2) /\
      SlaveSelect (Inst w2) = ss_encoding b /\
      Z.land (reg_CR (Dev w2)) XSPIPS_CR_SSCTRL_MASK
      = XSPIPS_CR_SSCTRL_MASK.
Proof.
  intros w a b Hss Hready Hbusy Ha Hb Hab.
  pose proof Hss as (Hmax & _ & _).
  assert (Ha' : a <= XSPIPS_CR_SSCTRL_MAXIMUM) by (rewrite Hmax; lia).
  assert (Hb' : b <= XSPIPS_CR_SSCTRL_MAXIMUM) by (rewrite Hmax; lia).
  pose proof (SetSlaveSelect_success w a Hready Hbusy Ha') as E1.
  match type of E1 with
  | _ = Ok (_, ?x) => set (w1 := x) in *
  end.
  pose proof (SetSlaveSelect_success w1 b Hready Hbusy Hb') as E2.
  eexists. eexists. split; [exact E1 | ]. split; [exact E2 | ].
  split; [reflexivity | ].
  subst w1. drv_simpl. cbn [dev_write]. drv_simpl.
  rewrite !(ss_field_after_or _ _ Hss).
  rewrite <- Z.lor_assoc, (ss_encoding_lor a b Hss Ha Hb Hab).
  apply Z.bits_inj'. intros i _.
  rewrite Z.lor_spec, Z.land_spec.
  destruct (Z.testbit (reg_CR (Dev w)) i),
    (Z.testbit XSPIPS_CR_SSCTRL_MASK i); reflexivity.
Qed.

End SelectAndTransfer.

(** ** The status handler *)

Section StatusHandlerFacts.
Context {hw : XSpiPs_Hw}.
Variable user_call : Z -> Z -> XEvent -> Z -> M unit.

Local Abbreviation handler := (XSpiPs_InterruptHandler user_call).
Local Abbreviation callback w := (invoke user_call (StatusHandler (Inst w))
                          (StatusRef (Inst w))).

(** X12. With the stub that XSpiPs_CfgInitialize installs still in place,
    every event ends in the stub's assertion: a mode fault, a receive
    overrun or transmit underrun, and also the normal completion of an
    interrupt-driven transfer. *)
Theorem stub_handler_asserts :
  forall (fuel : nat) (w : World),
    levels_ok hw ->
    IsReady (Inst w) = true ->
    StatusHandler (Inst w) = StubStatusHandler ->
    (S (length (RxFifo (Dev w))) < fuel)%nat ->
    let st := dev_status (Dev w) in
    (Z.land st XSPIPS_IXR_MODF_MASK = XSPIPS_IXR_MODF_MASK ->
     handler fuel w = AssertFailed) /\
    (Z.land st XSPIPS_IXR_MODF_MASK <> XSPIPS_IXR_MODF_MASK ->
     Z.land st XSPIPS_IXR_TXOW_MASK = 0 ->
     Z.land st XSPIPS_IXR_RXOVR_MASK <> 0 \/
     Z.land st XSPIPS_IXR_TXUF_MASK <> 0 ->
     handler fuel w = AssertFailed) /\
    (forall r,
       depth_ok hw ->
       faults_ok hw ->
       in_flight r w ->
       0 < r <= XSPIPS_FIFO_DEPTH ->
       irq_round user_call fuel w = AssertFailed).
Proof.
  intros fuel w Hlev Hready Hstub Hfuel st. subst st. conjuncts.
  - intros Hmodf.
    rewrite Handler_mode_fault by assumption.
    rewrite Hstub. reflexivity.
  - intros Hmodf Htxow Hfault.
    rewrite Handler_no_mode_fault by assumption.
    rewrite Htxow. cbn [Z.eqb negb]. rewrite bind_ret_l.
    unfold Handler_faults.
    destruct (Z.eqb_spec (Z.land (dev_status (Dev w)) XSPIPS_IXR_RXOVR_MASK)
                0) as [E | E]; cbn [negb].
    + destruct Hfault as [Hf | Hf]; [contradiction | ].
      apply Z.eqb_neq in Hf. rewrite Hf. cbn [negb]. rewrite bind_ret_l.
      rewrite Handler_TXUF_spec.
      change (StatusHandler (Inst (entered w))) with (StatusHandler (Inst w)).
      rewrite Hstub. reflexivity.
    + unfold bind at 1. rewrite Handler_RXOVR_spec.
      change (StatusHandler (Inst (entered w))) with (StatusHandler (Inst w)).
      rewrite Hstub. reflexivity.
  - intros r Hdepth Hfaults Hin Hr.
    destruct (irq_round_last user_call fuel r w Hdepth Hlev Hfaults Hin Hr)
      as (w' & E & _).
    rewrite E, Hstub. reflexivity.
Qed.

(** X13. XSpiPs_SetStatusHandler asserts on a NULL function; on a ready
    instance it installs the function and its reference without looking
    at the busy flag, so also while a transfer is in flight, and touches
    nothing else.  An event that comes next goes to that function with
    that reference: shown here for the mode fault. *)
Theorem SetStatusHandler_then_event :
  forall (fuel : nat) (w : World) (CallBackRef FuncPtr : Z),
    levels_ok hw ->
    IsReady (Inst w) = true ->
    (S (length (RxFifo (Dev w))) < fuel)%nat ->
    (FuncPtr = NULL ->
     XSpiPs_SetStatusHandler CallBackRef FuncPtr w = AssertFailed) /\
    (FuncPtr <> NULL ->
     let w1 :=
       set_Inst
         (set_StatusRef CallBackRef
            (set_StatusHandler (UserHandler FuncPtr) (Inst w))) w in
     XSpiPs_SetStatusHandler CallBackRef FuncPtr w = Ok (tt, w1) /\
     (Z.land (dev_status (Dev w)) XSPIPS_IXR_MODF_MASK
      = XSPIPS_IXR_MODF_MASK ->
      (XSpiPs_SetStatusHandler CallBackRef FuncPtr ;; handler fuel) w
      = user_call FuncPtr CallBackRef XST_SPI_MODE_FAULT
          (u32 (RequestedBytes (Inst w) - RemainingBytes (Inst w)))
          (aborted (entered w1)))).
Proof.
  intros fuel w ref f Hlev Hready Hfuel. split.
  - intros ->. reflexivity.
  - intros Hf w1.
    assert (E : XSpiPs_SetStatusHandler ref f w = Ok (tt, w1)).
    { unfold XSpiPs_SetStatusHandler.
      cbv beta iota delta [bind load store Xil_AssertVoid Xil_AssertNonvoid].
      apply Z.eqb_neq in Hf. rewrite Hf. cbn [negb]. rewrite Hready.
      reflexivity. }
    split; [exact E | ].
    intros Hmodf. unfold bind. rewrite E.
    rewrite Handler_mode_fault by assumption.
    reflexivity.
Qed.

(** X14. An interrupt that finds neither a mode fault nor the
    transmit-ready flag nor an overrun or underrun changes nothing in the
    instance or the memory and calls nobody; but the transmit-ready
    interrupt, masked on entry, is only unmasked again by the
    transmit-ready arm, so it stays masked. *)
Theorem quiet_interrupt_masks_TXOW :
  forall (fuel : nat) (w : World),
    IsReady (Inst w) = true ->
    let st := dev_status (Dev w) in
    Z.land st XSPIPS_IXR_MODF_MASK <> XSPIPS_IXR_MODF_MASK ->
    Z.land st XSPIPS_IXR_TXOW_MASK = 0 ->
    Z.land st XSPIPS_IXR_RXOVR_MASK = 0 ->
    Z.land st XSPIPS_IXR_TXUF_MASK = 0 ->
    exists w',
      handler fuel w = Ok (tt, w') /\
      Inst w' = Inst w /\
      Mem w' = Mem w /\
      Z.land (reg_IEN (Dev w')) (u32 XSPIPS_IXR_TXOW_MASK) = 0.
Proof.
  intros fuel w Hready st Hmodf Htxow Hovr Huf. subst st.
  exists (entered w). conjuncts; try reflexivity.
  - rewrite Handler_no_mode_fault by assumption.
    unfold Handler_faults. rewrite Htxow, Hovr, Huf. reflexivity.
  - unfold entered. drv_simpl. apply land_lnot_same.
Qed.

(** X15. When one interrupt finds both a receive overrun and a transmit
    underrun (and no mode fault, the transmit FIFO not empty), the status
    handler is called twice: first with the overrun, then, in the world
    that call leaves and with the handler and byte count found there,
    with the underrun. *)
Theorem overrun_and_underrun_both_reported :
  forall (fuel : nat) (w : World),
    IsReady (Inst w) = true ->
    let st := dev_status (Dev w) in
    Z.land st XSPIPS_IXR_MODF_MASK <> XSPIPS_IXR_MODF_MASK ->
    Z.land st XSPIPS_IXR_TXOW_MASK = 0 ->
    Z.land st XSPIPS_IXR_RXOVR_MASK <> 0 ->
    Z.land st XSPIPS_IXR_TXUF_MASK <> 0 ->
    handler fuel w
    = (callback w XST_SPI_RECEIVE_OVERRUN
         (u32 (RequestedBytes (Inst w) - RemainingBytes (Inst w))) ;;
       (fun w1 =>
          callback w1 XST_SPI_TRANSMIT_UNDERRUN
            (u32 (RequestedBytes (Inst w1) - RemainingBytes (Inst w1)))
            (deselected (set_Inst (set_IsBusy false (Inst w1)) w1))))
        (deselected (set_Inst (set_IsBusy false (Inst w)) (entered w))).
Proof.
  intros fuel w Hready st Hmodf Htxow Hovr Huf. subst st.
  rewrite Handler_no_mode_fault by assumption.
  apply Z.eqb_neq in Hovr. apply Z.eqb_neq in Huf.
  unfold Handler_faults. rewrite Htxow, Hovr, Huf. cbn [Z.eqb negb].
  rewrite bind_ret_l.
  unfold bind. rewrite Handler_RXOVR_spec.
  change (Inst (entered w)) with (Inst w).
  match goal with
  | |- match ?c with _ => _ end = match ?c with _ => _ end =>
      destruct c as [[[] w1] | | ]; try reflexivity
  end.
  apply Handler_TXUF_spec.
Qed.

End StatusHandlerFacts.

(** Line 1 selected over line 0, then a transfer, in manual mode. *)
Lemma SetSlaveSelect_then_Transfer_witness :
  exists w1 w2,
    XSpiPs_SetSlaveSelect (hw := XSpiPs_zynq) 1 demo_world
      = Ok (XST_SUCCESS, w1) /\
    XSpiPs_Transfer (hw := XSpiPs_zynq) 100 300 10 w1
      = Ok (XST_SUCCESS, w2) /\
    Z.land (reg_CR (Dev w2)) 0x3C00 = 0x3400.
Proof.
  destruct (SetSlaveSelect_then_Transfer (hw := XSpiPs_zynq) demo_world
              1 100 300 10)
    as (w1 & w2 & E1 & E2 & Hman & _).
  - apply zynq_ss_field_ok.
  - apply zynq_cr_bits_ok.
  - reflexivity.
  - reflexivity.
  - lia.
  - unfold NULL; lia.
  - lia.
  - exists w1, w2. split; [exact E1 | ]. split; [exact E2 | ].
    apply Hman. vm_compute. discriminate.
Defined.

(** Line 0 selected, then line 2. *)
Lemma SetSlaveSelect_twice_deselects_witness :
  exists w1 w2,
    XSpiPs_SetSlaveSelect (hw := XSpiPs_zynq) 0 demo_world
      = Ok (XST_SUCCESS, w1) /\
    XSpiPs_SetSlaveSelect (hw := XSpiPs_zynq) 2 w1
      = Ok (XST_SUCCESS, w2) /\
    SlaveSelect (Inst w2) = 0x2C00 /\
    Z.land (reg_CR (Dev w2)) 0x3C00 = 0x3C00.
Proof.
  destruct (SetSlaveSelect_twice_deselects (hw := XSpiPs_zynq) demo_world
              0 2)
    as (w1 & w2 & E1 & E2 & Hc & Hcr).
  - apply zynq_ss_field_ok.
  - reflexivity.
  - reflexivity.
  - lia.
  - lia.
  - discriminate.
  - exists w1, w2. split; [exact E1 | ]. split; [exact E2 | ].
    split; [exact Hc | exact Hcr].
Defined.

(** A mode fault with the stub in place. *)
Lemma stub_handler_asserts_witness :
  XSpiPs_InterruptHandler (hw := XSpiPs_zynq) logging_call 20
    (raise_flags 0x02
       (mkWorld (set_StatusHandler StubStatusHandler demo_inst) demo_dev
          demo_mem))
  = AssertFailed.
Proof.
  destruct (stub_handler_asserts (hw := XSpiPs_zynq) logging_call 20
              (raise_flags 0x02
                 (mkWorld (set_StatusHandler StubStatusHandler demo_inst)
                    demo_dev demo_mem))) as (H & _).
  - apply zynq_levels_ok.
  - reflexivity.
  - reflexivity.
  - simpl; lia.
  - apply H. reflexivity.
Defined.

(** A new handler installed during a transfer, then a mode fault. *)
Lemma SetStatusHandler_then_event_witness :
  exists n w',
    (XSpiPs_SetStatusHandler 700 0x5678 ;;
     XSpiPs_InterruptHandler (hw := XSpiPs_zynq) logging_call 20)
      mode_fault_world
    = logging_call 0x5678 700 XST_SPI_MODE_FAULT n w'.
Proof.
  destruct (SetStatusHandler_then_event (hw := XSpiPs_zynq) logging_call 20
              mode_fault_world 700 0x5678) as (_ & H).
  - apply zynq_levels_ok.
  - reflexivity.
  - vm_compute; lia.
  - destruct (H ltac:(unfold NULL; lia)) as (_ & E).
    eexists. eexists. apply E. reflexivity.
Defined.

(** An interrupt while the ten bytes queued have not gone out. *)
Lemma quiet_interrupt_masks_TXOW_witness :
  exists w',
    XSpiPs_InterruptHandler (hw := XSpiPs_zynq) logging_call 20 started_world
      = Ok (tt, w') /\
    Inst w' = Inst started_world /\
    Z.land (reg_IEN (Dev w')) 0x04 = 0.
Proof.
  destruct (quiet_interrupt_masks_TXOW (hw := XSpiPs_zynq) logging_call 20
              started_world)
    as (w' & E & Hinst & _ & Hien).
  - reflexivity.
  - vm_compute. discriminate.
  - reflexivity.
  - reflexivity.
  - reflexivity.
  - exists w'. split; [exact E | ]. split; [exact Hinst | exact Hien].
Defined.

(** Overrun and underrun latched together. *)
Lemma overrun_and_underrun_both_reported_witness :
  let w := raise_flags 0x41 started_world in
  XSpiPs_InterruptHandler (hw := XSpiPs_zynq) logging_call 20 w
  = (invoke logging_call (StatusHandler (Inst w)) (StatusRef (Inst w))
       XST_SPI_RECEIVE_OVERRUN
       (u32 (RequestedBytes (Inst w) - RemainingBytes (Inst w))) ;;
     (fun w1 =>
        invoke logging_call (StatusHandler (Inst w1)) (StatusRef (Inst w1))
          XST_SPI_TRANSMIT_UNDERRUN
          (u32 (RequestedBytes (Inst w1) - RemainingBytes (Inst w1)))
          (deselected (hw := XSpiPs_zynq)
             (set_Inst (set_IsBusy false (Inst w1)) w1))))
      (deselected (hw := XSpiPs_zynq)
         (set_Inst (set_IsBusy false (Inst w))
            (entered (hw := XSpiPs_zynq) w))).
Proof.
  intros w.
  apply (overrun_and_underrun_both_reported (hw := XSpiPs_zynq) logging_call
           20 w).
  - vm_compute. reflexivity.
  - vm_compute. discriminate.
  - vm_compute. reflexivity.
  - vm_compute. discriminate.
  - vm_compute. discriminate.
Defined.

(** ** The polled transfer on any device *)

Section PolledReturn.
Context {hw : XSpiPs_Hw}.

Lemma PolledTransfer_pass_sent (fuel : nat) (w w' : World) :
  RequestedBytes (Inst w) = RemainingBytes (Inst w) ->
  0 <= RemainingBytes (Inst w) < 2 ^ 32 ->
  PolledTransfer_pass fuel w = Ok (tt, w') ->
  SendBufferPtr (Inst w') + RemainingBytes (Inst w')
  = SendBufferPtr (Inst w) + RemainingBytes (Inst w).
Proof.
  intros Heq Hrem H. unfold PolledTransfer_pass, TxFifo_fill in H.
  cbv beta iota delta [bind load] in H.
  destruct (fill_TXFIFO_counts u32 (Z.to_nat (RemainingBytes (Inst w))) w 0)
    as (tc & j & bytes & Hj & Htc & E); [exact Hrem | ].
  assert (tc = j).
  { rewrite Htc; [lia | | lia | lia].
    intros t Ht. apply u32_small. lia. }
  subst tc. rewrite E in H.
  rewrite issue_ManualStart_eq in H.
  match type of H with
  | context [wait_TXOW fuel ?ws] =>
      destruct (wait_TXOW fuel ws) as [[[] ww] | | ] eqn:Ew;
        [apply wait_TXOW_Inst in Ew | discriminate | discriminate]
  end.
  drv_simpl. unfold RxFifo_drain in H.
  destruct (drain_RXFIFO_spec (Z.to_nat j) ww) as (q & m & Ed).
  { rewrite Ew. drv_simpl. rewrite Z2Nat.id by lia. lia. }
  rewrite Ed in H. injection H as <-.
  rewrite Ew. drv_simpl. lia.
Qed.

Lemma PolledTransfer_loop_sent (fuel : nat) :
  forall (n : nat) (w w' : World),
    RequestedBytes (Inst w) = RemainingBytes (Inst w) ->
    0 <= RemainingBytes (Inst w) < 2 ^ 32 ->
    PolledTransfer_loop fuel n w = Ok (tt, w') ->
    SendBufferPtr (Inst w') + RemainingBytes (Inst w')
    = SendBufferPtr (Inst w) + RemainingBytes (Inst w).
Proof.
  induction n as [ | n IH]; intros w w' Heq Hrem H;
    cbn [PolledTransfer_loop] in H; cbv beta iota delta [bind load] in H;
    destruct (PolledTransfer_continue (Inst w)) eqn:Hc.
  - discriminate.
  - injection H as <-. reflexivity.
  - destruct (PolledTransfer_pass fuel w) as [[[] w1] | | ] eqn:Ep;
      [ | discriminate | discriminate].
    pose proof (PolledTransfer_pass_sent _ _ _ Heq Hrem Ep) as Hs.
    apply PolledTransfer_pass_counts in Ep; [ | assumption | assumption].
    destruct Ep as (Heq1 & Hrem1).
    rewrite <- Hs. apply (IH w1 w'); assumption.
  - injection H as <-. reflexivity.
Qed.

(** X16. Whatever the constants of the header are and whatever the
    device does, a call of XSpiPs_PolledTransfer that returns has either
    found the instance busy, answered XST_DEVICE_BUSY and changed nothing,
    or it answers XST_SUCCESS and leaves the instance idle with both
    counters at zero and the device disabled: it never returns with the
    busy flag it set still set, nor with bytes outstanding. *)
Theorem PolledTransfer_returns_idle :
  forall (fuel : nat) (s q N : Z) (st : XStatus) (w w' : World),
    N < 2 ^ 32 ->
    XSpiPs_PolledTransfer fuel s q N w = Ok (st, w') ->
    (IsBusy (Inst w) = true /\ st = XST_DEVICE_BUSY /\ w' = w) \/
    (IsBusy (Inst w) = false /\
     st = XST_SUCCESS /\
     IsBusy (Inst w') = false /\
     RequestedBytes (Inst w') = 0 /\
     RemainingBytes (Inst w') = 0 /\
     reg_ER (Dev w') = 0 /\
     SendBufferPtr (Inst w') = s + N).
Proof.
  intros fuel s q N st w w' Hlt H. unfold XSpiPs_PolledTransfer in H.
  cbv beta iota delta [bind load Xil_AssertNonvoid] in H.
  destruct (negb (s =? NULL)); [ | discriminate].
  destruct (0 <? N) eqn:Hpos; [ | discriminate].
  apply Z.ltb_lt in Hpos.
  destruct (IsReady (Inst w)); [ | discriminate].
  destruct (IsBusy (Inst w)).
  - left. injection H as <- <-. conjuncts; reflexivity.
  - right. rewrite PolledTransfer_setup_eq in H.
    match type of H with
    | context [PolledTransfer_loop fuel fuel ?w1] =>
        destruct (PolledTransfer_loop fuel fuel w1) as [[[] w2] | | ] eqn:El;
          [ | discriminate | discriminate]
    end.
    unfold PolledTransfer_finish in H.
    cbv beta iota delta [bind store] in H.
    rewrite clear_SlaveSelect_spec in H.
    cbv beta iota delta [bind load XSpiPs_Disable XSpiPs_Out32] in H.
    injection H as <- <-.
    pose proof El as Hsent.
    apply PolledTransfer_loop_sent in Hsent;
      [ | reflexivity | drv_simpl; lia].
    apply PolledTransfer_loop_counts in El;
      [ | reflexivity | drv_simpl; lia].
    destruct El as (Hq & Hr). drv_simpl.
    conjuncts; try reflexivity; try assumption.
    rewrite Hr in Hsent. lia.
Qed.

End PolledReturn.

(** Ten bytes on a 4-byte FIFO. *)
Lemma PolledTransfer_returns_idle_witness :
  let w' :=
    world_of
      (XSpiPs_PolledTransfer (hw := hw_with_depth 4) 11 100 300 10 demo_world)
      demo_world in
  IsBusy (Inst w') = false /\
  RequestedBytes (Inst w') = 0 /\
  SendBufferPtr (Inst w') = 110.
Proof.
  intros w'.
  destruct (PolledTransfer_returns_idle (hw := hw_with_depth 4) 11 100 300 10
              XST_SUCCESS demo_world w')
    as [(Hb & _) | (_ & _ & Hb & Hq & _ & _ & Hs)].
  - lia.
  - vm_compute. reflexivity.
  - discriminate Hb.
  - split; [exact Hb | split; [exact Hq | exact Hs]].
Defined.
